(** * zkAgent Rails: compliance authorization protocol

    A shallow embedding of the agent pipeline (TypeScript: [RiskAnalyzer],
    [PolicyValidator], [TransactionBuilder], [AttestationManager], [zkAgent])
    and of the on-chain validator (Solidity: [CompliancePaymaster],
    [MockEAS]), with the properties of the protocol proved on it.

    Conventions.
    - A JavaScript [bigint] is a [Z]; a [number] holding an integer is a [Z];
      where the code converts a [number] of its caller with [BigInt], which
      throws on any other number, the argument is a [JS.number]; a [number]
      the code computes fractions with is a binary64 [float].
    - A Solidity [uintN] or [bytesN] is a [Z] in its range, wrap-around
      written out where the code can wrap.
    - Byte strings ([Buffer], [bytes], calldata, memory) are [list byte].
    - Code that can throw or revert returns in an error monad.
    - Object fields that the code mutates are threaded as explicit state. *)

From Stdlib Require Import ZArith Lia List String Ascii Bool Floats.
From Stdlib.Strings Require Import Byte.
From stdpp Require Import base option list gmap strings pretty.

Import ListNotations.
Local Open Scope Z_scope.

(** A decimal literal of a float stands for the nearest binary64 value,
    as it does in JavaScript. *)
Set Warnings "-inexact-float".

(** ** JavaScript results *)

Module JS.

(** What a JavaScript call can throw.  [OutOfFuel] is not a JavaScript
    error: it is what a modelled loop answers when its iteration budget is
    used up (see [RiskAnalyzer.sqrt_loop]). *)
Inductive exn : Type :=
  | RangeError
  | TypeError
  | Error (msg : string)
  | InvalidAddressError
  | IntegerOutOfRangeError
  | BytesSizeMismatchError
  | ExternalError
  | OutOfFuel.

Inductive js (A : Type) : Type :=
  | Ok (a : A)
  | Throw (e : exn).
Arguments Ok {A} a.
Arguments Throw {A} e.

Definition bind {A B : Type} (m : js A) (k : A -> js B) : js B :=
  match m with
  | Ok a => k a
  | Throw e => Throw e
  end.

(** [a / b] on bigints: truncates toward zero, RangeError on a zero divisor. *)
Definition bigint_div (a b : Z) : js Z :=
  if b =? 0 then Throw RangeError else Ok (Z.quot a b).

(** [Math.min] and [Math.max] on two floats: NaN when either is.  The
    two zeros are not told apart. *)
Definition Math_min (a b : float) : float :=
  if PrimFloat.is_nan a || PrimFloat.is_nan b then PrimFloat.nan
  else if PrimFloat.ltb a b then a else b.

Definition Math_max (a b : float) : float :=
  if PrimFloat.is_nan a || PrimFloat.is_nan b then PrimFloat.nan
  else if PrimFloat.ltb a b then b else a.

(** A [number] a caller hands over: an integer, a number that is not one
    (a fraction, an infinity), or NaN. *)
Inductive number : Type :=
  | Integer (z : Z)
  | NotInteger
  | NaN.

(** [BigInt(n)]: RangeError on a number that is not an integer. *)
Definition BigInt (n : number) : js Z :=
  match n with
  | Integer z => Ok z
  | NotInteger | NaN => Throw RangeError
  end.

End JS.

Import JS.

Notation "'let*' x ':=' m 'in' k" := (JS.bind m (fun x => k))
  (at level 10, x name, m at level 100, k at level 200).

(** ** Logger (logger.ts)

    The agent and its parts log through one [Logger].  What a log call
    does to the run is decided by [verbose] alone: with it the data of the
    call goes through [JSON.stringify], which throws a TypeError on data
    that holds a bigint.  The entries the logger keeps and the console are
    not modelled, and the agent builds its logger without a log file. *)

Module Logger.

Record t : Type := {
  verbose : bool
}.

(** [new Logger(logFile, verbose)] for the [logFile] the agent passes,
    [undefined]. *)
Definition new (verbose : bool) : t := {| verbose := verbose |}.

Inductive level : Type :=
  | level_info
  | level_warn
  | level_error
  | level_debug.

(** The data of a log call, for what [JSON.stringify] makes of it: plain
    data (strings, numbers, booleans, arrays and objects of them, error
    objects) or data that holds a bigint. *)
Inductive data : Type :=
  | plain
  | holds_bigint.

Definition JSON_stringify (d : data) : js unit :=
  match d with
  | plain => Ok tt
  | holds_bigint => Throw TypeError
  end.

(** [log(level, message, data)]. *)
Definition log (self : t) (l : level) (d : option data) : js unit :=
  let console :=
    verbose self
    || match l with level_error | level_warn => true | _ => false end in
  if console then
    match d with
    | Some d' => if verbose self then JSON_stringify d' else Ok tt
    | None => Ok tt
    end
  else Ok tt.

(** [debug(message, data)]. *)
Definition debug (self : t) (d : option data) : js unit :=
  if verbose self then log self level_debug d else Ok tt.

End Logger.

(** ** RiskAnalyzer: integer square root and standard deviation *)

Module RiskMath.

(** The [while (y < x)] loop of [RiskAnalyzer.sqrt].  Each iteration is one
    unit of [fuel]. *)
Fixpoint sqrt_loop (fuel : nat) (value x y : Z) : js Z :=
  match fuel with
  | O => Throw OutOfFuel
  | S fuel' =>
      if y <? x then
        let x := y in
        let* q := bigint_div value x in
        sqrt_loop fuel' value x (Z.quot (x + q) 2)
      else Ok x
  end.

(** Iterations granted to the loop of [sqrt value]. *)
Definition sqrt_fuel (value : Z) : nat := (Z.to_nat (Z.log2 value) + 3)%nat.

(** [RiskAnalyzer.sqrt]. *)
Definition sqrt (value : Z) : js Z :=
  if value <? 0 then Ok 0
  else if value <? 2 then Ok value
  else
    let x := value in
    let y := Z.quot (x + 1) 2 in
    sqrt_loop (sqrt_fuel value) value x y.

(** [amounts.reduce((sum, a) => sum + a, 0n)]. *)
Definition sum (l : list Z) : Z := fold_left (fun sum a => sum + a) l 0.

(** [RiskAnalyzer.calculateStdDev]. *)
Definition calculateStdDev (amounts : list Z) (avg : Z) : js Z :=
  if (Z.of_nat (length amounts) =? 0) then Ok 0
  else
    let squaredDiffs :=
      map (fun a => let diff := if a >? avg then a - avg else avg - a in
                    diff * diff) amounts in
    let* avgSquaredDiff := bigint_div (sum squaredDiffs) (Z.of_nat (length amounts)) in
    sqrt avgSquaredDiff.

End RiskMath.

(** ** Strings *)

Module Str.

(** [s.toLowerCase()] on the ASCII range: [A]..[Z] go to [a]..[z].  The
    strings of the protocol (addresses, hashes) are ASCII; characters
    outside ASCII are left as they are. *)
Definition lower_ascii (c : ascii) : ascii :=
  let n := N_of_ascii c in
  if (65 <=? n)%N && (n <=? 90)%N then ascii_of_N (n + 32) else c.

Fixpoint toLowerCase (s : string) : string :=
  match s with
  | EmptyString => EmptyString
  | String c s' => String (lower_ascii c) (toLowerCase s')
  end.

(** [arr.includes(s)] on an array of strings. *)
Definition includes (arr : list string) (s : string) : bool :=
  existsb (String.eqb s) arr.

(** The character class [[a-fA-F0-9]]. *)
Definition is_hex_digit (c : ascii) : bool :=
  let n := N_of_ascii c in
  ((48 <=? n)%N && (n <=? 57)%N) || ((97 <=? n)%N && (n <=? 102)%N)
  || ((65 <=? n)%N && (n <=? 70)%N).

Fixpoint all_hex (s : string) : bool :=
  match s with
  | EmptyString => true
  | String c s' => is_hex_digit c && all_hex s'
  end.

(** [s.slice(2)]. *)
Definition slice2 (s : string) : string :=
  match s with
  | String _ (String _ s') => s'
  | _ => EmptyString
  end.

(** [s.startsWith('0x')]. *)
Definition startsWith0x (s : string) : bool :=
  match s with
  | String "0" (String "x" _) => true
  | _ => false
  end.

(** The test [/^0x[a-fA-F0-9]{40}$/.test(address)] shared by
    [PolicyValidator.isValidAddress] and [TransactionBuilder.isValidAddress]. *)
Definition isValidAddress (address : string) : bool :=
  startsWith0x address
  && (String.length (slice2 address) =? 40)%nat
  && all_hex (slice2 address).

End Str.

(** ** Types (types.ts) *)

(** A metadata object, through what [JSON.stringify] makes of it: its
    JSON text, or a TypeError for an object that cannot be serialised (one
    that holds a bigint or refers to itself). *)
Inductive Metadata : Type :=
  | json_text (json : string)
  | not_serialisable.

Record PaymentRequest : Type := {
  merchant : string;
  tokenIn : string;
  amountIn : Z;
  description : string;
  metadata : option Metadata
}.

Record MerchantInfo : Type := {
  mi_address : string;
  mi_name : option string;
  mi_verified : bool;
  mi_riskScore : Z;
  mi_transactionCount : Z;
  mi_lastSeen : option Z
}.

Record RiskFactors : Type := {
  merchantUnknown : bool;
  tokenUnknown : bool;
  amountUnusual : bool;
  gasUnusual : bool;
  recentFailures : Z;
  velocityExceeded : bool
}.

Record AgentDecision : Type := {
  approved : bool;
  reason : string;
  riskScore : Z;
  confidence : float;
  flags : list string;
  suggestedAction : option string
}.

(** ** RiskAnalyzer (riskAnalyzer.ts) *)

Module RiskAnalyzer.
Import RiskMath Str.

(** The mutable fields of a [RiskAnalyzer] object. *)
Record t : Type := {
  merchantDatabase : gmap string MerchantInfo;
  transactionHistory : list PaymentRequest
}.

(** [new RiskAnalyzer(logger)]. *)
Definition new : t :=
  {| merchantDatabase := ∅; transactionHistory := [] |}.

Definition knownTokens : list string :=
  [ "0xa0b86991c6218b36c1d19d4a2e9eb0ce3606eb48";
    "0xdac17f958d2ee523a2206206994597c13d831ec7";
    "0x6b175474e89094c44da98b954eedeac495271d0f" ]%string.

Definition isUnknownToken (token : string) : bool :=
  negb (includes knownTokens (toLowerCase token)).

Definition isUnusualAmount (self : t) (amount : Z) : js bool :=
  if (Z.of_nat (length (transactionHistory self)) <? 10) then Ok false
  else
    let amounts := map amountIn (transactionHistory self) in
    let* avg := bigint_div (sum amounts) (Z.of_nat (length amounts)) in
    let* stdDev := calculateStdDev amounts avg in
    Ok ((amount >? avg + stdDev * 2) || (amount <? avg - stdDev * 2)).

Definition getRecentFailures (self : t) (merchant0 : string) : Z := 0.

Definition checkVelocity (self : t) (merchant0 : string) : bool :=
  let recentToMerchant :=
    List.filter (fun tx => String.eqb (toLowerCase (merchant tx)) (toLowerCase merchant0))
                (transactionHistory self) in
  Z.of_nat (length recentToMerchant) >? 5.

Definition identifyRiskFactors (self : t) (request : PaymentRequest) : js RiskFactors :=
  let merchant0 := merchantDatabase self !! toLowerCase (merchant request) in
  let* unusual := isUnusualAmount self (amountIn request) in
  Ok {| merchantUnknown := negb (bool_decide (is_Some merchant0));
        tokenUnknown := isUnknownToken (tokenIn request);
        amountUnusual := unusual;
        gasUnusual := false;
        recentFailures := getRecentFailures self (merchant request);
        velocityExceeded := checkVelocity self (merchant request) |}.

Definition calculateRiskScore (factors : RiskFactors) (policyValid : bool) : Z :=
  let score := 0 in
  let score := if negb policyValid then score + 100 else score in
  let score := if merchantUnknown factors then score + 20 else score in
  let score := if tokenUnknown factors then score + 15 else score in
  let score := if amountUnusual factors then score + 25 else score in
  let score := if gasUnusual factors then score + 10 else score in
  let score := if velocityExceeded factors then score + 30 else score in
  let score := score + recentFailures factors * 10 in
  Z.min score 100.

(** [calculateConfidence], in the floating-point arithmetic of the code:
    [1.0 - 0.2 - 0.1] is [0.7000000000000001]. *)
Definition calculateConfidence (self : t) (request : PaymentRequest)
    (factors : RiskFactors) : float :=
  let confidence := 1.0%float in
  let confidence :=
    if merchantUnknown factors then (confidence - 0.2)%float else confidence in
  let confidence :=
    if tokenUnknown factors then (confidence - 0.1)%float else confidence in
  let merchant0 := merchantDatabase self !! toLowerCase (merchant request) in
  let confidence :=
    match merchant0 with
    | Some m => if mi_transactionCount m >? 10 then (confidence + 0.1)%float else confidence
    | None => confidence
    end in
  Math_max 0 (Math_min 1 confidence).

(** The flags pushed before the decision, lines 23 to 28 of [analyze]. *)
Definition factorFlags (riskFactors : RiskFactors) : list string :=
  let flags := [] in
  let flags := if merchantUnknown riskFactors then flags ++ ["UNKNOWN_MERCHANT"%string] else flags in
  let flags := if tokenUnknown riskFactors then flags ++ ["UNKNOWN_TOKEN"%string] else flags in
  let flags := if amountUnusual riskFactors then flags ++ ["UNUSUAL_AMOUNT"%string] else flags in
  let flags := if velocityExceeded riskFactors then flags ++ ["HIGH_VELOCITY"%string] else flags in
  let flags := if recentFailures riskFactors >? 0 then flags ++ ["RECENT_FAILURES"%string] else flags in
  flags.

(** The decision logic of [analyze], lines 30 to 55: from the validity of
    the policy, the risk score and the flags so far, to
    [(approved, reason, suggestedAction, flags)]. *)
Definition decisionLogic (policyValid : bool) (riskScore : Z) (flags : list string)
    : bool * string * option string * list string :=
  if negb policyValid then
    (false, "Policy validation failed"%string,
     Some "Fix policy violations and retry"%string, flags)
  else if riskScore <? 30 then
    (true, "Low risk transaction"%string, None, flags)
  else if riskScore <? 60 then
    (true, "Medium risk transaction - approved with monitoring"%string, None,
     flags ++ ["REQUIRES_MONITORING"%string])
  else if riskScore <? 80 then
    (false, "High risk transaction - requires review"%string,
     Some "Manual review required"%string, flags ++ ["REQUIRES_REVIEW"%string])
  else
    (false, "Very high risk transaction - rejected"%string,
     Some "Transaction blocked due to high risk"%string, flags).

(** [this.transactionHistory.push(request)] and the cut to the last 1000. *)
Definition recordTransaction (history : list PaymentRequest) (request : PaymentRequest)
    : list PaymentRequest :=
  let history := history ++ [request] in
  if (Z.of_nat (length history) >? 1000)
  then drop (length history - 1000) history
  else history.

(** [RiskAnalyzer.analyze]: the decision and the analyzer afterwards.  When
    it throws, it does so before the history is touched. *)
Definition analyze (self : t) (request : PaymentRequest) (policyValid : bool)
    : js (AgentDecision * t) :=
  let* riskFactors := identifyRiskFactors self request in
  let riskScore := calculateRiskScore riskFactors policyValid in
  let confidence := calculateConfidence self request riskFactors in
  let flags := factorFlags riskFactors in
  let '(approved, reason, suggestedAction, flags) :=
    decisionLogic policyValid riskScore flags in
  let self := {| merchantDatabase := merchantDatabase self;
                 transactionHistory := recordTransaction (transactionHistory self) request |} in
  Ok ({| approved := approved; reason := reason; riskScore := riskScore;
         confidence := confidence; flags := flags;
         suggestedAction := suggestedAction |}, self).

(** [registerMerchant]. *)
Definition registerMerchant (self : t) (info : MerchantInfo) : t :=
  {| merchantDatabase := <[toLowerCase (mi_address info) := info]> (merchantDatabase self);
     transactionHistory := transactionHistory self |}.

Definition getMerchantInfo (self : t) (address : string) : option MerchantInfo :=
  merchantDatabase self !! toLowerCase address.

End RiskAnalyzer.

(** ** Reference statistics *)

Module Stats.
Import RiskMath.

(** The statistics the outlier check is meant to compute, written with the
    mathematical integer square root: truncated mean, truncated mean of the
    squared deviations, and the two-deviation test once ten samples exist. *)
Definition mean (l : list Z) : Z := Z.quot (sum l) (Z.of_nat (length l)).

Definition std_dev (l : list Z) : Z :=
  Z.sqrt (Z.quot (sum (map (fun a => (a - mean l) * (a - mean l)) l)) (Z.of_nat (length l))).

Definition outlier (history : list Z) (amount : Z) : bool :=
  (10 <=? Z.of_nat (length history))
  && ((amount >? mean history + 2 * std_dev history)
      || (amount <? mean history - 2 * std_dev history)).

End Stats.

(** ** Bytes and hexadecimal text *)

Module Bytes.

Definition byte_of_Z (z : Z) : byte :=
  match Byte.of_N (Z.to_N (z mod 256)) with
  | Some b => b
  | None => x00
  end.

Definition Z_of_byte (b : byte) : Z := Z.of_N (Byte.to_N b).

(** The [n] low bytes of [v], most significant first. *)
Fixpoint be_bytes (n : nat) (v : Z) : list byte :=
  match n with
  | O => []
  | S n' => be_bytes n' (Z.shiftr v 8) ++ [byte_of_Z v]
  end.

(** The integer a byte string denotes, most significant byte first. *)
Definition be_value (bs : list byte) : Z :=
  fold_left (fun acc b => acc * 256 + Z_of_byte b) bs 0.

(** The integer a byte string denotes, least significant byte first. *)
Definition le_value (bs : list byte) : Z :=
  fold_right (fun b acc => Z_of_byte b + 256 * acc) 0 bs.

Definition hex_digit (n : Z) : ascii :=
  if n <? 10 then ascii_of_N (Z.to_N (48 + n)) else ascii_of_N (Z.to_N (87 + n)).

Definition hex_value (c : ascii) : option Z :=
  let n := Z.of_N (N_of_ascii c) in
  if (48 <=? n) && (n <=? 57) then Some (n - 48)
  else if (97 <=? n) && (n <=? 102) then Some (n - 87)
  else if (65 <=? n) && (n <=? 70) then Some (n - 55)
  else None.

(** Lower-case hexadecimal digits of a byte string, no prefix. *)
Fixpoint hex_of_bytes (bs : list byte) : string :=
  match bs with
  | [] => EmptyString
  | b :: bs' =>
      String (hex_digit (Z_of_byte b / 16))
        (String (hex_digit (Z_of_byte b mod 16)) (hex_of_bytes bs'))
  end.

(** [Buffer.from(s, 'hex')]: pairs of digits are decoded until the first
    pair that is not hexadecimal; a trailing single digit is dropped. *)
Fixpoint Buffer_from_hex (s : string) : list byte :=
  match s with
  | String c1 (String c2 s') =>
      match hex_value c1, hex_value c2 with
      | Some h, Some l => byte_of_Z (16 * h + l) :: Buffer_from_hex s'
      | _, _ => []
      end
  | _ => []
  end.

(** [Buffer.concat]. *)
Definition Buffer_concat (bufs : list (list byte)) : list byte := concat bufs.

End Bytes.

(** ** Keccak-256

    The hash behind [keccak256] of viem and the [keccak256] instruction of
    the EVM: Keccak with rate 1088, capacity 512, the original [0x01]
    padding, 32 bytes of output.  Lanes are 64-bit integers; the state holds
    lane [(x, y)] at index [x + 5 * y]. *)

Module Keccak.
Import Bytes.

Definition mask64 : Z := 2 ^ 64 - 1.

Definition rotl64 (x : Z) (n : Z) : Z :=
  Z.land (Z.lor (Z.shiftl x n) (Z.shiftr x (64 - n))) mask64.

Definition lane (st : list Z) (i : nat) : Z := nth i st 0.

Definition rotation_offsets : list Z :=
  [ 0; 1; 62; 28; 27;
    36; 44; 6; 55; 20;
    3; 10; 43; 25; 39;
    41; 45; 15; 21; 8;
    18; 2; 61; 56; 14 ].

Definition round_constants : list Z :=
  [ 0x0000000000000001; 0x0000000000008082; 0x800000000000808A;
    0x8000000080008000; 0x000000000000808B; 0x0000000080000001;
    0x8000000080008081; 0x8000000000008009; 0x000000000000008A;
    0x0000000000000088; 0x0000000080008009; 0x000000008000000A;
    0x000000008000808B; 0x800000000000008B; 0x8000000000008089;
    0x8000000000008003; 0x8000000000008002; 0x8000000000000080;
    0x000000000000800A; 0x800000008000000A; 0x8000000080008081;
    0x8000000000008080; 0x0000000080000001; 0x8000000080008008 ].

Definition indices : list nat := seq 0 25.

Definition theta (st : list Z) : list Z :=
  let c := map (fun x => Z.lxor (lane st x) (Z.lxor (lane st (x + 5))
                  (Z.lxor (lane st (x + 10)) (Z.lxor (lane st (x + 15)) (lane st (x + 20))))))
               (seq 0 5) in
  let d := map (fun x => Z.lxor (nth ((x + 4) mod 5) c 0) (rotl64 (nth ((x + 1) mod 5) c 0) 1))
               (seq 0 5) in
  map (fun i => Z.lxor (lane st i) (nth (i mod 5) d 0)) indices.

Definition rho_pi (st : list Z) : list Z :=
  map (fun j => let x' := (j mod 5)%nat in
                let y' := (j / 5)%nat in
                let src := (((x' + 3 * y') mod 5) + 5 * x')%nat in
                rotl64 (lane st src) (nth src rotation_offsets 0))
      indices.

Definition chi (st : list Z) : list Z :=
  map (fun i => let x := (i mod 5)%nat in
                let y := (i / 5)%nat in
                Z.lxor (lane st i)
                  (Z.land (Z.lxor (lane st ((x + 1) mod 5 + 5 * y)) mask64)
                          (lane st ((x + 2) mod 5 + 5 * y))))
      indices.

Definition iota (rc : Z) (st : list Z) : list Z :=
  match st with
  | [] => []
  | l :: st' => Z.lxor l rc :: st'
  end.

Definition round (st : list Z) (rc : Z) : list Z := iota rc (chi (rho_pi (theta st))).

Definition keccak_f (st : list Z) : list Z := fold_left round round_constants st.

Definition rate : nat := 136.

(** Multi-rate padding with domain byte [0x01]. *)
Definition pad (msg : list byte) : list byte :=
  let r := (rate - length msg mod rate)%nat in
  if (r =? 1)%nat then msg ++ [x81]
  else msg ++ [x01] ++ repeat x00 (r - 2) ++ [x80].

Definition xor_block (st : list Z) (block : list byte) : list Z :=
  map (fun i => if (i <? 17)%nat
                then Z.lxor (lane st i) (le_value (firstn 8 (skipn (8 * i) block)))
                else lane st i)
      indices.

Fixpoint absorb (blocks : nat) (st : list Z) (msg : list byte) : list Z :=
  match blocks with
  | O => st
  | S blocks' => absorb blocks' (keccak_f (xor_block st (firstn rate msg))) (skipn rate msg)
  end.

Definition squeeze (st : list Z) : list byte :=
  map (fun i => byte_of_Z (Z.shiftr (lane st (i / 8)) (8 * Z.of_nat (i mod 8)))) (seq 0 32).

Definition keccak256 (msg : list byte) : list byte :=
  let m := pad msg in
  squeeze (absorb (length m / rate) (repeat 0 25) m).

End Keccak.

(** ** viem

    The functions of the viem library that the agent calls, on the argument
    types it calls them with.  A [Hex] value is the string ["0x"] followed
    by hexadecimal digits, but the library takes any string where its types
    ask for one.  The library is not part of the repository: its functions
    are written here from its sources (version 2), and an argument the
    library refuses is a throw. *)

Module Viem.
Import Bytes Str.

(** [toHex(bytes)], lower case with the ["0x"] prefix. *)
Definition toHex (bs : list byte) : string := ("0x" ++ hex_of_bytes bs)%string.

(** [toHex(text)] on a string: the hexadecimal of its bytes. *)
Definition stringToHex (s : string) : string := toHex (list_byte_of_string s).

Fixpoint decode_strict (s : string) : js (list byte) :=
  match s with
  | EmptyString => Ok []
  | String c1 (String c2 s') =>
      match hex_value c1, hex_value c2 with
      | Some h, Some l =>
          let* rest := decode_strict s' in Ok (byte_of_Z (16 * h + l) :: rest)
      | _, _ => Throw ExternalError
      end
  | String _ EmptyString => Throw ExternalError
  end.

(** [hexToBytes(hex)]: an odd number of digits gets a leading zero; a
    character that is not a hexadecimal digit throws. *)
Definition hexToBytes (hex : string) : js (list byte) :=
  let digits := slice2 hex in
  let digits := if Nat.even (String.length digits) then digits else String "0" digits in
  decode_strict digits.

(** [isHex(value)], strict as by default: [/^0x[0-9a-fA-F]*$/]. *)
Definition isHex (value : string) : bool :=
  startsWith0x value && all_hex (slice2 value).

(** [keccak256(value)] on a byte array ([Uint8Array], [Buffer]). *)
Definition keccak256_bytes (value : list byte) : string :=
  toHex (Keccak.keccak256 value).

(** [keccak256(value)] on a [Hex] string. *)
Definition keccak256 (value : string) : js string :=
  let* bs := hexToBytes value in Ok (keccak256_bytes bs).

(** [x.replace('0x', '')]: the first occurrence of ["0x"] is taken out,
    wherever it is. *)
Fixpoint replace_0x (x : string) : string :=
  match x with
  | String "0" (String "x" rest) => rest
  | String c rest => String c (replace_0x rest)
  | EmptyString => EmptyString
  end.

(** [concatHex(values)]. *)
Definition concatHex (values : list string) : string :=
  ("0x" ++ fold_left (fun acc x => acc ++ replace_0x x) values "")%string.

(** [c.toUpperCase()] on the ASCII range. *)
Definition upper_ascii (c : ascii) : ascii :=
  let n := N_of_ascii c in
  if (97 <=? n)%N && (n <=? 122)%N then ascii_of_N (n - 32) else c.

(** The half bytes of a byte string, high half first. *)
Fixpoint nibbles (bs : list byte) : list Z :=
  match bs with
  | [] => []
  | b :: bs' => Z_of_byte b / 16 :: Z_of_byte b mod 16 :: nibbles bs'
  end.

(** The loop of [checksumAddress]: a character goes to upper case when the
    half byte of the hash at its place is 8 or more. *)
Fixpoint checksum_case (hash : list Z) (address : string) : string :=
  match address, hash with
  | String c rest, n :: hash' =>
      String (if 8 <=? n then upper_ascii c else c) (checksum_case hash' rest)
  | _, _ => address
  end.

(** [checksumAddress(address)] on 40 digits after the prefix: the EIP-55
    spelling, which takes the case of each letter from the Keccak-256 hash
    of the lower-case digits. *)
Definition checksumAddress (address : string) : string :=
  let hexAddress := toLowerCase (slice2 address) in
  let hash := Keccak.keccak256 (list_byte_of_string hexAddress) in
  ("0x" ++ checksum_case (nibbles hash) hexAddress)%string.

(** [isAddress(address)], strict as by default: the syntax test
    [/^0x[a-fA-F0-9]{40}$/], then an address all in lower case passes and any
    other must be spelled as its checksum spells it. *)
Definition isAddress (address : string) : bool :=
  if negb (isValidAddress address) then false
  else if String.eqb (toLowerCase address) address then true
  else String.eqb (checksumAddress address) address.

(** A typed argument of [encodePacked]. *)
Inductive packed : Type :=
  | p_address (value : string)
  | p_bytes32 (value : string)
  | p_uint256 (value : Z)
  | p_uint64 (value : Z).

(** What one packed argument contributes.  An address must pass
    [isAddress] and goes to lower case; a [bytes32] must have 66 characters
    and is taken as it is, whatever the characters; an integer must fit its
    width. *)
Definition encode_packed1 (arg : packed) : js string :=
  match arg with
  | p_address value =>
      if isAddress value then Ok (toLowerCase value) else Throw InvalidAddressError
  | p_bytes32 value =>
      if (String.length value =? 66)%nat then Ok value else Throw BytesSizeMismatchError
  | p_uint256 value =>
      if (0 <=? value) && (value <? 2 ^ 256) then Ok (toHex (be_bytes 32 value))
      else Throw IntegerOutOfRangeError
  | p_uint64 value =>
      if (0 <=? value) && (value <? 2 ^ 64) then Ok (toHex (be_bytes 8 value))
      else Throw IntegerOutOfRangeError
  end.

Fixpoint encode_packed_parts (args : list packed) : js (list string) :=
  match args with
  | [] => Ok []
  | arg :: args' =>
      let* d := encode_packed1 arg in
      let* ds := encode_packed_parts args' in
      Ok (d :: ds)
  end.

(** [encodePacked(types, values)]: the arguments side by side, unpadded. *)
Definition encodePacked (args : list packed) : js string :=
  let* data := encode_packed_parts args in Ok (concatHex data).

End Viem.

(** ** More of types.ts

    Each record sits in a module of its name, so that [TransactionPlan.epoch]
    and a local [epoch] do not collide. *)

Module AgentConfig.
Record t : Type := {
  chainId : Z;
  rpcUrl : string;
  bundlerUrl : string;
  paymasterAddress : string;
  easAddress : string;
  entryPointAddress : string;
  modelId : string;
  maxGasPrice : Z;
  maxTransactionValue : Z;
  defaultEpoch : Z;
  allowedTokens : list string;
  allowedMerchants : list string;
  attesterPrivateKey : option string;
  schemaUID : string
}.
End AgentConfig.

Module PolicyValidation.
Record t : Type := {
  valid : bool;
  violations : list string;
  warnings : list string;
  capRemaining : Z;
  epochValid : bool
}.
End PolicyValidation.

Module Attestation.
Record t : Type := {
  uid : string;
  schema : string;
  attester : string;
  recipient : string;
  time : Z;
  expirationTime : Z;
  revocable : bool;
  refUID : string;
  data : string
}.
End Attestation.

Module TransactionPlan.
Record t : Type := {
  userOpHash : string;
  callData : string;
  target : string;
  value : Z;
  gasEstimate : Z;
  policyHash : string;
  epoch : Z
}.
End TransactionPlan.

Module AgentAnalysis.
Record t : Type := {
  request : PaymentRequest;
  decision : AgentDecision;
  policyValidation : PolicyValidation.t;
  transactionPlan : TransactionPlan.t;
  attestation : option Attestation.t;
  timestamp : Z
}.
End AgentAnalysis.

(** ** The clock

    [Date.now()] is read at several places of one [processPayment] call;
    each reading, in milliseconds, is an input. *)

Module Clock.

Record t : Type := {
  (** [startTime] of [processPayment] *)
  now_start : Z;
  (** the default epoch of [processPayment], read when no epoch is given *)
  now_epoch : Z;
  (** the epoch argument inside [encodePaymentCall] *)
  now_callData : Z;
  (** [currentEpoch] of [PolicyValidator.validate] *)
  now_validate : Z;
  (** [now] of [createAttestation] *)
  now_attest : Z;
  (** [now] of [verifyAttestation] *)
  now_verify : Z
}.

Fixpoint first6_loop (fuel : nat) (n : Z) : Z :=
  match fuel with
  | O => n
  | S fuel' => if n <? 1000000 then n else first6_loop fuel' (n / 10)
  end.

(** [parseInt(ms.toString().slice(0, 6))] for a millisecond count [ms >= 0]:
    the number its first six decimal digits spell. *)
Definition epochOf (ms : Z) : Z := first6_loop (Z.to_nat (Z.log2 ms)) ms.

(** [Math.floor(ms / 1000)]. *)
Definition seconds (ms : Z) : Z := ms / 1000.

End Clock.

(** ** TransactionBuilder (transactionBuilder.ts) *)

Module TransactionBuilder.
Import Bytes Str.

(** The arguments [encodePaymentCall] hands to viem's [encodeFunctionData]
    for [emitReceipt]. *)
Record EmitReceiptArgs : Type := {
  arg_payer : string;
  arg_merchant : string;
  arg_tokenIn : string;
  arg_tokenOut : string;
  arg_amountIn : Z;
  arg_amountOut : Z;
  arg_nullifierHash : string;
  arg_epoch : Z;
  arg_policyHash : string
}.

(** viem's [encodeFunctionData] on the [emitReceipt] ABI.  The bytes it
    produces, and the arguments it refuses by throwing, are the library's
    business: it is an input of the model. *)
Definition encoder : Type := EmitReceiptArgs -> js string.

(** ['0'.repeat(n)]. *)
Fixpoint zeros (n : nat) : string :=
  match n with
  | O => EmptyString
  | S n' => String "0" (zeros n')
  end.

(** [JSON.stringify(request.metadata || {})]. *)
Definition metadataJson (request : PaymentRequest) : js string :=
  match metadata request with
  | Some (json_text json) => Ok json
  | Some not_serialisable => Throw TypeError
  | None => Ok "{}"%string
  end.

Definition encodePaymentCall (encodeFunctionData : encoder) (now : Z)
    (request : PaymentRequest) : js string :=
  let* json := metadataJson request in
  let* nullifier := Viem.keccak256 (Viem.stringToHex json) in
  encodeFunctionData
    {| arg_payer := ("0x" ++ zeros 40)%string;
       arg_merchant := merchant request;
       arg_tokenIn := tokenIn request;
       arg_tokenOut := tokenIn request;
       arg_amountIn := amountIn request;
       arg_amountOut := amountIn request;
       arg_nullifierHash := nullifier;
       arg_epoch := Clock.epochOf now;
       arg_policyHash := ("0x" ++ zeros 64)%string |}.

(** The loop of [u256ToBytes]: [k] is [i + 1]. *)
Fixpoint u256ToBytes_loop (k : nat) (b : list byte) (x : Z) : list byte :=
  match k with
  | O => b
  | S i => u256ToBytes_loop i (<[i := byte_of_Z (Z.land x 255)]> b) (Z.shiftr x 8)
  end.

Definition u256ToBytes (n : Z) : list byte :=
  let b := repeat x00 32 in
  u256ToBytes_loop 32 b n.

Definition calculateUserOpHash (request : PaymentRequest) (callData : string) : string :=
  Viem.keccak256_bytes
    (Buffer_concat
       [ Buffer_from_hex (slice2 (merchant request));
         Buffer_from_hex (slice2 (tokenIn request));
         u256ToBytes (amountIn request);
         Buffer_from_hex (slice2 callData) ]).

(** The policy hash of [buildPlan], lines 29 to 35. *)
Definition buildPlan_policyHash (userOpHash : string) (epoch : Z) : string :=
  Viem.keccak256_bytes
    (Buffer_concat [ Buffer_from_hex (slice2 userOpHash); u256ToBytes epoch ]).

Definition estimateGas (request : PaymentRequest) : Z :=
  let baseGas := 21000 in
  let callGas := 100000 in
  let paymasterGas := 50000 in
  baseGas + callGas + paymasterGas.

(** [buildPlan(request, epoch)] of a builder with [logger]; [now] is the
    clock reading inside [encodePaymentCall].  The plan holds bigints, so the
    closing [logger.debug] throws with a verbose logger. *)
Definition buildPlan (logger : Logger.t) (encodeFunctionData : encoder) (now : Z)
    (request : PaymentRequest) (epoch : number) : js TransactionPlan.t :=
  let* callData := encodePaymentCall encodeFunctionData now request in
  let userOpHash := calculateUserOpHash request callData in
  let* epoch_big := BigInt epoch in
  let policyHash := buildPlan_policyHash userOpHash epoch_big in
  let gasEstimate := estimateGas request in
  let plan :=
    {| TransactionPlan.userOpHash := userOpHash;
       TransactionPlan.callData := callData;
       TransactionPlan.target := merchant request;
       TransactionPlan.value := 0;
       TransactionPlan.gasEstimate := gasEstimate;
       TransactionPlan.policyHash := policyHash;
       TransactionPlan.epoch := epoch_big |} in
  let* _ := Logger.debug logger (Some Logger.holds_bigint) in
  Ok plan.

(** [TransactionBuilder.validate]: [(valid, errors)]. *)
Definition validate (plan : TransactionPlan.t) : bool * list string :=
  let errors := [] in
  let errors :=
    if TransactionPlan.gasEstimate plan >? 1000000
    then errors ++ [("Gas estimate too high: " ++ pretty (TransactionPlan.gasEstimate plan))%string]
    else errors in
  let errors :=
    if TransactionPlan.gasEstimate plan =? 0
    then errors ++ ["Gas estimate cannot be zero"%string] else errors in
  let errors :=
    if negb (isValidAddress (TransactionPlan.target plan))
    then errors ++ [("Invalid target address: " ++ TransactionPlan.target plan)%string]
    else errors in
  let errors :=
    if negb (startsWith0x (TransactionPlan.userOpHash plan))
       || negb (String.length (TransactionPlan.userOpHash plan) =? 66)%nat
    then errors ++ [("Invalid userOpHash format: " ++ TransactionPlan.userOpHash plan)%string]
    else errors in
  let errors :=
    if negb (startsWith0x (TransactionPlan.policyHash plan))
       || negb (String.length (TransactionPlan.policyHash plan) =? 66)%nat
    then errors ++ [("Invalid policyHash format: " ++ TransactionPlan.policyHash plan)%string]
    else errors in
  ((length errors =? 0)%nat, errors).

End TransactionBuilder.

(** ** AttestationManager (attestationManager.ts) *)

Module AttestationManager.
Import Bytes Str Viem.

Definition encodeAttestationData (modelId prompt planDescription : string)
    (userOpHash policyHash : string) (epoch : Z) : js string :=
  let* modelHash := keccak256 (stringToHex modelId) in
  let* promptHash := keccak256 (stringToHex prompt) in
  let* planHash := keccak256 (stringToHex planDescription) in
  let* packed :=
    encodePacked [ p_bytes32 modelHash; p_bytes32 promptHash; p_bytes32 planHash;
                   p_bytes32 userOpHash; p_bytes32 policyHash; p_uint256 epoch ] in
  keccak256 packed.

(** [createAttestation]; [now_ms] is the clock reading. *)
Definition createAttestation (config : AgentConfig.t) (now_ms : Z)
    (plan : TransactionPlan.t) (modelId prompt planDescription : string)
    : js Attestation.t :=
  let now := Clock.seconds now_ms in
  let expiration := now + 3600 in
  let* attestationData :=
    encodeAttestationData modelId prompt planDescription
      (TransactionPlan.userOpHash plan) (TransactionPlan.policyHash plan)
      (TransactionPlan.epoch plan) in
  let* packed :=
    encodePacked [ p_bytes32 attestationData;
                   p_address (AgentConfig.paymasterAddress config);
                   p_uint64 now ] in
  let* uid := keccak256 packed in
  Ok {| Attestation.uid := uid;
        Attestation.schema := AgentConfig.schemaUID config;
        Attestation.attester := AgentConfig.paymasterAddress config;
        Attestation.recipient := TransactionPlan.target plan;
        Attestation.time := now;
        Attestation.expirationTime := expiration;
        Attestation.revocable := true;
        Attestation.refUID := ("0x" ++ TransactionBuilder.zeros 64)%string;
        Attestation.data := attestationData |}.

Definition verifyAttestation (config : AgentConfig.t) (now_ms : Z)
    (attestation : Attestation.t) : bool :=
  let now := Clock.seconds now_ms in
  if (Attestation.expirationTime attestation >? 0)
     && (Attestation.expirationTime attestation <? now) then false
  else if negb (String.eqb (Attestation.schema attestation) (AgentConfig.schemaUID config))
  then false
  else true.

Definition buildPaymasterAndData (config : AgentConfig.t)
    (attestation : Attestation.t) (policyHash : string) (epoch : Z) : js string :=
  encodePacked [ p_address (AgentConfig.paymasterAddress config);
                 p_bytes32 (Attestation.uid attestation);
                 p_bytes32 policyHash;
                 p_uint256 epoch ].

Definition calculatePolicyHash (userOpHash : string) (epoch : Z) : js string :=
  let* packed := encodePacked [ p_bytes32 userOpHash; p_uint256 epoch ] in
  keccak256 packed.

End AttestationManager.

(** ** PolicyValidator (policyValidator.ts) *)

Module PolicyValidator.
Import Str.

(** A [PolicyValidator] object: its configuration, its logger and the
    spending map. *)
Record t : Type := {
  config : AgentConfig.t;
  logger : Logger.t;
  epochSpending : gmap Z Z
}.

Definition new (config : AgentConfig.t) (logger : Logger.t) : t :=
  {| config := config; logger := logger; epochSpending := ∅ |}.

(** [this.epochSpending.get(epoch) || 0n]. *)
Definition getEpochSpending (self : t) (epoch : Z) : Z :=
  default 0 (epochSpending self !! epoch).

(** The [validation] object of [validate], lines 116 to 179; [now_ms] is
    the clock reading of step 5. *)
Definition validation (self : t) (now_ms : Z) (request : PaymentRequest) (epoch : Z)
    : PolicyValidation.t :=
  let cfg := config self in
  let violations := [] in
  let warnings := [] in
  (* 1. Token allowlist check *)
  let violations :=
    if (Z.of_nat (length (AgentConfig.allowedTokens cfg)) >? 0)
       && negb (includes (AgentConfig.allowedTokens cfg) (toLowerCase (tokenIn request)))
    then violations ++ [("Token " ++ tokenIn request ++ " is not in allowlist")%string]
    else violations in
  (* 2. Merchant allowlist check *)
  let violations :=
    if (Z.of_nat (length (AgentConfig.allowedMerchants cfg)) >? 0)
       && negb (includes (AgentConfig.allowedMerchants cfg) (toLowerCase (merchant request)))
    then violations ++ [("Merchant " ++ merchant request ++ " is not in allowlist")%string]
    else violations in
  (* 3. Amount check *)
  let violations :=
    if amountIn request >? AgentConfig.maxTransactionValue cfg
    then violations ++
         [("Amount " ++ pretty (amountIn request) ++ " exceeds max transaction value "
           ++ pretty (AgentConfig.maxTransactionValue cfg))%string]
    else violations in
  let violations :=
    if amountIn request =? 0
    then violations ++ ["Amount cannot be zero"%string] else violations in
  (* 4. Epoch spending check *)
  let currentSpending := getEpochSpending self epoch in
  let capRemaining := AgentConfig.maxTransactionValue cfg * 10 - currentSpending in
  let violations :=
    if currentSpending + amountIn request >? AgentConfig.maxTransactionValue cfg * 10
    then violations ++
         [("Epoch spending limit exceeded. Remaining: " ++ pretty capRemaining)%string]
    else violations in
  let warnings :=
    if capRemaining <? AgentConfig.maxTransactionValue cfg
    then warnings ++ [("Low epoch cap remaining: " ++ pretty capRemaining)%string]
    else warnings in
  (* 5. Epoch validity check *)
  let currentEpoch := Clock.epochOf now_ms in
  let epochValid := Z.abs (epoch - currentEpoch) <=? 1 in
  let violations :=
    if negb epochValid
    then violations ++
         [("Invalid epoch " ++ pretty epoch ++ ". Current epoch: " ++ pretty currentEpoch)%string]
    else violations in
  (* 6. Address validation *)
  let violations :=
    if negb (isValidAddress (merchant request))
    then violations ++ [("Invalid merchant address: " ++ merchant request)%string]
    else violations in
  let violations :=
    if negb (isValidAddress (tokenIn request))
    then violations ++ [("Invalid token address: " ++ tokenIn request)%string]
    else violations in
  {| PolicyValidation.valid := (length violations =? 0)%nat;
     PolicyValidation.violations := violations;
     PolicyValidation.warnings := warnings;
     PolicyValidation.capRemaining := capRemaining;
     PolicyValidation.epochValid := epochValid |}.

(** [validate(request, epoch)]: the validation object, logged and
    returned.  It holds the bigint [capRemaining], so the [logger.debug]
    throws with a verbose logger. *)
Definition validate (self : t) (now_ms : Z) (request : PaymentRequest) (epoch : Z)
    : js PolicyValidation.t :=
  let validation := validation self now_ms request epoch in
  let* _ := Logger.debug (logger self) (Some Logger.holds_bigint) in
  Ok validation.

Definition recordSpending (self : t) (epoch : Z) (amount : Z) : t :=
  let current := getEpochSpending self epoch in
  {| config := config self; logger := logger self;
     epochSpending := <[epoch := current + amount]> (epochSpending self) |}.

Definition resetEpochSpending (self : t) (epoch : Z) : t :=
  {| config := config self; logger := logger self;
     epochSpending := delete epoch (epochSpending self) |}.

End PolicyValidator.

(** ** zkAgent (agent.ts) *)

Module zkAgent.
Import Str.

(** The agent: its configuration, its logger and the two objects that
    hold state.  The transaction builder and the attestation manager hold
    the same configuration and logger and nothing else.  Of the log calls,
    the model keeps the two whose data holds a bigint; the others pass
    strings, numbers, booleans and error objects, which [JSON.stringify]
    takes. *)
Record t : Type := {
  config : AgentConfig.t;
  logger : Logger.t;
  policyValidator : PolicyValidator.t;
  riskAnalyzer : RiskAnalyzer.t
}.

(** [new zkAgent(configPath, verbose)], on the configuration the manager
    loads. *)
Definition constructor (config : AgentConfig.t) (verbose : bool) : t :=
  let logger := Logger.new verbose in
  {| config := config;
     logger := logger;
     policyValidator := PolicyValidator.new config logger;
     riskAnalyzer := RiskAnalyzer.new |}.

(** [new zkAgent(configPath)]: [verbose] is [false] when it is not given. *)
Definition new (config : AgentConfig.t) : t := constructor config false.

(** The [options] argument of [processPayment]. *)
Record Options : Type := {
  opt_modelId : option string;
  opt_prompt : option string;
  opt_planDescription : option string;
  opt_epoch : option number;
  opt_skipRiskAnalysis : option bool
}.

Definition noOptions : Options :=
  {| opt_modelId := None; opt_prompt := None; opt_planDescription := None;
     opt_epoch := None; opt_skipRiskAnalysis := None |}.

(** [o || d] on an optional string: undefined and the empty string are falsy. *)
Definition or_string (o : option string) (d : string) : string :=
  match o with
  | Some EmptyString | None => d
  | Some s => s
  end.

(** [o || d] on an optional number: undefined, zero and NaN are falsy. *)
Definition or_number (o : option number) (d : Z) : number :=
  match o with
  | Some (Integer n) => if n =? 0 then Integer d else Integer n
  | Some NotInteger => NotInteger
  | Some NaN | None => Integer d
  end.

(** [errors.join(', ')]. *)
Definition join (errors : list string) : string := String.concat ", " errors.

Definition validateConfiguration (self : t) : bool * list string :=
  let errors := [] in
  let errors :=
    if String.eqb (AgentConfig.paymasterAddress (config self)) ""
    then errors ++ ["Paymaster address not configured"%string] else errors in
  let errors :=
    if String.eqb (AgentConfig.rpcUrl (config self)) ""
    then errors ++ ["RPC URL not configured"%string] else errors in
  ((length errors =? 0)%nat, errors).

Definition with_riskAnalyzer (self : t) (ra : RiskAnalyzer.t) : t :=
  {| config := config self; logger := logger self;
     policyValidator := policyValidator self; riskAnalyzer := ra |}.

Definition with_policyValidator (self : t) (pv : PolicyValidator.t) : t :=
  {| config := config self; logger := logger self;
     policyValidator := pv; riskAnalyzer := riskAnalyzer self |}.

(** [await agent.processPayment(request, options)] with no other call of
    the agent under way: what the call returns or throws, and the agent
    afterwards.  The [catch] block logs and throws again, so a throw keeps
    whatever was mutated before it.  [Async] has the call piece by piece,
    for calls that are under way together. *)
Definition processPayment (encodeFunctionData : TransactionBuilder.encoder)
    (clock : Clock.t) (self : t) (request : PaymentRequest) (options : Options)
    : js AgentAnalysis.t * t :=
  let startTime := Clock.now_start clock in
  (* 1. Validate configuration *)
  let configValidation := validateConfiguration self in
  if negb configValidation.1 then
    (Throw (Error ("Configuration invalid: " ++ join configValidation.2)), self)
  else
  (* 2. Build transaction plan *)
  let epoch := or_number (opt_epoch options) (Clock.epochOf (Clock.now_epoch clock)) in
  match TransactionBuilder.buildPlan (logger self) encodeFunctionData
          (Clock.now_callData clock) request epoch with
  | Throw e => (Throw e, self)
  | Ok transactionPlan =>
  (* [BigInt(epoch)] went through: [epoch] is the integer the plan holds *)
  let epoch := TransactionPlan.epoch transactionPlan in
  let planValidation := TransactionBuilder.validate transactionPlan in
  if negb planValidation.1 then
    (Throw (Error ("Transaction plan invalid: " ++ join planValidation.2)), self)
  else
  (* 3. Policy validation *)
  match PolicyValidator.validate (policyValidator self) (Clock.now_validate clock)
          request epoch with
  | Throw e => (Throw e, self)
  | Ok policyValidation =>
  (* 4. Risk analysis *)
  let analysed :=
    if default false (opt_skipRiskAnalysis options) then
      Ok ({| approved := PolicyValidation.valid policyValidation;
             reason := if PolicyValidation.valid policyValidation
                       then "Policy valid, risk analysis skipped"
                       else "Policy validation failed";
             riskScore := 0;
             confidence := 1%float;
             flags := [];
             suggestedAction := None |}, riskAnalyzer self)
    else
      RiskAnalyzer.analyze (riskAnalyzer self) request
        (PolicyValidation.valid policyValidation) in
  match analysed with
  | Throw e => (Throw e, self)
  | Ok (decision, ra) =>
  let self := with_riskAnalyzer self ra in
  let analysis (attestation : option Attestation.t) :=
    {| AgentAnalysis.request := request;
       AgentAnalysis.decision := decision;
       AgentAnalysis.policyValidation := policyValidation;
       AgentAnalysis.transactionPlan := transactionPlan;
       AgentAnalysis.attestation := attestation;
       AgentAnalysis.timestamp := startTime |} in
  (* 5. Create attestation (if approved) *)
  if approved decision then
    match AttestationManager.createAttestation (config self) (Clock.now_attest clock)
            transactionPlan
            (or_string (opt_modelId options) (AgentConfig.modelId (config self)))
            (or_string (opt_prompt options)
               ("Pay " ++ merchant request ++ " " ++ pretty (amountIn request)
                ++ " of " ++ tokenIn request))
            (or_string (opt_planDescription options) (description request)) with
    | Throw e => (Throw e, self)
    | Ok attestation =>
        if negb (AttestationManager.verifyAttestation (config self)
                   (Clock.now_verify clock) attestation)
        then (Throw (Error "Attestation verification failed"), self)
        else
          (* Record spending if approved *)
          let pv := PolicyValidator.recordSpending (policyValidator self) epoch
                      (amountIn request) in
          (Ok (analysis (Some attestation)), with_policyValidator self pv)
    end
  else (Ok (analysis None), self)
  end
  end
  end.

(** [await agent.quickCheck(request)]. *)
Definition quickCheck (clock : Clock.t) (self : t) (request : PaymentRequest)
    : js bool * t :=
  let epoch := Clock.epochOf (Clock.now_epoch clock) in
  match PolicyValidator.validate (policyValidator self) (Clock.now_validate clock)
          request epoch with
  | Throw e => (Throw e, self)
  | Ok policyValidation =>
  match RiskAnalyzer.analyze (riskAnalyzer self) request
          (PolicyValidation.valid policyValidation) with
  | Throw e => (Throw e, self)
  | Ok (decision, ra) => (Ok (approved decision), with_riskAnalyzer self ra)
  end
  end.

(** [buildPaymasterData]. *)
Definition buildPaymasterData (self : t) (analysis : AgentAnalysis.t) : js string :=
  match AgentAnalysis.attestation analysis with
  | None => Throw (Error "No attestation available")
  | Some attestation =>
      AttestationManager.buildPaymasterAndData (config self) attestation
        (TransactionPlan.policyHash (AgentAnalysis.transactionPlan analysis))
        (TransactionPlan.epoch (AgentAnalysis.transactionPlan analysis))
  end.

End zkAgent.

(** ** EVM memory and the instructions of the assembly block *)

Module EVM.
Import Bytes.

(** Memory: a byte at every address. *)
Definition memory : Type := Z -> byte.

Definition mem_range (m : memory) (p : Z) (n : nat) : list byte :=
  map (fun i => m (p + Z.of_nat i)) (seq 0 n).

(** [mload(p)]: the 32 bytes at [p] as a big-endian word. *)
Definition mload (m : memory) (p : Z) : Z := be_value (mem_range m p 32).

(** [mstore(p, v)]: the word [v], big-endian, over the 32 bytes at [p]. *)
Definition mstore (m : memory) (p v : Z) : memory :=
  fun a =>
    if (p <=? a) && (a <? p + 32)
    then nth (Z.to_nat (a - p)) (be_bytes 32 v) x00
    else m a.

(** [add(a, b)] on 256-bit words. *)
Definition add (a b : Z) : Z := (a + b) mod 2 ^ 256.

(** [keccak256(p, n)]: the hash of [n] bytes of memory, as a word. *)
Definition keccak256 (m : memory) (p n : Z) : Z :=
  be_value (Keccak.keccak256 (mem_range m p (Z.to_nat n))).

(** Memory at the entry of an external function: Solidity sets the free
    memory pointer, kept at [0x40], to [0x80]. *)
Definition entry_memory : memory := mstore (fun _ => x00) 0x40 0x80.

(** Reserving [n] bytes moves the free memory pointer up. *)
Definition allocate (m : memory) (n : Z) : memory := mstore m 0x40 (add (mload m 0x40) n).

End EVM.

(** ** The contracts (CompliancePaymaster.sol, MockEAS.sol, IEAS.sol) *)

Module Sol.
Import Bytes.

(** Why a call reverted. *)
Inductive error : Type :=
  | NotEntryPoint
  | InvalidAttestation
  | AttesterNotWhitelisted
  | ExpiredAttestation
  | RequireFailed (reason : string)
  | CalleeReverted.

Inductive result (A : Type) : Type :=
  | Success (a : A)
  | Revert (e : error).
Arguments Success {A} a.
Arguments Revert {A} e.

Definition bind {A B : Type} (m : result A) (k : A -> result B) : result B :=
  match m with
  | Success a => k a
  | Revert e => Revert e
  end.

Definition require (cond : bool) (reason : string) : result unit :=
  if cond then Success tt else Revert (RequireFailed reason).

(** What the chain gives a call. *)
Record Env : Type := {
  msg_sender : Z;
  block_timestamp : Z
}.

(** [struct Attestation] of IEAS.sol. *)
Record Attestation : Type := {
  uid : Z;
  schema : Z;
  attester : Z;
  time : Z;
  expirationTime : Z;
  revocationTime : Z;
  dataHash : Z
}.

(** [interface IEAS]: the two views, which read the block's timestamp and
    may revert. *)
Class IEAS (E : Type) : Type := {
  getAttestation : E -> Env -> Z -> result Attestation;
  isAttestationValid : E -> Env -> Z -> result bool
}.

End Sol.

Notation "'do*' x ':=' m 'in' k" := (Sol.bind m (fun x => k))
  (at level 10, x name, m at level 100, k at level 200).

Module MockEAS.
Import Sol.

(** [mapping(bytes32 => Attestation) public a]; an absent key reads as the
    all-zero struct. *)
Record t : Type := {
  a : gmap Z Attestation
}.

Definition new : t := {| a := ∅ |}.

Definition zero : Attestation :=
  {| uid := 0; schema := 0; attester := 0; time := 0; expirationTime := 0;
     revocationTime := 0; dataHash := 0 |}.

Definition read (self : t) (uid : Z) : Attestation := default zero (a self !! uid).

Definition set (self : t) (env : Env) (uid schema attester exp dataHash : Z) : t :=
  {| a := <[uid := {| Sol.uid := uid; Sol.schema := schema; Sol.attester := attester;
                      Sol.time := block_timestamp env mod 2 ^ 64;
                      Sol.expirationTime := exp; Sol.revocationTime := 0;
                      Sol.dataHash := dataHash |}]> (a self) |}.

Definition getAttestation (self : t) (env : Env) (uid : Z) : result Attestation :=
  Success (read self uid).

Definition isAttestationValid (self : t) (env : Env) (uid : Z) : result bool :=
  let m := read self uid in
  Success (negb (attester m =? 0)
           && ((expirationTime m =? 0) || (expirationTime m >=? block_timestamp env))).

#[global] Instance mock_is_eas : IEAS t :=
  {| Sol.getAttestation := getAttestation;
     Sol.isAttestationValid := isAttestationValid |}.

End MockEAS.

Module CompliancePaymaster.
Import Bytes Sol EVM.

Inductive Event : Type :=
  | AttesterSet (attester : Z) (ok : bool)
  | PolicyChecked (attUid policyHash epoch : Z).

(** The contract: its immutables and its one storage mapping (an absent key
    reads as [false]). *)
Record t : Type := {
  ENTRY_POINT : Z;
  EAS : Z;
  SCHEMA_UID : Z;
  attesterWhitelist : gmap Z bool
}.

Definition whitelisted (self : t) (who : Z) : bool :=
  default false (attesterWhitelist self !! who).

Definition constructor (_entryPoint _eas schemaUid _attester : Z) : t * list Event :=
  ({| ENTRY_POINT := _entryPoint; EAS := _eas; SCHEMA_UID := schemaUid;
      attesterWhitelist := <[_attester := true]> ∅ |},
   [AttesterSet _attester true]).

Definition _onlyEntryPoint (self : t) (env : Env) : result unit :=
  if negb (msg_sender env =? ENTRY_POINT self) then Revert NotEntryPoint else Success tt.

Record PaymasterData : Type := {
  attUid : Z;
  policyHash : Z;
  epoch : Z
}.

(** [abi.decode(inner, (PaymasterData))]: three words from the head of
    [inner]; bytes past them are not looked at. *)
Definition abi_decode_PaymasterData (inner : list byte) : PaymasterData :=
  {| attUid := be_value (take 32 inner);
     policyHash := be_value (take 32 (drop 32 inner));
     epoch := be_value (take 32 (drop 64 inner)) |}.

Definition _decode (d : list byte) : result PaymasterData :=
  do* _ := require (Z.of_nat (length d) >=? 20 + 32 * 3) "PMD_TOO_SHORT" in
  let inner := drop 20 d in
  Success (abi_decode_PaymasterData inner).

(** The assembly block of [_policyHash], on the memory it runs in. *)
Definition _policyHash_asm (m : memory) (userOpHash epoch : Z) : Z * memory :=
  let p := mload m 0x40 in
  let m := mstore m p userOpHash in
  let m := mstore m (add p 0x20) epoch in
  let h := keccak256 m p 0x40 in
  let m := mstore m 0x40 (add p 0x40) in
  (h, m).

(** Memory when [validatePaymasterUserOp] reaches the policy binding: the
    two memory structs [pmd] and [a] have been allocated. *)
Definition memory_at_binding : memory :=
  allocate (allocate entry_memory (32 * 3)) (32 * 7).

Definition _policyHash (userOpHash epoch : Z) : Z :=
  (_policyHash_asm memory_at_binding userOpHash epoch).1.

(** Modelled from the spec: [struct UserOperation] of helpers/Types.sol,
    which is not among the sources.  The validator reads one field of it,
    the authorization payload [paymasterAndData]; the other fields follow
    ERC-4337. *)
Record UserOperation : Type := {
  sender : Z;
  nonce : Z;
  initCode : list byte;
  callData : list byte;
  callGasLimit : Z;
  verificationGasLimit : Z;
  preVerificationGas : Z;
  maxFeePerGas : Z;
  maxPriorityFeePerGas : Z;
  paymasterAndData : list byte;
  signature : list byte
}.

(** What a successful validation hands back: [context], [validationData],
    the events emitted, and the contract afterwards. *)
Record Validated : Type := {
  context : list byte;
  validationData : Z;
  events : list Event;
  after : t
}.

Definition validatePaymasterUserOp {E : Type} `{IEAS E} (self : t) (eas : E) (env : Env)
    (userOp : UserOperation) (userOpHash : Z) (requiredPreFund : Z) : result Validated :=
  do* _ := _onlyEntryPoint self env in
  do* pmd := _decode (paymasterAndData userOp) in
  (* 1) Check EAS attestation *)
  do* ok := Sol.isAttestationValid eas env (attUid pmd) in
  if negb ok then Revert InvalidAttestation else
  do* a := Sol.getAttestation eas env (attUid pmd) in
  if negb (schema a =? SCHEMA_UID self) then Revert InvalidAttestation else
  if negb (whitelisted self (attester a)) then Revert AttesterNotWhitelisted else
  if negb (expirationTime a =? 0) && (expirationTime a <? block_timestamp env)
  then Revert ExpiredAttestation else
  (* 2) Policy binding *)
  let expected := _policyHash userOpHash (epoch pmd) in
  do* _ := require (expected =? policyHash pmd) "POLICY_MISMATCH" in
  Success {| context := [];
             validationData := 0;
             events := [PolicyChecked (attUid pmd) (policyHash pmd) (epoch pmd)];
             after := self |}.

(** [enum PostOpMode]. *)
Inductive PostOpMode : Type := opSucceeded | opReverted | postOpReverted.

(** [postOp]: no accounting. *)
Definition postOp (self : t) (env : Env) (mode : PostOpMode) (context : list byte)
    (actualGasCost : Z) : result t :=
  do* _ := _onlyEntryPoint self env in
  Success self.

Definition setAttester (self : t) (who : Z) (ok : bool) : t * list Event :=
  ({| ENTRY_POINT := ENTRY_POINT self; EAS := EAS self; SCHEMA_UID := SCHEMA_UID self;
      attesterWhitelist := <[who := ok]> (attesterWhitelist self) |},
   [AttesterSet who ok]).

End CompliancePaymaster.

(** ** Reference formats *)

Module Reference.
Import Bytes.

(** The canonical policy hash: Keccak-256 of the operation hash followed by
    the epoch as 32 big-endian bytes. *)
Definition canonical (h : list byte) (e : Z) : list byte :=
  Keccak.keccak256 (h ++ be_bytes 32 e).

(** The authorization payload on the wire: a routing prefix, then the
    attestation reference, the policy hash and the epoch, 32 big-endian
    bytes each. *)
Definition payload (prefix : list byte) (attUid policyHash epoch : Z) : list byte :=
  prefix ++ be_bytes 32 attUid ++ be_bytes 32 policyHash ++ be_bytes 32 epoch.

End Reference.


(** ** Conditional push

    [if (c) list.push(m)], the shape of every check of the validators, as
    one function for the proofs to reason on. *)

Module Push.

Definition push_if (c : bool) (m : string) (l : list string) : list string :=
  if c then l ++ [m] else l.

End Push.

(** ** Runs of the agent *)

Module Pipeline.

(** One [processPayment] call: the library and clock it runs with, and its
    arguments. *)
Record Call : Type := {
  call_encoder : TransactionBuilder.encoder;
  call_clock : Clock.t;
  call_request : PaymentRequest;
  call_options : zkAgent.Options
}.

Definition step (self : zkAgent.t) (c : Call) : js AgentAnalysis.t * zkAgent.t :=
  zkAgent.processPayment (call_encoder c) (call_clock c) self (call_request c)
    (call_options c).

(** The calls one after the other, each awaited before the next is made:
    the agent at the end and what each call returned or threw.  ([Async]
    has the calls that are not awaited one by one.) *)
Fixpoint run (self : zkAgent.t) (calls : list Call)
    : zkAgent.t * list (js AgentAnalysis.t) :=
  match calls with
  | [] => (self, [])
  | c :: calls' =>
      let out := step self c in
      let rest := run out.2 calls' in
      (rest.1, out.1 :: rest.2)
  end.

(** A call is rejected when it throws or returns a decision that is not
    approved. *)
Definition rejected (r : js AgentAnalysis.t) : bool :=
  match r with
  | Ok a => negb (approved (AgentAnalysis.decision a))
  | Throw _ => true
  end.

(** The amount a call commits to [epoch]: the request's amount when the
    call returned an approved decision for that epoch, zero otherwise. *)
Definition committed (epoch : Z) (r : js AgentAnalysis.t) : Z :=
  match r with
  | Ok a =>
      if approved (AgentAnalysis.decision a)
         && (TransactionPlan.epoch (AgentAnalysis.transactionPlan a) =? epoch)
      then amountIn (AgentAnalysis.request a) else 0
  | Throw _ => 0
  end.

(** The amounts committed to [epoch] by a list of outcomes, added up. *)
Definition total_committed (epoch : Z) (outs : list (js AgentAnalysis.t)) : Z :=
  fold_right (fun r acc => committed epoch r + acc) 0 outs.

(** The cap of an epoch: ten times the maximal transaction value. *)
Definition cap (pv : PolicyValidator.t) : Z :=
  AgentConfig.maxTransactionValue (PolicyValidator.config pv) * 10.

(** The epoch a call works in, when its [epoch] option is an integer or
    is not given; a call with another number throws at [BigInt(epoch)],
    before it has any use for the epoch. *)
Definition epoch_of (clock : Clock.t) (options : zkAgent.Options) : Z :=
  match zkAgent.or_number (zkAgent.opt_epoch options)
          (Clock.epochOf (Clock.now_epoch clock)) with
  | Integer epoch => epoch
  | NotInteger | NaN => 0
  end.

End Pipeline.

(** ** Calls of the agent that are under way together

    [processPayment] is an [async] function: it runs until an [await],
    returns a promise, and goes on from the [await] in a later turn of the
    job queue.  Calls started before the earlier ones are awaited, as in
    [Promise.all(requests.map(r => agent.processPayment(r)))], take turns
    on the one agent. *)

Module Async.
Import zkAgent.

(** A call under way: the [await] it is suspended at, with what the
    awaited function produced.  The function awaited has run when the
    caller suspends, effects included, for an [async] function runs up to
    its first [await] when it is called and [validate], [analyze],
    [createAttestation] and [verifyAttestation] have none.  [buildPlan]
    has one, at [estimateGas]; it neither reads nor writes the state of
    the agent, so where it is cut makes no difference.  A call whose
    awaited function threw learns of it when it goes on and does nothing
    in between: it is [Settled] at once, as is a call that has returned. *)
Inductive Task : Type :=
  | AwaitsPlan (transactionPlan : TransactionPlan.t)
  | AwaitsValidation (transactionPlan : TransactionPlan.t)
      (policyValidation : PolicyValidation.t)
  | AwaitsDecision (transactionPlan : TransactionPlan.t)
      (policyValidation : PolicyValidation.t) (decision : AgentDecision)
  | AwaitsAttestation (transactionPlan : TransactionPlan.t)
      (policyValidation : PolicyValidation.t) (decision : AgentDecision)
      (attestation : Attestation.t)
  | AwaitsVerification (transactionPlan : TransactionPlan.t)
      (policyValidation : PolicyValidation.t) (decision : AgentDecision)
      (attestation : Attestation.t) (attestationValid : bool)
  | Settled (outcome : js AgentAnalysis.t).

(** What a call that is [Settled] returned or threw. *)
Definition outcome (task : Task) : option (js AgentAnalysis.t) :=
  match task with
  | Settled r => Some r
  | _ => None
  end.

(** [agent.processPayment(request, options)], up to the first [await]
    (lines 51 to 67). *)
Definition start (self : t) (c : Pipeline.Call) : Task :=
  (* 1. Validate configuration *)
  let configValidation := validateConfiguration self in
  if negb configValidation.1 then
    Settled (Throw (Error ("Configuration invalid: " ++ join configValidation.2)))
  else
  (* 2. Build transaction plan *)
  let epoch := or_number (opt_epoch (Pipeline.call_options c))
                 (Clock.epochOf (Clock.now_epoch (Pipeline.call_clock c))) in
  match TransactionBuilder.buildPlan (logger self) (Pipeline.call_encoder c)
          (Clock.now_callData (Pipeline.call_clock c)) (Pipeline.call_request c)
          epoch with
  | Throw e => Settled (Throw e)
  | Ok transactionPlan => AwaitsPlan transactionPlan
  end.

(** Step 5 and the [return], from a decision up to the next [await]
    (lines 98 to 106, or 118 to 134 for a decision that is not approved). *)
Definition attest (self : t) (c : Pipeline.Call) (transactionPlan : TransactionPlan.t)
    (policyValidation : PolicyValidation.t) (decision : AgentDecision) : Task :=
  let request := Pipeline.call_request c in
  let options := Pipeline.call_options c in
  if approved decision then
    match AttestationManager.createAttestation (config self)
            (Clock.now_attest (Pipeline.call_clock c)) transactionPlan
            (or_string (opt_modelId options) (AgentConfig.modelId (config self)))
            (or_string (opt_prompt options)
               ("Pay " ++ merchant request ++ " " ++ pretty (amountIn request)
                ++ " of " ++ tokenIn request))
            (or_string (opt_planDescription options) (description request)) with
    | Throw e => Settled (Throw e)
    | Ok attestation =>
        AwaitsAttestation transactionPlan policyValidation decision attestation
    end
  else
    Settled (Ok {| AgentAnalysis.request := request;
                   AgentAnalysis.decision := decision;
                   AgentAnalysis.policyValidation := policyValidation;
                   AgentAnalysis.transactionPlan := transactionPlan;
                   AgentAnalysis.attestation := None;
                   AgentAnalysis.timestamp := Clock.now_start (Pipeline.call_clock c) |}).

(** The call goes on from its [await] to the next one, on the agent as
    it is by then. *)
Definition resume (c : Pipeline.Call) (task : Task) (self : t) : Task * t :=
  let clock := Pipeline.call_clock c in
  let request := Pipeline.call_request c in
  let options := Pipeline.call_options c in
  match task with
  | AwaitsPlan transactionPlan =>
      let epoch := TransactionPlan.epoch transactionPlan in
      let planValidation := TransactionBuilder.validate transactionPlan in
      if negb planValidation.1 then
        (Settled (Throw (Error ("Transaction plan invalid: "
                                ++ join planValidation.2))), self)
      else
      (* 3. Policy validation *)
      match PolicyValidator.validate (policyValidator self) (Clock.now_validate clock)
              request epoch with
      | Throw e => (Settled (Throw e), self)
      | Ok policyValidation => (AwaitsValidation transactionPlan policyValidation, self)
      end
  | AwaitsValidation transactionPlan policyValidation =>
      (* 4. Risk analysis *)
      if default false (opt_skipRiskAnalysis options) then
        (attest self c transactionPlan policyValidation
           {| approved := PolicyValidation.valid policyValidation;
              reason := if PolicyValidation.valid policyValidation
                        then "Policy valid, risk analysis skipped"
                        else "Policy validation failed";
              riskScore := 0;
              confidence := 1%float;
              flags := [];
              suggestedAction := None |}, self)
      else
        match RiskAnalyzer.analyze (riskAnalyzer self) request
                (PolicyValidation.valid policyValidation) with
        | Throw e => (Settled (Throw e), self)
        | Ok (decision, ra) =>
            (AwaitsDecision transactionPlan policyValidation decision,
             with_riskAnalyzer self ra)
        end
  | AwaitsDecision transactionPlan policyValidation decision =>
      (* 5. Create attestation (if approved) *)
      (attest self c transactionPlan policyValidation decision, self)
  | AwaitsAttestation transactionPlan policyValidation decision attestation =>
      (* Verify attestation *)
      (AwaitsVerification transactionPlan policyValidation decision attestation
         (AttestationManager.verifyAttestation (config self) (Clock.now_verify clock)
            attestation), self)
  | AwaitsVerification transactionPlan policyValidation decision attestation
      attestationValid =>
      if negb attestationValid
      then (Settled (Throw (Error "Attestation verification failed")), self)
      else
        (* Record spending if approved *)
        let pv := PolicyValidator.recordSpending (policyValidator self)
                    (TransactionPlan.epoch transactionPlan) (amountIn request) in
        (Settled (Ok {| AgentAnalysis.request := request;
                        AgentAnalysis.decision := decision;
                        AgentAnalysis.policyValidation := policyValidation;
                        AgentAnalysis.transactionPlan := transactionPlan;
                        AgentAnalysis.attestation := Some attestation;
                        AgentAnalysis.timestamp := Clock.now_start clock |}),
         with_policyValidator self pv)
  | Settled r => (Settled r, self)
  end.

(** A call goes through five [await]s at most. *)
Definition awaits : nat := 5.

(** One call on its own: started, then taken up again until it settles. *)
Definition alone (self : t) (c : Pipeline.Call) : Task * t :=
  Nat.iter awaits (fun st => resume c st.1 st.2) (start self c, self).

(** The calls under way and the agent they share. *)
Definition State : Type := (list Task * t)%type.

(** The [i]-th call goes on. *)
Definition turn (calls : list Pipeline.Call) (st : State) (i : nat) : State :=
  match calls !! i, st.1 !! i with
  | Some c, Some task =>
      let r := resume c task st.2 in (<[i := r.1]> st.1, r.2)
  | _, _ => st
  end.

(** The calls go on in the order of a schedule. *)
Definition turns (calls : list Pipeline.Call) (schedule : list nat) (st : State)
    : State :=
  fold_left (turn calls) schedule st.

(** [calls.map(c => agent.processPayment(c))]: each call is started, in
    order; none has gone on yet. *)
Definition started (self : t) (calls : list Pipeline.Call) : State :=
  (map (start self) calls, self).

(** The schedule of the job queue for calls that go through the same
    [await]s: each in turn, one [await] at a time. *)
Definition round_robin (n : nat) : list nat :=
  concat (repeat (seq 0 n) awaits).

(** [await Promise.all(calls.map(c => agent.processPayment(c)))] for
    such calls: the calls at the end, and the agent. *)
Definition promise_all (self : t) (calls : list Pipeline.Call) : State :=
  turns calls (round_robin (length calls)) (started self calls).

End Async.

(** ** A deployment to run the contracts on

    The values of the repository's Foundry test ([SCHEMA], [EPOCH], the
    entry point and the attester), one attestation issued for an hour, and
    the payload that binds it to one operation. *)

Module Scenario.
Import Bytes Sol.

Definition entryPoint : Z := 0x5FF137D4b0FDCD49DcA30c7CF57E578a026d2789.
Definition easAddress : Z := 0xEA5.
Definition schemaUid : Z := be_value (Keccak.keccak256 (list_byte_of_string "test schema")).
Definition attester : Z := 2.
Definition EPOCH : Z := 202511.

Definition paymaster : CompliancePaymaster.t :=
  (CompliancePaymaster.constructor entryPoint easAddress schemaUid attester).1.

Definition issuance : Z := 1762000000.
Definition attUid : Z := 1.

(** The registry after [set(attUid, SCHEMA, attester, issuance + 3600, 0)]
    in a block of time [issuance]. *)
Definition registry : MockEAS.t :=
  MockEAS.set MockEAS.new {| msg_sender := 1; block_timestamp := issuance |}
    attUid schemaUid attester (issuance + 3600) 0.

Definition userOpHash : Z := be_value (repeat x11 32).

Definition prefix : list byte := be_bytes 20 0xaa.

Definition userOp (paymasterAndData : list byte) : CompliancePaymaster.UserOperation :=
  {| CompliancePaymaster.sender := 3;
     CompliancePaymaster.nonce := 0;
     CompliancePaymaster.initCode := [];
     CompliancePaymaster.callData := [];
     CompliancePaymaster.callGasLimit := 100000;
     CompliancePaymaster.verificationGasLimit := 100000;
     CompliancePaymaster.preVerificationGas := 21000;
     CompliancePaymaster.maxFeePerGas := 1;
     CompliancePaymaster.maxPriorityFeePerGas := 1;
     CompliancePaymaster.paymasterAndData := paymasterAndData;
     CompliancePaymaster.signature := [] |}.

(** The 116-byte payload for [userOpHash] in [EPOCH]. *)
Definition payload116 : list byte :=
  Reference.payload prefix attUid (CompliancePaymaster._policyHash userOpHash EPOCH) EPOCH.

(** A call from the entry point in a block of time [t]. *)
Definition at_time (t : Z) : Env := {| msg_sender := entryPoint; block_timestamp := t |}.

(** What an accepted validation of [payload116] returns. *)
Definition accepted : CompliancePaymaster.Validated :=
  {| CompliancePaymaster.context := [];
     CompliancePaymaster.validationData := 0;
     CompliancePaymaster.events :=
       [CompliancePaymaster.PolicyChecked attUid
          (CompliancePaymaster._policyHash userOpHash EPOCH) EPOCH];
     CompliancePaymaster.after := paymaster |}.

(** The agent side: a configuration with a cap of 1000 per epoch, a clock
    standing still, and a stand-in for the library's call encoder. *)
Definition config : AgentConfig.t :=
  {| AgentConfig.chainId := 84532;
     AgentConfig.rpcUrl := "https://sepolia.base.org";
     AgentConfig.bundlerUrl := "";
     AgentConfig.paymasterAddress := "0x00000000000000000000000000000000000000aa";
     AgentConfig.easAddress := "";
     AgentConfig.entryPointAddress := "0x5FF137D4b0FDCD49DcA30c7CF57E578a026d2789";
     AgentConfig.modelId := "gpt-4o-mini";
     AgentConfig.maxGasPrice := 100000000000;
     AgentConfig.maxTransactionValue := 100;
     AgentConfig.defaultEpoch := 176200;
     AgentConfig.allowedTokens := [];
     AgentConfig.allowedMerchants := [];
     AgentConfig.attesterPrivateKey := None;
     AgentConfig.schemaUID := ("0x" ++ TransactionBuilder.zeros 64)%string |}.

Definition clock : Clock.t :=
  {| Clock.now_start := 1762000000000; Clock.now_epoch := 1762000000000;
     Clock.now_callData := 1762000000000; Clock.now_validate := 1762000000000;
     Clock.now_attest := 1762000000000; Clock.now_verify := 1762000000000 |}.

Definition encoder : TransactionBuilder.encoder := fun _ => Ok "0xdeadbeef"%string.

(** A request for [amount] of USDC to one merchant. *)
Definition pay (amount : Z) : PaymentRequest :=
  {| merchant := "0x00000000000000000000000000000000000000bb";
     tokenIn := "0xa0b86991c6218b36c1d19d4a2e9eb0ce3606eb48";
     amountIn := amount;
     description := "coffee";
     metadata := None |}.

Definition call (request : PaymentRequest) : Pipeline.Call :=
  {| Pipeline.call_encoder := encoder; Pipeline.call_clock := clock;
     Pipeline.call_request := request; Pipeline.call_options := zkAgent.noOptions |}.

End Scenario.

(** ** Digests of an attestation

    What [createAttestation] hashes, as byte strings. *)

Module Digest.
Import Bytes.

(** The Keccak-256 hash of a text, as the attestation hashes its model,
    prompt and plan description. *)
Definition text_hash (s : string) : list byte :=
  Keccak.keccak256 (list_byte_of_string s).

(** The digest an attestation carries as its data. *)
Definition data_digest (modelId prompt planDescription : string) (h ph : list byte)
    (epoch : Z) : list byte :=
  Keccak.keccak256
    (text_hash modelId ++ text_hash prompt ++ text_hash planDescription
     ++ h ++ ph ++ be_bytes 32 epoch).

(** The identifier of an attestation: its data, the paymaster and the
    second of its creation, hashed. *)
Definition uid_digest (data paymaster : list byte) (now : Z) : list byte :=
  Keccak.keccak256 (data ++ paymaster ++ be_bytes 8 now).

End Digest.

(** ** ConfigManager (config.ts) *)

Module ConfigManager.

(** [ConfigManager.validate], on the configuration the manager holds:
    [(valid, errors)].  The length of the address is counted in characters,
    which for an ASCII string is what JavaScript counts. *)
Definition validate (config : AgentConfig.t) : bool * list string :=
  let errors := [] in
  let errors :=
    if String.eqb (AgentConfig.paymasterAddress config) ""
       || negb (String.length (AgentConfig.paymasterAddress config) =? 42)%nat
    then errors ++ ["Invalid paymaster address"%string] else errors in
  let errors :=
    if String.eqb (AgentConfig.rpcUrl config) ""
    then errors ++ ["RPC URL is required"%string] else errors in
  let errors :=
    if AgentConfig.maxGasPrice config <=? 0
    then errors ++ ["Max gas price must be positive"%string] else errors in
  let errors :=
    if AgentConfig.maxTransactionValue config <=? 0
    then errors ++ ["Max transaction value must be positive"%string] else errors in
  ((length errors =? 0)%nat, errors).

End ConfigManager.

(** ** The payload script (agent/buildPaymasterAndData.mjs)

    The script builds the authorization payload outside the agent, from
    command-line arguments, with two more functions of viem. *)

Module PadScript.
Import Bytes Str Viem.

(** [encodeAbiParameters] on the parameter list (bytes32, bytes32, uint256)
    of the script.  The three types are static and a word wide, so the
    encoding is the three words side by side. *)
Definition encodeAbiParameters (attUid policyHash : string) (epoch : Z) : js string :=
  encodePacked [ p_bytes32 attUid; p_bytes32 policyHash; p_uint256 epoch ].

(** Lines 28 to 38 of the script, once its arguments are read: the
    payload it prints. *)
Definition paymasterAndData (paymaster attUid policyHash : string) (epoch : Z) : js string :=
  let* inner := encodeAbiParameters attUid policyHash epoch in
  Ok (concatHex [paymaster; inner]).

End PadScript.

(** ** MerkleProof and KYCRegistry (KYCRegistry.sol) *)

Module MerkleProof.
Import Bytes.

(** [keccak256(abi.encodePacked(a, b))] on two [bytes32]. *)
Definition hashPair (a b : Z) : Z :=
  be_value (Keccak.keccak256 (be_bytes 32 a ++ be_bytes 32 b)).

(** One iteration of the loop of [verify]. *)
Definition step (computed p : Z) : Z :=
  if computed <=? p then hashPair computed p else hashPair p computed.

(** [MerkleProof.verify]. *)
Definition verify (proof : list Z) (root leaf : Z) : bool :=
  let computed := fold_left step proof leaf in
  computed =? root.

End MerkleProof.

Module KYCRegistry.
Import Sol.

Record t : Type := {
  owner : Z;
  merkleRoot : Z
}.

Inductive Event : Type :=
  | RootUpdated (newRoot : Z).

Definition constructor (env : Env) (_root : Z) : t * list Event :=
  ({| owner := msg_sender env; merkleRoot := _root |}, [RootUpdated _root]).

Definition _onlyOwner (self : t) (env : Env) : result unit :=
  require (msg_sender env =? owner self) "NOT_OWNER".

Definition updateRoot (self : t) (env : Env) (_root : Z) : result (t * list Event) :=
  do* _ := _onlyOwner self env in
  Success ({| owner := owner self; merkleRoot := _root |}, [RootUpdated _root]).

Definition isMember (self : t) (leaf : Z) (proof : list Z) : bool :=
  MerkleProof.verify proof (merkleRoot self) leaf.

(** A transaction calling [updateRoot]: one that reverts leaves the
    contract as it was and emits nothing. *)
Definition transact (st : t * list Event) (call : Env * Z) : t * list Event :=
  match updateRoot st.1 call.1 call.2 with
  | Success (self, events) => (self, st.2 ++ events)
  | Revert _ => st
  end.

(** The contract after its deployment and a sequence of transactions, with
    the events emitted so far. *)
Definition run (deployer : Env) (_root : Z) (calls : list (Env * Z)) : t * list Event :=
  fold_left transact calls (constructor deployer _root).

End KYCRegistry.


(** ** DollarRouter (DollarRouter.sol) *)

Module DollarRouter.

(** Why a call of the router reverted. *)
Inductive failure : Type :=
  | Require (reason : string)
  | Panic (code : Z)
  | CalleeReverted.

Inductive outcome (A : Type) : Type :=
  | Done (a : A)
  | Reverted (f : failure).
Arguments Done {A} a.
Arguments Reverted {A} f.

Definition bind {A B : Type} (m : outcome A) (k : A -> outcome B) : outcome B :=
  match m with
  | Done a => k a
  | Reverted f => Reverted f
  end.

Definition require (cond : bool) (reason : string) : outcome unit :=
  if cond then Done tt else Reverted (Require reason).

(** [struct ISwapRouter.ExactInputSingleParams], as the router fills it. *)
Record ExactInputSingleParams : Type := {
  tokenIn : Z;
  tokenOut : Z;
  fee : Z;
  recipient : Z;
  deadline : Z;
  amountIn : Z;
  amountOutMinimum : Z;
  sqrtPriceLimitX96 : Z
}.

(** Modelled from the spec: the interfaces IERC20.sol and ISwapRouter.sol
    are not among the sources; a call is known by what [DollarRouter] passes
    to it and by what it expects back, a [bool] from the token and a
    [uint256] from the swap router. *)
Inductive ExternalCall : Type :=
  | transferFrom (token from to amount : Z)
  | approve (token spender amount : Z)
  | exactInputSingle (router : Z) (params : ExactInputSingleParams)
  | transfer (token to amount : Z).

(** What the called contracts answer in this transaction; [None] when the
    call reverts or gives back nothing that decodes. *)
Record Callees : Type := {
  on_transferFrom : Z -> Z -> Z -> Z -> option bool;
  on_approve : Z -> Z -> Z -> option bool;
  on_exactInputSingle : Z -> ExactInputSingleParams -> option Z;
  on_transfer : Z -> Z -> Z -> option bool
}.

Definition called {A : Type} (answer : option A) : outcome A :=
  match answer with
  | Some a => Done a
  | None => Reverted CalleeReverted
  end.

Record t : Type := {
  USDC : Z;
  ROUTER : Z;
  owner : Z;
  allowedToken : gmap Z bool
}.

(** [allowedToken[token]]: [false] for a key never written. *)
Definition allowed (self : t) (token : Z) : bool :=
  default false (allowedToken self !! token).

Definition _onlyOwner (self : t) (env : Sol.Env) : outcome unit :=
  require (Sol.msg_sender env =? owner self) "NOT_OWNER".

Definition constructor (env : Sol.Env) (_usdc _router : Z) : t :=
  {| USDC := _usdc; ROUTER := _router; owner := Sol.msg_sender env;
     allowedToken := <[_usdc := true]> ∅ |}.

Definition setAllowed (self : t) (env : Sol.Env) (token : Z) (ok : bool) : outcome t :=
  bind (_onlyOwner self env) (fun _ =>
  Done {| USDC := USDC self; ROUTER := ROUTER self; owner := owner self;
          allowedToken := <[token := ok]> (allowedToken self) |}).

(** Checked addition of [uint256]. *)
Definition checked_add (a b : Z) : outcome Z :=
  if a + b <? 2 ^ 256 then Done (a + b) else Reverted (Panic 17).

(** [payWithAnyStable], called on the contract at address [this]: the
    amount it returns and the calls it made to other contracts, in order.
    It writes no storage of its own. *)
Definition payWithAnyStable (self : t) (this : Z) (env : Sol.Env) (callees : Callees)
    (tokenIn amountIn poolFee merchant minOut : Z) : outcome (Z * list ExternalCall) :=
  bind (require (allowed self tokenIn) "TOKEN_NOT_ALLOWED") (fun _ =>
  bind (called (on_transferFrom callees tokenIn (Sol.msg_sender env) this amountIn))
    (fun pulled =>
  bind (require pulled "TRANSFER_FROM_FAILED") (fun _ =>
  let calls := [transferFrom tokenIn (Sol.msg_sender env) this amountIn] in
  bind
    (if tokenIn =? USDC self then Done (amountIn, calls)
     else
       bind (called (on_approve callees tokenIn (ROUTER self) amountIn)) (fun approved =>
       bind (require approved "APPROVE_FAILED") (fun _ =>
       bind (checked_add (Sol.block_timestamp env) 600) (fun deadline =>
       let params :=
         {| tokenIn := tokenIn; tokenOut := USDC self; fee := poolFee;
            recipient := this; deadline := deadline; amountIn := amountIn;
            amountOutMinimum := minOut; sqrtPriceLimitX96 := 0 |} in
       bind (called (on_exactInputSingle callees (ROUTER self) params)) (fun amountOut =>
       Done (amountOut,
             calls ++ [approve tokenIn (ROUTER self) amountIn;
                       exactInputSingle (ROUTER self) params]))))))
    (fun swapped =>
  let amountOut := swapped.1 in
  bind (require (amountOut >=? minOut) "SLIPPAGE") (fun _ =>
  bind (called (on_transfer callees (USDC self) merchant amountOut)) (fun sent =>
  bind (require sent "TRANSFER_FAILED") (fun _ =>
  Done (amountOut, swapped.2 ++ [transfer (USDC self) merchant amountOut])))))))).

End DollarRouter.

(** ** The Starknet contracts (Cairo) *)

Module Cairo.

(** A call returns or panics with a short string; a panic reverts the
    transaction. *)
Inductive result (A : Type) : Type :=
  | Return (a : A)
  | Panic (msg : string).
Arguments Return {A} a.
Arguments Panic {A} msg.

Definition bind {A B : Type} (m : result A) (k : A -> result B) : result B :=
  match m with
  | Return a => k a
  | Panic msg => Panic msg
  end.

Definition assert (cond : bool) (msg : string) : result unit :=
  if cond then Return tt else Panic msg.

(** [+] on [u128] and on [u256] panics on overflow. *)
Definition u128_add (a b : Z) : result Z :=
  if a + b <? 2 ^ 128 then Return (a + b) else Panic "u128_add Overflow".

Definition u256_add (a b : Z) : result Z :=
  if a + b <? 2 ^ 256 then Return (a + b) else Panic "u256_add Overflow".

(** [get_caller_address()] and [get_block_timestamp()]. *)
Record Env : Type := {
  caller_address : Z;
  block_timestamp : Z
}.

(** What the contracts use of OpenZeppelin's [OwnableComponent], which is
    not part of the repository: its storage, the initializer and the owner
    check, each of which may panic. *)
Class Ownable (O : Type) : Type := {
  initializer : Z -> result O;
  assert_only_owner : O -> Env -> result unit
}.

End Cairo.

Notation "'let?' x ':=' m 'in' k" := (Cairo.bind m (fun x => k))
  (at level 10, x name, m at level 100, k at level 200).

(** *** policy_guard *)

Module policy_guard.
Import Cairo.

Record Storage (O : Type) : Type := {
  ownable : O;
  attester : Z;
  policy : gmap (Z * Z) bool
}.
Arguments ownable {O} s.
Arguments attester {O} s.
Arguments policy {O} s.

Inductive Event : Type :=
  | PolicySet (user commitment : Z) (allowed : bool) (set_by : Z)
  | AttesterChanged (previous_attester new_attester : Z).

Module Errors.
Definition ONLY_ATTESTER : string := "Only attester can set policy".
Definition ONLY_OWNER : string := "Only owner can change attester".
Definition INVALID_ATTESTER : string := "Attester cannot be zero".
End Errors.

Section Contract.
Context {O : Type} `{Ownable O}.

Definition constructor (owner attester : Z) : result (Storage O) :=
  let? ownable := initializer owner in
  let? _ := assert (negb (attester =? 0)) Errors.INVALID_ATTESTER in
  Return {| ownable := ownable; attester := attester; policy := ∅ |}.

Definition _assert_only_attester (self : Storage O) (env : Env) : result unit :=
  let caller := caller_address env in
  let attester := attester self in
  assert (caller =? attester) Errors.ONLY_ATTESTER.

Definition set_policy (self : Storage O) (env : Env) (user commitment : Z) (allowed : bool)
    : result (Storage O * list Event) :=
  let? _ := _assert_only_attester self env in
  Return ({| ownable := ownable self; attester := attester self;
             policy := <[(user, commitment) := allowed]> (policy self) |},
          [PolicySet user commitment allowed (caller_address env)]).

(** A key never written reads as [false]. *)
Definition check_policy (self : Storage O) (user commitment : Z) : bool :=
  default false (policy self !! (user, commitment)).

Definition get_attester (self : Storage O) : Z := attester self.

Definition set_attester (self : Storage O) (env : Env) (new_attester : Z)
    : result (Storage O * list Event) :=
  let? _ := assert_only_owner (ownable self) env in
  let? _ := assert (negb (new_attester =? 0)) Errors.INVALID_ATTESTER in
  let previous_attester := attester self in
  Return ({| ownable := ownable self; attester := new_attester; policy := policy self |},
          [AttesterChanged previous_attester new_attester]).

(** The transactions the contract takes: its two writing entry points,
    and the entry points of the embedded component, which write the
    component's storage and nothing else. *)
Inductive Call : Type :=
  | call_set_policy (env : Env) (user commitment : Z) (allowed : bool)
  | call_set_attester (env : Env) (new_attester : Z)
  | call_ownable (after : O).

(** One transaction; a panic leaves the storage as it was and emits
    nothing. *)
Definition transact (st : Storage O * list Event) (call : Call) : Storage O * list Event :=
  match call with
  | call_set_policy env user commitment allowed =>
      match set_policy st.1 env user commitment allowed with
      | Return (self, events) => (self, st.2 ++ events)
      | Panic _ => st
      end
  | call_set_attester env new_attester =>
      match set_attester st.1 env new_attester with
      | Return (self, events) => (self, st.2 ++ events)
      | Panic _ => st
      end
  | call_ownable after =>
      ({| ownable := after; attester := attester st.1; policy := policy st.1 |}, st.2)
  end.

Definition run (self : Storage O) (calls : list Call) : Storage O * list Event :=
  fold_left transact calls (self, []).

End Contract.

(** The last value a [PolicySet] event of the log gives to a key. *)
Fixpoint last_policy (events : list Event) (user commitment : Z) (earlier : bool) : bool :=
  match events with
  | [] => earlier
  | PolicySet u c allowed _ :: rest =>
      last_policy rest user commitment
        (if (u =? user) && (c =? commitment) then allowed else earlier)
  | AttesterChanged _ _ :: rest => last_policy rest user commitment earlier
  end.

(** The attester after the last [AttesterChanged] event of the log. *)
Fixpoint last_attester (events : list Event) (earlier : Z) : Z :=
  match events with
  | [] => earlier
  | AttesterChanged _ new_attester :: rest => last_attester rest new_attester
  | PolicySet _ _ _ _ :: rest => last_attester rest earlier
  end.

(** Every [PolicySet] event of the log was set by the attester of its
    time, and every [AttesterChanged] event names the attester it replaced,
    [current] being the attester before the log. *)
Fixpoint set_by_attester (events : list Event) (current : Z) : Prop :=
  match events with
  | [] => True
  | PolicySet _ _ _ set_by :: rest => set_by = current /\ set_by_attester rest current
  | AttesterChanged previous_attester new_attester :: rest =>
      previous_attester = current /\ new_attester <> 0
      /\ set_by_attester rest new_attester
  end.

(** What every transaction keeps of a storage and the log of the events
    emitted so far, [attester0] being the attester at deployment. *)
Definition kept {O : Type} (attester0 : Z) (st : Storage O * list Event) : Prop :=
  attester st.1 <> 0
  /\ attester st.1 = last_attester st.2 attester0
  /\ (forall user commitment,
        check_policy st.1 user commitment = last_policy st.2 user commitment false)
  /\ set_by_attester st.2 attester0.

End policy_guard.

(** *** merchant_receipts (starknet/src/merchant_receipts.cairo) *)

Module merchant_receipts.
Import Cairo.

Record StoredReceipt : Type := {
  payer : Z;
  merchant : Z;
  token_in : Z;
  token_out : Z;
  amount_in : Z;
  amount_out : Z;
  nullifier_hash : Z;
  epoch : Z;
  policy_hash : Z;
  timestamp : Z
}.

(** What a storage slot never written reads as. *)
Definition zero_receipt : StoredReceipt :=
  {| payer := 0; merchant := 0; token_in := 0; token_out := 0; amount_in := 0;
     amount_out := 0; nullifier_hash := 0; epoch := 0; policy_hash := 0; timestamp := 0 |}.

(** The storage of the contract, the substorage of the Ownable component
    apart: the constructor and the component's own entry points write that
    one, and no function of the contract reads it. *)
Record Storage : Type := {
  receipt_count : Z;
  receipts : gmap Z StoredReceipt;
  merchant_receipts : gmap (Z * Z) Z;
  payer_receipts : gmap (Z * Z) Z;
  merchant_receipt_count : gmap Z Z;
  payer_receipt_count : gmap Z Z;
  merchant_total_volume : gmap Z Z
}.

(** The storage after deployment. *)
Definition deployed : Storage :=
  {| receipt_count := 0; receipts := ∅; merchant_receipts := ∅; payer_receipts := ∅;
     merchant_receipt_count := ∅; payer_receipt_count := ∅; merchant_total_volume := ∅ |}.

Inductive Event : Type :=
  | Receipt (receipt_id : Z) (receipt : StoredReceipt).

Module Errors.
Definition INVALID_ADDRESS : string := "Invalid address".
Definition INVALID_AMOUNT : string := "Amount must be > 0".
Definition RECEIPT_NOT_FOUND : string := "Receipt not found".
Definition INDEX_OUT_OF_BOUNDS : string := "Index out of bounds".
End Errors.

Definition read_receipt (self : Storage) (receipt_id : Z) : StoredReceipt :=
  default zero_receipt (receipts self !! receipt_id).

Definition read_count (counts : gmap Z Z) (who : Z) : Z := default 0 (counts !! who).

Definition read_index (index : gmap (Z * Z) Z) (who i : Z) : Z :=
  default 0 (index !! (who, i)).

Definition emit_receipt (self : Storage) (env : Env)
    (payer merchant token_in token_out amount_in amount_out nullifier_hash epoch
       policy_hash : Z) : result (Storage * list Event) :=
  let? _ := assert (negb (payer =? 0)) Errors.INVALID_ADDRESS in
  let? _ := assert (negb (merchant =? 0)) Errors.INVALID_ADDRESS in
  let? _ := assert (amount_in >? 0) Errors.INVALID_AMOUNT in
  let receipt_id := receipt_count self in
  let timestamp := block_timestamp env in
  let receipt :=
    {| payer := payer; merchant := merchant; token_in := token_in; token_out := token_out;
       amount_in := amount_in; amount_out := amount_out; nullifier_hash := nullifier_hash;
       epoch := epoch; policy_hash := policy_hash; timestamp := timestamp |} in
  let receipts1 := <[receipt_id := receipt]> (receipts self) in
  let merchant_idx := read_count (merchant_receipt_count self) merchant in
  let merchant_receipts1 := <[(merchant, merchant_idx) := receipt_id]> (merchant_receipts self) in
  let? merchant_next := u128_add merchant_idx 1 in
  let merchant_receipt_count1 := <[merchant := merchant_next]> (merchant_receipt_count self) in
  let payer_idx := read_count (payer_receipt_count self) payer in
  let payer_receipts1 := <[(payer, payer_idx) := receipt_id]> (payer_receipts self) in
  let? payer_next := u128_add payer_idx 1 in
  let payer_receipt_count1 := <[payer := payer_next]> (payer_receipt_count self) in
  let current_volume := read_count (merchant_total_volume self) merchant in
  let? volume := u256_add current_volume amount_in in
  let merchant_total_volume1 := <[merchant := volume]> (merchant_total_volume self) in
  let? next_id := u128_add receipt_id 1 in
  Return ({| receipt_count := next_id; receipts := receipts1;
             merchant_receipts := merchant_receipts1; payer_receipts := payer_receipts1;
             merchant_receipt_count := merchant_receipt_count1;
             payer_receipt_count := payer_receipt_count1;
             merchant_total_volume := merchant_total_volume1 |},
          [Receipt receipt_id receipt]).

Definition get_receipt (self : Storage) (receipt_id : Z) : result StoredReceipt :=
  let receipt := read_receipt self receipt_id in
  let? _ := assert (negb (payer receipt =? 0)) Errors.RECEIPT_NOT_FOUND in
  Return receipt.

Definition get_receipt_count (self : Storage) : Z := receipt_count self.

Definition get_merchant_receipt_count (self : Storage) (merchant : Z) : Z :=
  read_count (merchant_receipt_count self) merchant.

Definition get_merchant_receipt_at_index (self : Storage) (merchant index : Z)
    : result StoredReceipt :=
  let count := read_count (merchant_receipt_count self) merchant in
  let? _ := assert (index <? count) Errors.INDEX_OUT_OF_BOUNDS in
  let receipt_id := read_index (merchant_receipts self) merchant index in
  Return (read_receipt self receipt_id).

Definition get_payer_receipt_count (self : Storage) (payer : Z) : Z :=
  read_count (payer_receipt_count self) payer.

Definition get_payer_receipt_at_index (self : Storage) (payer index : Z)
    : result StoredReceipt :=
  let count := read_count (payer_receipt_count self) payer in
  let? _ := assert (index <? count) Errors.INDEX_OUT_OF_BOUNDS in
  let receipt_id := read_index (payer_receipts self) payer index in
  Return (read_receipt self receipt_id).

Definition get_merchant_total_volume (self : Storage) (merchant : Z) : Z :=
  read_count (merchant_total_volume self) merchant.

(** The arguments of a call of [emit_receipt]. *)
Record Call : Type := {
  call_env : Env;
  call_payer : Z;
  call_merchant : Z;
  call_token_in : Z;
  call_token_out : Z;
  call_amount_in : Z;
  call_amount_out : Z;
  call_nullifier_hash : Z;
  call_epoch : Z;
  call_policy_hash : Z
}.

(** One transaction; a panic leaves the storage as it was and emits
    nothing. *)
Definition transact (st : Storage * list Event) (call : Call) : Storage * list Event :=
  match emit_receipt st.1 (call_env call) (call_payer call) (call_merchant call)
          (call_token_in call) (call_token_out call) (call_amount_in call)
          (call_amount_out call) (call_nullifier_hash call) (call_epoch call)
          (call_policy_hash call) with
  | Return (self, events) => (self, st.2 ++ events)
  | Panic _ => st
  end.

Definition run (calls : list Call) : Storage * list Event :=
  fold_left transact calls (deployed, []).

(** The receipts of an event log, in order. *)
Definition logged (events : list Event) : list StoredReceipt :=
  map (fun e => match e with Receipt _ receipt => receipt end) events.

(** The events of a log carry the identifiers 0, 1, 2, ... in order. *)
Definition numbered (events : list Event) : Prop :=
  events = imap (fun i receipt => Receipt (Z.of_nat i) receipt) (logged events).

(** The receipt an identifier stands for in a log numbered from zero. *)
Definition at_index (log : list StoredReceipt) (receipt_id : Z) : option StoredReceipt :=
  if 0 <=? receipt_id then log !! Z.to_nat receipt_id else None.

(** The receipts of a log that name [who] as merchant, or as payer. *)
Definition of_key (key : StoredReceipt -> Z) (who : Z) (log : list StoredReceipt)
    : list StoredReceipt :=
  List.filter (fun receipt => key receipt =? who) log.

Definition of_merchant : Z -> list StoredReceipt -> list StoredReceipt := of_key merchant.

Definition of_payer : Z -> list StoredReceipt -> list StoredReceipt := of_key payer.

Definition volume (log : list StoredReceipt) : Z :=
  fold_right (fun receipt total => amount_in receipt + total) 0 log.

(** An index of the storage agrees with a log: it counts the receipts of
    every key and lists their identifiers in order. *)
Definition indexed (key : StoredReceipt -> Z) (counts : gmap Z Z) (index : gmap (Z * Z) Z)
    (log : list StoredReceipt) : Prop :=
  (forall who, read_count counts who = Z.of_nat (length (of_key key who log)))
  /\ (forall who (n : nat),
        (n < length (of_key key who log))%nat ->
        exists receipt_id,
          index !! (who, Z.of_nat n) = Some receipt_id
          /\ at_index log receipt_id = of_key key who log !! n).

(** The storage agrees with a log of receipts. *)
Record consistent (self : Storage) (log : list StoredReceipt) : Prop := {
  consistent_count : receipt_count self = Z.of_nat (length log);
  consistent_receipts : forall receipt_id, receipts self !! receipt_id = at_index log receipt_id;
  consistent_merchants :
    indexed merchant (merchant_receipt_count self) (merchant_receipts self) log;
  consistent_payers : indexed payer (payer_receipt_count self) (payer_receipts self) log;
  consistent_volume :
    forall who, read_count (merchant_total_volume self) who = volume (of_merchant who log);
  consistent_valid :
    Forall (fun receipt => payer receipt <> 0 /\ merchant receipt <> 0 /\ 0 < amount_in receipt)
      log
}.

End merchant_receipts.

(** ** A scenario for the Starknet contracts *)

Module StarknetScenario.

(** An owner check that lets the stored owner through and nobody else. *)
Definition ownable : Cairo.Ownable Z :=
  {| Cairo.initializer := fun owner => Cairo.Return owner;
     Cairo.assert_only_owner := fun owner env =>
       Cairo.assert (Cairo.caller_address env =? owner) "Caller is not the owner" |}.

Definition by_caller (caller : Z) : Cairo.Env :=
  {| Cairo.caller_address := caller; Cairo.block_timestamp := 1762000000 |}.

(** A call of [emit_receipt] by [caller] for a payment in token 7. *)
Definition receipt (caller payer merchant amount_in nullifier_hash : Z)
    : merchant_receipts.Call :=
  {| merchant_receipts.call_env := by_caller caller;
     merchant_receipts.call_payer := payer;
     merchant_receipts.call_merchant := merchant;
     merchant_receipts.call_token_in := 7;
     merchant_receipts.call_token_out := 7;
     merchant_receipts.call_amount_in := amount_in;
     merchant_receipts.call_amount_out := amount_in;
     merchant_receipts.call_nullifier_hash := nullifier_hash;
     merchant_receipts.call_epoch := 176200;
     merchant_receipts.call_policy_hash := 0 |}.

(** Four calls: two payments to merchant 20 under the same nullifier, one
    refused for its amount, one payment to merchant 21. *)
Definition receipts : list merchant_receipts.Call :=
  [receipt 1 10 20 5 99; receipt 2 11 20 6 99; receipt 1 10 20 0 98; receipt 3 10 21 7 97].

End StarknetScenario.

(** * Properties *)

(** *** Proofs: the Newton iteration *)

Module RiskMathFacts.
Import RiskMath.

(** One Newton step never goes below the integer square root. *)
Lemma newton_step_lower (v x : Z) :
  0 <= v -> 0 < x -> Z.sqrt v <= (x + v / x) / 2.
Proof.
  intros Hv Hx.
  pose proof (Z.sqrt_spec v Hv) as [Hs _].
  pose proof (Z.sqrt_nonneg v) as Hs0.
  apply Z.div_le_lower_bound; [lia|].
  assert (2 * Z.sqrt v - x <= v / x); [|lia].
  apply Z.div_le_lower_bound; [lia|].
  pose proof (Z.square_nonneg (x - Z.sqrt v)). nia.
Qed.

(** When the step does not decrease, the current value is at most the root. *)
Lemma newton_step_exit (v x : Z) :
  0 <= v -> 0 < x -> x <= (x + v / x) / 2 -> x * x <= v.
Proof.
  intros Hv Hx Hle.
  assert (2 * x <= x + v / x) as H2.
  { pose proof (Z.mul_div_le (x + v / x) 2 ltac:(lia)). lia. }
  pose proof (Z.mul_div_le v x Hx). nia.
Qed.

(** A value above the root gives a quotient at most the root. *)
Lemma newton_quot_upper (v x : Z) :
  0 <= v -> Z.sqrt v < x -> v / x <= Z.sqrt v.
Proof.
  intros Hv Hx.
  pose proof (Z.sqrt_spec v Hv) as [_ Hs].
  pose proof (Z.sqrt_nonneg v) as Hs0.
  assert (v / x < Z.sqrt v + 1); [|lia].
  apply Z.div_lt_upper_bound; [lia|]. nia.
Qed.

(** A decreasing step at least halves the distance to the root. *)
Lemma newton_step_halves (v x : Z) :
  0 <= v -> Z.sqrt v < x -> 2 * ((x + v / x) / 2 - Z.sqrt v) <= x - Z.sqrt v.
Proof.
  intros Hv Hx.
  pose proof (newton_quot_upper v x Hv Hx).
  pose proof (Z.sqrt_nonneg v) as Hs0.
  pose proof (Z.mul_div_le (x + v / x) 2 ltac:(lia)). lia.
Qed.

Lemma sqrt_unique_le (v x : Z) :
  0 <= v -> Z.sqrt v <= x -> x * x <= v -> x = Z.sqrt v.
Proof.
  intros Hv Hge Hsq.
  pose proof (Z.sqrt_spec v Hv) as [_ Hs].
  pose proof (Z.sqrt_nonneg v). nia.
Qed.

(** The loop, started at or above the root with the Newton successor in [y],
    ends on the root within [n + 2] iterations when the distance to the root
    is at most [2 ^ n]. *)
Lemma sqrt_loop_converges (v : Z) (n : nat) :
  1 <= v ->
  forall x, Z.sqrt v <= x -> x - Z.sqrt v <= 2 ^ Z.of_nat n ->
  sqrt_loop (n + 2) v x ((x + v / x) / 2) = Ok (Z.sqrt v).
Proof.
  intros Hv.
  assert (1 <= Z.sqrt v) as Hs1.
  { apply Z.sqrt_le_square; lia. }
  induction n as [|n IH]; intros x Hx Hd.
  - cbn [Nat.add sqrt_loop].
    destruct (Z.ltb_spec ((x + v / x) / 2) x) as [Hlt|Hge].
    + pose proof (newton_step_lower v x ltac:(lia) ltac:(lia)) as Hlo.
      assert ((x + v / x) / 2 = Z.sqrt v) as -> by (change (2 ^ Z.of_nat 0) with 1 in Hd; lia).
      unfold bigint_div. destruct (Z.eqb_spec (Z.sqrt v) 0); [lia|]. cbn [bind].
      rewrite (Z.quot_div_nonneg v (Z.sqrt v)) by lia.
      rewrite Z.quot_div_nonneg.
      2:{ pose proof (Z.div_pos v (Z.sqrt v) ltac:(lia) ltac:(lia)). lia. }
      2: lia.
      pose proof (newton_step_lower v (Z.sqrt v) ltac:(lia) ltac:(lia)).
      destruct (Z.ltb_spec ((Z.sqrt v + v / Z.sqrt v) / 2) (Z.sqrt v)); [lia|reflexivity].
    + f_equal. apply sqrt_unique_le; [lia|lia|].
      apply newton_step_exit; lia.
  - replace (S n + 2)%nat with (S (n + 2)) by lia. cbn [sqrt_loop].
    destruct (Z.ltb_spec ((x + v / x) / 2) x) as [Hlt|Hge].
    + pose proof (newton_step_lower v x ltac:(lia) ltac:(lia)) as Hlo.
      set (y := (x + v / x) / 2) in *.
      unfold bigint_div. destruct (Z.eqb_spec y 0); [lia|]. cbn [bind].
      rewrite (Z.quot_div_nonneg v y) by lia.
      rewrite Z.quot_div_nonneg.
      2:{ pose proof (Z.div_pos v y ltac:(lia) ltac:(lia)). lia. }
      2: lia.
      apply IH; [lia|].
      pose proof (newton_step_halves v x ltac:(lia) ltac:(lia)) as Hh.
      fold y in Hh.
      rewrite Nat2Z.inj_succ, Z.pow_succ_r in Hd by lia. lia.
    + f_equal. apply sqrt_unique_le; [lia|lia|].
      apply newton_step_exit; lia.
Qed.

(** More iterations than needed change nothing. *)
Lemma sqrt_loop_more_fuel (v : Z) (n m : nat) (x y r : Z) :
  sqrt_loop n v x y = Ok r -> (n <= m)%nat -> sqrt_loop m v x y = Ok r.
Proof.
  revert m x y. induction n as [|n IH]; intros m x y H Hle; [discriminate|].
  destruct m as [|m]; [lia|]. cbn [sqrt_loop] in *.
  destruct (y <? x); [|exact H].
  destruct (bigint_div v y) as [q|e]; cbn [bind] in *; [|discriminate].
  apply IH; [exact H|lia].
Qed.

Lemma sqrt_correct (v : Z) : 0 <= v -> sqrt v = Ok (Z.sqrt v).
Proof.
  intros Hv. unfold sqrt.
  destruct (Z.ltb_spec v 0); [lia|].
  destruct (Z.ltb_spec v 2) as [H2|H2].
  - f_equal. assert (v = 0 \/ v = 1) as [->| ->] by lia; reflexivity.
  - assert (Z.quot (v + 1) 2 = (v + v / v) / 2) as ->.
    { rewrite Z.quot_div_nonneg by lia. rewrite Z.div_same by lia. reflexivity. }
    unfold sqrt_fuel.
    replace (Z.to_nat (Z.log2 v) + 3)%nat with (S (Z.to_nat (Z.log2 v)) + 2)%nat by lia.
    apply sqrt_loop_converges; [lia| |].
    + apply Z.sqrt_le_lin; lia.
    + pose proof (Z.log2_spec v ltac:(lia)) as [_ Hlog].
      pose proof (Z.log2_nonneg v). pose proof (Z.sqrt_nonneg v).
      rewrite Nat2Z.inj_succ, Z2Nat.id by lia. lia.
Qed.

Lemma sqrt_negative (v : Z) : v < 0 -> sqrt v = Ok 0.
Proof. intros Hv. unfold sqrt. destruct (Z.ltb_spec v 0); [reflexivity|lia]. Qed.

Lemma sum_shift (l : list Z) (a : Z) :
  fold_left (fun sum a => sum + a) l a = a + sum l.
Proof.
  unfold sum. revert a. induction l as [|b l IH]; intros a; cbn [fold_left].
  - lia.
  - rewrite IH, (IH (0 + b)). lia.
Qed.

Lemma sum_cons (a : Z) (l : list Z) : sum (a :: l) = a + sum l.
Proof. unfold sum at 1. cbn [fold_left]. rewrite sum_shift. lia. Qed.

Lemma sum_map_nonneg (f : Z -> Z) (l : list Z) :
  (forall a, 0 <= f a) -> 0 <= sum (map f l).
Proof.
  intros Hf. induction l as [|a l IH]; [reflexivity|].
  cbn [map]. rewrite sum_cons. specialize (Hf a). lia.
Qed.

Lemma sum_squares_nonneg (amounts : list Z) (avg : Z) :
  0 <= sum (map (fun a => let diff := if a >? avg then a - avg else avg - a in
                          diff * diff) amounts).
Proof. apply sum_map_nonneg. intros a. cbv zeta. destruct (a >? avg); apply Z.square_nonneg. Qed.

(** [calculateStdDev] never throws: the root of a mean of squares. *)
Lemma calculateStdDev_total (amounts : list Z) (avg : Z) :
  exists r, calculateStdDev amounts avg = Ok r /\ 0 <= r.
Proof.
  unfold calculateStdDev.
  destruct (Z.eqb_spec (Z.of_nat (length amounts)) 0) as [|Hn]; [exists 0; split; [reflexivity|lia]|].
  unfold bigint_div. destruct (Z.eqb_spec (Z.of_nat (length amounts)) 0); [contradiction|].
  cbn [bind].
  pose proof (sum_squares_nonneg amounts avg) as Hs.
  assert (0 < Z.of_nat (length amounts)) as Hlen by lia.
  rewrite Z.quot_div_nonneg; [|exact Hs|exact Hlen].
  rewrite sqrt_correct by (apply Z.div_pos; [exact Hs|exact Hlen]).
  eexists; split; [reflexivity|apply Z.sqrt_nonneg].
Qed.

End RiskMathFacts.

(** *** Proofs: the risk score and the decision bands *)

Module RiskAnalyzerFacts.
Import RiskMath RiskMathFacts Str RiskAnalyzer Stats.

Lemma calculateStdDev_spec (amounts : list Z) (avg : Z) :
  amounts <> [] ->
  calculateStdDev amounts avg =
  Ok (Z.sqrt (Z.quot (sum (map (fun a => (a - avg) * (a - avg)) amounts))
                     (Z.of_nat (length amounts)))).
Proof.
  intros Hne. unfold calculateStdDev.
  assert (0 < Z.of_nat (length amounts)) as Hlen by (destruct amounts; [congruence|cbn; lia]).
  destruct (Z.eqb_spec (Z.of_nat (length amounts)) 0) as [|_]; [lia|].
  unfold bigint_div. destruct (Z.eqb_spec (Z.of_nat (length amounts)) 0) as [|_]; [lia|].
  cbn [bind].
  assert (map (fun a => let diff := if a >? avg then a - avg else avg - a in diff * diff) amounts
          = map (fun a => (a - avg) * (a - avg)) amounts) as Hmap.
  { apply map_ext. intros a. cbv zeta. destruct (a >? avg); ring. }
  cbv zeta in Hmap. rewrite Hmap.
  apply sqrt_correct.
  rewrite Z.quot_div_nonneg; [apply Z.div_pos| |]; try exact Hlen;
    apply sum_map_nonneg; intros a; apply Z.square_nonneg.
Qed.

Lemma isUnusualAmount_spec (self : t) (amount : Z) :
  isUnusualAmount self amount = Ok (outlier (map amountIn (transactionHistory self)) amount).
Proof.
  unfold isUnusualAmount, outlier. rewrite length_map.
  set (h := transactionHistory self).
  destruct (Z.ltb_spec (Z.of_nat (length h)) 10) as [Hlt|Hge].
  - destruct (Z.leb_spec 10 (Z.of_nat (length h))); [lia|reflexivity].
  - destruct (Z.leb_spec 10 (Z.of_nat (length h))) as [_|]; [|lia].
    cbv zeta. rewrite ?length_map. unfold bigint_div.
    destruct (Z.eqb_spec (Z.of_nat (length h)) 0); [lia|]. cbn [bind].
    rewrite calculateStdDev_spec.
    2:{ destruct h; [cbn in Hge; lia|discriminate]. }
    cbn [bind andb]. unfold std_dev, mean. rewrite ?length_map.
    do 2 f_equal; f_equal; f_equal; ring.
Qed.

Lemma outlier_needs_history (history : list Z) (amount : Z) :
  Z.of_nat (length history) < 10 -> outlier history amount = false.
Proof.
  intros H. unfold outlier.
  destruct (Z.leb_spec 10 (Z.of_nat (length history))); [lia|reflexivity].
Qed.

Lemma identifyRiskFactors_spec (self : t) (request : PaymentRequest) :
  identifyRiskFactors self request =
  Ok {| merchantUnknown :=
          negb (bool_decide (is_Some (merchantDatabase self !! toLowerCase (merchant request))));
        tokenUnknown := isUnknownToken (tokenIn request);
        amountUnusual := outlier (map amountIn (transactionHistory self)) (amountIn request);
        gasUnusual := false;
        recentFailures := 0;
        velocityExceeded := checkVelocity self (merchant request) |}.
Proof. unfold identifyRiskFactors. rewrite isUnusualAmount_spec. reflexivity. Qed.

(** What [analyze] returns, in one equation. *)
Lemma analyze_spec (self : t) (request : PaymentRequest) (policyValid : bool) :
  exists factors,
    identifyRiskFactors self request = Ok factors /\
    gasUnusual factors = false /\ recentFailures factors = 0 /\
    let score := calculateRiskScore factors policyValid in
    let r := decisionLogic policyValid score (factorFlags factors) in
    analyze self request policyValid =
    Ok ({| approved := r.1.1.1; reason := r.1.1.2; riskScore := score;
           confidence := calculateConfidence self request factors;
           flags := r.2; suggestedAction := r.1.2 |},
        {| merchantDatabase := merchantDatabase self;
           transactionHistory := recordTransaction (transactionHistory self) request |}).
Proof.
  eexists. split; [apply identifyRiskFactors_spec|].
  split; [reflexivity|]. split; [reflexivity|].
  cbv zeta. unfold analyze. rewrite identifyRiskFactors_spec. cbn [bind].
  destruct (decisionLogic _ _ _) as [[[a r] s] f]. reflexivity.
Qed.

Lemma calculateRiskScore_range (factors : RiskFactors) (policyValid : bool) :
  0 <= recentFailures factors -> 0 <= calculateRiskScore factors policyValid <= 100.
Proof.
  intros H. unfold calculateRiskScore.
  destruct policyValid, (merchantUnknown factors), (tokenUnknown factors),
    (amountUnusual factors), (gasUnusual factors), (velocityExceeded factors);
    cbn [negb]; lia.
Qed.

Lemma factorFlags_no_monitoring (factors : RiskFactors) :
  recentFailures factors = 0 ->
  ~ In "REQUIRES_MONITORING"%string (factorFlags factors).
Proof.
  intros H. unfold factorFlags. rewrite H.
  destruct (merchantUnknown factors), (tokenUnknown factors),
    (amountUnusual factors), (velocityExceeded factors); cbn;
    intros Hin; repeat (destruct Hin as [Hin|Hin]; [discriminate Hin|]); exact Hin.
Qed.

(** The flags of a decision when no failure is counted. *)
Lemma decisionLogic_no_recent_failures (factors : RiskFactors) (policyValid : bool)
    (score : Z) :
  recentFailures factors = 0 ->
  ~ In "RECENT_FAILURES"%string (decisionLogic policyValid score (factorFlags factors)).2.
Proof.
  intros H. unfold decisionLogic, factorFlags. rewrite H.
  destruct policyValid, (score <? 30), (score <? 60), (score <? 80),
    (merchantUnknown factors), (tokenUnknown factors),
    (amountUnusual factors), (velocityExceeded factors); cbn;
    intros Hin; repeat (destruct Hin as [Hin|Hin]; [discriminate Hin|]); exact Hin.
Qed.

End RiskAnalyzerFacts.

(** ** Bytes: encodings and their inverses *)

Module BytesFacts.
Import Bytes.

Lemma Z_of_byte_range (b : byte) : 0 <= Z_of_byte b < 256.
Proof.
  unfold Z_of_byte. pose proof (Byte.to_N_bounded b) as H. lia.
Qed.

Lemma byte_of_Z_of_byte (b : byte) : byte_of_Z (Z_of_byte b) = b.
Proof.
  unfold byte_of_Z. rewrite Z.mod_small by apply Z_of_byte_range.
  unfold Z_of_byte. rewrite N2Z.id, Byte.of_to_N. reflexivity.
Qed.

Lemma Z_of_byte_of_Z (z : Z) : Z_of_byte (byte_of_Z z) = z mod 256.
Proof.
  unfold byte_of_Z, Z_of_byte.
  pose proof (Z.mod_pos_bound z 256 ltac:(lia)) as Hr.
  destruct (Byte.of_N (Z.to_N (z mod 256))) as [b|] eqn:E.
  - apply Byte.to_of_N in E. rewrite E. lia.
  - apply Byte.of_N_None_iff in E. lia.
Qed.

Lemma byte_of_Z_mod (z : Z) : byte_of_Z (z mod 256) = byte_of_Z z.
Proof. unfold byte_of_Z. rewrite Z.mod_mod by lia. reflexivity. Qed.

Lemma byte_of_Z_land (z : Z) : byte_of_Z (Z.land z 255) = byte_of_Z z.
Proof.
  change 255 with (Z.ones 8). rewrite Z.land_ones by lia.
  apply byte_of_Z_mod.
Qed.

Lemma byte_of_Z_add_mul (x b : Z) : byte_of_Z (x * 256 + b) = byte_of_Z b.
Proof.
  rewrite <- (byte_of_Z_mod (x * 256 + b)), <- (byte_of_Z_mod b).
  f_equal. rewrite Z.add_comm, Z.mod_add by lia. reflexivity.
Qed.

Lemma length_be_bytes (n : nat) (v : Z) : length (be_bytes n v) = n.
Proof.
  revert v. induction n as [|n IH]; intros v; cbn [be_bytes]; [reflexivity|].
  rewrite length_app, IH. cbn. lia.
Qed.

Lemma be_value_app (l : list byte) (b : byte) :
  be_value (l ++ [b]) = be_value l * 256 + Z_of_byte b.
Proof. unfold be_value. rewrite fold_left_app. reflexivity. Qed.

Lemma be_value_range (l : list byte) : 0 <= be_value l < 256 ^ Z.of_nat (length l).
Proof.
  induction l as [|b l IH] using rev_ind; [cbn; lia|].
  rewrite be_value_app, length_app, Nat2Z.inj_add, Z.pow_add_r by lia.
  pose proof (Z_of_byte_range b). cbn [length Z.of_nat Pos.of_succ_nat].
  change (256 ^ 1) with 256. nia.
Qed.

(** Big-endian bytes of a value read back as the value, modulo the width. *)
Lemma be_value_be_bytes (n : nat) (v : Z) :
  be_value (be_bytes n v) = v mod 256 ^ Z.of_nat n.
Proof.
  revert v. induction n as [|n IH]; intros v.
  - cbn. rewrite Z.mod_1_r. reflexivity.
  - cbn [be_bytes]. rewrite be_value_app, IH, Z_of_byte_of_Z.
    rewrite Z.shiftr_div_pow2 by lia. change (2 ^ 8) with 256.
    rewrite Nat2Z.inj_succ, Z.pow_succ_r by lia.
    rewrite (Z.rem_mul_r v 256 (256 ^ Z.of_nat n)) by lia. lia.
Qed.

(** A value read from [n] bytes writes back the same bytes. *)
Lemma be_bytes_be_value (l : list byte) :
  be_bytes (length l) (be_value l) = l.
Proof.
  induction l as [|b l IH] using rev_ind; [reflexivity|].
  rewrite length_app. cbn [length]. replace (length l + 1)%nat with (S (length l)) by lia.
  cbn [be_bytes]. rewrite be_value_app.
  rewrite byte_of_Z_add_mul, byte_of_Z_of_byte.
  rewrite Z.shiftr_div_pow2 by lia. change (2 ^ 8) with 256.
  pose proof (Z_of_byte_range b).
  replace ((be_value l * 256 + Z_of_byte b) / 256) with (be_value l).
  - rewrite IH. reflexivity.
  - rewrite Z.add_comm, Z.div_add by lia. rewrite Z.div_small by lia. lia.
Qed.

Lemma be_bytes_mod (n : nat) (v : Z) :
  be_bytes n (v mod 256 ^ Z.of_nat n) = be_bytes n v.
Proof.
  rewrite <- (be_value_be_bytes n v).
  rewrite <- (length_be_bytes n v) at 1. apply be_bytes_be_value.
Qed.

(** Reading a list back through its indices. *)
Lemma map_nth_seq {A : Type} (l : list A) (d : A) :
  map (fun i => nth i l d) (seq 0 (length l)) = l.
Proof.
  induction l as [|a l IH]; [reflexivity|].
  cbn [length seq map nth]. f_equal.
  rewrite <- seq_shift, map_map. exact IH.
Qed.

End BytesFacts.

(** ** Hexadecimal text *)

Module HexFacts.
Import Bytes BytesFacts Str Viem.

(** A property of the sixteen nibbles is checked on each of them. *)
Lemma nibble_ind (P : Z -> Prop) :
  (forall k : nat, (k < 16)%nat -> P (Z.of_nat k)) -> forall n, 0 <= n < 16 -> P n.
Proof.
  intros HP n Hn. rewrite <- (Z2Nat.id n) by lia. apply HP. lia.
Qed.

Ltac each_nibble :=
  apply nibble_ind; intros k Hk;
  do 16 (destruct k as [|k]; [reflexivity|]); lia.

Lemma hex_value_digit (n : Z) : 0 <= n < 16 -> hex_value (hex_digit n) = Some n.
Proof. revert n. each_nibble. Qed.

Lemma is_hex_digit_digit (n : Z) : 0 <= n < 16 -> is_hex_digit (hex_digit n) = true.
Proof. revert n. each_nibble. Qed.

Lemma lower_hex_digit (n : Z) : 0 <= n < 16 -> lower_ascii (hex_digit n) = hex_digit n.
Proof. revert n. each_nibble. Qed.

(** A hexadecimal character has a value, and its lower case is that
    value's digit. *)
Lemma hex_char (c : ascii) :
  is_hex_digit c = true ->
  exists v, 0 <= v < 16 /\ hex_value c = Some v /\ lower_ascii c = hex_digit v
            /\ hex_value (lower_ascii c) = Some v.
Proof.
  intros H. exists (match hex_value c with Some v => v | None => 0 end).
  destruct c as [[] [] [] [] [] [] [] []]; try discriminate H;
    vm_compute; repeat split; try reflexivity; intros ?; discriminate.
Qed.

Lemma byte_nibbles (b : byte) :
  0 <= Z_of_byte b / 16 < 16 /\ 0 <= Z_of_byte b mod 16 < 16
  /\ 16 * (Z_of_byte b / 16) + Z_of_byte b mod 16 = Z_of_byte b.
Proof.
  pose proof (Z_of_byte_range b).
  pose proof (Z.mod_pos_bound (Z_of_byte b) 16 ltac:(lia)).
  pose proof (Z.div_mod (Z_of_byte b) 16 ltac:(lia)).
  pose proof (Z.div_pos (Z_of_byte b) 16 ltac:(lia) ltac:(lia)).
  pose proof (Z.div_lt_upper_bound (Z_of_byte b) 16 16 ltac:(lia) ltac:(lia)).
  lia.
Qed.

Lemma Buffer_from_hex_of_bytes (bs : list byte) : Buffer_from_hex (hex_of_bytes bs) = bs.
Proof.
  induction bs as [|b bs IH]; [reflexivity|].
  cbn [hex_of_bytes Buffer_from_hex].
  destruct (byte_nibbles b) as (Hh & Hl & Heq).
  rewrite !hex_value_digit by assumption.
  rewrite Heq, byte_of_Z_of_byte, IH. reflexivity.
Qed.

Lemma append_nil (s : string) : ("" ++ s)%string = s.
Proof. reflexivity. Qed.

Lemma append_cons (c : ascii) (a s : string) :
  (String c a ++ s)%string = String c (a ++ s).
Proof. reflexivity. Qed.

Lemma decode_strict_app (a : list byte) (s : string) :
  decode_strict (hex_of_bytes a ++ s) =
  (let* rest := decode_strict s in Ok (a ++ rest)).
Proof.
  induction a as [|b a IH].
  - cbn [hex_of_bytes]. rewrite append_nil. destruct (decode_strict s); reflexivity.
  - cbn [hex_of_bytes]. rewrite !append_cons. cbn [decode_strict].
    destruct (byte_nibbles b) as (Hh & Hl & Heq).
    rewrite !hex_value_digit by assumption.
    rewrite Heq, byte_of_Z_of_byte, IH.
    destruct (decode_strict s); reflexivity.
Qed.

Lemma string_app_empty (s : string) : (s ++ "")%string = s.
Proof.
  induction s as [|c s IH]; [reflexivity|]. rewrite append_cons, IH. reflexivity.
Qed.

Lemma decode_strict_of_bytes (bs : list byte) : decode_strict (hex_of_bytes bs) = Ok bs.
Proof.
  rewrite <- (string_app_empty (hex_of_bytes bs)), decode_strict_app.
  cbn. rewrite app_nil_r. reflexivity.
Qed.

Lemma hex_of_bytes_app (a b : list byte) :
  hex_of_bytes (a ++ b) = (hex_of_bytes a ++ hex_of_bytes b)%string.
Proof.
  induction a as [|x a IH]; [reflexivity|].
  cbn [app hex_of_bytes]. rewrite !append_cons, IH. reflexivity.
Qed.

Lemma length_hex_of_bytes (bs : list byte) :
  String.length (hex_of_bytes bs) = (2 * length bs)%nat.
Proof. induction bs as [|b bs IH]; cbn [hex_of_bytes String.length length]; lia. Qed.

Lemma even_length_hex_of_bytes (bs : list byte) :
  Nat.even (String.length (hex_of_bytes bs)) = true.
Proof. induction bs as [|b bs IH]; [reflexivity|exact IH]. Qed.

Lemma all_hex_of_bytes (bs : list byte) : all_hex (hex_of_bytes bs) = true.
Proof.
  induction bs as [|b bs IH]; [reflexivity|].
  cbn [hex_of_bytes all_hex].
  destruct (byte_nibbles b) as (Hh & Hl & _).
  rewrite !is_hex_digit_digit, IH by assumption. reflexivity.
Qed.

Lemma lower_hex_of_bytes (bs : list byte) : toLowerCase (hex_of_bytes bs) = hex_of_bytes bs.
Proof.
  induction bs as [|b bs IH]; [reflexivity|].
  cbn [hex_of_bytes toLowerCase].
  destruct (byte_nibbles b) as (Hh & Hl & _).
  rewrite !lower_hex_digit, IH by assumption. reflexivity.
Qed.

(** Hexadecimal digits, an even number of them, are the digits of one byte
    string, whatever their case. *)
Lemma hex_digits_decode (n : nat) (s : string) :
  all_hex s = true -> String.length s = (2 * n)%nat ->
  exists bs, length bs = n /\ Buffer_from_hex s = bs /\ decode_strict s = Ok bs
             /\ toLowerCase s = hex_of_bytes bs.
Proof.
  revert s. induction n as [|n IH]; intros s Hhex Hlen.
  - destruct s; [|discriminate]. exists []. repeat split; reflexivity.
  - destruct s as [|c1 [|c2 s]]; [cbn in Hlen; lia|cbn in Hlen; lia|].
    cbn [all_hex] in Hhex.
    apply andb_prop in Hhex as [H1 Hhex]. apply andb_prop in Hhex as [H2 Hhex].
    destruct (IH s Hhex) as (bs & Hl & Hb & Hd & Hlow); [cbn in Hlen; lia|].
    destruct (hex_char c1 H1) as (h & Hh & Hv1 & Hlow1 & _).
    destruct (hex_char c2 H2) as (l & Hlr & Hv2 & Hlow2 & _).
    exists (byte_of_Z (16 * h + l) :: bs).
    assert (Z_of_byte (byte_of_Z (16 * h + l)) = 16 * h + l) as Hz.
    { rewrite Z_of_byte_of_Z. apply Z.mod_small. lia. }
    assert ((16 * h + l) / 16 = h) as Hq.
    { rewrite Z.add_comm, Z.mul_comm, Z.div_add by lia. rewrite Z.div_small by lia. lia. }
    assert ((16 * h + l) mod 16 = l) as Hr.
    { rewrite Z.add_comm, Z.mul_comm, Z.mod_add by lia. apply Z.mod_small. lia. }
    repeat split.
    + cbn. lia.
    + cbn [Buffer_from_hex]. rewrite Hv1, Hv2, Hb. reflexivity.
    + cbn [decode_strict]. rewrite Hv1, Hv2, Hd. reflexivity.
    + cbn [toLowerCase hex_of_bytes]. rewrite Hz, Hq, Hr, Hlow1, Hlow2, Hlow. reflexivity.
Qed.

(** [hexToBytes] undoes [toHex]. *)
Lemma hexToBytes_toHex (bs : list byte) : hexToBytes (toHex bs) = Ok bs.
Proof.
  unfold hexToBytes, toHex. rewrite !append_cons, append_nil. cbn [slice2].
  rewrite even_length_hex_of_bytes. apply decode_strict_of_bytes.
Qed.

Lemma keccak256_toHex (bs : list byte) : keccak256 (toHex bs) = Ok (keccak256_bytes bs).
Proof. unfold keccak256. rewrite hexToBytes_toHex. reflexivity. Qed.

Lemma length_keccak256 (msg : list byte) : length (Keccak.keccak256 msg) = 32%nat.
Proof. unfold Keccak.keccak256, Keccak.squeeze. rewrite length_map, length_seq. reflexivity. Qed.

End HexFacts.

(** The hash is never unfolded by a proof: it is computed, by the virtual
    machine, on concrete inputs only. *)
#[global] Opaque Keccak.keccak256.

(** ** The policy hash on both sides *)

Module PolicyHashFacts.
Import Bytes BytesFacts Str Viem HexFacts EVM.

(** [u256ToBytes] writes the big-endian bytes, whatever the integer. *)
Lemma u256ToBytes_loop_spec (k : nat) (b : list byte) (x : Z) :
  (k <= length b)%nat ->
  TransactionBuilder.u256ToBytes_loop k b x = be_bytes k x ++ drop k b.
Proof.
  revert b x. induction k as [|i IH]; intros b x Hk; [reflexivity|].
  cbn [TransactionBuilder.u256ToBytes_loop be_bytes].
  rewrite IH by (rewrite length_insert; lia).
  rewrite byte_of_Z_land, <- app_assoc. f_equal.
  rewrite insert_take_drop by lia.
  rewrite drop_app_length' by (rewrite length_take; lia).
  reflexivity.
Qed.

Lemma u256ToBytes_spec (n : Z) : TransactionBuilder.u256ToBytes n = be_bytes 32 n.
Proof.
  unfold TransactionBuilder.u256ToBytes.
  rewrite u256ToBytes_loop_spec by (rewrite repeat_length; lia).
  rewrite drop_ge by (rewrite repeat_length; lia).
  apply app_nil_r.
Qed.

Lemma length_toHex (bs : list byte) : String.length (toHex bs) = (2 + 2 * length bs)%nat.
Proof. unfold toHex. rewrite !append_cons, append_nil. cbn. rewrite length_hex_of_bytes. lia. Qed.

Lemma slice2_toHex (bs : list byte) : slice2 (toHex bs) = hex_of_bytes bs.
Proof. reflexivity. Qed.

Lemma startsWith0x_toHex (bs : list byte) : startsWith0x (toHex bs) = true.
Proof. reflexivity. Qed.

(** A 32-byte value in [toHex] form passes as a [bytes32] argument. *)
Lemma encode_packed1_bytes32 (h : list byte) :
  length h = 32%nat -> encode_packed1 (p_bytes32 (toHex h)) = Ok (toHex h).
Proof.
  intros Hlen. unfold encode_packed1.
  rewrite length_toHex, Hlen. reflexivity.
Qed.

Lemma encode_packed1_uint256 (e : Z) :
  0 <= e < 2 ^ 256 -> encode_packed1 (p_uint256 e) = Ok (toHex (be_bytes 32 e)).
Proof.
  intros He. unfold encode_packed1.
  destruct (Z.leb_spec 0 e); [|lia]. destruct (Z.ltb_spec e (2 ^ 256)); [|lia].
  reflexivity.
Qed.

Lemma encode_packed1_uint64 (e : Z) :
  0 <= e < 2 ^ 64 -> encode_packed1 (p_uint64 e) = Ok (toHex (be_bytes 8 e)).
Proof.
  intros He. unfold encode_packed1.
  destruct (Z.leb_spec 0 e); [|lia]. destruct (Z.ltb_spec e (2 ^ 64)); [|lia].
  reflexivity.
Qed.

Lemma replace_0x_toHex (bs : list byte) : replace_0x (toHex bs) = hex_of_bytes bs.
Proof. reflexivity. Qed.

Lemma append_assoc (a b c : string) : ((a ++ b) ++ c)%string = (a ++ b ++ c)%string.
Proof.
  induction a as [|x a IH]; [now rewrite !append_nil|].
  rewrite !append_cons, IH. reflexivity.
Qed.

Lemma concatHex_fold (parts : list (list byte)) (acc : string) :
  fold_left (fun acc x => (acc ++ replace_0x x)%string) (map toHex parts) acc
  = (acc ++ hex_of_bytes (concat parts))%string.
Proof.
  revert acc. induction parts as [|b parts IH]; intros acc; cbn [map fold_left concat].
  - symmetry. apply string_app_empty.
  - rewrite IH, replace_0x_toHex, hex_of_bytes_app. apply append_assoc.
Qed.

(** Parts in [toHex] form concatenate to the [toHex] form of their bytes. *)
Lemma concatHex_toHex (parts : list (list byte)) :
  concatHex (map toHex parts) = toHex (concat parts).
Proof. unfold concatHex. rewrite concatHex_fold. reflexivity. Qed.

(** Memory: what two adjacent stores leave in the 64 bytes they cover. *)
Lemma mem_range_mstore (m : memory) (p v : Z) :
  mem_range (mstore m p v) p 32 = be_bytes 32 v.
Proof.
  unfold mem_range, mstore.
  etransitivity; [|apply (map_nth_seq (be_bytes 32 v) x00)].
  rewrite length_be_bytes.
  apply map_ext_in. intros i Hi. apply in_seq in Hi.
  destruct (Z.leb_spec p (p + Z.of_nat i)); [|lia].
  destruct (Z.ltb_spec (p + Z.of_nat i) (p + 32)); [|lia].
  cbn [andb]. f_equal. lia.
Qed.

Lemma mem_range_mstore_other (m : memory) (p q v : Z) (n : nat) :
  p + Z.of_nat n <= q \/ q + 32 <= p ->
  mem_range (mstore m q v) p n = mem_range m p n.
Proof.
  intros Hd. unfold mem_range, mstore.
  apply map_ext_in. intros i Hi. apply in_seq in Hi.
  destruct (Z.leb_spec q (p + Z.of_nat i)), (Z.ltb_spec (p + Z.of_nat i) (q + 32));
    cbn [andb]; try reflexivity; lia.
Qed.

Lemma map_seq_shift {A : Type} (f : nat -> A) (k start len : nat) :
  map f (seq (start + k) len) = map (fun i => f (i + k)%nat) (seq start len).
Proof.
  revert start. induction len as [|len IH]; intros start; [reflexivity|].
  cbn [seq map]. f_equal. apply (IH (S start)).
Qed.

Lemma mem_range_split (m : memory) (p : Z) (a b : nat) :
  mem_range m p (a + b) = mem_range m p a ++ mem_range m (p + Z.of_nat a) b.
Proof.
  unfold mem_range. rewrite seq_app, map_app. f_equal.
  rewrite (map_seq_shift _ a 0 b).
  apply map_ext. intros i. f_equal. lia.
Qed.

End PolicyHashFacts.

Module PolicyHash.
Import Bytes BytesFacts Str Viem HexFacts EVM PolicyHashFacts Reference.

Lemma buildPlan_policyHash_spec (h : list byte) (e : Z) :
  TransactionBuilder.buildPlan_policyHash (toHex h) e = toHex (canonical h e).
Proof.
  unfold TransactionBuilder.buildPlan_policyHash, keccak256_bytes, Buffer_concat, canonical.
  rewrite slice2_toHex, Buffer_from_hex_of_bytes, u256ToBytes_spec.
  cbn [concat]. rewrite app_nil_r. reflexivity.
Qed.

Lemma calculatePolicyHash_spec (h : list byte) (e : Z) :
  length h = 32%nat -> 0 <= e < 2 ^ 256 ->
  AttestationManager.calculatePolicyHash (toHex h) e = Ok (toHex (canonical h e)).
Proof.
  intros Hh He. unfold AttestationManager.calculatePolicyHash, encodePacked.
  cbn [encode_packed_parts].
  rewrite encode_packed1_bytes32, encode_packed1_uint256 by assumption.
  cbn [JS.bind].
  change [toHex h; toHex (be_bytes 32 e)] with (map toHex [h; be_bytes 32 e]).
  rewrite concatHex_toHex.
  cbn [concat]. rewrite app_nil_r.
  apply (keccak256_toHex (h ++ be_bytes 32 e)).
Qed.

(** The assembly block, on any memory whose free pointer leaves room for
    the two words. *)
Lemma _policyHash_asm_spec (m : memory) (u e : Z) :
  mload m 0x40 + 0x40 <= 2 ^ 256 ->
  (CompliancePaymaster._policyHash_asm m u e).1 =
  be_value (Keccak.keccak256 (be_bytes 32 u ++ be_bytes 32 e)).
Proof.
  intros Hp. unfold CompliancePaymaster._policyHash_asm. cbn [fst].
  set (p := mload m 0x40) in *.
  assert (0 <= p) as Hp0 by (apply be_value_range).
  assert (add p 0x20 = p + 32) as -> by (unfold add; apply Z.mod_small; lia).
  unfold EVM.keccak256. do 2 f_equal.
  change (Z.to_nat 0x40) with (32 + 32)%nat.
  rewrite mem_range_split. f_equal.
  - rewrite mem_range_mstore_other by lia. apply mem_range_mstore.
  - apply mem_range_mstore.
Qed.

Lemma _policyHash_spec (u e : Z) :
  CompliancePaymaster._policyHash u e =
  be_value (Keccak.keccak256 (be_bytes 32 u ++ be_bytes 32 e)).
Proof.
  unfold CompliancePaymaster._policyHash. apply _policyHash_asm_spec.
  vm_compute. discriminate.
Qed.

(** What [buildPlan] puts in the plan. *)
Lemma buildPlan_hashes (logger : Logger.t) (enc : TransactionBuilder.encoder) (now : Z)
    (request : PaymentRequest) (e : Z) (plan : TransactionPlan.t) :
  TransactionBuilder.buildPlan logger enc now request (Integer e) = Ok plan ->
  exists h, length h = 32%nat /\
    TransactionPlan.userOpHash plan = toHex h /\
    TransactionPlan.policyHash plan = toHex (canonical h e) /\
    TransactionPlan.epoch plan = e /\
    TransactionPlan.target plan = merchant request.
Proof.
  unfold TransactionBuilder.buildPlan. intros H.
  destruct (TransactionBuilder.encodePaymentCall enc now request) as [callData|]; [|discriminate].
  cbn [JS.bind BigInt] in H.
  destruct (Logger.debug logger _); [|discriminate].
  cbn [JS.bind] in H. injection H as <-.
  cbn [TransactionPlan.userOpHash TransactionPlan.policyHash TransactionPlan.epoch
       TransactionPlan.target].
  unfold TransactionBuilder.calculateUserOpHash, keccak256_bytes.
  eexists. split; [apply length_keccak256|].
  split; [reflexivity|]. split; [|split; reflexivity].
  apply buildPlan_policyHash_spec.
Qed.

End PolicyHash.

(** ** Keccak-256 on the standard test vectors *)

Module KeccakFacts.
Import Bytes.

Example keccak256_empty :
  hex_of_bytes (Keccak.keccak256 []) =
  "c5d2460186f7233c927e7db2dcc703c0e500b653ca82273b7bfad8045d85a470"%string.
Proof. vm_compute. reflexivity. Qed.

Example keccak256_abc :
  hex_of_bytes (Keccak.keccak256 (list_byte_of_string "abc")) =
  "4e03657aea45a94fc7d47ba826c8d667c0d1e6e33a64a036ec44f58fa12d6c45"%string.
Proof. vm_compute. reflexivity. Qed.

(** Two blocks, and the one-byte padding of a message one short of a block. *)
Example keccak256_two_blocks :
  hex_of_bytes (Keccak.keccak256 (repeat x61 200)) =
  "96ea54061def936c4be90b518992fdc6f12f535068a256229aca54267b4d084d"%string.
Proof. vm_compute. reflexivity. Qed.

Example keccak256_pad_one :
  hex_of_bytes (Keccak.keccak256 (repeat x61 135)) =
  "34367dc248bbd832f4e3e69dfaac2f92638bd0bbd18f2912ba4ef454919cf446"%string.
Proof. vm_compute. reflexivity. Qed.

End KeccakFacts.

(** ** The validator *)

Module PaymasterFacts.
Import Bytes BytesFacts Sol EVM Reference CompliancePaymaster.

Lemma word_256 : 256 ^ Z.of_nat 32 = 2 ^ 256.
Proof. reflexivity. Qed.

Lemma _decode_short (d : list byte) :
  (length d < 116)%nat -> _decode d = Revert (RequireFailed "PMD_TOO_SHORT").
Proof.
  intros H. unfold _decode, require.
  destruct (Z.geb_spec (Z.of_nat (length d)) (20 + 32 * 3)); [lia|reflexivity].
Qed.

Lemma _decode_long (d : list byte) :
  (116 <= length d)%nat ->
  _decode d = Success (abi_decode_PaymasterData (drop 20 d)).
Proof.
  intros H. unfold _decode, require.
  destruct (Z.geb_spec (Z.of_nat (length d)) (20 + 32 * 3)); [reflexivity|lia].
Qed.

Lemma take_drop_prefix {A : Type} (d : list A) (m k n : nat) :
  (k + n <= m)%nat -> (m <= length d)%nat ->
  take n (drop k d) = take n (drop k (take m d)).
Proof.
  intros Hk Hm. rewrite <- (take_drop m d) at 1.
  assert (length (take m d) = m) as Hl by (rewrite length_take; lia).
  rewrite drop_app_le by lia.
  rewrite take_app_le by (rewrite length_drop; lia).
  reflexivity.
Qed.

(** Only the 116 leading bytes are read. *)
Lemma _decode_take (d : list byte) :
  (116 <= length d)%nat -> _decode d = _decode (take 116 d).
Proof.
  intros H. rewrite !_decode_long by (rewrite ?length_take; lia).
  unfold abi_decode_PaymasterData. rewrite !drop_drop.
  rewrite (take_drop_prefix d 116 20 32), (take_drop_prefix d 116 (20 + 32) 32),
    (take_drop_prefix d 116 (20 + 64) 32) by lia.
  reflexivity.
Qed.

Lemma _decode_payload (prefix : list byte) (uid ph e : Z) (extra : list byte) :
  length prefix = 20%nat ->
  _decode (payload prefix uid ph e ++ extra) =
  Success {| attUid := uid mod 2 ^ 256; policyHash := ph mod 2 ^ 256;
             epoch := e mod 2 ^ 256 |}.
Proof.
  intros Hp. rewrite _decode_long.
  2:{ unfold payload. rewrite !length_app, !length_be_bytes. lia. }
  unfold payload, abi_decode_PaymasterData.
  rewrite <- !app_assoc.
  rewrite drop_app_length' by (symmetry; exact Hp).
  pose proof (length_be_bytes 32 uid). pose proof (length_be_bytes 32 ph).
  pose proof (length_be_bytes 32 e).
  rewrite (take_app_length' (be_bytes 32 uid)) by assumption.
  rewrite (drop_app_length' (be_bytes 32 uid)) by (symmetry; assumption).
  rewrite (take_app_length' (be_bytes 32 ph)) by assumption.
  replace 64%nat with (length (be_bytes 32 uid) + 32)%nat by lia.
  rewrite drop_app_add.
  rewrite (drop_app_length' (be_bytes 32 ph)) by (symmetry; assumption).
  rewrite (take_app_length' (be_bytes 32 e)) by assumption.
  rewrite !be_value_be_bytes, word_256. reflexivity.
Qed.

Section Validate.
Context {E : Type} `{IEAS E}.
Variables (self : t) (eas : E) (env : Env) (userOp : UserOperation).
Variables (userOpHash requiredPreFund : Z).

(** What a successful validation has checked. *)
Lemma validate_success_inv (v : Validated) :
  validatePaymasterUserOp self eas env userOp userOpHash requiredPreFund = Success v ->
  msg_sender env = ENTRY_POINT self
  /\ (116 <= length (paymasterAndData userOp))%nat
  /\ exists pmd a,
       _decode (paymasterAndData userOp) = Success pmd
       /\ Sol.isAttestationValid eas env (attUid pmd) = Success true
       /\ Sol.getAttestation eas env (attUid pmd) = Success a
       /\ schema a = SCHEMA_UID self
       /\ whitelisted self (attester a) = true
       /\ (expirationTime a = 0 \/ block_timestamp env <= expirationTime a)
       /\ _policyHash userOpHash (epoch pmd) = policyHash pmd
       /\ v = {| context := []; validationData := 0;
                 events := [PolicyChecked (attUid pmd) (policyHash pmd) (epoch pmd)];
                 after := self |}.
Proof.
  unfold validatePaymasterUserOp, _onlyEntryPoint.
  destruct (Z.eqb_spec (msg_sender env) (ENTRY_POINT self)) as [Hs|]; [|discriminate].
  cbn [negb Sol.bind].
  destruct (le_lt_dec 116 (length (paymasterAndData userOp))) as [Hl|Hl].
  2:{ rewrite _decode_short by lia. discriminate. }
  destruct (_decode (paymasterAndData userOp)) as [pmd|] eqn:Hd; [|discriminate].
  cbn [Sol.bind].
  destruct (Sol.isAttestationValid eas env (attUid pmd)) as [[|]|] eqn:Hv;
    cbn [Sol.bind negb]; try discriminate.
  destruct (Sol.getAttestation eas env (attUid pmd)) as [a|] eqn:Hg;
    cbn [Sol.bind]; [|discriminate].
  destruct (Z.eqb_spec (schema a) (SCHEMA_UID self)) as [Hsch|]; [|discriminate].
  cbn [negb].
  destruct (whitelisted self (attester a)) eqn:Hw; [|discriminate].
  cbn [negb].
  destruct (Z.eqb_spec (expirationTime a) 0) as [Hz|Hz]; cbn [negb andb].
  - unfold require.
    destruct (Z.eqb_spec (_policyHash userOpHash (epoch pmd)) (policyHash pmd)) as [Hp|];
      [|discriminate].
    cbn [Sol.bind]. intros [= <-].
    repeat split; try assumption. exists pmd, a. repeat split; try assumption.
    left; assumption.
  - destruct (Z.ltb_spec (expirationTime a) (block_timestamp env)) as [|Hge]; [discriminate|].
    unfold require.
    destruct (Z.eqb_spec (_policyHash userOpHash (epoch pmd)) (policyHash pmd)) as [Hp|];
      [|discriminate].
    cbn [Sol.bind]. intros [= <-].
    repeat split; try assumption. exists pmd, a. repeat split; try assumption.
    right; assumption.
Qed.

(** Validation writes nothing: the contract afterwards is the contract
    before. *)
Lemma validate_after (v : Validated) :
  validatePaymasterUserOp self eas env userOp userOpHash requiredPreFund = Success v ->
  after v = self.
Proof.
  intros Hv. apply validate_success_inv in Hv as (_ & _ & pmd & a & Hrest).
  destruct Hrest as (_ & _ & _ & _ & _ & _ & _ & ->). reflexivity.
Qed.

(** The checks in order, once the payload decodes. *)
Lemma validate_steps (pmd : PaymasterData) :
  msg_sender env = ENTRY_POINT self ->
  _decode (paymasterAndData userOp) = Success pmd ->
  validatePaymasterUserOp self eas env userOp userOpHash requiredPreFund =
  (do* ok := Sol.isAttestationValid eas env (attUid pmd) in
   if negb ok then Revert InvalidAttestation else
   do* a := Sol.getAttestation eas env (attUid pmd) in
   if negb (schema a =? SCHEMA_UID self) then Revert InvalidAttestation else
   if negb (whitelisted self (attester a)) then Revert AttesterNotWhitelisted else
   if negb (expirationTime a =? 0) && (expirationTime a <? block_timestamp env)
   then Revert ExpiredAttestation else
   do* _ := require (_policyHash userOpHash (epoch pmd) =? policyHash pmd) "POLICY_MISMATCH" in
   Success {| context := []; validationData := 0;
              events := [PolicyChecked (attUid pmd) (policyHash pmd) (epoch pmd)];
              after := self |}).
Proof.
  intros Hs Hd. unfold validatePaymasterUserOp, _onlyEntryPoint.
  rewrite Hs, Z.eqb_refl, Hd. reflexivity.
Qed.

End Validate.

End PaymasterFacts.

Module MockFacts.
Import Bytes BytesFacts Sol EVM Reference CompliancePaymaster PaymasterFacts.

Lemma _policyHash_range (h e : Z) : 0 <= _policyHash h e < 2 ^ 256.
Proof.
  rewrite PolicyHash._policyHash_spec. rewrite <- word_256.
  rewrite <- (HexFacts.length_keccak256 (be_bytes 32 h ++ be_bytes 32 e)).
  apply be_value_range.
Qed.

Lemma read_set (reg : MockEAS.t) (issued : Env) (uid sch att exp dataHash : Z) :
  MockEAS.read (MockEAS.set reg issued uid sch att exp dataHash) uid =
  {| Sol.uid := uid; schema := sch; attester := att;
     time := block_timestamp issued mod 2 ^ 64; expirationTime := exp;
     revocationTime := 0; dataHash := dataHash |}.
Proof. unfold MockEAS.read, MockEAS.set. cbn [MockEAS.a]. rewrite lookup_insert_eq. reflexivity. Qed.

(** Validation against the mock registry, for a payload bound to the
    operation: the outcome in terms of the attestation that was set. *)
Lemma mock_validate (self : t) (reg : MockEAS.t) (issued : Env)
    (uid att exp dataHash h e now pf : Z) (prefix extra : list byte)
    (userOp : UserOperation) :
  paymasterAndData userOp = payload prefix uid (_policyHash h e) e ++ extra ->
  length prefix = 20%nat -> 0 <= uid < 2 ^ 256 -> 0 <= e < 2 ^ 256 ->
  validatePaymasterUserOp self
    (MockEAS.set reg issued uid (SCHEMA_UID self) att exp dataHash)
    {| msg_sender := ENTRY_POINT self; block_timestamp := now |} userOp h pf =
  if (att =? 0) || negb ((exp =? 0) || (exp >=? now)) then Revert InvalidAttestation
  else if negb (whitelisted self att) then Revert AttesterNotWhitelisted
  else Success {| context := []; validationData := 0;
                  events := [PolicyChecked uid (_policyHash h e) e];
                  after := self |}.
Proof.
  intros Hpay Hprefix Huid He.
  pose proof (_policyHash_range h e) as Hph.
  rewrite (validate_steps self _ _ userOp h pf
             {| attUid := uid; policyHash := _policyHash h e; epoch := e |}).
  2: reflexivity.
  2:{ rewrite Hpay, _decode_payload by exact Hprefix.
      rewrite !Z.mod_small by lia. reflexivity. }
  cbn [attUid policyHash epoch Sol.isAttestationValid Sol.getAttestation
       MockEAS.mock_is_eas block_timestamp].
  unfold MockEAS.isAttestationValid, MockEAS.getAttestation.
  rewrite read_set. cbn [attester expirationTime schema block_timestamp Sol.bind].
  destruct (att =? 0); cbn [negb andb orb]; [reflexivity|].
  destruct (exp =? 0) eqn:Hz; cbn [negb andb orb].
  - rewrite Z.eqb_refl. cbn [negb].
    destruct (whitelisted self att); cbn [negb]; [|reflexivity].
    unfold require. rewrite Z.eqb_refl. reflexivity.
  - destruct (Z.geb_spec exp now) as [Hge|Hlt]; cbn [negb]; [|reflexivity].
    rewrite Z.eqb_refl. cbn [negb].
    destruct (whitelisted self att); cbn [negb]; [|reflexivity].
    destruct (Z.ltb_spec exp now); [lia|].
    unfold require. rewrite Z.eqb_refl. reflexivity.
Qed.

End MockFacts.

(** ** From the builder's hexadecimal text to the validator's bytes *)

Module BuilderFacts.
Import Bytes BytesFacts Str Viem HexFacts PolicyHashFacts Reference.

Lemma length_append (a b : string) :
  String.length (a ++ b) = (String.length a + String.length b)%nat.
Proof.
  induction a as [|c a IH]; [reflexivity|].
  rewrite append_cons. cbn [String.length]. rewrite IH. reflexivity.
Qed.

Lemma length_slice2 (s : string) :
  startsWith0x s = true -> String.length s = S (S (String.length (slice2 s))).
Proof.
  destruct s as [|c1 [|c2 s]]; [discriminate| |intros _; reflexivity].
  destruct c1 as [[] [] [] [] [] [] [] []]; cbn; discriminate.
Qed.

Lemma be_bytes_of_length (n : nat) (l : list byte) :
  length l = n -> be_bytes n (be_value l) = l.
Proof. intros <-. apply be_bytes_be_value. Qed.

Lemma slice2_0x (s : string) : slice2 ("0x" ++ s) = s.
Proof. reflexivity. Qed.

(** Digits in either case decode in front of whatever follows them. *)
Lemma decode_strict_digits (n : nat) (s : string) :
  all_hex s = true -> String.length s = (2 * n)%nat ->
  exists bs, length bs = n /\
    forall s', decode_strict (s ++ s') = (let* rest := decode_strict s' in Ok (bs ++ rest)).
Proof.
  revert s. induction n as [|n IH]; intros s Hhex Hlen.
  - destruct s; [|discriminate]. exists []. split; [reflexivity|].
    intros s'. rewrite append_nil. destruct (decode_strict s'); reflexivity.
  - destruct s as [|c1 [|c2 s]]; [cbn in Hlen; lia|cbn in Hlen; lia|].
    cbn [all_hex] in Hhex.
    apply andb_prop in Hhex as [H1 Hhex]. apply andb_prop in Hhex as [H2 Hhex].
    destruct (IH s Hhex) as (bs & Hl & Hd); [cbn in Hlen; lia|].
    destruct (hex_char c1 H1) as (h & _ & Hv1 & _).
    destruct (hex_char c2 H2) as (l & _ & Hv2 & _).
    exists (byte_of_Z (16 * h + l) :: bs). split; [cbn; lia|].
    intros s'. rewrite !append_cons. cbn [decode_strict]. rewrite Hv1, Hv2, Hd.
    destruct (decode_strict s'); reflexivity.
Qed.

Lemma length_payload (prefix : list byte) (uid ph e : Z) :
  length (payload prefix uid ph e) = (length prefix + 96)%nat.
Proof. unfold payload. rewrite !length_app, !length_be_bytes. lia. Qed.

Lemma startsWith0x_split (s : string) :
  startsWith0x s = true -> s = ("0x" ++ slice2 s)%string.
Proof.
  intros Hs. destruct s as [|c1 s]; [discriminate|].
  destruct c1 as [[] [] [] [] [] [] [] []]; cbn in Hs; try discriminate Hs.
  destruct s as [|c2 s]; [discriminate|].
  destruct c2 as [[] [] [] [] [] [] [] []]; cbn in Hs; try discriminate Hs.
  reflexivity.
Qed.

Lemma isAddress_valid (address : string) :
  isAddress address = true -> isValidAddress address = true.
Proof. unfold isAddress. destruct (isValidAddress address); [reflexivity|discriminate]. Qed.

(** When [buildPaymasterAndData] returns: what it checked and the text it
    put together. *)
Lemma buildPaymasterAndData_inv (config : AgentConfig.t) (att : Attestation.t)
    (policyHash : string) (epoch : Z) (hex : string) :
  AttestationManager.buildPaymasterAndData config att policyHash epoch = Ok hex ->
  isAddress (AgentConfig.paymasterAddress config) = true
  /\ String.length (Attestation.uid att) = 66%nat
  /\ String.length policyHash = 66%nat
  /\ 0 <= epoch < 2 ^ 256
  /\ hex = concatHex [ toLowerCase (AgentConfig.paymasterAddress config);
                       Attestation.uid att; policyHash; toHex (be_bytes 32 epoch) ].
Proof.
  unfold AttestationManager.buildPaymasterAndData, encodePacked.
  cbn [encode_packed_parts encode_packed1].
  destruct (isAddress (AgentConfig.paymasterAddress config)); [|discriminate].
  destruct (Nat.eqb_spec (String.length (Attestation.uid att)) 66); [|discriminate].
  destruct (Nat.eqb_spec (String.length policyHash) 66); [|discriminate].
  destruct (Z.leb_spec 0 epoch); [|discriminate].
  destruct (Z.ltb_spec epoch (2 ^ 256)); [|discriminate].
  cbn [andb JS.bind]. intros [= <-]. repeat split; try assumption; lia.
Qed.

(** What [buildPaymasterAndData] returns for a uid and a policy hash that
    are hexadecimal, as bytes: 116 of them, the address first, and the
    three fields the validator decodes. *)
Lemma buildPaymasterAndData_bytes (config : AgentConfig.t) (att : Attestation.t)
    (policyHash : string) (epoch : Z) (hex : string) :
  isHex (Attestation.uid att) = true -> isHex policyHash = true ->
  AttestationManager.buildPaymasterAndData config att policyHash epoch = Ok hex ->
  exists prefix u p,
    length prefix = 20%nat /\ length u = 32%nat /\ length p = 32%nat
    /\ hexToBytes (Attestation.uid att) = Ok u
    /\ hexToBytes policyHash = Ok p
    /\ 0 <= epoch < 2 ^ 256
    /\ hexToBytes hex = Ok (payload prefix (be_value u) (be_value p) epoch).
Proof.
  intros Huid Hph Hok.
  apply buildPaymasterAndData_inv in Hok as (Haddr & Hu2 & Hp2 & He & ->).
  apply isAddress_valid in Haddr. unfold isValidAddress in Haddr.
  apply andb_prop in Haddr as [Haddr Ha3]. apply andb_prop in Haddr as [Ha1 Ha2].
  apply Nat.eqb_eq in Ha2.
  apply andb_prop in Huid as [Hu1 Hu3]. rewrite (length_slice2 _ Hu1) in Hu2.
  apply andb_prop in Hph as [Hp1 Hp3]. rewrite (length_slice2 _ Hp1) in Hp2.
  unfold payload.
  pose proof (length_be_bytes 32 epoch) as Hel.
  generalize dependent (be_bytes 32 epoch). intros eb Hel.
  destruct (hex_digits_decode 20 _ Ha3 Ha2) as (prefix & Hpl & _ & _ & Hlow).
  destruct (decode_strict_digits 32 (slice2 (Attestation.uid att)) Hu3 ltac:(lia))
    as (u & Hul & Hud).
  destruct (decode_strict_digits 32 (slice2 policyHash) Hp3 ltac:(lia)) as (p & Hpl' & Hpd).
  exists prefix, u, p.
  assert (forall s b, String.length s = 64%nat ->
            (forall s', decode_strict (s ++ s') = (let* rest := decode_strict s' in Ok (b ++ rest))) ->
            hexToBytes ("0x" ++ s)%string = Ok b) as Hone.
  { intros s b Hs Hd. unfold hexToBytes. rewrite slice2_0x.
    rewrite Hs. cbn [Nat.even]. rewrite <- (string_app_empty s), Hd.
    cbn. rewrite app_nil_r. reflexivity. }
  repeat split; try assumption; try lia.
  - rewrite (startsWith0x_split _ Hu1). apply Hone; [lia|exact Hud].
  - rewrite (startsWith0x_split _ Hp1). apply Hone; [lia|exact Hpd].
  - unfold concatHex. cbn [fold_left].
    rewrite (startsWith0x_split _ Ha1), (startsWith0x_split _ Hu1),
      (startsWith0x_split _ Hp1).
    change (toLowerCase ("0x" ++ ?s)) with ("0x" ++ toLowerCase s)%string.
    rewrite ?slice2_0x.
    change (replace_0x ("0x" ++ ?s)) with s.
    rewrite replace_0x_toHex, append_nil, !append_assoc.
    unfold hexToBytes. rewrite slice2_0x.
    rewrite (be_bytes_of_length 32 u Hul), (be_bytes_of_length 32 p Hpl').
    rewrite Hlow, !length_append, !length_hex_of_bytes, Hel, Hpl.
    assert (String.length (slice2 (Attestation.uid att)) = 64%nat) as -> by lia.
    assert (String.length (slice2 policyHash) = 64%nat) as -> by lia.
    cbn [String.length Nat.add Nat.mul Nat.even].
    rewrite <- (string_app_empty (hex_of_bytes eb)).
    rewrite decode_strict_app, Hud, Hpd, decode_strict_app.
    cbn [decode_strict JS.bind]. rewrite app_nil_r. reflexivity.
Qed.

End BuilderFacts.

(** ** The policy validator *)

Module PolicyValidatorFacts.
Import Str PolicyValidator Push.

Lemma push_if_nil (c : bool) (m : string) (l : list string) :
  push_if c m l = [] -> c = false /\ l = [].
Proof.
  unfold push_if. destruct c; [|intros ->; split; reflexivity].
  intros H. apply app_eq_nil in H as [_ H]. discriminate H.
Qed.

Lemma in_push_if (c : bool) (m x : string) (l : list string) :
  In x l -> In x (push_if c m l).
Proof. unfold push_if. destruct c; [|trivial]. intros H. apply in_or_app. left. exact H. Qed.

Lemma in_push_if_here (m : string) (l : list string) : In m (push_if true m l).
Proof. unfold push_if. apply in_or_app. right. left. reflexivity. Qed.

(** The violations of [validation], check by check. *)
Lemma validate_violations (self : t) (now : Z) (request : PaymentRequest) (epoch : Z) :
  let cfg := config self in
  let capRemaining := AgentConfig.maxTransactionValue cfg * 10 - getEpochSpending self epoch in
  PolicyValidation.violations (validation self now request epoch) =
  push_if (negb (isValidAddress (tokenIn request)))
    ("Invalid token address: " ++ tokenIn request)%string
  (push_if (negb (isValidAddress (merchant request)))
    ("Invalid merchant address: " ++ merchant request)%string
  (push_if (negb (Z.abs (epoch - Clock.epochOf now) <=? 1))
    ("Invalid epoch " ++ pretty epoch ++ ". Current epoch: " ++ pretty (Clock.epochOf now))%string
  (push_if (getEpochSpending self epoch + amountIn request
            >? AgentConfig.maxTransactionValue cfg * 10)
    ("Epoch spending limit exceeded. Remaining: " ++ pretty capRemaining)%string
  (push_if (amountIn request =? 0) "Amount cannot be zero"%string
  (push_if (amountIn request >? AgentConfig.maxTransactionValue cfg)
    ("Amount " ++ pretty (amountIn request) ++ " exceeds max transaction value "
     ++ pretty (AgentConfig.maxTransactionValue cfg))%string
  (push_if ((Z.of_nat (length (AgentConfig.allowedMerchants cfg)) >? 0)
            && negb (includes (AgentConfig.allowedMerchants cfg)
                       (toLowerCase (merchant request))))
    ("Merchant " ++ merchant request ++ " is not in allowlist")%string
  (push_if ((Z.of_nat (length (AgentConfig.allowedTokens cfg)) >? 0)
            && negb (includes (AgentConfig.allowedTokens cfg)
                       (toLowerCase (tokenIn request))))
    ("Token " ++ tokenIn request ++ " is not in allowlist")%string []))))))).
Proof. reflexivity. Qed.

Lemma valid_iff_no_violation (self : t) (now : Z) (request : PaymentRequest) (epoch : Z) :
  PolicyValidation.valid (validation self now request epoch) = true <->
  PolicyValidation.violations (validation self now request epoch) = [].
Proof.
  change (PolicyValidation.valid (validation self now request epoch))
    with (length (PolicyValidation.violations (validation self now request epoch)) =? 0)%nat.
  destruct (PolicyValidation.violations (validation self now request epoch));
    cbn; split; congruence.
Qed.

(** A valid request passed every check. *)
Lemma validate_valid_inv (self : t) (now : Z) (request : PaymentRequest) (epoch : Z) :
  PolicyValidation.valid (validation self now request epoch) = true ->
  amountIn request <> 0
  /\ getEpochSpending self epoch + amountIn request
     <= AgentConfig.maxTransactionValue (config self) * 10
  /\ amountIn request <= AgentConfig.maxTransactionValue (config self)
  /\ isValidAddress (merchant request) = true
  /\ isValidAddress (tokenIn request) = true
  /\ Z.abs (epoch - Clock.epochOf now) <= 1.
Proof.
  intros Hv. apply valid_iff_no_violation in Hv.
  rewrite validate_violations in Hv. cbv zeta in Hv.
  apply push_if_nil in Hv as [H8 Hv]. apply push_if_nil in Hv as [H7 Hv].
  apply push_if_nil in Hv as [H6 Hv]. apply push_if_nil in Hv as [H5 Hv].
  apply push_if_nil in Hv as [H4 Hv]. apply push_if_nil in Hv as [H3 _].
  apply negb_false_iff in H8, H7, H6.
  apply Z.leb_le in H6. apply Z.eqb_neq in H4.
  destruct (Z.gtb_spec (getEpochSpending self epoch + amountIn request)
              (AgentConfig.maxTransactionValue (config self) * 10)); [discriminate|].
  destruct (Z.gtb_spec (amountIn request) (AgentConfig.maxTransactionValue (config self)));
    [discriminate|].
  repeat split; assumption.
Qed.

(** A zero amount, a malformed address and an exceeded cap each leave their
    violation. *)
Lemma validate_violation (self : t) (now : Z) (request : PaymentRequest) (epoch : Z) :
  let v := validation self now request epoch in
  (amountIn request = 0 -> In "Amount cannot be zero"%string (PolicyValidation.violations v))
  /\ (isValidAddress (merchant request) = false ->
      In ("Invalid merchant address: " ++ merchant request)%string
         (PolicyValidation.violations v))
  /\ (isValidAddress (tokenIn request) = false ->
      In ("Invalid token address: " ++ tokenIn request)%string
         (PolicyValidation.violations v))
  /\ (getEpochSpending self epoch + amountIn request
        > AgentConfig.maxTransactionValue (config self) * 10 ->
      In ("Epoch spending limit exceeded. Remaining: "
          ++ pretty (AgentConfig.maxTransactionValue (config self) * 10
                     - getEpochSpending self epoch))%string
         (PolicyValidation.violations v)).
Proof.
  cbv zeta. rewrite validate_violations. cbv zeta.
  repeat split; intros Hc.
  - do 4 apply in_push_if. rewrite Hc. apply in_push_if_here.
  - do 1 apply in_push_if. rewrite Hc. apply in_push_if_here.
  - rewrite Hc. apply in_push_if_here.
  - do 3 apply in_push_if.
    destruct (Z.gtb_spec (getEpochSpending self epoch + amountIn request)
                (AgentConfig.maxTransactionValue (config self) * 10)); [|lia].
    apply in_push_if_here.
Qed.

Lemma getEpochSpending_record (self : t) (epoch amount e : Z) :
  getEpochSpending (recordSpending self epoch amount) e =
  if decide (epoch = e) then getEpochSpending self epoch + amount
  else getEpochSpending self e.
Proof.
  unfold getEpochSpending, recordSpending. cbn [epochSpending].
  rewrite lookup_insert. destruct (decide (epoch = e)); reflexivity.
Qed.

(** [validate] hands back the [validation] object unless its closing
    [logger.debug] throws, which it does with a verbose logger. *)
Lemma validate_quiet (self : t) (now : Z) (request : PaymentRequest) (epoch : Z) :
  Logger.verbose (logger self) = false ->
  validate self now request epoch = Ok (validation self now request epoch).
Proof. intros Hq. unfold validate, Logger.debug. rewrite Hq. reflexivity. Qed.

Lemma validate_verbose (self : t) (now : Z) (request : PaymentRequest) (epoch : Z) :
  Logger.verbose (logger self) = true ->
  validate self now request epoch = Throw TypeError.
Proof.
  intros Hv. unfold validate, Logger.debug, Logger.log. rewrite Hv. reflexivity.
Qed.

Lemma validate_eq (self : t) (now : Z) (request : PaymentRequest) (epoch : Z) :
  validate self now request epoch =
  if Logger.verbose (logger self) then Throw TypeError
  else Ok (validation self now request epoch).
Proof.
  destruct (Logger.verbose (logger self)) eqn:Hv;
    [apply validate_verbose|apply validate_quiet]; exact Hv.
Qed.

Lemma validate_inv (self : t) (now : Z) (request : PaymentRequest) (epoch : Z)
    (v : PolicyValidation.t) :
  validate self now request epoch = Ok v ->
  Logger.verbose (logger self) = false /\ v = validation self now request epoch.
Proof.
  destruct (Logger.verbose (logger self)) eqn:Hv.
  - rewrite validate_verbose by assumption. discriminate.
  - rewrite validate_quiet by assumption. intros [= <-]. split; reflexivity.
Qed.

End PolicyValidatorFacts.

(** ** The agent pipeline *)

Module AgentFacts.
Import Str Viem HexFacts PolicyHashFacts zkAgent.

Lemma decisionLogic_invalid (score : Z) (fl : list string) :
  RiskAnalyzer.decisionLogic false score fl =
  (false, "Policy validation failed"%string,
   Some "Fix policy violations and retry"%string, fl).
Proof. reflexivity. Qed.

Lemma decisionLogic_valid_rejected (score : Z) (fl : list string) :
  (RiskAnalyzer.decisionLogic true score fl).1.1.1 = false ->
  60 <= score
  /\ ((RiskAnalyzer.decisionLogic true score fl).1.1.2
        = "High risk transaction - requires review"%string
      \/ (RiskAnalyzer.decisionLogic true score fl).1.1.2
        = "Very high risk transaction - rejected"%string).
Proof.
  unfold RiskAnalyzer.decisionLogic. cbn [negb].
  destruct (Z.ltb_spec score 30); [discriminate|].
  destruct (Z.ltb_spec score 60); [discriminate|].
  destruct (Z.ltb_spec score 80); cbn [fst snd]; intros _; (split; [lia|]); [left|right];
    reflexivity.
Qed.

(** What [analyze] decides, by the validity of the policy. *)
Lemma analyze_decision (ra : RiskAnalyzer.t) (request : PaymentRequest) (policyValid : bool) :
  exists d ra',
    RiskAnalyzer.analyze ra request policyValid = Ok (d, ra')
    /\ (policyValid = false ->
        approved d = false /\ reason d = "Policy validation failed"%string /\ riskScore d = 100)
    /\ (policyValid = true -> approved d = false ->
        60 <= riskScore d
        /\ (reason d = "High risk transaction - requires review"%string
            \/ reason d = "Very high risk transaction - rejected"%string))
    /\ (policyValid = true -> riskScore d <= 90).
Proof.
  destruct (RiskAnalyzerFacts.analyze_spec ra request policyValid)
    as (factors & Hf & Hgas & Hfail & Han).
  cbv zeta in Han. eexists _, _. split; [exact Han|].
  cbn [approved reason riskScore]. split; [|split].
  - intros ->. rewrite decisionLogic_invalid. cbn [fst snd].
    split; [reflexivity|]. split; [reflexivity|].
    unfold RiskAnalyzer.calculateRiskScore. rewrite Hgas, Hfail.
    destruct (merchantUnknown factors), (tokenUnknown factors), (amountUnusual factors),
      (velocityExceeded factors); reflexivity.
  - intros -> Hrej. apply decisionLogic_valid_rejected. exact Hrej.
  - intros ->. unfold RiskAnalyzer.calculateRiskScore. rewrite Hgas, Hfail.
    destruct (merchantUnknown factors), (tokenUnknown factors), (amountUnusual factors),
      (velocityExceeded factors); cbn; lia.
Qed.

(** A plan that [buildPlan] built is valid exactly when the merchant is an
    address. *)
Lemma plan_validate (logger : Logger.t) (enc : TransactionBuilder.encoder) (now : Z)
    (request : PaymentRequest) (epoch : number) (plan : TransactionPlan.t) :
  TransactionBuilder.buildPlan logger enc now request epoch = Ok plan ->
  TransactionBuilder.validate plan =
  if isValidAddress (merchant request) then (true, [])
  else (false, [("Invalid target address: " ++ merchant request)%string]).
Proof.
  unfold TransactionBuilder.buildPlan. intros H.
  destruct (TransactionBuilder.encodePaymentCall enc now request) as [callData|]; [|discriminate].
  cbn [JS.bind] in H.
  destruct (BigInt epoch) as [epoch_big|]; [|discriminate]. cbn [JS.bind] in H.
  destruct (Logger.debug logger _); [|discriminate].
  cbn [JS.bind] in H. injection H as <-.
  unfold TransactionBuilder.validate.
  cbn [TransactionPlan.userOpHash TransactionPlan.policyHash TransactionPlan.gasEstimate
       TransactionPlan.target].
  unfold TransactionBuilder.calculateUserOpHash, TransactionBuilder.buildPlan_policyHash,
    keccak256_bytes.
  rewrite !startsWith0x_toHex, !length_toHex, !length_keccak256.
  destruct (isValidAddress (merchant request)); reflexivity.
Qed.

(** [buildPlan] returns a plan for an integer epoch and a logger that is
    not verbose only. *)
Lemma buildPlan_inv (logger : Logger.t) (enc : TransactionBuilder.encoder) (now : Z)
    (request : PaymentRequest) (epoch : number) (plan : TransactionPlan.t) :
  TransactionBuilder.buildPlan logger enc now request epoch = Ok plan ->
  Logger.verbose logger = false /\ epoch = Integer (TransactionPlan.epoch plan).
Proof.
  unfold TransactionBuilder.buildPlan. intros H.
  destruct (TransactionBuilder.encodePaymentCall enc now request) as [callData|]; [|discriminate].
  cbn [JS.bind] in H.
  destruct epoch as [e| |]; try discriminate. cbn [JS.bind BigInt] in H.
  unfold Logger.debug, Logger.log in H.
  destruct (Logger.verbose logger); [discriminate|].
  cbn [JS.bind] in H. injection H as <-. split; reflexivity.
Qed.

Lemma processPayment_spec (enc : TransactionBuilder.encoder) (clock : Clock.t) (self : t)
    (request : PaymentRequest) (options : Options) :
  let epoch := Pipeline.epoch_of clock options in
  let pv := PolicyValidator.validation (policyValidator self) (Clock.now_validate clock)
              request epoch in
  let out := processPayment enc clock self request options in
  config out.2 = config self
  /\ PolicyValidator.config (policyValidator out.2)
     = PolicyValidator.config (policyValidator self)
  /\ match out.1 with
     | Throw _ => policyValidator out.2 = policyValidator self
     | Ok a =>
         AgentAnalysis.request a = request
         /\ TransactionPlan.epoch (AgentAnalysis.transactionPlan a) = epoch
         /\ AgentAnalysis.policyValidation a = pv
         /\ isValidAddress (merchant request) = true
         /\ if approved (AgentAnalysis.decision a)
            then PolicyValidation.valid pv = true
                 /\ is_Some (AgentAnalysis.attestation a)
                 /\ policyValidator out.2 =
                    PolicyValidator.recordSpending (policyValidator self) epoch
                      (amountIn request)
            else AgentAnalysis.attestation a = None
                 /\ policyValidator out.2 = policyValidator self
                 /\ (PolicyValidation.valid pv = false ->
                     reason (AgentAnalysis.decision a) = "Policy validation failed"%string)
                 /\ (PolicyValidation.valid pv = true ->
                     60 <= riskScore (AgentAnalysis.decision a)
                     /\ (reason (AgentAnalysis.decision a)
                           = "High risk transaction - requires review"%string
                         \/ reason (AgentAnalysis.decision a)
                           = "Very high risk transaction - rejected"%string))
     end.
Proof.
  cbv zeta. unfold processPayment, Pipeline.epoch_of.
  destruct (negb (validateConfiguration self).1); [cbn; auto|].
  destruct (TransactionBuilder.buildPlan (logger self) enc (Clock.now_callData clock)
              request _) as [plan|e] eqn:Hplan; [|cbn; auto].
  rewrite (plan_validate _ _ _ _ _ _ Hplan).
  destruct (isValidAddress (merchant request)) eqn:Hm; cbn [fst snd negb]; [|cbn; auto].
  destruct (buildPlan_inv _ _ _ _ _ _ Hplan) as [_ ->].
  set (epoch := TransactionPlan.epoch plan).
  destruct (PolicyValidator.validate (policyValidator self) (Clock.now_validate clock)
              request epoch) as [pv0|e] eqn:Hval; [|cbn; auto].
  apply PolicyValidatorFacts.validate_inv in Hval as [_ Hval].
  set (pv := PolicyValidator.validation (policyValidator self) (Clock.now_validate clock)
               request epoch) in *.
  subst pv0. assert (epoch = epoch) as Hep by reflexivity.
  destruct (default false (opt_skipRiskAnalysis options)).
  - destruct (PolicyValidation.valid pv) eqn:Hv; cbn [approved].
    + destruct (AttestationManager.createAttestation _ _ _ _ _ _) as [att|]; [|cbn; auto].
      destruct (negb (AttestationManager.verifyAttestation _ _ att)); [cbn; auto|].
      cbn. repeat split; try assumption; try reflexivity. eexists; reflexivity.
    + cbn. repeat split; try assumption; try reflexivity; intros; congruence.
  - destruct (analyze_decision (riskAnalyzer self) request (PolicyValidation.valid pv))
      as (d & ra' & -> & Hinv & Hrej & _).
    destruct (approved d) eqn:Ha.
    + destruct (AttestationManager.createAttestation _ _ _ _ _ _) as [att|]; [|cbn; auto].
      destruct (negb (AttestationManager.verifyAttestation _ _ att)); [cbn; auto|].
      cbn [fst snd AgentAnalysis.request AgentAnalysis.transactionPlan
           AgentAnalysis.policyValidation AgentAnalysis.decision AgentAnalysis.attestation
           with_policyValidator with_riskAnalyzer config policyValidator
           PolicyValidator.recordSpending PolicyValidator.config].
      rewrite Ha. repeat split; try assumption; try reflexivity.
      * destruct (PolicyValidation.valid pv); [reflexivity|].
        destruct (Hinv eq_refl) as [Hc _]. congruence.
      * eexists; reflexivity.
    + cbn [fst snd AgentAnalysis.request AgentAnalysis.transactionPlan
           AgentAnalysis.policyValidation AgentAnalysis.decision AgentAnalysis.attestation
           with_policyValidator with_riskAnalyzer config policyValidator].
      rewrite Ha. repeat split; try assumption; try reflexivity.
      * intros Hv. apply (Hinv Hv).
      * apply (Hrej H eq_refl).
      * apply (Hrej H eq_refl).
Qed.


(** Spend after a run: what was there plus what the run committed, entry by
    entry under the cap. *)
Lemma run_spending (calls : list Pipeline.Call) (self : t) (E : Z) :
  let final := (Pipeline.run self calls).1 in
  let outs := (Pipeline.run self calls).2 in
  PolicyValidator.config (policyValidator final)
    = PolicyValidator.config (policyValidator self)
  /\ PolicyValidator.getEpochSpending (policyValidator final) E =
     PolicyValidator.getEpochSpending (policyValidator self) E
     + Pipeline.total_committed E outs
  /\ ((forall e s, PolicyValidator.epochSpending (policyValidator self) !! e = Some s ->
                   s <= Pipeline.cap (policyValidator self)) ->
      forall e s, PolicyValidator.epochSpending (policyValidator final) !! e = Some s ->
                  s <= Pipeline.cap (policyValidator self)).
Proof.
  revert self. induction calls as [|c calls IH]; intros self; cbv zeta.
  - cbn. split; [reflexivity|]. split; [lia|]. auto.
  - cbn [Pipeline.run fst snd Pipeline.total_committed fold_right].
    unfold Pipeline.step.
    pose proof (processPayment_spec (Pipeline.call_encoder c) (Pipeline.call_clock c) self
                  (Pipeline.call_request c) (Pipeline.call_options c)) as Hstep.
    cbv zeta in Hstep.
    destruct (processPayment (Pipeline.call_encoder c) (Pipeline.call_clock c) self
                (Pipeline.call_request c) (Pipeline.call_options c)) as [r self1].
    cbn [fst snd] in *. destruct Hstep as (_ & Hcfg & Hr).
    specialize (IH self1). cbv zeta in IH. destruct IH as (IHcfg & IHsum & IHcap).
    fold (Pipeline.total_committed E (Pipeline.run self1 calls).2).
    assert (Pipeline.cap (policyValidator self1) = Pipeline.cap (policyValidator self)) as Hcap
      by (unfold Pipeline.cap; rewrite Hcfg; reflexivity).
    split; [congruence|].
    assert (PolicyValidator.getEpochSpending (policyValidator self1) E =
            PolicyValidator.getEpochSpending (policyValidator self) E + Pipeline.committed E r
            /\ ((forall e s, PolicyValidator.epochSpending (policyValidator self) !! e = Some s ->
                             s <= Pipeline.cap (policyValidator self)) ->
                forall e s, PolicyValidator.epochSpending (policyValidator self1) !! e = Some s ->
                            s <= Pipeline.cap (policyValidator self))) as [Hsum Hinv].
    { destruct r as [a|e]; cbn [Pipeline.committed].
      - destruct Hr as (Hreq & Hep & _ & _ & Hr).
        destruct (approved (AgentAnalysis.decision a)); cbn [andb].
        + destruct Hr as (Hv & _ & ->).
          apply PolicyValidatorFacts.validate_valid_inv in Hv as (_ & Hle & _).
          rewrite PolicyValidatorFacts.getEpochSpending_record, Hep, Hreq.
          split.
          * destruct (decide _) as [Heq|Hne].
            -- rewrite Heq, Z.eqb_refl. reflexivity.
            -- destruct (Z.eqb_spec (Pipeline.epoch_of (Pipeline.call_clock c)
                                      (Pipeline.call_options c)) E); [contradiction|lia].
          * intros Hold e s. unfold PolicyValidator.recordSpending.
            cbn [PolicyValidator.epochSpending]. rewrite lookup_insert.
            destruct (decide _) as [Heq|Hne]; [|apply Hold].
            intros [= <-]. exact Hle.
        + destruct Hr as (_ & -> & _). split; [lia|auto].
      - rewrite Hr. split; [lia|auto]. }
    split.
    + rewrite IHsum, Hsum. lia.
    + intros Hold e s Hl. rewrite <- Hcap. apply (IHcap) with (e := e); [|exact Hl].
      rewrite Hcap. apply Hinv. exact Hold.
Qed.



(** A call that is alone on the agent goes through its [await]s one after
    the other: the pieces of [Async] put end to end are [processPayment]. *)
Lemma alone_is_processPayment (self : t) (c : Pipeline.Call) :
  Async.alone self c = (Async.Settled (Pipeline.step self c).1, (Pipeline.step self c).2).
Proof.
  unfold Async.alone, Async.awaits, Pipeline.step, processPayment, Async.start, Nat.iter.
  destruct self as [cfg lg pol ra].
  cbn [nat_rect config logger policyValidator riskAnalyzer].
  destruct (negb (validateConfiguration _).1); [reflexivity|].
  destruct (TransactionBuilder.buildPlan _ _ _ _ _) as [plan|e]; [|reflexivity].
  cbn [Async.resume fst snd config logger policyValidator riskAnalyzer].
  destruct (negb (TransactionBuilder.validate plan).1); [reflexivity|].
  destruct (PolicyValidator.validate _ _ _ _) as [pv|e]; [|reflexivity].
  cbn [Async.resume fst snd config logger policyValidator riskAnalyzer].
  destruct (default false (opt_skipRiskAnalysis (Pipeline.call_options c))).
  - unfold Async.attest.
    cbn [approved config logger policyValidator riskAnalyzer with_riskAnalyzer].
    destruct (PolicyValidation.valid pv); [|reflexivity].
    destruct (AttestationManager.createAttestation _ _ _ _ _ _) as [att|e]; [|reflexivity].
    cbn [Async.resume fst snd config logger policyValidator riskAnalyzer].
    destruct (negb (AttestationManager.verifyAttestation _ _ att)); reflexivity.
  - destruct (RiskAnalyzer.analyze _ _ _) as [[d ra']|e]; [|reflexivity].
    cbn [Async.resume fst snd]. unfold Async.attest.
    cbn [config logger policyValidator riskAnalyzer with_riskAnalyzer].
    destruct (approved d); [|reflexivity].
    destruct (AttestationManager.createAttestation _ _ _ _ _ _) as [att|e]; [|reflexivity].
    cbn [Async.resume fst snd config logger policyValidator riskAnalyzer].
    destruct (negb (AttestationManager.verifyAttestation _ _ att)); reflexivity.
Qed.

(** A batch of one call is the call awaited. *)
Lemma promise_all_one (self : t) (c : Pipeline.Call) :
  Async.promise_all self [c]
  = ([Async.Settled (Pipeline.step self c).1], (Pipeline.step self c).2).
Proof.
  unfold Async.promise_all, Async.round_robin, Async.awaits, Async.started, Async.turns,
    Pipeline.step, processPayment, Async.start.
  destruct self as [cfg lg pol ra].
  cbn [length seq repeat concat app map fold_left config logger policyValidator riskAnalyzer].
  destruct (negb (validateConfiguration _).1); [reflexivity|].
  destruct (TransactionBuilder.buildPlan _ _ _ _ _) as [plan|e]; [|reflexivity].
  unfold Async.turn at 5.
  cbn [lookup list_lookup list_insert insert Async.resume fst snd config logger
       policyValidator riskAnalyzer].
  destruct (negb (TransactionBuilder.validate plan).1); [reflexivity|].
  destruct (PolicyValidator.validate _ _ _ _) as [pv|e]; [|reflexivity].
  unfold Async.turn at 4.
  cbn [lookup list_lookup list_insert insert Async.resume fst snd config logger
       policyValidator riskAnalyzer].
  destruct (default false (opt_skipRiskAnalysis (Pipeline.call_options c))).
  - unfold Async.attest.
    cbn [approved config logger policyValidator riskAnalyzer with_riskAnalyzer].
    destruct (PolicyValidation.valid pv); [|reflexivity].
    destruct (AttestationManager.createAttestation _ _ _ _ _ _) as [att|e]; [|reflexivity].
    unfold Async.turn at 3.
    cbn [lookup list_lookup list_insert insert Async.resume fst snd config logger
         policyValidator riskAnalyzer].
    unfold Async.turn at 2.
    cbn [lookup list_lookup list_insert insert Async.resume fst snd config logger
         policyValidator riskAnalyzer].
    destruct (negb (AttestationManager.verifyAttestation _ _ att)); reflexivity.
  - destruct (RiskAnalyzer.analyze _ _ _) as [[d ra']|e]; [|reflexivity].
    unfold Async.turn at 3.
    cbn [lookup list_lookup list_insert insert Async.resume fst snd]. unfold Async.attest.
    cbn [config logger policyValidator riskAnalyzer with_riskAnalyzer].
    destruct (approved d); [|reflexivity].
    destruct (AttestationManager.createAttestation _ _ _ _ _ _) as [att|e]; [|reflexivity].
    unfold Async.turn at 2.
    cbn [lookup list_lookup list_insert insert Async.resume fst snd config logger
         policyValidator riskAnalyzer].
    unfold Async.turn at 1.
    cbn [lookup list_lookup list_insert insert Async.resume fst snd config logger
         policyValidator riskAnalyzer].
    destruct (negb (AttestationManager.verifyAttestation _ _ att)); reflexivity.
Qed.

End AgentFacts.

(** * The properties of the protocol *)

Import Bytes Str Viem EVM Reference.

(** C10. For every non-negative integer [v], [RiskAnalyzer.sqrt v] ends, within
    its iteration budget and within any larger one, on the integer square
    root of [v]: the one [r >= 0] with [r * r <= v < (r + 1) * (r + 1)].
    Consequently [calculateStdDev] always returns, and returns a
    non-negative value. *)
Theorem sqrt_is_integer_square_root (v : Z) (amounts : list Z) (avg : Z) :
  0 <= v ->
  (exists r,
      RiskMath.sqrt v = Ok r /\ 0 <= r /\ r * r <= v < (r + 1) * (r + 1)
      /\ (forall r', 0 <= r' -> r' * r' <= v < (r' + 1) * (r' + 1) -> r' = r)
      /\ (forall fuel, 2 <= v -> (RiskMath.sqrt_fuel v <= fuel)%nat ->
            RiskMath.sqrt_loop fuel v v (Z.quot (v + 1) 2) = Ok r))
  /\ (exists s, RiskMath.calculateStdDev amounts avg = Ok s /\ 0 <= s).
Proof.
  intros Hv. split; [|apply RiskMathFacts.calculateStdDev_total].
  exists (Z.sqrt v).
  pose proof (RiskMathFacts.sqrt_correct v Hv) as Hs.
  pose proof (Z.sqrt_spec v Hv) as Hspec. pose proof (Z.sqrt_nonneg v) as H0.
  cbv zeta in Hspec.
  replace (Z.succ (Z.sqrt v)) with (Z.sqrt v + 1) in Hspec by lia.
  split; [exact Hs|]. split; [exact H0|]. split; [exact Hspec|]. split.
  - intros r' Hr' Hsq.
    destruct (Z.lt_trichotomy r' (Z.sqrt v)) as [Hlt|[Heq|Hgt]]; [|exact Heq|].
    + assert ((r' + 1) * (r' + 1) <= Z.sqrt v * Z.sqrt v)
        by (apply Z.mul_le_mono_nonneg; lia).
      lia.
    + assert ((Z.sqrt v + 1) * (Z.sqrt v + 1) <= r' * r')
        by (apply Z.mul_le_mono_nonneg; lia).
      lia.
  - intros fuel H2 Hfuel.
    apply (RiskMathFacts.sqrt_loop_more_fuel v (RiskMath.sqrt_fuel v)); [|exact Hfuel].
    unfold RiskMath.sqrt in Hs.
    destruct (Z.ltb_spec v 0); [lia|]. destruct (Z.ltb_spec v 2); [lia|]. exact Hs.
Qed.

Lemma sqrt_is_integer_square_root_witness :
  (exists r,
      RiskMath.sqrt 17 = Ok r /\ 0 <= r /\ r * r <= 17 < (r + 1) * (r + 1)
      /\ (forall r', 0 <= r' -> r' * r' <= 17 < (r' + 1) * (r' + 1) -> r' = r)
      /\ (forall fuel, 2 <= 17 -> (RiskMath.sqrt_fuel 17 <= fuel)%nat ->
            RiskMath.sqrt_loop fuel 17 17 (Z.quot (17 + 1) 2) = Ok r))
  /\ (exists s, RiskMath.calculateStdDev [10; 20; 90] 40 = Ok s /\ 0 <= s).
Proof. apply (sqrt_is_integer_square_root 17 [10; 20; 90] 40). lia. Defined.

(** C7. With a valid policy the decision follows the band of the risk score
    alone: below 30 approved as low risk; from 30 below 60 approved with the
    REQUIRES_MONITORING flag; from 60 below 80 rejected as requiring review;
    from 80 rejected as very high risk.  The scores 29, 30, 60 and 80 fall as
    the bands say, and [analyze] decides by applying these bands to the
    score it reports. *)
Theorem risk_decision_bands (self : RiskAnalyzer.t) (request : PaymentRequest)
    (score : Z) (fl : list string) :
  (score < 30 ->
     RiskAnalyzer.decisionLogic true score fl =
     (true, "Low risk transaction"%string, None, fl))
  /\ (30 <= score < 60 ->
     RiskAnalyzer.decisionLogic true score fl =
     (true, "Medium risk transaction - approved with monitoring"%string, None,
      fl ++ ["REQUIRES_MONITORING"%string]))
  /\ (60 <= score < 80 ->
     RiskAnalyzer.decisionLogic true score fl =
     (false, "High risk transaction - requires review"%string,
      Some "Manual review required"%string, fl ++ ["REQUIRES_REVIEW"%string]))
  /\ (80 <= score ->
     RiskAnalyzer.decisionLogic true score fl =
     (false, "Very high risk transaction - rejected"%string,
      Some "Transaction blocked due to high risk"%string, fl))
  /\ (RiskAnalyzer.decisionLogic true 29 fl).1.1 = (true, "Low risk transaction"%string)
  /\ (RiskAnalyzer.decisionLogic true 30 fl).1.1 =
     (true, "Medium risk transaction - approved with monitoring"%string)
  /\ (RiskAnalyzer.decisionLogic true 60 fl).1.1 =
     (false, "High risk transaction - requires review"%string)
  /\ (RiskAnalyzer.decisionLogic true 80 fl).1.1 =
     (false, "Very high risk transaction - rejected"%string)
  /\ exists d self',
       RiskAnalyzer.analyze self request true = Ok (d, self')
       /\ (riskScore d < 30 ->
             approved d = true /\ reason d = "Low risk transaction"%string
             /\ ~ In "REQUIRES_MONITORING"%string (flags d))
       /\ (30 <= riskScore d < 60 ->
             approved d = true
             /\ reason d = "Medium risk transaction - approved with monitoring"%string
             /\ In "REQUIRES_MONITORING"%string (flags d))
       /\ (60 <= riskScore d < 80 ->
             approved d = false
             /\ reason d = "High risk transaction - requires review"%string)
       /\ (80 <= riskScore d ->
             approved d = false
             /\ reason d = "Very high risk transaction - rejected"%string).
Proof.
  assert (forall s f, s < 30 ->
            RiskAnalyzer.decisionLogic true s f =
            (true, "Low risk transaction"%string, None, f)) as B1.
  { intros s f H. unfold RiskAnalyzer.decisionLogic. cbn [negb].
    destruct (Z.ltb_spec s 30); [reflexivity|lia]. }
  assert (forall s f, 30 <= s < 60 ->
            RiskAnalyzer.decisionLogic true s f =
            (true, "Medium risk transaction - approved with monitoring"%string, None,
             f ++ ["REQUIRES_MONITORING"%string])) as B2.
  { intros s f H. unfold RiskAnalyzer.decisionLogic. cbn [negb].
    destruct (Z.ltb_spec s 30); [lia|]. destruct (Z.ltb_spec s 60); [reflexivity|lia]. }
  assert (forall s f, 60 <= s < 80 ->
            RiskAnalyzer.decisionLogic true s f =
            (false, "High risk transaction - requires review"%string,
             Some "Manual review required"%string, f ++ ["REQUIRES_REVIEW"%string])) as B3.
  { intros s f H. unfold RiskAnalyzer.decisionLogic. cbn [negb].
    destruct (Z.ltb_spec s 30); [lia|]. destruct (Z.ltb_spec s 60); [lia|].
    destruct (Z.ltb_spec s 80); [reflexivity|lia]. }
  assert (forall s f, 80 <= s ->
            RiskAnalyzer.decisionLogic true s f =
            (false, "Very high risk transaction - rejected"%string,
             Some "Transaction blocked due to high risk"%string, f)) as B4.
  { intros s f H. unfold RiskAnalyzer.decisionLogic. cbn [negb].
    destruct (Z.ltb_spec s 30); [lia|]. destruct (Z.ltb_spec s 60); [lia|].
    destruct (Z.ltb_spec s 80); [lia|reflexivity]. }
  split; [apply B1|]. split; [apply B2|]. split; [apply B3|]. split; [apply B4|].
  do 4 (split; [reflexivity|]).
  destruct (RiskAnalyzerFacts.analyze_spec self request true)
    as (factors & _ & _ & Hfail & Han).
  cbv zeta in Han. eexists _, _. split; [exact Han|]. cbn [riskScore approved reason flags].
  pose proof (RiskAnalyzerFacts.factorFlags_no_monitoring factors Hfail) as Hno.
  split; [|split; [|split]]; intros Hband.
  - rewrite B1 by exact Hband. split; [reflexivity|]. split; [reflexivity|exact Hno].
  - rewrite B2 by exact Hband. split; [reflexivity|]. split; [reflexivity|].
    apply in_or_app. right. left. reflexivity.
  - rewrite B3 by exact Hband. split; reflexivity.
  - rewrite B4 by exact Hband. split; reflexivity.
Qed.

Lemma risk_decision_bands_witness :
  RiskAnalyzer.decisionLogic true 29 [] = (true, "Low risk transaction"%string, None, [])
  /\ RiskAnalyzer.decisionLogic true 59 [] =
     (true, "Medium risk transaction - approved with monitoring"%string, None,
      ["REQUIRES_MONITORING"%string])
  /\ RiskAnalyzer.decisionLogic true 79 [] =
     (false, "High risk transaction - requires review"%string,
      Some "Manual review required"%string, ["REQUIRES_REVIEW"%string])
  /\ RiskAnalyzer.decisionLogic true 100 [] =
     (false, "Very high risk transaction - rejected"%string,
      Some "Transaction blocked due to high risk"%string, []).
Proof.
  pose (request := {| merchant := ""%string; tokenIn := ""%string; amountIn := 1;
                      description := ""%string; metadata := None |}).
  split; [|split; [|split]].
  - apply (risk_decision_bands RiskAnalyzer.new request 29 []). lia.
  - apply (risk_decision_bands RiskAnalyzer.new request 59 []). lia.
  - apply (risk_decision_bands RiskAnalyzer.new request 79 []). lia.
  - apply (risk_decision_bands RiskAnalyzer.new request 100 []). lia.
Defined.

(** C8, as stated, fails on the failed attempts: they add nothing to the
    score.  A request is analysed with a policy that is not valid and is
    rejected; the same request, analysed next with a valid policy by the
    analyzer that has this rejection in its history, scores 20, the weight
    of the unknown merchant alone, and carries no RECENT_FAILURES flag. *)
Lemma failed_attempt_adds_no_risk :
  exists d1 ra1 d2 ra2,
    RiskAnalyzer.analyze RiskAnalyzer.new (Scenario.pay 40) false = Ok (d1, ra1)
    /\ approved d1 = false
    /\ RiskAnalyzer.transactionHistory ra1 = [Scenario.pay 40]
    /\ RiskAnalyzer.analyze ra1 (Scenario.pay 40) true = Ok (d2, ra2)
    /\ riskScore d2 = 20
    /\ riskScore d2 <> 20 + 10 * 1
    /\ flags d2 = ["UNKNOWN_MERCHANT"%string].
Proof.
  eexists _, _, _, _.
  split; [vm_compute; reflexivity|]. split; [reflexivity|]. split; [reflexivity|].
  split; [vm_compute; reflexivity|]. split; [reflexivity|]. split; [discriminate|].
  reflexivity.
Qed.

(** C8, amended.  For every request, [analyze] returns, and the risk score
    it reports is the sum of the weights of the factors that fire, capped
    at 100: 100 for an invalid policy, 20 for a merchant absent from the
    registry, 15 for a token outside the known set, 25 for an amount more
    than two standard deviations from the mean of the history (never with
    fewer than 10 samples), 30 for more than five past requests to the same
    merchant.  Failed attempts add nothing: the count of recent failures is
    zero whatever the analyzer has seen, and no decision carries the
    RECENT_FAILURES flag.  An invalid policy always gives a rejection, with
    score 100. *)
Theorem risk_score_is_capped_sum (self : RiskAnalyzer.t) (request : PaymentRequest)
    (policyValid : bool) :
  let history := map amountIn (RiskAnalyzer.transactionHistory self) in
  let known_merchant :=
    bool_decide (is_Some (RiskAnalyzer.merchantDatabase self !! toLowerCase (merchant request))) in
  let known_token := includes RiskAnalyzer.knownTokens (toLowerCase (tokenIn request)) in
  let is_outlier := Stats.outlier history (amountIn request) in
  let velocity := RiskAnalyzer.checkVelocity self (merchant request) in
  exists d self',
    RiskAnalyzer.analyze self request policyValid = Ok (d, self')
    /\ riskScore d =
       Z.min 100
         ((if policyValid then 0 else 100)
          + (if known_merchant then 0 else 20)
          + (if known_token then 0 else 15)
          + (if is_outlier then 25 else 0)
          + (if velocity then 30 else 0))
    /\ 0 <= riskScore d <= 100
    /\ (Z.of_nat (length history) < 10 -> is_outlier = false)
    /\ (policyValid = false -> approved d = false /\ riskScore d = 100)
    /\ (forall merchant', RiskAnalyzer.getRecentFailures self merchant' = 0)
    /\ ~ In "RECENT_FAILURES"%string (flags d).
Proof.
  cbv zeta.
  destruct (RiskAnalyzerFacts.analyze_spec self request policyValid)
    as (factors & Hf & Hgas & Hfail & Han).
  cbv zeta in Han. eexists _, _. split; [exact Han|]. cbn [riskScore approved flags].
  rewrite RiskAnalyzerFacts.identifyRiskFactors_spec in Hf. injection Hf as <-.
  unfold RiskAnalyzer.calculateRiskScore, RiskAnalyzer.getRecentFailures,
    RiskAnalyzer.isUnknownToken.
  cbn [merchantUnknown tokenUnknown amountUnusual gasUnusual recentFailures velocityExceeded].
  split; [|split; [|split; [|split; [|split]]]].
  - destruct policyValid, (bool_decide _), (includes _ _), (Stats.outlier _ _),
      (RiskAnalyzer.checkVelocity _ _); cbn [negb]; reflexivity.
  - destruct policyValid, (bool_decide _), (includes _ _), (Stats.outlier _ _),
      (RiskAnalyzer.checkVelocity _ _); cbn [negb]; lia.
  - apply RiskAnalyzerFacts.outlier_needs_history.
  - intros ->. split; [reflexivity|].
    destruct (bool_decide _), (includes _ _), (Stats.outlier _ _),
      (RiskAnalyzer.checkVelocity _ _); cbn [negb]; reflexivity.
  - reflexivity.
  - apply RiskAnalyzerFacts.decisionLogic_no_recent_failures. reflexivity.
Qed.

Lemma risk_score_is_capped_sum_witness :
  exists d self',
    RiskAnalyzer.analyze RiskAnalyzer.new
      {| merchant := "0x00000000000000000000000000000000000000bb"%string;
         tokenIn := "0xa0b86991c6218b36c1d19d4a2e9eb0ce3606eb48"%string;
         amountIn := 40; description := "coffee"%string; metadata := None |} true
    = Ok (d, self')
    /\ riskScore d = 20.
Proof.
  destruct (risk_score_is_capped_sum RiskAnalyzer.new
      {| merchant := "0x00000000000000000000000000000000000000bb"%string;
         tokenIn := "0xa0b86991c6218b36c1d19d4a2e9eb0ce3606eb48"%string;
         amountIn := 40; description := "coffee"%string; metadata := None |} true)
    as (d & self' & Han & Hscore & _).
  exists d, self'. split; [exact Han|]. rewrite Hscore. reflexivity.
Defined.

(** C1. For every 32-byte operation hash [h] and every epoch [e] of the
    validator's range, the policy hash of [TransactionBuilder.buildPlan],
    [AttestationManager.calculatePolicyHash] and
    [CompliancePaymaster._policyHash] are one value: Keccak-256 of [h]
    followed by the 32 big-endian bytes of [e].  The assembly block gives it
    on every memory whose free pointer leaves room for two words, and every
    plan [buildPlan] returns carries it for its own operation hash. *)
Theorem policy_hash_agreement (h : list byte) (e : Z) :
  length h = 32%nat -> 0 <= e < 2 ^ 256 ->
  TransactionBuilder.buildPlan_policyHash (toHex h) e = toHex (canonical h e)
  /\ AttestationManager.calculatePolicyHash (toHex h) e = Ok (toHex (canonical h e))
  /\ CompliancePaymaster._policyHash (be_value h) e = be_value (canonical h e)
  /\ (forall m, mload m 0x40 + 0x40 <= 2 ^ 256 ->
        (CompliancePaymaster._policyHash_asm m (be_value h) e).1 = be_value (canonical h e))
  /\ (forall logger enc now request plan,
        TransactionBuilder.buildPlan logger enc now request (Integer e) = Ok plan ->
        exists h', length h' = 32%nat
          /\ TransactionPlan.userOpHash plan = toHex h'
          /\ TransactionPlan.policyHash plan = toHex (canonical h' e)
          /\ AttestationManager.calculatePolicyHash (TransactionPlan.userOpHash plan) e
             = Ok (TransactionPlan.policyHash plan)
          /\ CompliancePaymaster._policyHash (be_value h') e
             = be_value (canonical h' e)).
Proof.
  intros Hh He.
  assert (forall h', length h' = 32%nat ->
            CompliancePaymaster._policyHash (be_value h') e = be_value (canonical h' e)) as Hsol.
  { intros h' Hh'. rewrite PolicyHash._policyHash_spec. unfold canonical.
    rewrite <- Hh' at 1. rewrite BytesFacts.be_bytes_be_value. reflexivity. }
  split; [apply PolicyHash.buildPlan_policyHash_spec|].
  split; [apply PolicyHash.calculatePolicyHash_spec; assumption|].
  split; [apply Hsol; assumption|].
  split.
  - intros m Hm. rewrite PolicyHash._policyHash_asm_spec by exact Hm. unfold canonical.
    rewrite <- Hh at 1. rewrite BytesFacts.be_bytes_be_value. reflexivity.
  - intros logger enc now request plan Hplan.
    destruct (PolicyHash.buildPlan_hashes logger enc now request e plan Hplan)
      as (h' & Hh' & Hu & Hp & _).
    exists h'. repeat split; try assumption.
    + rewrite Hu, Hp. apply PolicyHash.calculatePolicyHash_spec; assumption.
    + apply Hsol; assumption.
Qed.

Lemma policy_hash_agreement_witness :
  TransactionBuilder.buildPlan_policyHash (toHex (repeat x11 32)) 202511
  = toHex (canonical (repeat x11 32) 202511)
  /\ AttestationManager.calculatePolicyHash (toHex (repeat x11 32)) 202511
     = Ok (toHex (canonical (repeat x11 32) 202511))
  /\ CompliancePaymaster._policyHash (be_value (repeat x11 32)) 202511
     = be_value (canonical (repeat x11 32) 202511).
Proof.
  destruct (policy_hash_agreement (repeat x11 32) 202511) as (H1 & H2 & H3 & _).
  - reflexivity.
  - lia.
  - exact (conj H1 (conj H2 H3)).
Defined.

(** C2, as stated, fails: the validator has no nullifier set.  The payload of
    the deployment is accepted, and accepted again when it is submitted a
    second time for the same operation hash and epoch. *)
Lemma replay_is_accepted_again :
  CompliancePaymaster.validatePaymasterUserOp Scenario.paymaster Scenario.registry
    (Scenario.at_time (Scenario.issuance + 10)) (Scenario.userOp Scenario.payload116)
    Scenario.userOpHash 0
  = Sol.Success Scenario.accepted
  /\ CompliancePaymaster.validatePaymasterUserOp
       (CompliancePaymaster.after Scenario.accepted) Scenario.registry
       (Scenario.at_time (Scenario.issuance + 10)) (Scenario.userOp Scenario.payload116)
       Scenario.userOpHash 0
     = Sol.Success Scenario.accepted.
Proof. split; vm_compute; reflexivity. Qed.

(** C2, amended.  The validator keeps no nullifier and no spend record:
    validation writes no contract state, so a payload that was validated
    once for an operation hash and epoch is validated again, with the same
    outcome, when it is submitted a second time under the same registry,
    block and whitelist; [postOp] records nothing either. *)
Theorem validation_is_repeatable {E : Type} `{Sol.IEAS E}
    (self : CompliancePaymaster.t) (eas : E) (env : Sol.Env)
    (userOp : CompliancePaymaster.UserOperation) (userOpHash pf pf' : Z)
    (v : CompliancePaymaster.Validated)
    (mode : CompliancePaymaster.PostOpMode) (ctx : list byte) (cost : Z) :
  CompliancePaymaster.validatePaymasterUserOp self eas env userOp userOpHash pf
    = Sol.Success v ->
  CompliancePaymaster.after v = self
  /\ CompliancePaymaster.postOp (CompliancePaymaster.after v) env mode ctx cost
     = Sol.Success self
  /\ CompliancePaymaster.validatePaymasterUserOp (CompliancePaymaster.after v) eas env
       userOp userOpHash pf'
     = Sol.Success v.
Proof.
  intros Hv.
  pose proof (PaymasterFacts.validate_after self eas env userOp userOpHash pf v Hv) as Ha.
  pose proof (PaymasterFacts.validate_success_inv self eas env userOp userOpHash pf v Hv)
    as (Hs & _).
  rewrite Ha. split; [reflexivity|]. split.
  - unfold CompliancePaymaster.postOp, CompliancePaymaster._onlyEntryPoint.
    rewrite Hs, Z.eqb_refl. reflexivity.
  - exact Hv.
Qed.

Lemma validation_is_repeatable_witness :
  CompliancePaymaster.after Scenario.accepted = Scenario.paymaster
  /\ CompliancePaymaster.postOp (CompliancePaymaster.after Scenario.accepted)
       (Scenario.at_time (Scenario.issuance + 10)) CompliancePaymaster.opSucceeded [] 0
     = Sol.Success Scenario.paymaster
  /\ CompliancePaymaster.validatePaymasterUserOp
       (CompliancePaymaster.after Scenario.accepted) Scenario.registry
       (Scenario.at_time (Scenario.issuance + 10)) (Scenario.userOp Scenario.payload116)
       Scenario.userOpHash 7
     = Sol.Success Scenario.accepted.
Proof.
  apply (validation_is_repeatable Scenario.paymaster Scenario.registry
           (Scenario.at_time (Scenario.issuance + 10))
           (Scenario.userOp Scenario.payload116) Scenario.userOpHash 0 7).
  vm_compute. reflexivity.
Defined.

(** C4, as stated, fails on the error of an expired attestation: with the
    registry of the repository, validation one second past the hour reverts
    with InvalidAttestation, not with ExpiredAttestation. *)
Lemma expired_under_mock_is_invalid :
  CompliancePaymaster.validatePaymasterUserOp Scenario.paymaster Scenario.registry
    (Scenario.at_time (Scenario.issuance + 3601)) (Scenario.userOp Scenario.payload116)
    Scenario.userOpHash 0
  = Sol.Revert Sol.InvalidAttestation
  /\ CompliancePaymaster.validatePaymasterUserOp Scenario.paymaster Scenario.registry
       (Scenario.at_time (Scenario.issuance + 3601)) (Scenario.userOp Scenario.payload116)
       Scenario.userOpHash 0
     <> Sol.Revert Sol.ExpiredAttestation.
Proof. split; [vm_compute; reflexivity|vm_compute; discriminate]. Qed.

(** C4, amended.  An accepted validation has an attester in the whitelist
    and an expiration that is zero or not before the block's time, whatever
    the registry.  With the mock registry and an attestation expiring 3600
    seconds after issuance, validation at issuance + 3599 succeeds for a
    whitelisted attester and reverts with AttesterNotWhitelisted for any
    other, and validation at issuance + 3601 reverts with
    InvalidAttestation, since the mock registry's validity check already
    covers expiry.  ExpiredAttestation is what a registry that reports an
    expired attestation as valid leads to. *)
Theorem attestation_trust_and_expiry (self : CompliancePaymaster.t)
    (reg : MockEAS.t) (issued : Sol.Env) (uid att dataHash h e pf : Z)
    (prefix : list byte) (userOp : CompliancePaymaster.UserOperation) :
  let t0 := Sol.block_timestamp issued in
  let registry := MockEAS.set reg issued uid (CompliancePaymaster.SCHEMA_UID self) att
                    (t0 + 3600) dataHash in
  let at_time t := {| Sol.msg_sender := CompliancePaymaster.ENTRY_POINT self;
                      Sol.block_timestamp := t |} in
  let accepted :=
    {| CompliancePaymaster.context := []; CompliancePaymaster.validationData := 0;
       CompliancePaymaster.events :=
         [CompliancePaymaster.PolicyChecked uid (CompliancePaymaster._policyHash h e) e];
       CompliancePaymaster.after := self |} in
  CompliancePaymaster.paymasterAndData userOp =
    payload prefix uid (CompliancePaymaster._policyHash h e) e ->
  length prefix = 20%nat -> 0 <= uid < 2 ^ 256 -> 0 <= e < 2 ^ 256 ->
  att <> 0 -> 0 <= t0 ->
  (forall (E : Type) (I : Sol.IEAS E) (eas : E) env' op' h' pf' v,
      CompliancePaymaster.validatePaymasterUserOp self eas env' op' h' pf' = Sol.Success v ->
      exists pmd a,
        CompliancePaymaster._decode (CompliancePaymaster.paymasterAndData op') = Sol.Success pmd
        /\ Sol.getAttestation eas env' (CompliancePaymaster.attUid pmd) = Sol.Success a
        /\ CompliancePaymaster.whitelisted self (Sol.attester a) = true
        /\ (Sol.expirationTime a = 0 \/ Sol.block_timestamp env' <= Sol.expirationTime a))
  /\ (CompliancePaymaster.whitelisted self att = true ->
      CompliancePaymaster.validatePaymasterUserOp self registry (at_time (t0 + 3599))
        userOp h pf = Sol.Success accepted)
  /\ (CompliancePaymaster.whitelisted self att = false ->
      CompliancePaymaster.validatePaymasterUserOp self registry (at_time (t0 + 3599))
        userOp h pf = Sol.Revert Sol.AttesterNotWhitelisted)
  /\ CompliancePaymaster.validatePaymasterUserOp self registry (at_time (t0 + 3601))
       userOp h pf = Sol.Revert Sol.InvalidAttestation
  /\ (forall (E : Type) (I : Sol.IEAS E) (eas : E) env' op' h' pf' pmd a,
      Sol.msg_sender env' = CompliancePaymaster.ENTRY_POINT self ->
      CompliancePaymaster._decode (CompliancePaymaster.paymasterAndData op') = Sol.Success pmd ->
      Sol.isAttestationValid eas env' (CompliancePaymaster.attUid pmd) = Sol.Success true ->
      Sol.getAttestation eas env' (CompliancePaymaster.attUid pmd) = Sol.Success a ->
      Sol.schema a = CompliancePaymaster.SCHEMA_UID self ->
      CompliancePaymaster.whitelisted self (Sol.attester a) = true ->
      Sol.expirationTime a <> 0 -> Sol.expirationTime a < Sol.block_timestamp env' ->
      CompliancePaymaster.validatePaymasterUserOp self eas env' op' h' pf'
      = Sol.Revert Sol.ExpiredAttestation).
Proof.
  cbv zeta. intros Hpay Hprefix Huid He Hatt Ht0.
  assert (CompliancePaymaster.paymasterAndData userOp =
          payload prefix uid (CompliancePaymaster._policyHash h e) e ++ []) as Hpay'
    by (rewrite app_nil_r; exact Hpay).
  split; [|split; [|split; [|split]]].
  - intros E I eas env' op' h' pf' v Hv.
    apply PaymasterFacts.validate_success_inv in Hv
      as (_ & _ & pmd & a & Hd & _ & Hg & _ & Hw & Hexp & _).
    exists pmd, a. repeat split; assumption.
  - intros Hw.
    rewrite (MockFacts.mock_validate self reg issued uid att _ dataHash h e _ pf prefix []
               userOp Hpay' Hprefix Huid He).
    destruct (Z.eqb_spec att 0); [contradiction|].
    destruct (Z.eqb_spec (Sol.block_timestamp issued + 3600) 0); [lia|].
    destruct (Z.geb_spec (Sol.block_timestamp issued + 3600)
                (Sol.block_timestamp issued + 3599)); [|lia].
    cbn [orb negb]. rewrite Hw. reflexivity.
  - intros Hw.
    rewrite (MockFacts.mock_validate self reg issued uid att _ dataHash h e _ pf prefix []
               userOp Hpay' Hprefix Huid He).
    destruct (Z.eqb_spec att 0); [contradiction|].
    destruct (Z.eqb_spec (Sol.block_timestamp issued + 3600) 0); [lia|].
    destruct (Z.geb_spec (Sol.block_timestamp issued + 3600)
                (Sol.block_timestamp issued + 3599)); [|lia].
    cbn [orb negb]. rewrite Hw. reflexivity.
  - rewrite (MockFacts.mock_validate self reg issued uid att _ dataHash h e _ pf prefix []
               userOp Hpay' Hprefix Huid He).
    destruct (Z.eqb_spec att 0); [contradiction|].
    destruct (Z.eqb_spec (Sol.block_timestamp issued + 3600) 0); [lia|].
    destruct (Z.geb_spec (Sol.block_timestamp issued + 3600)
                (Sol.block_timestamp issued + 3601)); [lia|].
    reflexivity.
  - intros E I eas env' op' h' pf' pmd a Hs Hd Hv Hg Hsch Hw Hnz Hlt.
    rewrite (PaymasterFacts.validate_steps self eas env' op' h' pf' pmd Hs Hd).
    rewrite Hv. cbn [Sol.bind negb]. rewrite Hg. cbn [Sol.bind].
    rewrite Hsch, Z.eqb_refl, Hw. cbn [negb].
    destruct (Z.eqb_spec (Sol.expirationTime a) 0); [contradiction|].
    destruct (Z.ltb_spec (Sol.expirationTime a) (Sol.block_timestamp env')); [|lia].
    reflexivity.
Qed.

Lemma attestation_trust_and_expiry_witness :
  CompliancePaymaster.validatePaymasterUserOp Scenario.paymaster Scenario.registry
    (Scenario.at_time (Scenario.issuance + 3599)) (Scenario.userOp Scenario.payload116)
    Scenario.userOpHash 0
  = Sol.Success Scenario.accepted
  /\ CompliancePaymaster.validatePaymasterUserOp Scenario.paymaster Scenario.registry
       (Scenario.at_time (Scenario.issuance + 3601)) (Scenario.userOp Scenario.payload116)
       Scenario.userOpHash 0
     = Sol.Revert Sol.InvalidAttestation.
Proof.
  destruct (attestation_trust_and_expiry Scenario.paymaster MockEAS.new
              {| Sol.msg_sender := 1; Sol.block_timestamp := Scenario.issuance |}
              Scenario.attUid Scenario.attester 0 Scenario.userOpHash Scenario.EPOCH 0
              Scenario.prefix (Scenario.userOp Scenario.payload116))
    as (_ & Hok & _ & Hlate & _).
  - reflexivity.
  - reflexivity.
  - vm_compute. split; [discriminate|reflexivity].
  - vm_compute. split; [discriminate|reflexivity].
  - vm_compute. discriminate.
  - vm_compute. discriminate.
  - split; [apply Hok; vm_compute; reflexivity|exact Hlate].
Defined.

(** C5, as stated, fails on payloads longer than 116 bytes: the payload of
    the deployment with one more byte at its end has 117 bytes and is
    accepted. *)
Lemma longer_payload_is_accepted :
  length (Scenario.payload116 ++ [xff]) = 117%nat
  /\ CompliancePaymaster.validatePaymasterUserOp Scenario.paymaster Scenario.registry
       (Scenario.at_time (Scenario.issuance + 10))
       (Scenario.userOp (Scenario.payload116 ++ [xff])) Scenario.userOpHash 0
     = Sol.Success Scenario.accepted.
Proof. split; vm_compute; reflexivity. Qed.

(** The agent's builder tests the length of the uid and of the policy
    hash, not their characters: for a policy hash of 66 characters that are
    not hexadecimal digits it returns 234 characters that spell no byte
    string. *)
Example buildPaymasterAndData_keeps_any_text :
  exists hex,
    AttestationManager.buildPaymasterAndData Scenario.config
      {| Attestation.uid := toHex (be_bytes 32 7); Attestation.schema := "";
         Attestation.attester := ""; Attestation.recipient := "";
         Attestation.time := 0; Attestation.expirationTime := 0;
         Attestation.revocable := false; Attestation.refUID := "";
         Attestation.data := "" |}
      "0xzzzzzzzzzzzzzzzzzzzzzzzzzzzzzzzzzzzzzzzzzzzzzzzzzzzzzzzzzzzzzzzz" 202511 = Ok hex
    /\ String.length hex = 234%nat
    /\ hexToBytes hex = Throw ExternalError.
Proof. eexists. split; [vm_compute; reflexivity|]. split; vm_compute; reflexivity. Qed.

(** C5, amended.  The validator strips the first 20 bytes as a routing
    prefix and decodes the 96 bytes after them as (attestationRef,
    policyHash, epoch).  A payload shorter than 116 bytes is a hard reject
    (PMD_TOO_SHORT); a longer one is decoded from its first 116 bytes, what
    follows being ignored; every accepted payload has at least 116 bytes;
    and the payload that [buildPaymasterAndData] builds from a uid and a
    policy hash that are hexadecimal has exactly 116 and decodes to the
    fields it was built from.  (The builder tests the length of the two,
    not their characters.) *)
Theorem payload_decoding (d : list byte) :
  ((length d < 116)%nat ->
     CompliancePaymaster._decode d = Sol.Revert (Sol.RequireFailed "PMD_TOO_SHORT")
     /\ forall (E : Type) (I : Sol.IEAS E) self (eas : E) env op h pf,
          CompliancePaymaster.paymasterAndData op = d ->
          Sol.msg_sender env = CompliancePaymaster.ENTRY_POINT self ->
          CompliancePaymaster.validatePaymasterUserOp self eas env op h pf
          = Sol.Revert (Sol.RequireFailed "PMD_TOO_SHORT"))
  /\ ((116 <= length d)%nat ->
     CompliancePaymaster._decode d =
       Sol.Success
         {| CompliancePaymaster.attUid := be_value (take 32 (drop 20 d));
            CompliancePaymaster.policyHash := be_value (take 32 (drop 52 d));
            CompliancePaymaster.epoch := be_value (take 32 (drop 84 d)) |}
     /\ CompliancePaymaster._decode d = CompliancePaymaster._decode (take 116 d))
  /\ (forall (E : Type) (I : Sol.IEAS E) self (eas : E) env op h pf v,
        CompliancePaymaster.paymasterAndData op = d ->
        CompliancePaymaster.validatePaymasterUserOp self eas env op h pf = Sol.Success v ->
        (116 <= length d)%nat)
  /\ (forall config att policyHash epoch hex,
        isHex (Attestation.uid att) = true -> isHex policyHash = true ->
        AttestationManager.buildPaymasterAndData config att policyHash epoch = Ok hex ->
        exists bytes u p,
          hexToBytes hex = Ok bytes /\ length bytes = 116%nat
          /\ hexToBytes (Attestation.uid att) = Ok u
          /\ hexToBytes policyHash = Ok p
          /\ CompliancePaymaster._decode bytes =
             Sol.Success {| CompliancePaymaster.attUid := be_value u;
                            CompliancePaymaster.policyHash := be_value p;
                            CompliancePaymaster.epoch := epoch |}).
Proof.
  split; [|split; [|split]].
  - intros Hshort. split; [apply PaymasterFacts._decode_short; exact Hshort|].
    intros E I self eas env op h pf Hd Hs.
    unfold CompliancePaymaster.validatePaymasterUserOp, CompliancePaymaster._onlyEntryPoint.
    rewrite Hs, Z.eqb_refl, Hd, PaymasterFacts._decode_short by exact Hshort. reflexivity.
  - intros Hlong. split; [|apply PaymasterFacts._decode_take; exact Hlong].
    rewrite PaymasterFacts._decode_long by exact Hlong.
    unfold CompliancePaymaster.abi_decode_PaymasterData. rewrite !drop_drop. reflexivity.
  - intros E I self eas env op h pf v Hd Hv.
    apply PaymasterFacts.validate_success_inv in Hv as (_ & Hlen & _).
    rewrite Hd in Hlen. exact Hlen.
  - intros config att policyHash epoch hex Huid Hph Hb.
    destruct (BuilderFacts.buildPaymasterAndData_bytes config att policyHash epoch hex
                Huid Hph Hb)
      as (prefix & u & p & Hpl & Hul & Hpl' & Hu & Hp & He & Hhex).
    exists (payload prefix (be_value u) (be_value p) epoch), u, p.
    split; [exact Hhex|]. split; [rewrite BuilderFacts.length_payload; lia|].
    split; [exact Hu|]. split; [exact Hp|].
    rewrite <- (app_nil_r (payload _ _ _ _)).
    rewrite PaymasterFacts._decode_payload by exact Hpl.
    pose proof (BytesFacts.be_value_range u) as Hur.
    pose proof (BytesFacts.be_value_range p) as Hpr.
    rewrite Hul in Hur. rewrite Hpl' in Hpr. rewrite PaymasterFacts.word_256 in Hur, Hpr.
    rewrite !Z.mod_small by lia. reflexivity.
Qed.

Lemma payload_decoding_witness :
  CompliancePaymaster._decode (Scenario.payload116 ++ [xff]) =
    CompliancePaymaster._decode (take 116 (Scenario.payload116 ++ [xff]))
  /\ CompliancePaymaster._decode (take 100 Scenario.payload116)
     = Sol.Revert (Sol.RequireFailed "PMD_TOO_SHORT").
Proof.
  split.
  - destruct (payload_decoding (Scenario.payload116 ++ [xff])) as (_ & Hlong & _).
    apply Hlong. apply Nat.leb_le. vm_compute. reflexivity.
  - destruct (payload_decoding (take 100 Scenario.payload116)) as (Hshort & _).
    apply Hshort. apply Nat.ltb_lt. vm_compute. reflexivity.
Defined.

(** C3 fails on calls that are under way together.  Eleven requests of
    100 each are started together, as in
    [Promise.all(requests.map(r => agent.processPayment(r)))], on a fresh
    agent whose cap is 1000 an epoch.  Every call is validated before any
    has recorded its spending, so all eleven come back approved and the
    spend recorded for the epoch is 1100.  The same calls, each awaited
    before the next is made, stop at the cap: the eleventh is rejected and
    1000 is recorded. *)
Theorem batch_overspends_the_cap :
  let agent := zkAgent.new Scenario.config in
  let calls := repeat (Scenario.call (Scenario.pay 100)) 11 in
  let batch := Async.promise_all agent calls in
  let awaited := Pipeline.run agent calls in
  Pipeline.cap (zkAgent.policyValidator agent) = 1000
  /\ map (fun task => from_option (Pipeline.committed 176200) 0 (Async.outcome task)) batch.1
     = repeat 100 11
  /\ zkAgent.config batch.2 = zkAgent.config agent
  /\ PolicyValidator.getEpochSpending (zkAgent.policyValidator batch.2) 176200 = 1100
  /\ map (Pipeline.committed 176200) awaited.2 = repeat 100 10 ++ [0]
  /\ PolicyValidator.getEpochSpending (zkAgent.policyValidator awaited.1) 176200 = 1000.
Proof. vm_compute. repeat split. Qed.

(** For calls that are each awaited before the next is made, the property
    holds.  Starting from a fresh agent, after any sequence of such
    [processPayment] calls the spend recorded for an epoch is the sum of
    the amounts of the calls that committed to it, and no recorded entry
    exceeds the cap of ten times the maximal transaction value.  A request
    whose amount would carry the epoch's spend over the cap is rejected,
    with the epoch-spending-limit violation when policy validation is
    reached, and leaves the recorded spend as it was. *)
Theorem spend_is_sum_of_commits (cfg : AgentConfig.t) (calls : list Pipeline.Call) (E : Z) :
  let final := (Pipeline.run (zkAgent.new cfg) calls).1 in
  let outs := (Pipeline.run (zkAgent.new cfg) calls).2 in
  let store := zkAgent.policyValidator final in
  let cap := AgentConfig.maxTransactionValue cfg * 10 in
  PolicyValidator.getEpochSpending store E = Pipeline.total_committed E outs
  /\ (forall s, PolicyValidator.epochSpending store !! E = Some s -> s <= cap)
  /\ (0 <= cap -> PolicyValidator.getEpochSpending store E <= cap)
  /\ forall enc clock request options,
       let out := zkAgent.processPayment enc clock final request options in
       let e := Pipeline.epoch_of clock options in
       PolicyValidator.getEpochSpending store e + amountIn request > cap ->
       Pipeline.rejected out.1 = true
       /\ zkAgent.policyValidator out.2 = store
       /\ forall a, out.1 = Ok a ->
            PolicyValidation.valid (AgentAnalysis.policyValidation a) = false
            /\ In ("Epoch spending limit exceeded. Remaining: "
                   ++ pretty (cap - PolicyValidator.getEpochSpending store e))%string
                  (PolicyValidation.violations (AgentAnalysis.policyValidation a)).
Proof.
  cbv zeta.
  destruct (AgentFacts.run_spending calls (zkAgent.new cfg) E) as (Hcfg & Hsum & Hcap).
  cbv zeta in Hcfg, Hsum, Hcap.
  set (final := (Pipeline.run (zkAgent.new cfg) calls).1) in *.
  change (PolicyValidator.config (zkAgent.policyValidator (zkAgent.new cfg))) with cfg in Hcfg.
  assert (forall e s, PolicyValidator.epochSpending (zkAgent.policyValidator final) !! e = Some s ->
                      s <= AgentConfig.maxTransactionValue cfg * 10) as Hinv.
  { apply Hcap. intros e s H. cbn in H. rewrite lookup_empty in H. discriminate. }
  split; [|split; [|split]].
  - rewrite Hsum. reflexivity.
  - apply Hinv.
  - intros Hc. unfold PolicyValidator.getEpochSpending.
    destruct (PolicyValidator.epochSpending (zkAgent.policyValidator final) !! E) as [s|] eqn:Hl;
      [apply (Hinv E s Hl)|exact Hc].
  - intros enc clock request options Hover.
    pose proof (AgentFacts.processPayment_spec enc clock final request options) as Hstep.
    cbv zeta in Hstep. destruct Hstep as (_ & _ & Hr).
    pose proof (PolicyValidatorFacts.validate_violation (zkAgent.policyValidator final)
                  (Clock.now_validate clock) request (Pipeline.epoch_of clock options))
      as (_ & _ & _ & Hviol).
    rewrite Hcfg in Hviol. specialize (Hviol Hover).
    assert (PolicyValidation.valid
              (PolicyValidator.validation (zkAgent.policyValidator final)
                 (Clock.now_validate clock) request (Pipeline.epoch_of clock options))
            = false) as Hinvalid.
    { destruct (PolicyValidation.valid _) eqn:Hv; [|reflexivity].
      apply PolicyValidatorFacts.validate_valid_inv in Hv as (_ & Hle & _).
      rewrite Hcfg in Hle. lia. }
    destruct (zkAgent.processPayment enc clock final request options) as [r self1].
    cbn [fst snd] in *. destruct r as [a|err]; cbn [Pipeline.rejected].
    + destruct Hr as (_ & _ & Hpv & _ & Hr).
      destruct (approved (AgentAnalysis.decision a)).
      * destruct Hr as (Hv & _). congruence.
      * destruct Hr as (_ & Hsame & _). split; [reflexivity|]. split; [exact Hsame|].
        intros a' [= <-]. rewrite Hpv. split; assumption.
    + split; [reflexivity|]. split; [exact Hr|]. intros a' [=].
Qed.

Lemma spend_is_sum_of_commits_witness :
  let calls := map Scenario.call
                 (map Scenario.pay [60; 70; 0; 100; 100; 100; 100; 100; 100; 100; 100]) in
  let final := (Pipeline.run (zkAgent.new Scenario.config) calls).1 in
  PolicyValidator.getEpochSpending (zkAgent.policyValidator final) 176200 = 930
  /\ Pipeline.rejected
       (zkAgent.processPayment Scenario.encoder Scenario.clock final (Scenario.pay 100)
          zkAgent.noOptions).1 = true
  /\ zkAgent.policyValidator
       (zkAgent.processPayment Scenario.encoder Scenario.clock final (Scenario.pay 100)
          zkAgent.noOptions).2 = zkAgent.policyValidator final.
Proof.
  cbv zeta.
  destruct (spend_is_sum_of_commits Scenario.config
              (map Scenario.call
                 (map Scenario.pay [60; 70; 0; 100; 100; 100; 100; 100; 100; 100; 100]))
              176200) as (Hsum & _ & _ & Hover).
  split; [rewrite Hsum; vm_compute; reflexivity|].
  destruct (Hover Scenario.encoder Scenario.clock (Scenario.pay 100) zkAgent.noOptions)
    as (Hrej & Hsame & _).
  - vm_compute. reflexivity.
  - split; [exact Hrej|exact Hsame].
Defined.

(** C6. A [processPayment] call that is rejected, by throwing or by
    returning a decision that is not approved, leaves the policy validator
    as it was: its configuration and every entry of the spending map.  A
    request that fails policy validation is always rejected.  On chain,
    validation writes nothing either. *)
Theorem rejection_leaves_policy_store (enc : TransactionBuilder.encoder) (clock : Clock.t)
    (self : zkAgent.t) (request : PaymentRequest) (options : zkAgent.Options) :
  let out := zkAgent.processPayment enc clock self request options in
  let pv := PolicyValidator.validation (zkAgent.policyValidator self)
              (Clock.now_validate clock) request (Pipeline.epoch_of clock options) in
  (PolicyValidation.valid pv = false -> Pipeline.rejected out.1 = true)
  /\ (Pipeline.rejected out.1 = true ->
      zkAgent.policyValidator out.2 = zkAgent.policyValidator self
      /\ forall e, PolicyValidator.epochSpending (zkAgent.policyValidator out.2) !! e
                   = PolicyValidator.epochSpending (zkAgent.policyValidator self) !! e)
  /\ (forall (E : Type) (I : Sol.IEAS E) contract (eas : E) env op h pf v,
        CompliancePaymaster.validatePaymasterUserOp contract eas env op h pf = Sol.Success v ->
        CompliancePaymaster.after v = contract).
Proof.
  cbv zeta.
  pose proof (AgentFacts.processPayment_spec enc clock self request options) as Hstep.
  cbv zeta in Hstep. destruct Hstep as (_ & _ & Hr).
  destruct (zkAgent.processPayment enc clock self request options) as [r self1].
  cbn [fst snd] in *.
  split; [|split].
  - intros Hinvalid. destruct r as [a|e]; [|reflexivity]. cbn [Pipeline.rejected].
    destruct Hr as (_ & _ & _ & _ & Hr).
    destruct (approved (AgentAnalysis.decision a)); [|reflexivity].
    destruct Hr as (Hv & _). congruence.
  - intros Hrej.
    assert (zkAgent.policyValidator self1 = zkAgent.policyValidator self) as ->;
      [|split; reflexivity].
    destruct r as [a|e]; [|exact Hr]. cbn [Pipeline.rejected] in Hrej.
    destruct Hr as (_ & _ & _ & _ & Hr).
    destruct (approved (AgentAnalysis.decision a)); [discriminate|].
    destruct Hr as (_ & Hsame & _). exact Hsame.
  - intros E I contract eas env op h pf v Hv.
    apply (PaymasterFacts.validate_after contract eas env op h pf v Hv).
Qed.

Lemma rejection_leaves_policy_store_witness :
  zkAgent.policyValidator
    (zkAgent.processPayment Scenario.encoder Scenario.clock (zkAgent.new Scenario.config)
       (Scenario.pay 0) zkAgent.noOptions).2
  = zkAgent.policyValidator (zkAgent.new Scenario.config).
Proof.
  apply (rejection_leaves_policy_store Scenario.encoder Scenario.clock
           (zkAgent.new Scenario.config) (Scenario.pay 0) zkAgent.noOptions).
  vm_compute. reflexivity.
Defined.




(** * More of the code: the risk analyzer's memory *)

Module AnalyzerFacts.
Import RiskMath RiskMathFacts RiskAnalyzer RiskAnalyzerFacts Stats.

Lemma lower_ascii_idem (c : ascii) : lower_ascii (lower_ascii c) = lower_ascii c.
Proof. destruct c as [[] [] [] [] [] [] [] []]; vm_compute; reflexivity. Qed.

Lemma toLowerCase_idem (s : string) : toLowerCase (toLowerCase s) = toLowerCase s.
Proof.
  induction s as [|c s IH]; [reflexivity|].
  cbn [toLowerCase]. rewrite lower_ascii_idem, IH. reflexivity.
Qed.

Lemma includes_In (arr : list string) (s : string) : includes arr s = true <-> In s arr.
Proof.
  unfold includes. rewrite existsb_exists. split.
  - intros (x & Hin & Heq). apply String.eqb_eq in Heq. subst x. exact Hin.
  - intros Hin. exists s. split; [exact Hin|apply String.eqb_refl].
Qed.

(** The history after one more request: never more than 1000 entries, the
    request last. *)
Lemma length_recordTransaction (history : list PaymentRequest) (request : PaymentRequest) :
  length (recordTransaction history request) = Nat.min (S (length history)) 1000.
Proof.
  unfold recordTransaction. rewrite length_app. cbn [length].
  destruct (Z.gtb_spec (Z.of_nat (length history + 1)) 1000).
  - rewrite length_drop, length_app. cbn [length]. lia.
  - rewrite length_app. cbn [length]. lia.
Qed.

Lemma recordTransaction_suffix (history : list PaymentRequest) (request : PaymentRequest) :
  exists older kept,
    history = older ++ kept /\ recordTransaction history request = kept ++ [request].
Proof.
  unfold recordTransaction. rewrite length_app. cbn [length].
  destruct (Z.gtb_spec (Z.of_nat (length history + 1)) 1000) as [Hgt|Hle].
  - exists (take (length history + 1 - 1000) history),
           (drop (length history + 1 - 1000) history).
    split; [symmetry; apply take_drop|].
    rewrite drop_app_le by lia. reflexivity.
  - exists [], history. split; reflexivity.
Qed.

(** The flags the factors push, and what the decision adds to them. *)
Lemma factorFlags_velocity (factors : RiskFactors) :
  recentFailures factors = 0 ->
  (In "HIGH_VELOCITY"%string (factorFlags factors) <-> velocityExceeded factors = true)
  /\ (In "UNKNOWN_MERCHANT"%string (factorFlags factors) <-> merchantUnknown factors = true)
  /\ (In "UNKNOWN_TOKEN"%string (factorFlags factors) <-> tokenUnknown factors = true)
  /\ (In "UNUSUAL_AMOUNT"%string (factorFlags factors) <-> amountUnusual factors = true).
Proof.
  intros H. unfold factorFlags. rewrite H.
  destruct (merchantUnknown factors), (tokenUnknown factors),
    (amountUnusual factors), (velocityExceeded factors); cbn;
    repeat split; intros Hin; try reflexivity; try discriminate Hin; auto;
    repeat (destruct Hin as [Hin|Hin]; [discriminate Hin|]); try contradiction.
Qed.

Lemma decisionLogic_flags (policyValid : bool) (score : Z) (fl : list string) (x : string) :
  x <> "REQUIRES_MONITORING"%string -> x <> "REQUIRES_REVIEW"%string ->
  (In x (decisionLogic policyValid score fl).2 <-> In x fl).
Proof.
  intros H1 H2. unfold decisionLogic.
  destruct (negb policyValid); [reflexivity|].
  destruct (score <? 30); [reflexivity|].
  destruct (score <? 60); cbn [snd].
  { rewrite in_app_iff. cbn. split; [intros [H|[H|[]]]; [exact H|congruence]|auto]. }
  destruct (score <? 80); cbn [snd]; [|reflexivity].
  rewrite in_app_iff. cbn. split; [intros [H|[H|[]]]; [exact H|congruence]|auto].
Qed.

Lemma sum_repeat (a : Z) (n : nat) : sum (repeat a n) = Z.of_nat n * a.
Proof.
  induction n as [|n IH]; [reflexivity|].
  cbn [repeat]. rewrite sum_cons, IH. lia.
Qed.

Lemma constant_map (h : list PaymentRequest) (a : Z) :
  (forall tx, In tx h -> amountIn tx = a) -> map amountIn h = repeat a (length h).
Proof.
  induction h as [|tx h IH]; intros Hall; [reflexivity|].
  cbn [map length repeat]. rewrite (Hall tx) by (left; reflexivity).
  rewrite IH by (intros tx' Hin; apply Hall; right; exact Hin). reflexivity.
Qed.

Lemma outlier_constant (a amount : Z) (n : nat) :
  (10 <= n)%nat -> outlier (repeat a n) amount = negb (amount =? a).
Proof.
  intros Hn. unfold outlier, std_dev, mean. rewrite repeat_length.
  destruct (Z.leb_spec 10 (Z.of_nat n)); [|lia]. cbn [andb].
  rewrite sum_repeat.
  assert (Z.quot (Z.of_nat n * a) (Z.of_nat n) = a) as ->.
  { rewrite Z.mul_comm. apply Z.quot_mul. lia. }
  assert (map (fun x => (x - a) * (x - a)) (repeat a n) = repeat 0 n) as ->.
  { clear. induction n as [|n IH]; [reflexivity|]. cbn [repeat map]. rewrite IH.
    f_equal. ring. }
  rewrite sum_repeat, Z.mul_0_r.
  rewrite Z.quot_0_l by lia. cbn [Z.sqrt].
  destruct (Z.gtb_spec amount (a + 2 * 0)), (Z.ltb_spec amount (a - 2 * 0)),
    (Z.eqb_spec amount a); cbn; try reflexivity; lia.
Qed.

Lemma outlier_mean (history : list Z) : outlier history (mean history) = false.
Proof.
  unfold outlier. pose proof (Z.sqrt_nonneg
    (Z.quot (sum (map (fun a => (a - mean history) * (a - mean history)) history))
            (Z.of_nat (length history)))) as Hs.
  fold (std_dev history) in Hs.
  destruct (Z.gtb_spec (mean history) (mean history + 2 * std_dev history)); [lia|].
  destruct (Z.ltb_spec (mean history) (mean history - 2 * std_dev history)); [lia|].
  apply andb_false_r.
Qed.

End AnalyzerFacts.

(** X1. [analyze] always returns, leaves the merchant registry as it was,
    and keeps a bounded memory: whatever the history held before, afterwards
    it holds at most 1000 requests, the one just analysed last and, before
    it, the most recent requests of the old history in their order. *)
Theorem history_keeps_the_last_thousand (self : RiskAnalyzer.t) (request : PaymentRequest)
    (policyValid : bool) :
  exists d self',
    RiskAnalyzer.analyze self request policyValid = Ok (d, self')
    /\ RiskAnalyzer.merchantDatabase self' = RiskAnalyzer.merchantDatabase self
    /\ length (RiskAnalyzer.transactionHistory self')
       = Nat.min (S (length (RiskAnalyzer.transactionHistory self))) 1000
    /\ exists older kept,
         RiskAnalyzer.transactionHistory self = older ++ kept
         /\ RiskAnalyzer.transactionHistory self' = kept ++ [request].
Proof.
  destruct (RiskAnalyzerFacts.analyze_spec self request policyValid) as (factors & _ & _ & _ & Han).
  cbv zeta in Han. eexists _, _. split; [exact Han|].
  cbn [RiskAnalyzer.merchantDatabase RiskAnalyzer.transactionHistory].
  split; [reflexivity|]. split; [apply AnalyzerFacts.length_recordTransaction|].
  apply AnalyzerFacts.recordTransaction_suffix.
Qed.

(** X2. A registered merchant is found under any spelling of its address
    that differs only in letter case, other addresses are looked up as
    before, and a request to the registered merchant is analysed without the
    UNKNOWN_MERCHANT flag; a request to a merchant the registry does not hold
    carries it. *)
Theorem registered_merchant_is_known (self : RiskAnalyzer.t) (info : MerchantInfo)
    (address : string) (request : PaymentRequest) (policyValid : bool) :
  let self1 := RiskAnalyzer.registerMerchant self info in
  (toLowerCase address = toLowerCase (mi_address info) ->
   RiskAnalyzer.getMerchantInfo self1 address = Some info)
  /\ (toLowerCase address <> toLowerCase (mi_address info) ->
      RiskAnalyzer.getMerchantInfo self1 address = RiskAnalyzer.getMerchantInfo self address)
  /\ RiskAnalyzer.transactionHistory self1 = RiskAnalyzer.transactionHistory self
  /\ (toLowerCase (merchant request) = toLowerCase (mi_address info) ->
      exists d self2,
        RiskAnalyzer.analyze self1 request policyValid = Ok (d, self2)
        /\ ~ In "UNKNOWN_MERCHANT"%string (flags d))
  /\ (RiskAnalyzer.getMerchantInfo self (merchant request) = None ->
      exists d self2,
        RiskAnalyzer.analyze self request policyValid = Ok (d, self2)
        /\ In "UNKNOWN_MERCHANT"%string (flags d)).
Proof.
  cbv zeta. unfold RiskAnalyzer.getMerchantInfo, RiskAnalyzer.registerMerchant.
  cbn [RiskAnalyzer.merchantDatabase RiskAnalyzer.transactionHistory].
  split; [|split; [|split; [|split]]].
  - intros ->. apply lookup_insert_eq.
  - intros Hne. apply lookup_insert_ne. congruence.
  - reflexivity.
  - intros Heq.
    destruct (RiskAnalyzerFacts.analyze_spec
                {| RiskAnalyzer.merchantDatabase :=
                     <[toLowerCase (mi_address info) := info]> (RiskAnalyzer.merchantDatabase self);
                   RiskAnalyzer.transactionHistory := RiskAnalyzer.transactionHistory self |}
                request policyValid) as (factors & Hf & _ & Hfail & Han).
    cbv zeta in Han. eexists _, _. split; [exact Han|]. cbn [flags].
    rewrite AnalyzerFacts.decisionLogic_flags by discriminate.
    rewrite (proj1 (proj2 (AnalyzerFacts.factorFlags_velocity factors Hfail))).
    rewrite RiskAnalyzerFacts.identifyRiskFactors_spec in Hf. injection Hf as <-.
    cbn [merchantUnknown RiskAnalyzer.merchantDatabase].
    rewrite Heq, lookup_insert_eq.
    rewrite bool_decide_eq_true_2 by (eexists; reflexivity). discriminate.
  - intros Hnone.
    destruct (RiskAnalyzerFacts.analyze_spec self request policyValid)
      as (factors & Hf & _ & Hfail & Han).
    cbv zeta in Han. eexists _, _. split; [exact Han|]. cbn [flags].
    rewrite AnalyzerFacts.decisionLogic_flags by discriminate.
    rewrite (proj1 (proj2 (AnalyzerFacts.factorFlags_velocity factors Hfail))).
    rewrite RiskAnalyzerFacts.identifyRiskFactors_spec in Hf. injection Hf as <-.
    cbn [merchantUnknown]. rewrite Hnone.
    rewrite bool_decide_eq_false_2; [reflexivity|]. intros [x Hx]. discriminate Hx.
Qed.

Lemma registered_merchant_is_known_witness :
  RiskAnalyzer.getMerchantInfo
    (RiskAnalyzer.registerMerchant RiskAnalyzer.new
       {| mi_address := "0x00000000000000000000000000000000000000BB"; mi_name := None;
          mi_verified := true; mi_riskScore := 0; mi_transactionCount := 0;
          mi_lastSeen := None |})
    "0x00000000000000000000000000000000000000bb"
  = Some {| mi_address := "0x00000000000000000000000000000000000000BB"; mi_name := None;
            mi_verified := true; mi_riskScore := 0; mi_transactionCount := 0;
            mi_lastSeen := None |}.
Proof.
  apply (registered_merchant_is_known RiskAnalyzer.new
           {| mi_address := "0x00000000000000000000000000000000000000BB"; mi_name := None;
              mi_verified := true; mi_riskScore := 0; mi_transactionCount := 0;
              mi_lastSeen := None |}
           "0x00000000000000000000000000000000000000bb" (Scenario.pay 1) true).
  reflexivity.
Defined.

(** X3. The velocity flag counts over the whole retained history, with no
    window of recent requests: [analyze] reports HIGH_VELOCITY exactly when
    more than five requests of the history went to the request's merchant,
    letter case aside, and requests recorded before or after those six do not
    take the flag away. *)
Theorem velocity_counts_the_whole_history (self : RiskAnalyzer.t) (request : PaymentRequest)
    (policyValid : bool) :
  let same (tx : PaymentRequest) :=
    String.eqb (toLowerCase (merchant tx)) (toLowerCase (merchant request)) in
  (exists d self',
     RiskAnalyzer.analyze self request policyValid = Ok (d, self')
     /\ (In "HIGH_VELOCITY"%string (flags d)
         <-> (5 < length (List.filter same (RiskAnalyzer.transactionHistory self)))%nat))
  /\ forall before after,
       RiskAnalyzer.checkVelocity self (merchant request) = true ->
       RiskAnalyzer.checkVelocity
         {| RiskAnalyzer.merchantDatabase := RiskAnalyzer.merchantDatabase self;
            RiskAnalyzer.transactionHistory :=
              before ++ RiskAnalyzer.transactionHistory self ++ after |}
         (merchant request) = true.
Proof.
  cbv zeta. split.
  - destruct (RiskAnalyzerFacts.analyze_spec self request policyValid)
      as (factors & Hf & _ & Hfail & Han).
    cbv zeta in Han. eexists _, _. split; [exact Han|]. cbn [flags].
    rewrite AnalyzerFacts.decisionLogic_flags by discriminate.
    rewrite (proj1 (AnalyzerFacts.factorFlags_velocity factors Hfail)).
    rewrite RiskAnalyzerFacts.identifyRiskFactors_spec in Hf. injection Hf as <-.
    cbn [velocityExceeded]. unfold RiskAnalyzer.checkVelocity.
    destruct (Z.gtb_spec
                (Z.of_nat (length (List.filter
                   (fun tx => String.eqb (toLowerCase (merchant tx))
                                (toLowerCase (merchant request)))
                   (RiskAnalyzer.transactionHistory self)))) 5);
      split; intros; try reflexivity; try discriminate; lia.
  - intros before after. unfold RiskAnalyzer.checkVelocity.
    cbn [RiskAnalyzer.transactionHistory].
    rewrite !List.filter_app, !length_app.
    intros H. apply Z.gtb_lt in H. apply Z.gtb_lt. lia.
Qed.

Lemma velocity_counts_the_whole_history_witness :
  exists d self',
    RiskAnalyzer.analyze
      {| RiskAnalyzer.merchantDatabase := ∅;
         RiskAnalyzer.transactionHistory := repeat (Scenario.pay 5) 6 |}
      (Scenario.pay 7) true = Ok (d, self')
    /\ In "HIGH_VELOCITY"%string (flags d).
Proof.
  destruct (velocity_counts_the_whole_history
              {| RiskAnalyzer.merchantDatabase := ∅;
                 RiskAnalyzer.transactionHistory := repeat (Scenario.pay 5) 6 |}
              (Scenario.pay 7) true) as ((d & self' & Han & Hflag) & _).
  exists d, self'. split; [exact Han|]. apply Hflag. vm_compute. lia.
Defined.

(** X4. Once ten requests are on record, a history whose amounts are all
    the same makes every other amount unusual, by however little it differs,
    and that amount itself usual; and on any history the truncated mean of
    the recorded amounts is never an unusual amount. *)
Theorem constant_history_flags_any_change (self : RiskAnalyzer.t) (a amount : Z) :
  ((10 <= length (RiskAnalyzer.transactionHistory self))%nat ->
   (forall tx, In tx (RiskAnalyzer.transactionHistory self) -> amountIn tx = a) ->
   RiskAnalyzer.isUnusualAmount self amount = Ok (negb (amount =? a)))
  /\ RiskAnalyzer.isUnusualAmount self
       (Stats.mean (map amountIn (RiskAnalyzer.transactionHistory self))) = Ok false.
Proof.
  split.
  - intros Hlen Hall. rewrite RiskAnalyzerFacts.isUnusualAmount_spec.
    rewrite (AnalyzerFacts.constant_map _ a Hall).
    rewrite AnalyzerFacts.outlier_constant by exact Hlen. reflexivity.
  - rewrite RiskAnalyzerFacts.isUnusualAmount_spec, AnalyzerFacts.outlier_mean. reflexivity.
Qed.

Lemma constant_history_flags_any_change_witness :
  RiskAnalyzer.isUnusualAmount
    {| RiskAnalyzer.merchantDatabase := ∅;
       RiskAnalyzer.transactionHistory := repeat (Scenario.pay 100) 10 |} 101
  = Ok (negb (101 =? 100)).
Proof.
  destruct (constant_history_flags_any_change
              {| RiskAnalyzer.merchantDatabase := ∅;
                 RiskAnalyzer.transactionHistory := repeat (Scenario.pay 100) 10 |} 100 101)
    as [Hconst _].
  apply Hconst.
  - cbn. lia.
  - intros tx Hin. apply repeat_spec in Hin. subst tx. reflexivity.
Defined.

(** * More of the code: the policy validator *)

Module ValidatorFacts.
Import PolicyValidator PolicyValidatorFacts Push.

Lemma push_if_false (m : string) (l : list string) : push_if false m l = l.
Proof. reflexivity. Qed.

(** A list the allowlist test looks a lower-cased string up in matches only
    through entries that are their own lower-case form. *)
Lemma includes_lower (arr : list string) (s : string) :
  (forall entry, In entry arr -> toLowerCase entry <> entry) ->
  includes arr (toLowerCase s) = false.
Proof.
  intros Hall. destruct (includes arr (toLowerCase s)) eqn:Hin; [|reflexivity].
  apply AnalyzerFacts.includes_In in Hin. apply Hall in Hin.
  rewrite AnalyzerFacts.toLowerCase_idem in Hin. contradiction.
Qed.

Lemma length_pos_nonempty {A : Type} (l : list A) :
  (Z.of_nat (length l) >? 0) = negb (bool_decide (l = [])).
Proof. destruct l; reflexivity. Qed.

Lemma invalid_of_violation (self : t) (now : Z) (request : PaymentRequest) (epoch : Z)
    (m : string) :
  In m (PolicyValidation.violations (validation self now request epoch)) ->
  PolicyValidation.valid (validation self now request epoch) = false.
Proof.
  intros Hin. destruct (PolicyValidation.valid _) eqn:Hv; [|reflexivity].
  apply valid_iff_no_violation in Hv. rewrite Hv in Hin. contradiction.
Qed.

(** The loop behind [epochOf]: [k] digits are cut from a number of [6 + k]
    digits. *)
Lemma first6_loop_spec (k fuel : nat) (n : Z) :
  (k <= fuel)%nat -> 10 ^ (5 + Z.of_nat k) <= n < 10 ^ (6 + Z.of_nat k) ->
  Clock.first6_loop fuel n = n / 10 ^ Z.of_nat k.
Proof.
  revert fuel n. induction k as [|k IH]; intros fuel n Hfuel Hn.
  - change (10 ^ (6 + Z.of_nat 0)) with 1000000 in Hn.
    change (10 ^ Z.of_nat 0) with 1. rewrite Z.div_1_r.
    destruct fuel as [|fuel]; [reflexivity|]. cbn [Clock.first6_loop].
    destruct (Z.ltb_spec n 1000000); [reflexivity|lia].
  - destruct fuel as [|fuel]; [lia|]. cbn [Clock.first6_loop].
    assert (10 ^ (5 + Z.of_nat (S k)) = 10 * 10 ^ (5 + Z.of_nat k)) as E1.
    { rewrite <- Z.pow_succ_r by lia. f_equal. lia. }
    assert (10 ^ (6 + Z.of_nat (S k)) = 10 * 10 ^ (6 + Z.of_nat k)) as E2.
    { rewrite <- Z.pow_succ_r by lia. f_equal. lia. }
    assert (10 ^ Z.of_nat (S k) = 10 * 10 ^ Z.of_nat k) as E3.
    { rewrite <- Z.pow_succ_r by lia. f_equal. lia. }
    rewrite E1, E2 in Hn. rewrite E3.
    assert (10 ^ 5 <= 10 ^ (5 + Z.of_nat k)) as Hbig by (apply Z.pow_le_mono_r; lia).
    change (10 ^ 5) with 100000 in Hbig.
    assert (0 < 10 ^ Z.of_nat k) as Hpos by (apply Z.pow_pos_nonneg; lia).
    destruct (Z.ltb_spec n 1000000); [lia|].
    rewrite IH; [|lia|].
    + rewrite Z.div_div by lia. reflexivity.
    + split; [apply Z.div_le_lower_bound; lia|apply Z.div_lt_upper_bound; lia].
Qed.

Lemma epochOf_digits (ms : Z) (k : nat) :
  10 ^ (5 + Z.of_nat k) <= ms < 10 ^ (6 + Z.of_nat k) ->
  Clock.epochOf ms = ms / 10 ^ Z.of_nat k.
Proof.
  intros Hms. unfold Clock.epochOf. apply first6_loop_spec; [|exact Hms].
  assert (0 < 10 ^ (5 + Z.of_nat k)) by (apply Z.pow_pos_nonneg; lia).
  assert (2 ^ Z.of_nat k <= ms).
  { transitivity (10 ^ Z.of_nat k); [apply Z.pow_le_mono_l; lia|].
    transitivity (10 ^ (5 + Z.of_nat k)); [apply Z.pow_le_mono_r; lia|lia]. }
  assert (Z.of_nat k <= Z.log2 ms).
  { rewrite <- (Z.log2_pow2 (Z.of_nat k)) by lia. apply Z.log2_le_mono. assumption. }
  lia.
Qed.

End ValidatorFacts.

(** X5. The spending ledger of the policy validator: recording adds the
    amount to the epoch's entry and to no other; resetting an epoch brings
    its spend back to zero and touches no other; recording after a reset
    leaves exactly the amount recorded; a reset forgets a recording; none of
    them changes the configuration. *)
Theorem spending_ledger_round_trip (self : PolicyValidator.t) (epoch amount e : Z) :
  PolicyValidator.getEpochSpending (PolicyValidator.recordSpending self epoch amount) e
  = (if decide (e = epoch) then PolicyValidator.getEpochSpending self epoch + amount
     else PolicyValidator.getEpochSpending self e)
  /\ PolicyValidator.getEpochSpending (PolicyValidator.resetEpochSpending self epoch) e
     = (if decide (e = epoch) then 0 else PolicyValidator.getEpochSpending self e)
  /\ PolicyValidator.getEpochSpending
       (PolicyValidator.recordSpending (PolicyValidator.resetEpochSpending self epoch)
          epoch amount) epoch = amount
  /\ PolicyValidator.resetEpochSpending (PolicyValidator.recordSpending self epoch amount)
       epoch = PolicyValidator.resetEpochSpending self epoch
  /\ PolicyValidator.config (PolicyValidator.recordSpending self epoch amount)
     = PolicyValidator.config self
  /\ PolicyValidator.config (PolicyValidator.resetEpochSpending self epoch)
     = PolicyValidator.config self.
Proof.
  unfold PolicyValidator.getEpochSpending, PolicyValidator.recordSpending,
    PolicyValidator.resetEpochSpending.
  cbn [PolicyValidator.epochSpending PolicyValidator.config].
  unfold PolicyValidator.getEpochSpending.
  cbn [PolicyValidator.epochSpending PolicyValidator.config].
  split; [|split; [|split; [|split; [|split]]]]; try reflexivity.
  - destruct (decide (e = epoch)) as [->|Hne].
    + rewrite lookup_insert_eq. reflexivity.
    + rewrite lookup_insert_ne by congruence. reflexivity.
  - destruct (decide (e = epoch)) as [->|Hne].
    + rewrite lookup_delete_eq. reflexivity.
    + rewrite lookup_delete_ne by congruence. reflexivity.
  - rewrite lookup_insert_eq, lookup_delete_eq. cbn. lia.
  - rewrite delete_insert_eq. reflexivity.
Qed.

(** X6. [validate] returns the validation object it has put together,
    unless its logger is verbose: then the closing [logger.debug], whose
    data holds a bigint, throws a TypeError.  The object is valid exactly
    when every one of the checks passes: each allowlist is empty or holds
    the lower-cased address, the amount is not zero and not above the
    maximal transaction value, the epoch's spend with the amount stays
    within ten times that value, the epoch is within one of the clock's
    epoch, and both addresses are well formed.  Warnings play no part. *)
Theorem valid_exactly_when_all_checks_pass (self : PolicyValidator.t) (now : Z)
    (request : PaymentRequest) (epoch : Z) :
  let cfg := PolicyValidator.config self in
  let v := PolicyValidator.validation self now request epoch in
  PolicyValidator.validate self now request epoch
  = (if Logger.verbose (PolicyValidator.logger self) then Throw TypeError else Ok v)
  /\
  (PolicyValidation.valid v = true
  <->
  (AgentConfig.allowedTokens cfg = []
   \/ In (toLowerCase (tokenIn request)) (AgentConfig.allowedTokens cfg))
  /\ (AgentConfig.allowedMerchants cfg = []
      \/ In (toLowerCase (merchant request)) (AgentConfig.allowedMerchants cfg))
  /\ amountIn request <= AgentConfig.maxTransactionValue cfg
  /\ amountIn request <> 0
  /\ PolicyValidator.getEpochSpending self epoch + amountIn request
     <= AgentConfig.maxTransactionValue cfg * 10
  /\ Z.abs (epoch - Clock.epochOf now) <= 1
  /\ isValidAddress (merchant request) = true
  /\ isValidAddress (tokenIn request) = true).
Proof.
  cbv zeta. split; [apply PolicyValidatorFacts.validate_eq|].
  rewrite PolicyValidatorFacts.valid_iff_no_violation.
  rewrite PolicyValidatorFacts.validate_violations. cbv zeta.
  rewrite !ValidatorFacts.length_pos_nonempty.
  split.
  - intros Hv.
    apply PolicyValidatorFacts.push_if_nil in Hv as [H8 Hv].
    apply PolicyValidatorFacts.push_if_nil in Hv as [H7 Hv].
    apply PolicyValidatorFacts.push_if_nil in Hv as [H6 Hv].
    apply PolicyValidatorFacts.push_if_nil in Hv as [H5 Hv].
    apply PolicyValidatorFacts.push_if_nil in Hv as [H4 Hv].
    apply PolicyValidatorFacts.push_if_nil in Hv as [H3 Hv].
    apply PolicyValidatorFacts.push_if_nil in Hv as [H2 Hv].
    apply PolicyValidatorFacts.push_if_nil in Hv as [H1 _].
    apply negb_false_iff in H8, H7, H6. apply Z.leb_le in H6. apply Z.eqb_neq in H4.
    rewrite Z.gtb_ltb in H5. apply Z.ltb_ge in H5. rewrite Z.gtb_ltb in H3. apply Z.ltb_ge in H3.
    assert (forall arr s, negb (bool_decide (arr = [])) && negb (includes arr s) = false ->
              arr = [] \/ In s arr) as Hallow.
    { intros arr s H. destruct (decide (arr = [])) as [->|Hne]; [left; reflexivity|right].
      rewrite bool_decide_eq_false_2 in H by exact Hne. cbn [negb andb] in H.
      apply negb_false_iff in H. apply AnalyzerFacts.includes_In. exact H. }
    split; [apply Hallow; exact H1|]. split; [apply Hallow; exact H2|].
    repeat split; assumption.
  - intros (H1 & H2 & H3 & H4 & H5 & H6 & H7 & H8).
    rewrite H7, H8. cbn [negb]. rewrite !ValidatorFacts.push_if_false.
    apply Z.leb_le in H6. rewrite H6. cbn [negb]. rewrite ValidatorFacts.push_if_false.
    destruct (Z.gtb_spec (PolicyValidator.getEpochSpending self epoch + amountIn request)
                (AgentConfig.maxTransactionValue (PolicyValidator.config self) * 10)); [lia|].
    rewrite ValidatorFacts.push_if_false.
    destruct (Z.eqb_spec (amountIn request) 0); [contradiction|].
    rewrite ValidatorFacts.push_if_false.
    destruct (Z.gtb_spec (amountIn request)
                (AgentConfig.maxTransactionValue (PolicyValidator.config self))); [lia|].
    rewrite ValidatorFacts.push_if_false.
    assert (forall arr s, arr = [] \/ In s arr ->
              negb (bool_decide (arr = [])) && negb (includes arr s) = false) as Hallow.
    { intros arr s [->|Hin]; [reflexivity|].
      apply AnalyzerFacts.includes_In in Hin. rewrite Hin. apply andb_false_r. }
    rewrite (Hallow _ _ H1), (Hallow _ _ H2). reflexivity.
Qed.

Lemma valid_exactly_when_all_checks_pass_witness :
  exists v,
    PolicyValidator.validate (PolicyValidator.new Scenario.config (Logger.new false))
      1762000000000 (Scenario.pay 40) 176200 = Ok v
    /\ PolicyValidation.valid v = true.
Proof.
  destruct (valid_exactly_when_all_checks_pass
              (PolicyValidator.new Scenario.config (Logger.new false))
              1762000000000 (Scenario.pay 40) 176200) as [Heq Hvalid].
  eexists. split; [exact Heq|]. apply Hvalid.
  cbn [PolicyValidator.config PolicyValidator.new Scenario.config
       AgentConfig.allowedTokens AgentConfig.allowedMerchants
       AgentConfig.maxTransactionValue Scenario.pay amountIn merchant tokenIn].
  split; [left; reflexivity|]. split; [left; reflexivity|].
  split; [lia|]. split; [lia|]. split; [vm_compute; discriminate|].
  split; [vm_compute; discriminate|]. split; vm_compute; reflexivity.
Defined.

(** X7. The allowlists are compared with the lower-cased address of the
    request but are not lower-cased themselves: when an allowlist is not
    empty and none of its entries is in lower case (a checksummed address,
    say), the validation object of every request is invalid and holds the
    not-in-allowlist violation, the request for the listed address
    included.  [validate] returns that object, or throws a TypeError from
    its closing [logger.debug] when its logger is verbose. *)
Theorem allowlist_entries_must_be_lower_case (self : PolicyValidator.t) (now : Z)
    (request : PaymentRequest) (epoch : Z) :
  let cfg := PolicyValidator.config self in
  let v := PolicyValidator.validation self now request epoch in
  PolicyValidator.validate self now request epoch
  = (if Logger.verbose (PolicyValidator.logger self) then Throw TypeError else Ok v)
  /\
  (AgentConfig.allowedTokens cfg <> [] ->
   (forall entry, In entry (AgentConfig.allowedTokens cfg) -> toLowerCase entry <> entry) ->
   PolicyValidation.valid v = false
   /\ In ("Token " ++ tokenIn request ++ " is not in allowlist")%string
         (PolicyValidation.violations v))
  /\ (AgentConfig.allowedMerchants cfg <> [] ->
      (forall entry, In entry (AgentConfig.allowedMerchants cfg) -> toLowerCase entry <> entry) ->
      PolicyValidation.valid v = false
      /\ In ("Merchant " ++ merchant request ++ " is not in allowlist")%string
            (PolicyValidation.violations v)).
Proof.
  cbv zeta.
  assert (forall (arr : list string), arr <> [] -> (Z.of_nat (length arr) >? 0) = true) as Hpos.
  { intros arr Hne. destruct arr; [contradiction|reflexivity]. }
  split; [apply PolicyValidatorFacts.validate_eq|].
  split; intros Hne Hall.
  - assert (In ("Token " ++ tokenIn request ++ " is not in allowlist")%string
              (PolicyValidation.violations (PolicyValidator.validation self now request epoch)))
      as Hin.
    { rewrite PolicyValidatorFacts.validate_violations. cbv zeta.
      do 7 apply PolicyValidatorFacts.in_push_if.
      rewrite (Hpos _ Hne), (ValidatorFacts.includes_lower _ _ Hall).
      apply PolicyValidatorFacts.in_push_if_here. }
    split; [exact (ValidatorFacts.invalid_of_violation _ _ _ _ _ Hin)|exact Hin].
  - assert (In ("Merchant " ++ merchant request ++ " is not in allowlist")%string
              (PolicyValidation.violations (PolicyValidator.validation self now request epoch)))
      as Hin.
    { rewrite PolicyValidatorFacts.validate_violations. cbv zeta.
      do 6 apply PolicyValidatorFacts.in_push_if.
      rewrite (Hpos _ Hne), (ValidatorFacts.includes_lower _ _ Hall).
      apply PolicyValidatorFacts.in_push_if_here. }
    split; [exact (ValidatorFacts.invalid_of_violation _ _ _ _ _ Hin)|exact Hin].
Qed.

Lemma allowlist_entries_must_be_lower_case_witness :
  let cfg :=
    {| AgentConfig.chainId := 84532; AgentConfig.rpcUrl := "https://sepolia.base.org";
       AgentConfig.bundlerUrl := "";
       AgentConfig.paymasterAddress := "0x00000000000000000000000000000000000000aa";
       AgentConfig.easAddress := ""; AgentConfig.entryPointAddress := "";
       AgentConfig.modelId := "gpt-4o-mini"; AgentConfig.maxGasPrice := 100000000000;
       AgentConfig.maxTransactionValue := 100; AgentConfig.defaultEpoch := 176200;
       AgentConfig.allowedTokens := ["0xA0b86991c6218b36c1d19D4a2e9Eb0cE3606eB48"%string];
       AgentConfig.allowedMerchants := [];
       AgentConfig.attesterPrivateKey := None;
       AgentConfig.schemaUID := "0x00" |} in
  let request :=
    {| merchant := "0x00000000000000000000000000000000000000bb";
       tokenIn := "0xA0b86991c6218b36c1d19D4a2e9Eb0cE3606eB48";
       amountIn := 40; description := "coffee"; metadata := None |} in
  exists v,
    PolicyValidator.validate (PolicyValidator.new cfg (Logger.new false)) 1762000000000
      request 176200 = Ok v
    /\ PolicyValidation.valid v = false.
Proof.
  cbv zeta. eexists. split.
  - refine (proj1 (allowlist_entries_must_be_lower_case _ _ _ _)).
  - refine (proj1 (proj1 (proj2 (allowlist_entries_must_be_lower_case _ _ _ _)) _ _)).
    + discriminate.
    + intros entry [<-|[]]. vm_compute. discriminate.
Defined.

(** X8. The epoch the agent reads off the clock is the number spelled by
    the first six decimal digits of the millisecond count: for a count of
    [6 + k] digits it is the count divided by [10 ^ k], always a six-digit
    number; the validation object of the validator has the epoch valid
    exactly when it is within one of that quotient, and [validate] returns
    that object unless its logger is verbose, when its closing
    [logger.debug] throws a TypeError.  With today's 13-digit counts an
    epoch lasts ten million milliseconds. *)
Theorem epoch_is_the_leading_six_digits (ms : Z) (k : nat) (self : PolicyValidator.t)
    (request : PaymentRequest) (epoch : Z) :
  10 ^ (5 + Z.of_nat k) <= ms < 10 ^ (6 + Z.of_nat k) ->
  Clock.epochOf ms = ms / 10 ^ Z.of_nat k
  /\ 100000 <= Clock.epochOf ms < 1000000
  /\ PolicyValidation.epochValid (PolicyValidator.validation self ms request epoch)
     = (Z.abs (epoch - ms / 10 ^ Z.of_nat k) <=? 1)
  /\ PolicyValidator.validate self ms request epoch
     = (if Logger.verbose (PolicyValidator.logger self) then Throw TypeError
        else Ok (PolicyValidator.validation self ms request epoch)).
Proof.
  intros Hms. pose proof (ValidatorFacts.epochOf_digits ms k Hms) as He.
  split; [exact He|]. split.
  - rewrite He.
    assert (0 < 10 ^ Z.of_nat k) as Hpos by (apply Z.pow_pos_nonneg; lia).
    rewrite !Z.pow_add_r in Hms by lia.
    change (10 ^ 5) with 100000 in Hms. change (10 ^ 6) with 1000000 in Hms.
    split; [apply Z.div_le_lower_bound; lia|apply Z.div_lt_upper_bound; lia].
  - split; [|apply PolicyValidatorFacts.validate_eq].
    cbn [PolicyValidator.validation PolicyValidation.epochValid]. rewrite He. reflexivity.
Qed.

Lemma epoch_is_the_leading_six_digits_witness :
  Clock.epochOf 1762000000000 = 1762000000000 / 10 ^ 7
  /\ exists v,
       PolicyValidator.validate (PolicyValidator.new Scenario.config (Logger.new false))
         1762000000000 (Scenario.pay 40) 202511 = Ok v
       /\ PolicyValidation.epochValid v = false.
Proof.
  destruct (epoch_is_the_leading_six_digits 1762000000000 7
              (PolicyValidator.new Scenario.config (Logger.new false)) (Scenario.pay 40)
              202511)
    as (He & _ & Hv & Heq).
  - vm_compute. split; [discriminate|reflexivity].
  - split; [exact He|]. eexists. split; [exact Heq|]. rewrite Hv. reflexivity.
Defined.

(** * More of the code: the transaction builder *)

Module PlanFacts.
Import TransactionBuilder HexFacts PolicyHashFacts.

Lemma nullifier_total (json : string) :
  Viem.keccak256 (stringToHex json) = Ok (keccak256_bytes (list_byte_of_string json)).
Proof. unfold stringToHex. apply keccak256_toHex. Qed.

(** What [encodePaymentCall] throws: a TypeError for metadata that
    [JSON.stringify] refuses, or what the call encoder throws. *)
Lemma encodePaymentCall_throw (enc : encoder) (now : Z) (request : PaymentRequest)
    (e : exn) :
  encodePaymentCall enc now request = Throw e ->
  (metadata request = Some not_serialisable /\ e = TypeError)
  \/ (exists args, enc args = Throw e).
Proof.
  unfold encodePaymentCall, metadataJson.
  destruct (metadata request) as [[json|]|]; cbn [JS.bind].
  - rewrite nullifier_total. cbn [JS.bind]. intros H. right. eexists. exact H.
  - intros [= <-]. left. split; reflexivity.
  - rewrite nullifier_total. cbn [JS.bind]. intros H. right. eexists. exact H.
Qed.

(** What [buildPlan] throws, in the order it can: what [encodePaymentCall]
    throws, a RangeError from [BigInt] for an epoch that is not an
    integer, and a TypeError from the closing [logger.debug] of a verbose
    logger. *)
Lemma buildPlan_throw (logger : Logger.t) (enc : encoder) (now : Z)
    (request : PaymentRequest) (epoch : number) (e : exn) :
  buildPlan logger enc now request epoch = Throw e ->
  (metadata request = Some not_serialisable /\ e = TypeError)
  \/ (exists args, enc args = Throw e)
  \/ (e = RangeError /\ BigInt epoch = Throw RangeError)
  \/ (e = TypeError /\ Logger.verbose logger = true).
Proof.
  unfold buildPlan.
  destruct (encodePaymentCall enc now request) as [callData|e'] eqn:Hcall; cbn [JS.bind].
  - destruct epoch as [z| |]; cbn [JS.bind BigInt].
    + unfold Logger.debug, Logger.log.
      destruct (Logger.verbose logger); cbn; [|discriminate].
      intros [= <-]. right. right. right. split; reflexivity.
    + intros [= <-]. right. right. left. split; reflexivity.
    + intros [= <-]. right. right. left. split; reflexivity.
  - intros [= <-]. apply encodePaymentCall_throw in Hcall as [H|H]; [left|right; left];
      exact H.
Qed.

End PlanFacts.

(** X9. [buildPlan] throws a TypeError for metadata that [JSON.stringify]
    refuses, what the library's call encoder throws, a RangeError from
    [BigInt] for an epoch that is not an integer, and, with a verbose
    logger, a TypeError from its closing [logger.debug], whose data holds
    bigints; it throws nothing else.  Every plan it returns comes from a
    logger that is not verbose and an integer epoch; it is for the
    request's merchant, of value zero, with a gas estimate of 171000 and
    the epoch asked for; its two hashes are 32-byte values in hexadecimal;
    and it passes [TransactionBuilder.validate] exactly when the merchant
    is a well-formed address, the one error otherwise being the invalid
    target. *)
Theorem built_plan_is_well_formed (logger : Logger.t) (enc : TransactionBuilder.encoder)
    (now : Z) (request : PaymentRequest) (epoch : number) :
  match TransactionBuilder.buildPlan logger enc now request epoch with
  | Throw e =>
      (metadata request = Some not_serialisable /\ e = TypeError)
      \/ (exists args, enc args = Throw e)
      \/ (e = RangeError /\ BigInt epoch = Throw RangeError)
      \/ (e = TypeError /\ Logger.verbose logger = true)
  | Ok plan =>
      Logger.verbose logger = false
      /\ epoch = Integer (TransactionPlan.epoch plan)
      /\ TransactionPlan.target plan = merchant request
      /\ TransactionPlan.value plan = 0
      /\ TransactionPlan.gasEstimate plan = 171000
      /\ (exists h, length h = 32%nat /\ TransactionPlan.userOpHash plan = toHex h)
      /\ (exists p, length p = 32%nat /\ TransactionPlan.policyHash plan = toHex p)
      /\ TransactionBuilder.validate plan
         = if isValidAddress (merchant request) then (true, [])
           else (false, [("Invalid target address: " ++ merchant request)%string])
  end.
Proof.
  destruct (TransactionBuilder.buildPlan logger enc now request epoch) as [plan|e] eqn:Hplan.
  - pose proof (AgentFacts.plan_validate logger enc now request epoch plan Hplan) as Hval.
    destruct (AgentFacts.buildPlan_inv _ _ _ _ _ _ Hplan) as [Hquiet Hep].
    split; [exact Hquiet|]. split; [exact Hep|].
    unfold TransactionBuilder.buildPlan in Hplan.
    destruct (TransactionBuilder.encodePaymentCall enc now request) as [callData|];
      [|discriminate].
    cbn [JS.bind] in Hplan.
    destruct (BigInt epoch) as [epoch_big|]; [|discriminate]. cbn [JS.bind] in Hplan.
    destruct (Logger.debug logger _); [|discriminate].
    cbn [JS.bind] in Hplan. injection Hplan as <-.
    cbn [TransactionPlan.target TransactionPlan.value TransactionPlan.gasEstimate
         TransactionPlan.epoch TransactionPlan.userOpHash TransactionPlan.policyHash].
    repeat split; try reflexivity.
    + eexists. split; [|reflexivity]. apply HexFacts.length_keccak256.
    + eexists. split; [|reflexivity]. apply HexFacts.length_keccak256.
    + exact Hval.
  - apply (PlanFacts.buildPlan_throw logger enc now request epoch e Hplan).
Qed.

(** X10. [u256ToBytes] always gives 32 bytes, the big-endian bytes of its
    argument reduced modulo [2 ^ 256]: a value of the range comes back
    unchanged, a negative one in two's complement, one too large without its
    high bits, and no argument is refused.  The policy hash of [buildPlan]
    therefore depends on the epoch only modulo [2 ^ 256]. *)
Theorem u256ToBytes_wraps (n : Z) (userOpHash : string) :
  length (TransactionBuilder.u256ToBytes n) = 32%nat
  /\ be_value (TransactionBuilder.u256ToBytes n) = n mod 2 ^ 256
  /\ TransactionBuilder.u256ToBytes (n mod 2 ^ 256) = TransactionBuilder.u256ToBytes n
  /\ TransactionBuilder.u256ToBytes (-1) = repeat xff 32
  /\ TransactionBuilder.buildPlan_policyHash userOpHash (n + 2 ^ 256)
     = TransactionBuilder.buildPlan_policyHash userOpHash n.
Proof.
  rewrite !PolicyHashFacts.u256ToBytes_spec.
  split; [apply BytesFacts.length_be_bytes|].
  split; [rewrite BytesFacts.be_value_be_bytes; reflexivity|].
  split; [rewrite <- PaymasterFacts.word_256; apply BytesFacts.be_bytes_mod|].
  split; [vm_compute; reflexivity|].
  unfold TransactionBuilder.buildPlan_policyHash.
  rewrite !PolicyHashFacts.u256ToBytes_spec.
  rewrite <- (BytesFacts.be_bytes_mod 32 (n + 2 ^ 256)), <- (BytesFacts.be_bytes_mod 32 n).
  rewrite PaymasterFacts.word_256.
  rewrite <- (Z.mul_1_l (2 ^ 256)) at 1. rewrite Z.mod_add by lia. reflexivity.
Qed.

(** * More of the code: attestations *)

Module AttestFacts.
Import AttestationManager HexFacts PolicyHashFacts BuilderFacts Digest.

(** The 20 bytes of a well-formed address. *)
Lemma address_bytes (address : string) :
  isValidAddress address = true ->
  exists prefix, length prefix = 20%nat
    /\ toLowerCase (slice2 address) = hex_of_bytes prefix
    /\ hexToBytes address = Ok prefix
    /\ toLowerCase address = toHex prefix.
Proof.
  unfold isValidAddress. intros H.
  apply andb_prop in H as [H H3]. apply andb_prop in H as [H1 H2]. apply Nat.eqb_eq in H2.
  destruct (hex_digits_decode 20 _ H3 H2) as (prefix & Hl & _ & Hd & Hlow).
  exists prefix. split; [exact Hl|]. split; [exact Hlow|]. split.
  - unfold hexToBytes. rewrite H2. exact Hd.
  - rewrite (startsWith0x_split _ H1) at 1.
    change (toLowerCase ("0x" ++ ?s)) with ("0x" ++ toLowerCase s)%string.
    rewrite Hlow. reflexivity.
Qed.

Lemma keccak256_digits (bs : list byte) :
  Viem.keccak256 ("0x" ++ hex_of_bytes bs)%string = Ok (keccak256_bytes bs).
Proof. apply (keccak256_toHex bs). Qed.

Lemma encodeAttestationData_spec (modelId prompt planDescription : string)
    (h ph : list byte) (epoch : Z) :
  length h = 32%nat -> length ph = 32%nat ->
  encodeAttestationData modelId prompt planDescription (toHex h) (toHex ph) epoch =
  if (0 <=? epoch) && (epoch <? 2 ^ 256)
  then Ok (toHex (data_digest modelId prompt planDescription h ph epoch))
  else Throw IntegerOutOfRangeError.
Proof.
  intros Hh Hph. unfold encodeAttestationData, stringToHex.
  rewrite !keccak256_toHex. cbn [JS.bind]. unfold encodePacked, keccak256_bytes.
  cbn [encode_packed_parts].
  rewrite !encode_packed1_bytes32 by (apply length_keccak256 || assumption).
  cbn [JS.bind]. unfold encode_packed1.
  destruct ((0 <=? epoch) && (epoch <? 2 ^ 256)); cbn [JS.bind]; [|reflexivity].
  match goal with
  | |- Viem.keccak256 (concatHex [toHex ?a; toHex ?b; toHex ?c; toHex ?d; toHex ?e; toHex ?f])
       = _ =>
      change [toHex a; toHex b; toHex c; toHex d; toHex e; toHex f]
        with (map toHex [a; b; c; d; e; f])
  end.
  rewrite concatHex_toHex. cbn [concat]. rewrite app_nil_r.
  apply keccak256_toHex.
Qed.

(** [createAttestation] on a plan whose hashes are 32-byte values: what it
    returns and when it throws. *)
Lemma createAttestation_spec (config : AgentConfig.t) (now_ms : Z) (plan : TransactionPlan.t)
    (modelId prompt planDescription : string) (h ph : list byte) :
  TransactionPlan.userOpHash plan = toHex h -> length h = 32%nat ->
  TransactionPlan.policyHash plan = toHex ph -> length ph = 32%nat ->
  let epoch := TransactionPlan.epoch plan in
  let now := Clock.seconds now_ms in
  let data := data_digest modelId prompt planDescription h ph epoch in
  createAttestation config now_ms plan modelId prompt planDescription =
  if (0 <=? epoch) && (epoch <? 2 ^ 256) then
    match hexToBytes (AgentConfig.paymasterAddress config) with
    | Ok paymaster =>
        if isAddress (AgentConfig.paymasterAddress config) then
          if (0 <=? now) && (now <? 2 ^ 64) then
            Ok {| Attestation.uid := toHex (uid_digest data paymaster now);
                  Attestation.schema := AgentConfig.schemaUID config;
                  Attestation.attester := AgentConfig.paymasterAddress config;
                  Attestation.recipient := TransactionPlan.target plan;
                  Attestation.time := now;
                  Attestation.expirationTime := now + 3600;
                  Attestation.revocable := true;
                  Attestation.refUID := ("0x" ++ TransactionBuilder.zeros 64)%string;
                  Attestation.data := toHex data |}
          else Throw IntegerOutOfRangeError
        else Throw InvalidAddressError
    | Throw _ => Throw InvalidAddressError
    end
  else Throw IntegerOutOfRangeError.
Proof.
  intros Hu Hh Hp Hph. cbv zeta. unfold createAttestation.
  rewrite Hu, Hp, encodeAttestationData_spec by assumption.
  destruct ((0 <=? TransactionPlan.epoch plan) && (TransactionPlan.epoch plan <? 2 ^ 256));
    cbn [JS.bind]; [|reflexivity].
  unfold encodePacked. cbn [encode_packed_parts].
  rewrite encode_packed1_bytes32 by apply length_keccak256. cbn [JS.bind].
  unfold encode_packed1 at 1.
  destruct (isAddress (AgentConfig.paymasterAddress config)) eqn:Haddr.
  - destruct (address_bytes _ (isAddress_valid _ Haddr)) as (prefix & Hl & _ & Hbytes & Hlow).
    rewrite Hbytes, Hlow. cbn [JS.bind]. unfold encode_packed1.
    destruct ((0 <=? Clock.seconds now_ms) && (Clock.seconds now_ms <? 2 ^ 64));
      cbn [JS.bind]; [|reflexivity].
    match goal with
    | |- context [concatHex [toHex ?a; toHex ?b; toHex ?c]] =>
        change [toHex a; toHex b; toHex c] with (map toHex [a; b; c])
    end.
    rewrite concatHex_toHex. cbn [concat]. rewrite app_nil_r.
    rewrite keccak256_toHex. cbn [JS.bind]. reflexivity.
  - cbn [JS.bind]. destruct (hexToBytes _); reflexivity.
Qed.

End AttestFacts.

(** X11. The attestation [createAttestation] builds for a plan whose two
    hashes are 32-byte values, under a paymaster address the library takes
    for an address (all in lower case, or spelled as its EIP-55 checksum
    spells it), commits to everything it was built from: its
    data is the Keccak-256 hash of the hashes of the model id, the prompt
    and the plan description followed by the operation hash, the policy
    hash and the epoch as 32 bytes; its uid is the hash of that data, the 20
    bytes of the paymaster address and the second of creation as 8 bytes.
    It is attested by the paymaster address, received by the plan's target,
    and expires 3600 seconds after its creation. *)
Theorem attestation_commits_to_the_plan (config : AgentConfig.t) (now_ms : Z)
    (plan : TransactionPlan.t) (modelId prompt planDescription : string)
    (h ph paymaster : list byte) :
  TransactionPlan.userOpHash plan = toHex h -> length h = 32%nat ->
  TransactionPlan.policyHash plan = toHex ph -> length ph = 32%nat ->
  0 <= TransactionPlan.epoch plan < 2 ^ 256 ->
  isAddress (AgentConfig.paymasterAddress config) = true ->
  hexToBytes (AgentConfig.paymasterAddress config) = Ok paymaster ->
  0 <= Clock.seconds now_ms < 2 ^ 64 ->
  let data :=
    Keccak.keccak256
      (Keccak.keccak256 (list_byte_of_string modelId)
       ++ Keccak.keccak256 (list_byte_of_string prompt)
       ++ Keccak.keccak256 (list_byte_of_string planDescription)
       ++ h ++ ph ++ be_bytes 32 (TransactionPlan.epoch plan)) in
  AttestationManager.createAttestation config now_ms plan modelId prompt planDescription =
  Ok {| Attestation.uid :=
          toHex (Keccak.keccak256 (data ++ paymaster ++ be_bytes 8 (Clock.seconds now_ms)));
        Attestation.schema := AgentConfig.schemaUID config;
        Attestation.attester := AgentConfig.paymasterAddress config;
        Attestation.recipient := TransactionPlan.target plan;
        Attestation.time := Clock.seconds now_ms;
        Attestation.expirationTime := Clock.seconds now_ms + 3600;
        Attestation.revocable := true;
        Attestation.refUID := ("0x" ++ TransactionBuilder.zeros 64)%string;
        Attestation.data := toHex data |}.
Proof.
  intros Hu Hh Hp Hph He Haddr Hbytes Hnow. cbv zeta.
  rewrite (AttestFacts.createAttestation_spec config now_ms plan modelId prompt
             planDescription h ph Hu Hh Hp Hph).
  cbv zeta. rewrite Hbytes, Haddr.
  destruct (Z.leb_spec 0 (TransactionPlan.epoch plan)); [|lia].
  destruct (Z.ltb_spec (TransactionPlan.epoch plan) (2 ^ 256)); [|lia].
  destruct (Z.leb_spec 0 (Clock.seconds now_ms)); [|lia].
  destruct (Z.ltb_spec (Clock.seconds now_ms) (2 ^ 64)); [|lia].
  reflexivity.
Qed.

Lemma attestation_commits_to_the_plan_witness :
  let plan :=
    {| TransactionPlan.userOpHash := toHex (repeat x11 32);
       TransactionPlan.callData := "0xdeadbeef";
       TransactionPlan.target := "0x00000000000000000000000000000000000000bb";
       TransactionPlan.value := 0;
       TransactionPlan.gasEstimate := 171000;
       TransactionPlan.policyHash := toHex (canonical (repeat x11 32) 176200);
       TransactionPlan.epoch := 176200 |} in
  exists att,
    AttestationManager.createAttestation Scenario.config 1762000000000 plan
      "gpt-4o-mini" "Buy coffee" "coffee" = Ok att
    /\ Attestation.expirationTime att = 1762003600
    /\ Attestation.recipient att = "0x00000000000000000000000000000000000000bb"%string.
Proof.
  cbv zeta. eexists. split.
  - apply (attestation_commits_to_the_plan Scenario.config 1762000000000 _
             "gpt-4o-mini" "Buy coffee" "coffee" (repeat x11 32)
             (canonical (repeat x11 32) 176200) (be_bytes 20 0xaa)).
    + reflexivity.
    + reflexivity.
    + reflexivity.
    + vm_compute. reflexivity.
    + cbn [TransactionPlan.epoch]. lia.
    + reflexivity.
    + reflexivity.
    + vm_compute. split; [discriminate|reflexivity].
  - split; reflexivity.
Defined.

(** * More of the code: the agent *)

Module PaymentFacts.
Import zkAgent AttestationManager HexFacts PolicyHashFacts.

(** What stands behind an approved analysis: the plan [buildPlan] built and
    the attestation made for it and verified. *)
Lemma processPayment_approved_inv (enc : TransactionBuilder.encoder) (clock : Clock.t)
    (self : t) (request : PaymentRequest) (options : Options) (a : AgentAnalysis.t) :
  (processPayment enc clock self request options).1 = Ok a ->
  approved (AgentAnalysis.decision a) = true ->
  exists plan att,
    TransactionBuilder.buildPlan (logger self) enc (Clock.now_callData clock) request
      (Integer (Pipeline.epoch_of clock options)) = Ok plan
    /\ AgentAnalysis.transactionPlan a = plan
    /\ createAttestation (config self) (Clock.now_attest clock) plan
         (or_string (opt_modelId options) (AgentConfig.modelId (config self)))
         (or_string (opt_prompt options)
            ("Pay " ++ merchant request ++ " " ++ pretty (amountIn request)
             ++ " of " ++ tokenIn request))
         (or_string (opt_planDescription options) (description request)) = Ok att
    /\ AgentAnalysis.attestation a = Some att
    /\ verifyAttestation (config self) (Clock.now_verify clock) att = true.
Proof.
  unfold processPayment, Pipeline.epoch_of.
  destruct (negb (validateConfiguration self).1); [discriminate|].
  destruct (TransactionBuilder.buildPlan (logger self) enc (Clock.now_callData clock)
              request _) as [plan|] eqn:Hplan; [|discriminate].
  destruct (AgentFacts.buildPlan_inv _ _ _ _ _ _ Hplan) as [_ Hep].
  rewrite Hep in Hplan |- *.
  destruct (negb (TransactionBuilder.validate plan).1); [discriminate|].
  destruct (PolicyValidator.validate _ _ _ _) as [pv|]; [|discriminate].
  match goal with
  | |- context [match ?x with Ok _ => _ | Throw _ => _ end] =>
      destruct x as [[decision ra]|] eqn:Han; [|discriminate]
  end.
  cbn [with_riskAnalyzer config].
  destruct (approved decision) eqn:Happ.
  - destruct (createAttestation _ _ _ _ _ _) as [att|] eqn:Hatt; [|discriminate].
    destruct (verifyAttestation _ _ att) eqn:Hver; cbn [negb]; [|discriminate].
    cbn [fst]. intros [= <-] _. exists plan, att. repeat split; assumption.
  - cbn [fst]. intros [= <-]. cbn [AgentAnalysis.decision]. congruence.
Qed.

(** What [createAttestation] returns, whatever the plan. *)
Lemma createAttestation_fields (config : AgentConfig.t) (now_ms : Z) (plan : TransactionPlan.t)
    (modelId prompt planDescription : string) (att : Attestation.t) :
  createAttestation config now_ms plan modelId prompt planDescription = Ok att ->
  Attestation.schema att = AgentConfig.schemaUID config
  /\ Attestation.attester att = AgentConfig.paymasterAddress config
  /\ Attestation.recipient att = TransactionPlan.target plan
  /\ Attestation.time att = Clock.seconds now_ms
  /\ Attestation.expirationTime att = Clock.seconds now_ms + 3600
  /\ 0 <= Clock.seconds now_ms < 2 ^ 64
  /\ isAddress (AgentConfig.paymasterAddress config) = true
  /\ exists u, length u = 32%nat /\ Attestation.uid att = toHex u.
Proof.
  unfold createAttestation.
  destruct (encodeAttestationData _ _ _ _ _ _) as [data|]; [|discriminate].
  cbn [JS.bind]. unfold encodePacked. cbn [encode_packed_parts].
  destruct (encode_packed1 (p_bytes32 data)) as [d1|]; [|discriminate]. cbn [JS.bind].
  unfold encode_packed1 at 1.
  destruct (isAddress (AgentConfig.paymasterAddress config)); [|discriminate].
  cbn [JS.bind]. unfold encode_packed1.
  destruct (Z.leb_spec 0 (Clock.seconds now_ms)); [|discriminate].
  destruct (Z.ltb_spec (Clock.seconds now_ms) (2 ^ 64)); [|discriminate].
  cbn [andb JS.bind]. unfold Viem.keccak256.
  destruct (hexToBytes _) as [bs|]; [|discriminate]. cbn [JS.bind].
  intros [= <-]. cbn. repeat split; try assumption.
  eexists. split; [|reflexivity]. apply length_keccak256.
Qed.

End PaymentFacts.

(** X12. An attestation [createAttestation] has made verifies, under the
    configuration it was made with, at every clock reading up to 3600
    seconds after the second of its creation and at none later; under a
    configuration with another schema it never verifies. *)
Theorem attestation_is_good_for_an_hour (config : AgentConfig.t) (now_ms : Z)
    (plan : TransactionPlan.t) (modelId prompt planDescription : string)
    (att : Attestation.t) :
  AttestationManager.createAttestation config now_ms plan modelId prompt planDescription
    = Ok att ->
  (forall later_ms,
     AttestationManager.verifyAttestation config later_ms att = true
     <-> Clock.seconds later_ms <= Clock.seconds now_ms + 3600)
  /\ (forall other later_ms,
        AgentConfig.schemaUID other <> AgentConfig.schemaUID config ->
        AttestationManager.verifyAttestation other later_ms att = false).
Proof.
  intros Hatt.
  destruct (PaymentFacts.createAttestation_fields _ _ _ _ _ _ _ Hatt)
    as (Hs & _ & _ & _ & He & Hnow & _).
  unfold AttestationManager.verifyAttestation. rewrite Hs, He. split.
  - intros later_ms. rewrite String.eqb_refl. cbn [negb].
    destruct (Z.gtb_spec (Clock.seconds now_ms + 3600) 0); [|lia]. cbn [andb].
    destruct (Z.ltb_spec (Clock.seconds now_ms + 3600) (Clock.seconds later_ms));
      split; intros; try reflexivity; try discriminate; lia.
  - intros other later_ms Hne.
    destruct ((Clock.seconds now_ms + 3600 >? 0)
              && (Clock.seconds now_ms + 3600 <? Clock.seconds later_ms)); [reflexivity|].
    destruct (String.eqb_spec (AgentConfig.schemaUID config) (AgentConfig.schemaUID other));
      [congruence|reflexivity].
Qed.

Lemma attestation_is_good_for_an_hour_witness :
  let plan :=
    {| TransactionPlan.userOpHash := toHex (repeat x11 32);
       TransactionPlan.callData := "0xdeadbeef";
       TransactionPlan.target := "0x00000000000000000000000000000000000000bb";
       TransactionPlan.value := 0;
       TransactionPlan.gasEstimate := 171000;
       TransactionPlan.policyHash := toHex (repeat x22 32);
       TransactionPlan.epoch := 176200 |} in
  exists att,
    AttestationManager.createAttestation Scenario.config 1762000000000 plan
      "gpt-4o-mini" "Buy coffee" "coffee" = Ok att
    /\ AttestationManager.verifyAttestation Scenario.config 1762003600999 att = true
    /\ AttestationManager.verifyAttestation Scenario.config 1762003601000 att = false.
Proof.
  cbv zeta. eexists. split; [vm_compute; reflexivity|].
  match goal with
  | |- AttestationManager.verifyAttestation _ _ ?att = true /\ _ =>
      destruct (attestation_is_good_for_an_hour Scenario.config 1762000000000
                  {| TransactionPlan.userOpHash := toHex (repeat x11 32);
                     TransactionPlan.callData := "0xdeadbeef";
                     TransactionPlan.target := "0x00000000000000000000000000000000000000bb";
                     TransactionPlan.value := 0;
                     TransactionPlan.gasEstimate := 171000;
                     TransactionPlan.policyHash := toHex (repeat x22 32);
                     TransactionPlan.epoch := 176200 |}
                  "gpt-4o-mini" "Buy coffee" "coffee" att) as [Hgood _];
        [vm_compute; reflexivity|]
  end.
  split.
  - apply Hgood. vm_compute. discriminate.
  - match goal with
    | |- ?v = false => destruct v eqn:Hv; [|reflexivity]
    end.
    apply Hgood in Hv. vm_compute in Hv. exfalso. apply Hv. reflexivity.
Defined.

(** X13. With no paymaster address or no RPC URL configured,
    [processPayment] throws "Configuration invalid" naming what is missing,
    before anything is built, validated or recorded: the agent is left as it
    was.  With both configured the configuration check passes. *)
Theorem invalid_configuration_stops_the_call (enc : TransactionBuilder.encoder)
    (clock : Clock.t) (self : zkAgent.t) (request : PaymentRequest)
    (options : zkAgent.Options) :
  let paymaster := AgentConfig.paymasterAddress (zkAgent.config self) in
  let rpc := AgentConfig.rpcUrl (zkAgent.config self) in
  let thrown (what : string) :=
    zkAgent.processPayment enc clock self request options
    = (Throw (Error ("Configuration invalid: " ++ what)), self) in
  (paymaster = ""%string -> rpc <> ""%string -> thrown "Paymaster address not configured"%string)
  /\ (paymaster <> ""%string -> rpc = ""%string -> thrown "RPC URL not configured"%string)
  /\ (paymaster = ""%string -> rpc = ""%string ->
      thrown "Paymaster address not configured, RPC URL not configured"%string)
  /\ (paymaster <> ""%string -> rpc <> ""%string ->
      zkAgent.validateConfiguration self = (true, [])).
Proof.
  cbv zeta. unfold zkAgent.processPayment, zkAgent.validateConfiguration.
  destruct (String.eqb_spec (AgentConfig.paymasterAddress (zkAgent.config self)) "");
    destruct (String.eqb_spec (AgentConfig.rpcUrl (zkAgent.config self)) "");
    repeat split; intros; try contradiction; reflexivity.
Qed.

Lemma invalid_configuration_stops_the_call_witness :
  let cfg :=
    {| AgentConfig.chainId := 84532; AgentConfig.rpcUrl := "https://sepolia.base.org";
       AgentConfig.bundlerUrl := ""; AgentConfig.paymasterAddress := "";
       AgentConfig.easAddress := ""; AgentConfig.entryPointAddress := "";
       AgentConfig.modelId := "gpt-4o-mini"; AgentConfig.maxGasPrice := 100000000000;
       AgentConfig.maxTransactionValue := 100; AgentConfig.defaultEpoch := 176200;
       AgentConfig.allowedTokens := []; AgentConfig.allowedMerchants := [];
       AgentConfig.attesterPrivateKey := None; AgentConfig.schemaUID := "0x00" |} in
  zkAgent.processPayment Scenario.encoder Scenario.clock (zkAgent.new cfg)
    (Scenario.pay 40) zkAgent.noOptions
  = (Throw (Error "Configuration invalid: Paymaster address not configured"),
     zkAgent.new cfg).
Proof.
  cbv zeta.
  refine (proj1 (invalid_configuration_stops_the_call _ _ _ _ _) _ _).
  - reflexivity.
  - discriminate.
Defined.

(** X14. With [skipRiskAnalysis] set, the risk analyzer is neither asked
    nor told: whatever the call returns or throws, the analyzer and its
    history are as before, and a returned decision is approved exactly when
    the policy validation is valid, with risk score 0 and no flags. *)
Theorem skipped_risk_analysis_leaves_no_trace (enc : TransactionBuilder.encoder)
    (clock : Clock.t) (self : zkAgent.t) (request : PaymentRequest)
    (options : zkAgent.Options) :
  zkAgent.opt_skipRiskAnalysis options = Some true ->
  let out := zkAgent.processPayment enc clock self request options in
  let pv := PolicyValidator.validation (zkAgent.policyValidator self)
              (Clock.now_validate clock) request (Pipeline.epoch_of clock options) in
  zkAgent.riskAnalyzer out.2 = zkAgent.riskAnalyzer self
  /\ forall a, out.1 = Ok a ->
       approved (AgentAnalysis.decision a) = PolicyValidation.valid pv
       /\ riskScore (AgentAnalysis.decision a) = 0
       /\ flags (AgentAnalysis.decision a) = []
       /\ reason (AgentAnalysis.decision a)
          = (if PolicyValidation.valid pv then "Policy valid, risk analysis skipped"
             else "Policy validation failed")%string.
Proof.
  intros Hskip. cbv zeta. unfold zkAgent.processPayment, Pipeline.epoch_of.
  rewrite Hskip. cbn [default].
  destruct (negb (zkAgent.validateConfiguration self).1);
    [split; [reflexivity|intros a [=]]|].
  destruct (TransactionBuilder.buildPlan (zkAgent.logger self) enc
              (Clock.now_callData clock) request _)
    as [plan|] eqn:Hplan; [|split; [reflexivity|intros a [=]]].
  destruct (AgentFacts.buildPlan_inv _ _ _ _ _ _ Hplan) as [_ ->].
  destruct (negb (TransactionBuilder.validate plan).1); [split; [reflexivity|intros a [=]]|].
  destruct (PolicyValidator.validate _ _ _ _) as [pv|] eqn:Hval;
    [|split; [reflexivity|intros a [=]]].
  apply PolicyValidatorFacts.validate_inv in Hval as [_ ->].
  cbn [approved zkAgent.with_riskAnalyzer zkAgent.config].
  destruct (PolicyValidation.valid _) eqn:Hv.
  - destruct (AttestationManager.createAttestation _ _ _ _ _ _) as [att|];
      [|split; [reflexivity|intros a [=]]].
    destruct (negb (AttestationManager.verifyAttestation _ _ att));
      [split; [reflexivity|intros a [=]]|].
    cbn [fst snd]. split; [reflexivity|]. intros a [= <-]. cbn. repeat split; reflexivity.
  - cbn [fst snd]. split; [reflexivity|]. intros a [= <-]. cbn. repeat split; reflexivity.
Qed.

Lemma skipped_risk_analysis_leaves_no_trace_witness :
  zkAgent.riskAnalyzer
    (zkAgent.processPayment Scenario.encoder Scenario.clock (zkAgent.new Scenario.config)
       (Scenario.pay 40)
       {| zkAgent.opt_modelId := None; zkAgent.opt_prompt := None;
          zkAgent.opt_planDescription := None; zkAgent.opt_epoch := None;
          zkAgent.opt_skipRiskAnalysis := Some true |}).2
  = zkAgent.riskAnalyzer (zkAgent.new Scenario.config).
Proof.
  refine (proj1 (skipped_risk_analysis_leaves_no_trace _ _ _ _ _ _)).
  reflexivity.
Defined.

(** X15. With a validator whose logger is not verbose, [quickCheck]
    answers with the decision [analyze] takes on the outcome of the policy
    validation, so a request that fails validation is answered false, and
    it records the request in the risk history, as [processPayment] does;
    with a verbose logger it throws the TypeError of [validate] and leaves
    the agent as it was.  It never records spending; and on the same agent
    and clock it gives the answer [processPayment] returns for a call with
    no epoch and no skipping. *)
Theorem quick_check_records_but_never_spends (clock : Clock.t) (self : zkAgent.t)
    (request : PaymentRequest) :
  let out := zkAgent.quickCheck clock self request in
  let pv := PolicyValidator.validation (zkAgent.policyValidator self)
              (Clock.now_validate clock) request (Clock.epochOf (Clock.now_epoch clock)) in
  let verbose := Logger.verbose (PolicyValidator.logger (zkAgent.policyValidator self)) in
  zkAgent.policyValidator out.2 = zkAgent.policyValidator self
  /\ (verbose = true -> out = (Throw TypeError, self))
  /\ (verbose = false ->
      (exists ok, out.1 = Ok ok /\ (PolicyValidation.valid pv = false -> ok = false))
      /\ RiskAnalyzer.transactionHistory (zkAgent.riskAnalyzer out.2)
         = RiskAnalyzer.recordTransaction
             (RiskAnalyzer.transactionHistory (zkAgent.riskAnalyzer self)) request)
  /\ forall enc options a,
       zkAgent.opt_epoch options = None ->
       zkAgent.opt_skipRiskAnalysis options = None ->
       (zkAgent.processPayment enc clock self request options).1 = Ok a ->
       out.1 = Ok (approved (AgentAnalysis.decision a)).
Proof.
  cbv zeta. unfold zkAgent.quickCheck.
  rewrite PolicyValidatorFacts.validate_eq.
  destruct (RiskAnalyzerFacts.analyze_spec (zkAgent.riskAnalyzer self) request
              (PolicyValidation.valid
                 (PolicyValidator.validation (zkAgent.policyValidator self)
                    (Clock.now_validate clock) request
                    (Clock.epochOf (Clock.now_epoch clock)))))
    as (factors & _ & _ & _ & Han).
  cbv zeta in Han.
  match type of Han with
  | _ = Ok (?d0, ?ra0) => set (d := d0) in Han; set (ra := ra0) in Han
  end.
  assert (forall enc options a,
            zkAgent.opt_epoch options = None ->
            zkAgent.opt_skipRiskAnalysis options = None ->
            (zkAgent.processPayment enc clock self request options).1 = Ok a ->
            Logger.verbose (PolicyValidator.logger (zkAgent.policyValidator self)) = false
            /\ approved (AgentAnalysis.decision a) = approved d) as Hsame.
  { intros enc options a Hep Hskip. unfold zkAgent.processPayment.
    rewrite Hep, Hskip. cbn [zkAgent.or_number default].
    destruct (negb (zkAgent.validateConfiguration self).1); [discriminate|].
    destruct (TransactionBuilder.buildPlan _ enc (Clock.now_callData clock) request _)
      as [plan|] eqn:Hplan; [|discriminate].
    destruct (AgentFacts.buildPlan_inv _ _ _ _ _ _ Hplan) as [_ [= Hep']].
    rewrite <- Hep'.
    destruct (negb (TransactionBuilder.validate plan).1); [discriminate|].
    destruct (PolicyValidator.validate _ _ _ _) as [pv|] eqn:Hval; [|discriminate].
    apply PolicyValidatorFacts.validate_inv in Hval as [Hquiet ->].
    rewrite Han. clearbody d ra. cbn [zkAgent.with_riskAnalyzer zkAgent.config].
    destruct (approved d) eqn:Happ.
    + destruct (AttestationManager.createAttestation _ _ _ _ _ _) as [att|]; [|discriminate].
      destruct (negb (AttestationManager.verifyAttestation _ _ att)); [discriminate|].
      cbn [fst]. intros [= <-]. cbn [AgentAnalysis.decision]. split; [exact Hquiet|].
      exact Happ.
    + cbn [fst]. intros [= <-]. cbn [AgentAnalysis.decision]. split; [exact Hquiet|].
      exact Happ. }
  destruct (Logger.verbose (PolicyValidator.logger (zkAgent.policyValidator self))) eqn:Hv.
  - cbn [fst snd]. split; [reflexivity|]. split; [reflexivity|]. split; [discriminate|].
    intros enc options a Hep Hskip Hout.
    destruct (Hsame enc options a Hep Hskip Hout) as [Hq _]. discriminate.
  - rewrite Han. cbn [fst snd zkAgent.with_riskAnalyzer zkAgent.policyValidator
                      zkAgent.riskAnalyzer].
    split; [reflexivity|]. split; [discriminate|]. split.
    + intros _. split; [|reflexivity].
      eexists. split; [reflexivity|]. intros Hinv. subst d. cbn [approved].
      rewrite Hinv. reflexivity.
    + intros enc options a Hep Hskip Hout.
      destruct (Hsame enc options a Hep Hskip Hout) as [_ ->]. reflexivity.
Qed.

Lemma quick_check_records_but_never_spends_witness :
  exists a,
    (zkAgent.processPayment Scenario.encoder Scenario.clock (zkAgent.new Scenario.config)
       (Scenario.pay 40) zkAgent.noOptions).1 = Ok a
    /\ (zkAgent.quickCheck Scenario.clock (zkAgent.new Scenario.config) (Scenario.pay 40)).1
       = Ok (approved (AgentAnalysis.decision a)).
Proof.
  eexists. split; [vm_compute; reflexivity|].
  refine (proj2 (proj2 (proj2
            (quick_check_records_but_never_spends Scenario.clock
               (zkAgent.new Scenario.config) (Scenario.pay 40))))
            Scenario.encoder zkAgent.noOptions _ _ _ _).
  - reflexivity.
  - reflexivity.
  - vm_compute. reflexivity.
Defined.

Module PayloadFacts.
Import zkAgent AttestationManager HexFacts PolicyHashFacts BytesFacts PaymentFacts.

(** The payload text [buildPaymasterAndData] returns for 32-byte values. *)
Lemma buildPaymasterAndData_spec (config : AgentConfig.t) (att : Attestation.t)
    (prefix u p : list byte) (epoch : Z) :
  isAddress (AgentConfig.paymasterAddress config) = true ->
  hexToBytes (AgentConfig.paymasterAddress config) = Ok prefix ->
  Attestation.uid att = toHex u -> length u = 32%nat -> length p = 32%nat ->
  0 <= epoch < 2 ^ 256 ->
  buildPaymasterAndData config att (toHex p) epoch
  = Ok (toHex (prefix ++ u ++ p ++ be_bytes 32 epoch)).
Proof.
  intros Haddr Hbytes Hu Hul Hpl He. unfold buildPaymasterAndData, encodePacked.
  cbn [encode_packed_parts]. rewrite Hu.
  rewrite !encode_packed1_bytes32, encode_packed1_uint256 by assumption.
  unfold encode_packed1. rewrite Haddr.
  destruct (AttestFacts.address_bytes _ (BuilderFacts.isAddress_valid _ Haddr))
    as (prefix' & _ & _ & Hbytes' & Hlow).
  rewrite Hbytes in Hbytes'. injection Hbytes' as <-.
  rewrite Hlow. cbn [JS.bind].
  change [toHex prefix; toHex u; toHex p; toHex (be_bytes 32 epoch)]
    with (map toHex [prefix; u; p; be_bytes 32 epoch]).
  rewrite concatHex_toHex. cbn [concat]. rewrite app_nil_r. reflexivity.
Qed.

(** Everything an approved analysis holds, in bytes. *)
Lemma approved_analysis_bytes (enc : TransactionBuilder.encoder) (clock : Clock.t)
    (self : t) (request : PaymentRequest) (options : Options) (a : AgentAnalysis.t) :
  (processPayment enc clock self request options).1 = Ok a ->
  approved (AgentAnalysis.decision a) = true ->
  let epoch := Pipeline.epoch_of clock options in
  exists att prefix u h,
    AgentAnalysis.attestation a = Some att
    /\ isAddress (AgentConfig.paymasterAddress (config self)) = true
    /\ hexToBytes (AgentConfig.paymasterAddress (config self)) = Ok prefix
    /\ length prefix = 20%nat
    /\ Attestation.uid att = toHex u /\ length u = 32%nat
    /\ TransactionPlan.userOpHash (AgentAnalysis.transactionPlan a) = toHex h
    /\ length h = 32%nat
    /\ TransactionPlan.policyHash (AgentAnalysis.transactionPlan a) = toHex (canonical h epoch)
    /\ TransactionPlan.epoch (AgentAnalysis.transactionPlan a) = epoch
    /\ 0 <= epoch < 2 ^ 256.
Proof.
  intros Hout Happ. cbv zeta.
  destruct (processPayment_approved_inv enc clock self request options a Hout Happ)
    as (plan & att & Hplan & -> & Hatt & Hsome & _).
  destruct (PolicyHash.buildPlan_hashes _ _ _ _ _ _ Hplan) as (h & Hh & Hu & Hp & He & _).
  destruct (createAttestation_fields _ _ _ _ _ _ _ Hatt)
    as (_ & _ & _ & _ & _ & _ & Haddr & u & Hul & Huid).
  destruct (AttestFacts.address_bytes _ (BuilderFacts.isAddress_valid _ Haddr))
    as (prefix & Hpl & _ & Hbytes & _).
  rewrite (AttestFacts.createAttestation_spec _ _ _ _ _ _ h _ Hu Hh Hp
             (length_keccak256 _)) in Hatt.
  cbv zeta in Hatt. rewrite He in Hatt.
  destruct (Z.leb_spec 0 (Pipeline.epoch_of clock options)); [|discriminate Hatt].
  destruct (Z.ltb_spec (Pipeline.epoch_of clock options) (2 ^ 256)); [|discriminate Hatt].
  exists att, prefix, u, h. repeat split; assumption.
Qed.

End PayloadFacts.

(** X16. [buildPaymasterData] on what [processPayment] returned: for a
    decision that is not approved it throws "No attestation available"; for
    an approved one it always returns, and what it returns is 116 bytes in
    hexadecimal, the 20 bytes of the configured paymaster address, the 32 of
    the attestation's uid, the 32 of the plan's policy hash and the epoch as
    32 big-endian bytes, which the validator's [_decode] reads back as that
    uid, that policy hash and that epoch. *)
Theorem paymaster_data_of_an_analysis (enc : TransactionBuilder.encoder) (clock : Clock.t)
    (self : zkAgent.t) (request : PaymentRequest) (options : zkAgent.Options)
    (a : AgentAnalysis.t) :
  (zkAgent.processPayment enc clock self request options).1 = Ok a ->
  let agent := (zkAgent.processPayment enc clock self request options).2 in
  let epoch := Pipeline.epoch_of clock options in
  if approved (AgentAnalysis.decision a) then
    exists att prefix u p,
      AgentAnalysis.attestation a = Some att
      /\ hexToBytes (AgentConfig.paymasterAddress (zkAgent.config self)) = Ok prefix
      /\ hexToBytes (Attestation.uid att) = Ok u
      /\ hexToBytes (TransactionPlan.policyHash (AgentAnalysis.transactionPlan a)) = Ok p
      /\ zkAgent.buildPaymasterData agent a
         = Ok (toHex (prefix ++ u ++ p ++ be_bytes 32 epoch))
      /\ length (prefix ++ u ++ p ++ be_bytes 32 epoch) = 116%nat
      /\ CompliancePaymaster._decode (prefix ++ u ++ p ++ be_bytes 32 epoch)
         = Sol.Success {| CompliancePaymaster.attUid := be_value u;
                          CompliancePaymaster.policyHash := be_value p;
                          CompliancePaymaster.epoch := epoch |}
  else zkAgent.buildPaymasterData agent a = Throw (Error "No attestation available").
Proof.
  intros Hout. cbv zeta.
  pose proof (AgentFacts.processPayment_spec enc clock self request options) as Hspec.
  cbv zeta in Hspec. destruct Hspec as (Hcfg & _ & Hr). rewrite Hout in Hr.
  destruct Hr as (_ & _ & _ & _ & Hr).
  destruct (approved (AgentAnalysis.decision a)) eqn:Happ.
  - destruct (PayloadFacts.approved_analysis_bytes enc clock self request options a Hout Happ)
      as (att & prefix & u & h & Hsome & Haddr & Hbytes & Hpl & Huid & Hul & Hu & Hh & Hp
          & Hep & He).
    cbv zeta in Hp, Hep, He.
    exists att, prefix, u, (canonical h (Pipeline.epoch_of clock options)).
    pose proof (HexFacts.length_keccak256 (h ++ be_bytes 32 (Pipeline.epoch_of clock options)))
      as Hcl. fold (canonical h (Pipeline.epoch_of clock options)) in Hcl.
    split; [exact Hsome|]. split; [exact Hbytes|].
    split; [rewrite Huid; apply HexFacts.hexToBytes_toHex|].
    split; [rewrite Hp; apply HexFacts.hexToBytes_toHex|].
    split; [|split].
    + unfold zkAgent.buildPaymasterData. rewrite Hsome, Hcfg, Hp, Hep.
      apply PayloadFacts.buildPaymasterAndData_spec; assumption.
    + rewrite !length_app, Hpl, Hul, Hcl, BytesFacts.length_be_bytes. reflexivity.
    + rewrite <- (BuilderFacts.be_bytes_of_length 32 u Hul) at 1.
      rewrite <- (BuilderFacts.be_bytes_of_length 32 _ Hcl) at 1.
      rewrite <- (app_nil_r (prefix ++ _)).
      change (prefix ++ be_bytes 32 (be_value u)
              ++ be_bytes 32 (be_value (canonical h (Pipeline.epoch_of clock options)))
              ++ be_bytes 32 (Pipeline.epoch_of clock options))
        with (payload prefix (be_value u)
                (be_value (canonical h (Pipeline.epoch_of clock options)))
                (Pipeline.epoch_of clock options)).
      rewrite PaymasterFacts._decode_payload by exact Hpl.
      pose proof (BytesFacts.be_value_range u) as Hur.
      pose proof (BytesFacts.be_value_range (canonical h (Pipeline.epoch_of clock options)))
        as Hpr.
      rewrite Hul in Hur. rewrite Hcl in Hpr. rewrite PaymasterFacts.word_256 in Hur, Hpr.
      rewrite !Z.mod_small by lia. reflexivity.
  - destruct Hr as (Hnone & _). unfold zkAgent.buildPaymasterData. rewrite Hnone.
    reflexivity.
Qed.

Lemma paymaster_data_of_an_analysis_witness :
  exists a,
    (zkAgent.processPayment Scenario.encoder Scenario.clock (zkAgent.new Scenario.config)
       (Scenario.pay 40) zkAgent.noOptions).1 = Ok a
    /\ approved (AgentAnalysis.decision a) = true
    /\ exists hex,
         zkAgent.buildPaymasterData
           (zkAgent.processPayment Scenario.encoder Scenario.clock
              (zkAgent.new Scenario.config) (Scenario.pay 40) zkAgent.noOptions).2 a
         = Ok hex
         /\ String.length hex = 234%nat.
Proof.
  eexists. split; [vm_compute; reflexivity|]. split; [reflexivity|].
  match goal with
  | |- exists hex, zkAgent.buildPaymasterData _ ?a = _ /\ _ =>
      pose proof (paymaster_data_of_an_analysis Scenario.encoder Scenario.clock
                    (zkAgent.new Scenario.config) (Scenario.pay 40) zkAgent.noOptions a)
        as Hdata
  end.
  cbv zeta in Hdata. cbn [AgentAnalysis.decision approved] in Hdata.
  destruct Hdata as (att & prefix & u & p & _ & _ & _ & _ & Hhex & Hlen & _);
    [vm_compute; reflexivity|].
  eexists. split; [exact Hhex|].
  rewrite PolicyHashFacts.length_toHex, Hlen. reflexivity.
Defined.

(** X17. What the agent approves, the validator accepts.  The payload
    [buildPaymasterData] returns for an approved analysis, submitted from the
    entry point for the operation hash of the plan, is accepted by
    [validatePaymasterUserOp], with the PolicyChecked event for the
    attestation's uid, the policy hash and the epoch, whenever the registry
    holds an attestation under that uid with the contract's schema, an
    attester that is not zero and is whitelisted, and an expiration that is
    zero or not yet past. *)
Theorem approved_payment_passes_the_validator (enc : TransactionBuilder.encoder)
    (clock : Clock.t) (self : zkAgent.t) (request : PaymentRequest)
    (options : zkAgent.Options) (a : AgentAnalysis.t) :
  (zkAgent.processPayment enc clock self request options).1 = Ok a ->
  approved (AgentAnalysis.decision a) = true ->
  let agent := (zkAgent.processPayment enc clock self request options).2 in
  let epoch := Pipeline.epoch_of clock options in
  exists att hex bytes u h,
    AgentAnalysis.attestation a = Some att
    /\ zkAgent.buildPaymasterData agent a = Ok hex
    /\ hexToBytes hex = Ok bytes
    /\ hexToBytes (Attestation.uid att) = Ok u
    /\ hexToBytes (TransactionPlan.userOpHash (AgentAnalysis.transactionPlan a)) = Ok h
    /\ (forall (contract : CompliancePaymaster.t) (reg : MockEAS.t) (issued : Sol.Env)
           (attester exp dataHash now pf : Z) (userOp : CompliancePaymaster.UserOperation),
        CompliancePaymaster.paymasterAndData userOp = bytes ->
        attester <> 0 ->
        CompliancePaymaster.whitelisted contract attester = true ->
        exp = 0 \/ now <= exp ->
        CompliancePaymaster.validatePaymasterUserOp contract
          (MockEAS.set reg issued (be_value u) (CompliancePaymaster.SCHEMA_UID contract)
             attester exp dataHash)
          {| Sol.msg_sender := CompliancePaymaster.ENTRY_POINT contract;
             Sol.block_timestamp := now |}
          userOp (be_value h) pf
        = Sol.Success
            {| CompliancePaymaster.context := [];
               CompliancePaymaster.validationData := 0;
               CompliancePaymaster.events :=
                 [CompliancePaymaster.PolicyChecked (be_value u)
                    (CompliancePaymaster._policyHash (be_value h) epoch) epoch];
               CompliancePaymaster.after := contract |}).
Proof.
  intros Hout Happ. cbv zeta.
  pose proof (AgentFacts.processPayment_spec enc clock self request options) as Hspec.
  cbv zeta in Hspec. destruct Hspec as (Hcfg & _ & _).
  destruct (PayloadFacts.approved_analysis_bytes enc clock self request options a Hout Happ)
    as (att & prefix & u & h & Hsome & Haddr & Hbytes & Hpl & Huid & Hul & Hu & Hh & Hp
        & Hep & He).
  cbv zeta in Hp, Hep, He.
  set (epoch := Pipeline.epoch_of clock options) in *.
  pose proof (HexFacts.length_keccak256 (h ++ be_bytes 32 epoch)) as Hcl.
  fold (canonical h epoch) in Hcl.
  exists att, (toHex (prefix ++ u ++ canonical h epoch ++ be_bytes 32 epoch)),
    (prefix ++ u ++ canonical h epoch ++ be_bytes 32 epoch), u, h.
  split; [exact Hsome|]. split.
  { unfold zkAgent.buildPaymasterData. rewrite Hsome, Hcfg, Hp, Hep.
    apply PayloadFacts.buildPaymasterAndData_spec; assumption. }
  split; [apply HexFacts.hexToBytes_toHex|].
  split; [rewrite Huid; apply HexFacts.hexToBytes_toHex|].
  split; [rewrite Hu; apply HexFacts.hexToBytes_toHex|].
  intros contract reg issued attester exp dataHash now pf userOp Hpay Hatt Hw Hexp.
  assert (CompliancePaymaster._policyHash (be_value h) epoch = be_value (canonical h epoch))
    as Hbind.
  { rewrite PolicyHash._policyHash_spec. unfold canonical.
    rewrite <- Hh at 1. rewrite BytesFacts.be_bytes_be_value. reflexivity. }
  pose proof (BytesFacts.be_value_range u) as Hur.
  rewrite Hul, PaymasterFacts.word_256 in Hur.
  rewrite (MockFacts.mock_validate contract reg issued (be_value u) attester exp dataHash
             (be_value h) epoch now pf prefix [] userOp).
  - destruct (Z.eqb_spec attester 0); [contradiction|]. cbn [orb].
    assert ((exp =? 0) || (exp >=? now) = true) as ->.
    { destruct Hexp as [->|Hle]; [reflexivity|].
      destruct (Z.geb_spec exp now); [apply orb_true_r|lia]. }
    cbn [negb]. rewrite Hw. reflexivity.
  - rewrite Hpay, app_nil_r, Hbind. unfold payload.
    rewrite (BuilderFacts.be_bytes_of_length 32 u Hul),
      (BuilderFacts.be_bytes_of_length 32 _ Hcl). reflexivity.
  - exact Hpl.
  - exact Hur.
  - exact He.
Qed.

Lemma approved_payment_passes_the_validator_witness :
  exists a bytes u h,
    (zkAgent.processPayment Scenario.encoder Scenario.clock (zkAgent.new Scenario.config)
       (Scenario.pay 40) zkAgent.noOptions).1 = Ok a
    /\ CompliancePaymaster.validatePaymasterUserOp Scenario.paymaster
         (MockEAS.set MockEAS.new
            {| Sol.msg_sender := 1; Sol.block_timestamp := Scenario.issuance |}
            (be_value u) Scenario.schemaUid Scenario.attester (Scenario.issuance + 3600) 0)
         (Scenario.at_time (Scenario.issuance + 10)) (Scenario.userOp bytes) (be_value h) 0
       = Sol.Success
           {| CompliancePaymaster.context := [];
              CompliancePaymaster.validationData := 0;
              CompliancePaymaster.events :=
                [CompliancePaymaster.PolicyChecked (be_value u)
                   (CompliancePaymaster._policyHash (be_value h) 176200) 176200];
              CompliancePaymaster.after := Scenario.paymaster |}.
Proof.
  eexists.
  match goal with
  | |- exists bytes u h, ?out = Ok ?a /\ _ =>
      assert (out = Ok a) as Hout by (vm_compute; reflexivity);
      destruct (approved_payment_passes_the_validator Scenario.encoder Scenario.clock
                  (zkAgent.new Scenario.config) (Scenario.pay 40) zkAgent.noOptions a Hout)
        as (att & hex & bytes & u & h & _ & _ & _ & _ & _ & Hvalid);
        [reflexivity|]
  end.
  exists bytes, u, h. split; [exact Hout|].
  apply (Hvalid Scenario.paymaster MockEAS.new
           {| Sol.msg_sender := 1; Sol.block_timestamp := Scenario.issuance |}
           Scenario.attester (Scenario.issuance + 3600) 0 (Scenario.issuance + 10) 0
           (Scenario.userOp bytes)).
  - reflexivity.
  - discriminate.
  - reflexivity.
  - right. vm_compute. discriminate.
Defined.

(** * More of the code: the paymaster contract and the mock registry *)

(** X18. The validator never accepts a payload made for another operation
    or epoch: whenever it accepts, the policy hash in the payload is the
    Keccak-256 hash of the operation hash and the payload's epoch, 32 bytes
    each, and the one event it emits carries the payload's three fields; and
    a payload whose policy hash is anything else is rejected with
    POLICY_MISMATCH even when its attestation passes every check. *)
Theorem accepted_payload_is_bound_to_the_operation {E : Type} `{Sol.IEAS E}
    (self : CompliancePaymaster.t) (eas : E) (env : Sol.Env)
    (userOp : CompliancePaymaster.UserOperation) (userOpHash pf : Z) :
  let bound (pmd : CompliancePaymaster.PaymasterData) :=
    CompliancePaymaster.policyHash pmd
    = be_value (Keccak.keccak256
                  (be_bytes 32 userOpHash ++ be_bytes 32 (CompliancePaymaster.epoch pmd))) in
  (forall v,
     CompliancePaymaster.validatePaymasterUserOp self eas env userOp userOpHash pf
       = Sol.Success v ->
     exists pmd,
       CompliancePaymaster._decode (CompliancePaymaster.paymasterAndData userOp)
         = Sol.Success pmd
       /\ bound pmd
       /\ CompliancePaymaster.events v
          = [CompliancePaymaster.PolicyChecked (CompliancePaymaster.attUid pmd)
               (CompliancePaymaster.policyHash pmd) (CompliancePaymaster.epoch pmd)]
       /\ CompliancePaymaster.context v = []
       /\ CompliancePaymaster.validationData v = 0)
  /\ (forall pmd a,
        Sol.msg_sender env = CompliancePaymaster.ENTRY_POINT self ->
        CompliancePaymaster._decode (CompliancePaymaster.paymasterAndData userOp)
          = Sol.Success pmd ->
        Sol.isAttestationValid eas env (CompliancePaymaster.attUid pmd) = Sol.Success true ->
        Sol.getAttestation eas env (CompliancePaymaster.attUid pmd) = Sol.Success a ->
        Sol.schema a = CompliancePaymaster.SCHEMA_UID self ->
        CompliancePaymaster.whitelisted self (Sol.attester a) = true ->
        Sol.expirationTime a = 0 \/ Sol.block_timestamp env <= Sol.expirationTime a ->
        ~ bound pmd ->
        CompliancePaymaster.validatePaymasterUserOp self eas env userOp userOpHash pf
        = Sol.Revert (Sol.RequireFailed "POLICY_MISMATCH")).
Proof.
  cbv zeta. split.
  - intros v Hv.
    apply PaymasterFacts.validate_success_inv in Hv
      as (_ & _ & pmd & a & Hd & _ & _ & _ & _ & _ & Hp & ->).
    exists pmd. split; [exact Hd|]. rewrite <- Hp, PolicyHash._policyHash_spec.
    repeat split; reflexivity.
  - intros pmd a Hs Hd Hv Hg Hsch Hw Hexp Hnot.
    rewrite (PaymasterFacts.validate_steps self eas env userOp userOpHash pf pmd Hs Hd).
    rewrite Hv. cbn [Sol.bind negb]. rewrite Hg. cbn [Sol.bind].
    rewrite Hsch, Z.eqb_refl, Hw. cbn [negb].
    assert (negb (Sol.expirationTime a =? 0)
            && (Sol.expirationTime a <? Sol.block_timestamp env) = false) as ->.
    { destruct Hexp as [->|Hle]; [reflexivity|].
      destruct (Z.ltb_spec (Sol.expirationTime a) (Sol.block_timestamp env)); [lia|].
      apply andb_false_r. }
    rewrite PolicyHash._policyHash_spec. unfold Sol.require.
    destruct (Z.eqb_spec
                (be_value (Keccak.keccak256
                   (be_bytes 32 userOpHash ++ be_bytes 32 (CompliancePaymaster.epoch pmd))))
                (CompliancePaymaster.policyHash pmd)) as [Heq|]; [|reflexivity].
    exfalso. apply Hnot. symmetry. exact Heq.
Qed.

Lemma accepted_payload_is_bound_to_the_operation_witness :
  CompliancePaymaster.validatePaymasterUserOp Scenario.paymaster Scenario.registry
    (Scenario.at_time (Scenario.issuance + 10)) (Scenario.userOp Scenario.payload116)
    (Scenario.userOpHash + 1) 0
  = Sol.Revert (Sol.RequireFailed "POLICY_MISMATCH").
Proof.
  refine (proj2 (accepted_payload_is_bound_to_the_operation Scenario.paymaster
                   Scenario.registry (Scenario.at_time (Scenario.issuance + 10))
                   (Scenario.userOp Scenario.payload116) (Scenario.userOpHash + 1) 0)
            {| CompliancePaymaster.attUid := Scenario.attUid;
               CompliancePaymaster.policyHash :=
                 CompliancePaymaster._policyHash Scenario.userOpHash Scenario.EPOCH;
               CompliancePaymaster.epoch := Scenario.EPOCH |}
            (MockEAS.read Scenario.registry Scenario.attUid) _ _ _ _ _ _ _ _).
  - reflexivity.
  - vm_compute. reflexivity.
  - vm_compute. reflexivity.
  - reflexivity.
  - vm_compute. reflexivity.
  - vm_compute. reflexivity.
  - right. vm_compute. discriminate.
  - vm_compute. discriminate.
Defined.

(** X19. The whitelist is what [setAttester] last wrote: at deployment
    only the constructor's attester is trusted; [setAttester] sets the flag
    of the address it names, leaves every other address and the immutables
    as they were and emits AttesterSet; and validation follows it at once,
    an attestation that was accepted being refused with
    AttesterNotWhitelisted after its attester is taken off the list, and
    accepted again after it is put back. *)
Theorem whitelist_is_what_setAttester_wrote (self : CompliancePaymaster.t) (who other : Z)
    (ok : bool) (entryPoint eas schemaUid attester : Z)
    (reg : MockEAS.t) (issued : Sol.Env) (uid exp dataHash h e now pf : Z)
    (prefix : list byte) (userOp : CompliancePaymaster.UserOperation) :
  let self1 := (CompliancePaymaster.setAttester self who ok).1 in
  let validated (contract : CompliancePaymaster.t) :=
    CompliancePaymaster.validatePaymasterUserOp contract
      (MockEAS.set reg issued uid (CompliancePaymaster.SCHEMA_UID self) who exp dataHash)
      {| Sol.msg_sender := CompliancePaymaster.ENTRY_POINT self; Sol.block_timestamp := now |}
      userOp h pf in
  CompliancePaymaster.whitelisted self1 who = ok
  /\ (other <> who ->
      CompliancePaymaster.whitelisted self1 other = CompliancePaymaster.whitelisted self other)
  /\ CompliancePaymaster.ENTRY_POINT self1 = CompliancePaymaster.ENTRY_POINT self
  /\ CompliancePaymaster.SCHEMA_UID self1 = CompliancePaymaster.SCHEMA_UID self
  /\ (CompliancePaymaster.setAttester self who ok).2 = [CompliancePaymaster.AttesterSet who ok]
  /\ (forall a,
        CompliancePaymaster.whitelisted
          (CompliancePaymaster.constructor entryPoint eas schemaUid attester).1 a = true
        <-> a = attester)
  /\ (CompliancePaymaster.paymasterAndData userOp
        = payload prefix uid (CompliancePaymaster._policyHash h e) e ->
      length prefix = 20%nat -> 0 <= uid < 2 ^ 256 -> 0 <= e < 2 ^ 256 ->
      who <> 0 -> exp = 0 \/ now <= exp ->
      validated (CompliancePaymaster.setAttester self who false).1
        = Sol.Revert Sol.AttesterNotWhitelisted
      /\ validated (CompliancePaymaster.setAttester
                      (CompliancePaymaster.setAttester self who false).1 who true).1
         = Sol.Success
             {| CompliancePaymaster.context := [];
                CompliancePaymaster.validationData := 0;
                CompliancePaymaster.events :=
                  [CompliancePaymaster.PolicyChecked uid
                     (CompliancePaymaster._policyHash h e) e];
                CompliancePaymaster.after :=
                  (CompliancePaymaster.setAttester
                     (CompliancePaymaster.setAttester self who false).1 who true).1 |}).
Proof.
  cbv zeta. unfold CompliancePaymaster.setAttester, CompliancePaymaster.whitelisted.
  cbn [fst snd CompliancePaymaster.attesterWhitelist CompliancePaymaster.ENTRY_POINT
       CompliancePaymaster.SCHEMA_UID].
  split; [rewrite lookup_insert_eq; reflexivity|].
  split; [intros Hne; rewrite lookup_insert_ne by congruence; reflexivity|].
  do 3 (split; [reflexivity|]). split.
  - intros a. unfold CompliancePaymaster.constructor.
    cbn [fst CompliancePaymaster.attesterWhitelist].
    destruct (decide (a = attester)) as [->|Hne].
    + rewrite lookup_insert_eq. split; reflexivity.
    + rewrite lookup_insert_ne by congruence. rewrite lookup_empty.
      split; [discriminate|contradiction].
  - intros Hpay Hprefix Huid He Hwho Hexp.
    assert (CompliancePaymaster.paymasterAndData userOp
            = payload prefix uid (CompliancePaymaster._policyHash h e) e ++ []) as Hpay'
      by (rewrite app_nil_r; exact Hpay).
    assert ((who =? 0) || negb ((exp =? 0) || (exp >=? now)) = false) as Hlive.
    { destruct (Z.eqb_spec who 0); [contradiction|]. cbn [orb].
      destruct Hexp as [->|Hle]; [reflexivity|].
      destruct (Z.geb_spec exp now); [|lia]. rewrite orb_true_r. reflexivity. }
    split.
    + rewrite (MockFacts.mock_validate
                 {| CompliancePaymaster.ENTRY_POINT := CompliancePaymaster.ENTRY_POINT self;
                    CompliancePaymaster.EAS := CompliancePaymaster.EAS self;
                    CompliancePaymaster.SCHEMA_UID := CompliancePaymaster.SCHEMA_UID self;
                    CompliancePaymaster.attesterWhitelist :=
                      <[who := false]> (CompliancePaymaster.attesterWhitelist self) |}
                 reg issued uid who exp dataHash h e now pf prefix [] userOp
                 Hpay' Hprefix Huid He).
      rewrite Hlive. unfold CompliancePaymaster.whitelisted.
      cbn [CompliancePaymaster.attesterWhitelist]. rewrite lookup_insert_eq. reflexivity.
    + rewrite (MockFacts.mock_validate
                 {| CompliancePaymaster.ENTRY_POINT := CompliancePaymaster.ENTRY_POINT self;
                    CompliancePaymaster.EAS := CompliancePaymaster.EAS self;
                    CompliancePaymaster.SCHEMA_UID := CompliancePaymaster.SCHEMA_UID self;
                    CompliancePaymaster.attesterWhitelist :=
                      <[who := true]>
                        (<[who := false]> (CompliancePaymaster.attesterWhitelist self)) |}
                 reg issued uid who exp dataHash h e now pf prefix [] userOp
                 Hpay' Hprefix Huid He).
      rewrite Hlive. unfold CompliancePaymaster.whitelisted.
      cbn [CompliancePaymaster.attesterWhitelist]. rewrite lookup_insert_eq. reflexivity.
Qed.

Lemma whitelist_is_what_setAttester_wrote_witness :
  CompliancePaymaster.validatePaymasterUserOp
    (CompliancePaymaster.setAttester Scenario.paymaster Scenario.attester false).1
    Scenario.registry (Scenario.at_time (Scenario.issuance + 10))
    (Scenario.userOp Scenario.payload116) Scenario.userOpHash 0
  = Sol.Revert Sol.AttesterNotWhitelisted.
Proof.
  refine (proj1 (proj2 (proj2 (proj2 (proj2 (proj2 (proj2
            (whitelist_is_what_setAttester_wrote Scenario.paymaster Scenario.attester 0
               false 0 0 0 0 MockEAS.new
               {| Sol.msg_sender := 1; Sol.block_timestamp := Scenario.issuance |}
               Scenario.attUid (Scenario.issuance + 3600) 0 Scenario.userOpHash
               Scenario.EPOCH (Scenario.issuance + 10) 0 Scenario.prefix
               (Scenario.userOp Scenario.payload116)))))))
            _ _ _ _ _ _)).
  - reflexivity.
  - reflexivity.
  - vm_compute. split; [discriminate|reflexivity].
  - vm_compute. split; [discriminate|reflexivity].
  - discriminate.
  - right. vm_compute. discriminate.
Defined.

(** X20. The mock registry gives back what was set: [getAttestation]
    returns the attestation last set under a uid, stamped with the time of
    the block it was set in (truncated to 64 bits), and the all-zero
    attestation for a uid never set; setting one uid leaves the others; and
    an attestation is valid exactly when its attester is not the zero
    address and its expiration is zero or not before the block's time, so a
    uid never set is never valid. *)
Theorem mock_registry_round_trip (reg : MockEAS.t) (env later : Sol.Env)
    (uid other schema attester exp dataHash : Z) :
  let reg1 := MockEAS.set reg env uid schema attester exp dataHash in
  MockEAS.getAttestation reg1 later uid
  = Sol.Success {| Sol.uid := uid; Sol.schema := schema; Sol.attester := attester;
                   Sol.time := Sol.block_timestamp env mod 2 ^ 64;
                   Sol.expirationTime := exp; Sol.revocationTime := 0;
                   Sol.dataHash := dataHash |}
  /\ (other <> uid ->
      MockEAS.getAttestation reg1 later other = MockEAS.getAttestation reg later other
      /\ MockEAS.isAttestationValid reg1 later other
         = MockEAS.isAttestationValid reg later other)
  /\ (MockEAS.a reg !! uid = None ->
      MockEAS.getAttestation reg later uid = Sol.Success MockEAS.zero
      /\ MockEAS.isAttestationValid reg later uid = Sol.Success false)
  /\ (MockEAS.isAttestationValid reg1 later uid = Sol.Success true
      <-> attester <> 0 /\ (exp = 0 \/ Sol.block_timestamp later <= exp)).
Proof.
  cbv zeta. unfold MockEAS.getAttestation, MockEAS.isAttestationValid.
  rewrite MockFacts.read_set. cbn [Sol.attester Sol.expirationTime].
  split; [reflexivity|]. split; [|split].
  - intros Hne. unfold MockEAS.read, MockEAS.set. cbn [MockEAS.a].
    rewrite lookup_insert_ne by congruence. split; reflexivity.
  - intros Hnone. unfold MockEAS.read. rewrite Hnone. split; reflexivity.
  - destruct (Z.eqb_spec attester 0) as [->|Hne]; cbn [negb andb].
    { split; [discriminate|intros [Hc _]; contradiction]. }
    destruct (Z.eqb_spec exp 0) as [->|Hnz]; cbn [orb].
    { split; [intros _; split; [exact Hne|left; reflexivity]|reflexivity]. }
    destruct (Z.geb_spec exp (Sol.block_timestamp later)) as [Hge|Hlt].
    + split; [intros _; split; [exact Hne|right; exact Hge]|reflexivity].
    + split; [discriminate|intros [_ [Hc|Hc]]; [contradiction|lia]].
Qed.

Lemma mock_registry_round_trip_witness :
  MockEAS.isAttestationValid Scenario.registry (Scenario.at_time (Scenario.issuance + 3600))
    Scenario.attUid = Sol.Success true.
Proof.
  apply (proj2 (proj2 (proj2
           (mock_registry_round_trip MockEAS.new
              {| Sol.msg_sender := 1; Sol.block_timestamp := Scenario.issuance |}
              (Scenario.at_time (Scenario.issuance + 3600))
              Scenario.attUid 0 Scenario.schemaUid Scenario.attester
              (Scenario.issuance + 3600) 0)))).
  split; [discriminate|right]. vm_compute. discriminate.
Defined.

(** X21. Against the mock registry the validator refuses with
    InvalidAttestation every payload whose attestation reference was never
    set, every one whose attestation names the zero address as attester
    (being on the whitelist does not help the zero address), and every one
    whose attestation was made under another schema. *)
Theorem unregistered_attestation_is_refused (self : CompliancePaymaster.t) (reg : MockEAS.t)
    (env : Sol.Env) (userOp : CompliancePaymaster.UserOperation) (h pf : Z)
    (pmd : CompliancePaymaster.PaymasterData) :
  Sol.msg_sender env = CompliancePaymaster.ENTRY_POINT self ->
  CompliancePaymaster._decode (CompliancePaymaster.paymasterAndData userOp)
    = Sol.Success pmd ->
  let a := MockEAS.read reg (CompliancePaymaster.attUid pmd) in
  let refused :=
    CompliancePaymaster.validatePaymasterUserOp self reg env userOp h pf
    = Sol.Revert Sol.InvalidAttestation in
  (MockEAS.a reg !! CompliancePaymaster.attUid pmd = None -> refused)
  /\ (Sol.attester a = 0 -> refused)
  /\ (Sol.schema a <> CompliancePaymaster.SCHEMA_UID self -> refused).
Proof.
  intros Hs Hd. cbv zeta.
  rewrite (PaymasterFacts.validate_steps self reg env userOp h pf pmd Hs Hd).
  cbn [Sol.isAttestationValid Sol.getAttestation MockEAS.mock_is_eas].
  unfold MockEAS.isAttestationValid, MockEAS.getAttestation. cbn [Sol.bind].
  split; [|split].
  - intros Hnone. unfold MockEAS.read. rewrite Hnone. reflexivity.
  - intros ->. reflexivity.
  - intros Hsch.
    destruct (negb _ && _); cbn [negb]; [|reflexivity].
    destruct (Z.eqb_spec (Sol.schema (MockEAS.read reg (CompliancePaymaster.attUid pmd)))
                (CompliancePaymaster.SCHEMA_UID self)); [contradiction|reflexivity].
Qed.

Lemma unregistered_attestation_is_refused_witness :
  CompliancePaymaster.validatePaymasterUserOp Scenario.paymaster MockEAS.new
    (Scenario.at_time (Scenario.issuance + 10)) (Scenario.userOp Scenario.payload116)
    Scenario.userOpHash 0
  = Sol.Revert Sol.InvalidAttestation.
Proof.
  refine (proj1 (unregistered_attestation_is_refused Scenario.paymaster MockEAS.new
                   (Scenario.at_time (Scenario.issuance + 10))
                   (Scenario.userOp Scenario.payload116) Scenario.userOpHash 0
                   {| CompliancePaymaster.attUid := Scenario.attUid;
                      CompliancePaymaster.policyHash :=
                        CompliancePaymaster._policyHash Scenario.userOpHash Scenario.EPOCH;
                      CompliancePaymaster.epoch := Scenario.EPOCH |} _ _) _).
  - reflexivity.
  - vm_compute. reflexivity.
  - reflexivity.
Defined.

(** * More of the code: the operation hash and the whole call *)

Module CallFacts.
Import zkAgent AttestationManager TransactionBuilder HexFacts PolicyHashFacts PaymentFacts.

Lemma hex_value_lower (c : ascii) : hex_value (lower_ascii c) = hex_value c.
Proof. destruct c as [[] [] [] [] [] [] [] []]; vm_compute; reflexivity. Qed.

(** [Buffer.from(s, 'hex')] reads upper-case and lower-case digits alike. *)
Lemma Buffer_from_hex_lower (s : string) :
  Buffer_from_hex (toLowerCase s) = Buffer_from_hex s.
Proof.
  revert s. fix IH 1. intros [|c1 [|c2 s]]; [reflexivity|reflexivity|].
  cbn [toLowerCase Buffer_from_hex]. rewrite !hex_value_lower, IH. reflexivity.
Qed.

Lemma slice2_lower (s : string) : slice2 (toLowerCase s) = toLowerCase (slice2 s).
Proof. destruct s as [|c1 [|c2 s]]; reflexivity. Qed.

Lemma Buffer_from_hex_case (s1 s2 : string) :
  toLowerCase s1 = toLowerCase s2 ->
  Buffer_from_hex (slice2 s1) = Buffer_from_hex (slice2 s2).
Proof.
  intros H. rewrite <- (Buffer_from_hex_lower (slice2 s1)), <- (Buffer_from_hex_lower (slice2 s2)).
  rewrite <- !slice2_lower, H. reflexivity.
Qed.

(** The bytes [Buffer.from] reads from a well-formed address. *)
Lemma Buffer_from_address (address : string) (bytes : list byte) :
  isValidAddress address = true -> hexToBytes address = Ok bytes ->
  Buffer_from_hex (slice2 address) = bytes.
Proof.
  unfold isValidAddress. intros H Hb.
  apply andb_prop in H as [H H3]. apply andb_prop in H as [_ H2]. apply Nat.eqb_eq in H2.
  destruct (hex_digits_decode 20 _ H3 H2) as (bs & _ & Hbuf & Hd & _).
  unfold hexToBytes in Hb. rewrite H2 in Hb. cbn [Nat.even] in Hb. congruence.
Qed.

(** Whether an attestation that [createAttestation] made verifies. *)
Lemma verifyAttestation_created (config : AgentConfig.t) (now_ms later_ms : Z)
    (plan : TransactionPlan.t) (modelId prompt planDescription : string)
    (att : Attestation.t) :
  createAttestation config now_ms plan modelId prompt planDescription = Ok att ->
  verifyAttestation config later_ms att
  = (Clock.seconds later_ms <=? Clock.seconds now_ms + 3600).
Proof.
  intros Hatt.
  destruct (createAttestation_fields _ _ _ _ _ _ _ Hatt) as (Hs & _ & _ & _ & He & Hnow & _).
  unfold verifyAttestation. rewrite Hs, He, String.eqb_refl. cbn [negb].
  destruct (Z.gtb_spec (Clock.seconds now_ms + 3600) 0); [|lia]. cbn [andb].
  destruct (Z.ltb_spec (Clock.seconds now_ms + 3600) (Clock.seconds later_ms)),
    (Z.leb_spec (Clock.seconds later_ms) (Clock.seconds now_ms + 3600));
    try reflexivity; lia.
Qed.

(** The decision of a call: the analyzer's, or the validator's when the
    analysis is skipped. *)
Lemma decision_total (self : t) (request : PaymentRequest) (options : Options)
    (pv : PolicyValidation.t) :
  exists decision ra,
    (if default false (opt_skipRiskAnalysis options) then
       Ok ({| approved := PolicyValidation.valid pv;
              reason := if PolicyValidation.valid pv
                        then "Policy valid, risk analysis skipped"
                        else "Policy validation failed";
              riskScore := 0; confidence := 1%float; flags := [];
              suggestedAction := None |}, riskAnalyzer self)
     else RiskAnalyzer.analyze (riskAnalyzer self) request (PolicyValidation.valid pv))
    = Ok (decision, ra).
Proof.
  destruct (default false (opt_skipRiskAnalysis options)); [eexists _, _; reflexivity|].
  destruct (RiskAnalyzerFacts.analyze_spec (riskAnalyzer self) request
              (PolicyValidation.valid pv)) as (factors & _ & _ & _ & Han).
  cbv zeta in Han. eexists _, _. exact Han.
Qed.

End CallFacts.

(** X22. The operation hash of a plan is the Keccak-256 hash of the bytes
    of the merchant address, of the token address, of the amount as 32
    bytes and of the call data; it reads the addresses and the call data
    through their hexadecimal digits only, so two requests whose addresses
    and call data differ in letter case alone, and whose amounts agree
    modulo [2 ^ 256], have the same operation hash.  The description plays
    no part. *)
Theorem operation_hash_ignores_letter_case (r1 r2 : PaymentRequest) (cd1 cd2 : string)
    (m t cd : list byte) :
  (isValidAddress (merchant r1) = true -> hexToBytes (merchant r1) = Ok m ->
   isValidAddress (tokenIn r1) = true -> hexToBytes (tokenIn r1) = Ok t ->
   cd1 = toHex cd ->
   TransactionBuilder.calculateUserOpHash r1 cd1
   = toHex (Keccak.keccak256 (m ++ t ++ be_bytes 32 (amountIn r1) ++ cd)))
  /\ (toLowerCase (merchant r1) = toLowerCase (merchant r2) ->
      toLowerCase (tokenIn r1) = toLowerCase (tokenIn r2) ->
      amountIn r1 mod 2 ^ 256 = amountIn r2 mod 2 ^ 256 ->
      toLowerCase cd1 = toLowerCase cd2 ->
      TransactionBuilder.calculateUserOpHash r1 cd1
      = TransactionBuilder.calculateUserOpHash r2 cd2).
Proof.
  unfold TransactionBuilder.calculateUserOpHash, keccak256_bytes, Buffer_concat.
  rewrite !PolicyHashFacts.u256ToBytes_spec. cbn [concat]. rewrite !app_nil_r. split.
  - intros Hm Hmb Ht Htb ->.
    rewrite (CallFacts.Buffer_from_address _ _ Hm Hmb),
      (CallFacts.Buffer_from_address _ _ Ht Htb).
    rewrite PolicyHashFacts.slice2_toHex, HexFacts.Buffer_from_hex_of_bytes. reflexivity.
  - intros Hm Ht Ha Hcd.
    rewrite (CallFacts.Buffer_from_hex_case _ _ Hm), (CallFacts.Buffer_from_hex_case _ _ Ht),
      (CallFacts.Buffer_from_hex_case _ _ Hcd).
    rewrite <- (BytesFacts.be_bytes_mod 32 (amountIn r1)),
      <- (BytesFacts.be_bytes_mod 32 (amountIn r2)).
    rewrite PaymasterFacts.word_256, Ha. reflexivity.
Qed.

Lemma operation_hash_ignores_letter_case_witness :
  TransactionBuilder.calculateUserOpHash
    {| merchant := "0x00000000000000000000000000000000000000BB";
       tokenIn := "0xA0b86991c6218b36c1d19D4a2e9Eb0cE3606eB48";
       amountIn := 40; description := "tea"; metadata := None |} "0xDEADBEEF"
  = TransactionBuilder.calculateUserOpHash (Scenario.pay 40) "0xdeadbeef".
Proof.
  refine (proj2 (operation_hash_ignores_letter_case _ _ _ _ [] [] []) _ _ _ _);
    reflexivity.
Defined.

(** X23. When [processPayment] returns.  With loggers that are not
    verbose, a paymaster address the library takes for an address (all in
    lower case, or spelled as its EIP-55 checksum spells it), an RPC URL, a
    well-formed merchant address, metadata that serialises and a call
    encoder that does not throw, an integer epoch and a clock within
    range, and no more than 3600 seconds between making the attestation
    and verifying it, [processPayment] never throws: it returns an
    analysis of the request, which carries an attestation exactly when the
    decision is approved.  When the clock has moved on by more than 3600
    seconds, an approved payment throws "Attestation verification failed"
    instead. *)
Theorem processPayment_returns_on_sane_input (enc : TransactionBuilder.encoder)
    (clock : Clock.t) (self : zkAgent.t) (request : PaymentRequest)
    (options : zkAgent.Options) (callData : string) :
  let cfg := zkAgent.config self in
  let epoch := Pipeline.epoch_of clock options in
  let out := zkAgent.processPayment enc clock self request options in
  Logger.verbose (zkAgent.logger self) = false ->
  Logger.verbose (PolicyValidator.logger (zkAgent.policyValidator self)) = false ->
  isAddress (AgentConfig.paymasterAddress cfg) = true ->
  AgentConfig.rpcUrl cfg <> ""%string ->
  isValidAddress (merchant request) = true ->
  TransactionBuilder.encodePaymentCall enc (Clock.now_callData clock) request = Ok callData ->
  zkAgent.or_number (zkAgent.opt_epoch options) (Clock.epochOf (Clock.now_epoch clock))
    = Integer epoch ->
  0 <= epoch < 2 ^ 256 ->
  0 <= Clock.seconds (Clock.now_attest clock) < 2 ^ 64 ->
  (Clock.seconds (Clock.now_verify clock) <= Clock.seconds (Clock.now_attest clock) + 3600 ->
   exists a,
     out.1 = Ok a
     /\ AgentAnalysis.request a = request
     /\ TransactionPlan.callData (AgentAnalysis.transactionPlan a) = callData
     /\ (approved (AgentAnalysis.decision a) = true <-> is_Some (AgentAnalysis.attestation a)))
  /\ (Clock.seconds (Clock.now_verify clock) > Clock.seconds (Clock.now_attest clock) + 3600 ->
      match out.1 with
      | Ok a => approved (AgentAnalysis.decision a) = false
      | Throw e => e = Error "Attestation verification failed"
      end).
Proof.
  cbv zeta. intros Hquiet Hquiet' Hpm Hrpc Hm Henc Hint Hep Hnow.
  unfold zkAgent.processPayment, zkAgent.validateConfiguration.
  assert (AgentConfig.paymasterAddress (zkAgent.config self) <> ""%string) as Hpm'.
  { intros Heq. rewrite Heq in Hpm. discriminate Hpm. }
  destruct (String.eqb_spec (AgentConfig.paymasterAddress (zkAgent.config self)) "");
    [contradiction|].
  destruct (String.eqb_spec (AgentConfig.rpcUrl (zkAgent.config self)) ""); [contradiction|].
  cbn [length Nat.eqb fst negb].
  rewrite Hint.
  destruct (TransactionBuilder.buildPlan (zkAgent.logger self) enc (Clock.now_callData clock)
              request (Integer (Pipeline.epoch_of clock options))) as [plan|] eqn:Hplan.
  2:{ unfold TransactionBuilder.buildPlan, Logger.debug in Hplan.
      rewrite Henc, Hquiet in Hplan. discriminate Hplan. }
  rewrite (AgentFacts.plan_validate _ _ _ _ _ _ Hplan), Hm. cbn [fst negb].
  destruct (PolicyHash.buildPlan_hashes _ _ _ _ _ _ Hplan) as (h & Hh & Hu & Hp & He & _).
  assert (TransactionPlan.callData plan = callData) as Hcd.
  { unfold TransactionBuilder.buildPlan, Logger.debug in Hplan.
    rewrite Henc, Hquiet in Hplan.
    cbn [JS.bind BigInt] in Hplan. injection Hplan as <-. reflexivity. }
  rewrite PolicyValidatorFacts.validate_quiet by exact Hquiet'.
  destruct (CallFacts.decision_total self request options
              (PolicyValidator.validation (zkAgent.policyValidator self)
                 (Clock.now_validate clock) request (TransactionPlan.epoch plan)))
    as (decision & ra & ->).
  cbn [zkAgent.with_riskAnalyzer zkAgent.config].
  destruct (AttestFacts.address_bytes _ (BuilderFacts.isAddress_valid _ Hpm))
    as (prefix & _ & _ & Hbytes & _).
  pose proof (AttestFacts.createAttestation_spec (zkAgent.config self)
                (Clock.now_attest clock) plan
                (zkAgent.or_string (zkAgent.opt_modelId options)
                   (AgentConfig.modelId (zkAgent.config self)))
                (zkAgent.or_string (zkAgent.opt_prompt options)
                   ("Pay " ++ merchant request ++ " " ++ pretty (amountIn request)
                    ++ " of " ++ tokenIn request))
                (zkAgent.or_string (zkAgent.opt_planDescription options)
                   (description request))
                h _ Hu Hh Hp (HexFacts.length_keccak256 _)) as Hatt.
  cbv zeta in Hatt. rewrite He, Hbytes, Hpm in Hatt.
  destruct (Z.leb_spec 0 (Pipeline.epoch_of clock options)); [|lia].
  destruct (Z.ltb_spec (Pipeline.epoch_of clock options) (2 ^ 256)); [|lia].
  destruct (Z.leb_spec 0 (Clock.seconds (Clock.now_attest clock))); [|lia].
  destruct (Z.ltb_spec (Clock.seconds (Clock.now_attest clock)) (2 ^ 64)); [|lia].
  cbn [andb] in Hatt.
  pose proof (CallFacts.verifyAttestation_created _ _ (Clock.now_verify clock) _ _ _ _ _ Hatt)
    as Hver.
  split; intros Hclock.
  - destruct (approved decision) eqn:Happ.
    + rewrite Hatt, Hver.
      destruct (Z.leb_spec (Clock.seconds (Clock.now_verify clock))
                  (Clock.seconds (Clock.now_attest clock) + 3600)); [|lia].
      cbn [negb fst]. eexists. split; [reflexivity|].
      cbn [AgentAnalysis.request AgentAnalysis.transactionPlan AgentAnalysis.decision
           AgentAnalysis.attestation].
      split; [reflexivity|]. split; [exact Hcd|].
      split; [intros _; eexists; reflexivity|intros _; exact Happ].
    + cbn [fst]. eexists. split; [reflexivity|].
      cbn [AgentAnalysis.request AgentAnalysis.transactionPlan AgentAnalysis.decision
           AgentAnalysis.attestation].
      split; [reflexivity|]. split; [exact Hcd|].
      rewrite Happ. split; [discriminate|intros [x Hx]; discriminate Hx].
  - destruct (approved decision) eqn:Happ.
    + rewrite Hatt, Hver.
      destruct (Z.leb_spec (Clock.seconds (Clock.now_verify clock))
                  (Clock.seconds (Clock.now_attest clock) + 3600)); [lia|].
      cbn [negb fst]. reflexivity.
    + cbn [fst AgentAnalysis.decision]. exact Happ.
Qed.

Lemma processPayment_returns_on_sane_input_witness :
  exists a,
    (zkAgent.processPayment Scenario.encoder Scenario.clock (zkAgent.new Scenario.config)
       (Scenario.pay 40) zkAgent.noOptions).1 = Ok a
    /\ AgentAnalysis.request a = Scenario.pay 40
    /\ TransactionPlan.callData (AgentAnalysis.transactionPlan a) = "0xdeadbeef"%string
    /\ (approved (AgentAnalysis.decision a) = true
        <-> is_Some (AgentAnalysis.attestation a)).
Proof.
  refine (proj1 (processPayment_returns_on_sane_input Scenario.encoder Scenario.clock
                   (zkAgent.new Scenario.config) (Scenario.pay 40) zkAgent.noOptions
                   "0xdeadbeef" _ _ _ _ _ _ _ _ _) _).
  - reflexivity.
  - reflexivity.
  - vm_compute. reflexivity.
  - discriminate.
  - reflexivity.
  - vm_compute. reflexivity.
  - reflexivity.
  - vm_compute. split; [discriminate|reflexivity].
  - vm_compute. split; [discriminate|reflexivity].
  - vm_compute. discriminate.
Defined.

(** * More of the code: the configuration manager *)

Module ConfigFacts.

Lemma validate_valid (config : AgentConfig.t) :
  (ConfigManager.validate config).1 = true
  <-> String.length (AgentConfig.paymasterAddress config) = 42%nat
      /\ AgentConfig.rpcUrl config <> ""%string
      /\ 0 < AgentConfig.maxGasPrice config
      /\ 0 < AgentConfig.maxTransactionValue config.
Proof.
  unfold ConfigManager.validate. cbn [fst].
  destruct (String.eqb_spec (AgentConfig.paymasterAddress config) "") as [He|Hne];
    cbn [orb].
  { rewrite He. split; [|intros [Hc _]; discriminate Hc].
    repeat (match goal with |- context [if ?c then _ else _] => destruct c end);
      discriminate. }
  destruct (Nat.eqb_spec (String.length (AgentConfig.paymasterAddress config)) 42)
    as [Hlen|Hlen]; cbn [negb].
  2:{ split; [|intros [Hc _]; contradiction].
      repeat (match goal with |- context [if ?c then _ else _] => destruct c end);
        discriminate. }
  destruct (String.eqb_spec (AgentConfig.rpcUrl config) "") as [Hr|Hr].
  { split; [|intros (_ & Hc & _); contradiction].
    repeat (match goal with |- context [if ?c then _ else _] => destruct c end);
      discriminate. }
  destruct (Z.leb_spec (AgentConfig.maxGasPrice config) 0) as [Hg|Hg].
  { split; [|intros (_ & _ & Hc & _); lia].
    repeat (match goal with |- context [if ?c then _ else _] => destruct c end);
      discriminate. }
  destruct (Z.leb_spec (AgentConfig.maxTransactionValue config) 0) as [Hv|Hv].
  { split; [discriminate|intros (_ & _ & _ & Hc); lia]. }
  split; [intros _; repeat split; assumption|reflexivity].
Qed.

End ConfigFacts.

(** X24. [ConfigManager.validate] accepts a configuration exactly when
    the paymaster address has 42 characters, the RPC URL is not empty and
    the maximal gas price and transaction value are positive.  It asks for
    more than the check [processPayment] makes, which passes whatever the
    manager accepts, and for less than a payment needs: under a maximal
    transaction value that is not positive no request of a non-negative
    amount is ever approved, and under a paymaster address that is not a
    well-formed address, 42 characters or not, no request at all. *)
Theorem manager_check_and_the_agents (enc : TransactionBuilder.encoder) (clock : Clock.t)
    (self : zkAgent.t) (request : PaymentRequest) (options : zkAgent.Options) :
  let config := zkAgent.config self in
  let accepted := (ConfigManager.validate config).1 in
  let never_approved :=
    forall a, (zkAgent.processPayment enc clock self request options).1 = Ok a ->
              approved (AgentAnalysis.decision a) = false in
  (accepted = true
   <-> String.length (AgentConfig.paymasterAddress config) = 42%nat
       /\ AgentConfig.rpcUrl config <> ""%string
       /\ 0 < AgentConfig.maxGasPrice config
       /\ 0 < AgentConfig.maxTransactionValue config)
  /\ (accepted = true <-> (ConfigManager.validate config).2 = [])
  /\ (accepted = true -> zkAgent.validateConfiguration self = (true, []))
  /\ (AgentConfig.maxTransactionValue (PolicyValidator.config (zkAgent.policyValidator self))
        <= 0 ->
      0 <= amountIn request -> never_approved)
  /\ (isValidAddress (AgentConfig.paymasterAddress config) = false -> never_approved).
Proof.
  cbv zeta. split; [apply ConfigFacts.validate_valid|]. split; [|split; [|split]].
  - unfold ConfigManager.validate. cbn [fst snd].
    match goal with |- ((length ?l =? 0)%nat = true) <-> _ => generalize l end.
    intros l. destruct l; cbn; split; (reflexivity || discriminate).
  - intros Hacc. apply ConfigFacts.validate_valid in Hacc as (Hlen & Hrpc & _).
    unfold zkAgent.validateConfiguration.
    destruct (String.eqb_spec (AgentConfig.paymasterAddress (zkAgent.config self)) "")
      as [He|_]; [rewrite He in Hlen; discriminate|].
    destruct (String.eqb_spec (AgentConfig.rpcUrl (zkAgent.config self)) "");
      [contradiction|reflexivity].
  - intros Hmax Hamount a Hout.
    destruct (approved (AgentAnalysis.decision a)) eqn:Happ; [exfalso|reflexivity].
    pose proof (AgentFacts.processPayment_spec enc clock self request options) as Hspec.
    cbv zeta in Hspec. destruct Hspec as (_ & _ & Hspec).
    rewrite Hout, Happ in Hspec. destruct Hspec as (_ & _ & _ & _ & Hvalid & _).
    apply PolicyValidatorFacts.validate_valid_inv in Hvalid as (Hnz & _ & Hle & _).
    lia.
  - intros Hbad a Hout.
    destruct (approved (AgentAnalysis.decision a)) eqn:Happ; [exfalso|reflexivity].
    destruct (PaymentFacts.processPayment_approved_inv enc clock self request options a
                Hout Happ) as (plan & att & _ & _ & Hatt & _).
    apply PaymentFacts.createAttestation_fields in Hatt as (_ & _ & _ & _ & _ & _ & Hok & _).
    apply BuilderFacts.isAddress_valid in Hok. rewrite Hok in Hbad. discriminate.
Qed.

Lemma manager_check_and_the_agents_witness :
  exists a,
    (zkAgent.processPayment Scenario.encoder Scenario.clock
       (zkAgent.new
          {| AgentConfig.chainId := 84532;
             AgentConfig.rpcUrl := "https://sepolia.base.org";
             AgentConfig.bundlerUrl := "";
             AgentConfig.paymasterAddress := "0x00000000000000000000000000000000000000aa";
             AgentConfig.easAddress := "";
             AgentConfig.entryPointAddress := "0x5FF137D4b0FDCD49DcA30c7CF57E578a026d2789";
             AgentConfig.modelId := "gpt-4o-mini";
             AgentConfig.maxGasPrice := 100000000000;
             AgentConfig.maxTransactionValue := 0;
             AgentConfig.defaultEpoch := 176200;
             AgentConfig.allowedTokens := [];
             AgentConfig.allowedMerchants := [];
             AgentConfig.attesterPrivateKey := None;
             AgentConfig.schemaUID := "0x" +:+ TransactionBuilder.zeros 64 |})
       (Scenario.pay 40) zkAgent.noOptions).1 = Ok a
    /\ approved (AgentAnalysis.decision a) = false.
Proof.
  match goal with
  | |- exists a, (zkAgent.processPayment _ _ ?s _ _).1 = _ /\ _ => set (self := s)
  end.
  eexists. split; [vm_compute; reflexivity|].
  match goal with
  | |- approved (AgentAnalysis.decision ?a) = false =>
      refine (proj1 (proj2 (proj2 (proj2
                (manager_check_and_the_agents Scenario.encoder Scenario.clock
                   self (Scenario.pay 40) zkAgent.noOptions)))) _ _ a _)
  end.
  - vm_compute. discriminate.
  - vm_compute. discriminate.
  - vm_compute. reflexivity.
Defined.

(** * More of the code: the payload script *)

Module ScriptFacts.

Lemma encodeAbiParameters_spec (u p : list byte) (epoch : Z) :
  length u = 32%nat -> length p = 32%nat -> 0 <= epoch < 2 ^ 256 ->
  PadScript.encodeAbiParameters (toHex u) (toHex p) epoch
  = Ok (toHex (u ++ p ++ be_bytes 32 epoch)).
Proof.
  intros Hu Hp He. unfold PadScript.encodeAbiParameters, encodePacked.
  cbn [encode_packed_parts].
  rewrite (PolicyHashFacts.encode_packed1_bytes32 u Hu),
    (PolicyHashFacts.encode_packed1_bytes32 p Hp),
    (PolicyHashFacts.encode_packed1_uint256 epoch He).
  cbn [JS.bind].
  change [toHex u; toHex p; toHex (be_bytes 32 epoch)]
    with (map toHex [u; p; be_bytes 32 epoch]).
  rewrite PolicyHashFacts.concatHex_toHex. cbn [concat]. rewrite app_nil_r. reflexivity.
Qed.

Lemma isValidAddress_toHex (bs : list byte) :
  isValidAddress (toHex bs) = (length bs =? 20)%nat.
Proof.
  unfold isValidAddress. rewrite PolicyHashFacts.startsWith0x_toHex,
    PolicyHashFacts.slice2_toHex, HexFacts.length_hex_of_bytes, HexFacts.all_hex_of_bytes.
  rewrite andb_true_r. cbn [andb].
  destruct (Nat.eqb_spec (2 * length bs) 40), (Nat.eqb_spec (length bs) 20);
    (reflexivity || lia).
Qed.

(** An address in [toHex] form is in lower case, so the library takes it
    for an address whenever it has 20 bytes. *)
Lemma isAddress_toHex (bs : list byte) :
  isAddress (toHex bs) = (length bs =? 20)%nat.
Proof.
  unfold isAddress. rewrite isValidAddress_toHex.
  destruct (length bs =? 20)%nat; cbn [negb]; [|reflexivity].
  assert (toLowerCase (toHex bs) = toHex bs) as ->.
  { unfold toHex.
    change (toLowerCase ("0x" ++ ?s)) with ("0x" ++ toLowerCase s)%string.
    rewrite HexFacts.lower_hex_of_bytes. reflexivity. }
  rewrite String.eqb_refl. reflexivity.
Qed.

End ScriptFacts.

(** X25. The payload script prints what the agent builds.  For a
    paymaster address, an attestation uid and a policy hash given in
    hexadecimal, 32 bytes each for the last two, and an epoch of the
    validator's range, the script returns the bytes of the address followed
    by the uid, the policy hash and the epoch as 32 bytes; for an epoch out
    of range it throws.  With a 20-byte address this is the payload
    [AttestationManager.buildPaymasterAndData] returns and the validator's
    [_decode] reads it back; but the script, unlike the agent, accepts an
    address of any other length, which the agent's builder refuses. *)
Theorem script_prints_the_agents_payload (config : AgentConfig.t) (att : Attestation.t)
    (prefix u p : list byte) (epoch : Z) :
  length u = 32%nat -> length p = 32%nat ->
  let printed := PadScript.paymasterAndData (toHex prefix) (toHex u) (toHex p) epoch in
  let built := AttestationManager.buildPaymasterAndData config att (toHex p) epoch in
  (0 <= epoch < 2 ^ 256 ->
   printed = Ok (toHex (prefix ++ u ++ p ++ be_bytes 32 epoch))
   /\ (length prefix = 20%nat ->
       CompliancePaymaster._decode (prefix ++ u ++ p ++ be_bytes 32 epoch)
       = Sol.Success {| CompliancePaymaster.attUid := be_value u;
                        CompliancePaymaster.policyHash := be_value p;
                        CompliancePaymaster.epoch := epoch |})
   /\ (AgentConfig.paymasterAddress config = toHex prefix ->
       Attestation.uid att = toHex u ->
       if (length prefix =? 20)%nat then built = printed
       else built = Throw InvalidAddressError))
  /\ (epoch < 0 \/ 2 ^ 256 <= epoch -> printed = Throw IntegerOutOfRangeError).
Proof.
  intros Hu Hp. cbv zeta. split.
  - intros He. unfold PadScript.paymasterAndData.
    rewrite (ScriptFacts.encodeAbiParameters_spec u p epoch Hu Hp He). cbn [JS.bind].
    assert (Viem.concatHex [toHex prefix; toHex (u ++ p ++ be_bytes 32 epoch)]
            = toHex (prefix ++ u ++ p ++ be_bytes 32 epoch)) as ->.
    { unfold Viem.concatHex. cbn [fold_left].
      rewrite !PolicyHashFacts.replace_0x_toHex. unfold toHex.
      rewrite (HexFacts.hex_of_bytes_app prefix). reflexivity. }
    split; [reflexivity|]. split.
    + intros Hpre.
      pose proof (PaymasterFacts._decode_payload prefix (be_value u) (be_value p) epoch []
                    Hpre) as Hd.
      unfold payload in Hd.
      rewrite (BuilderFacts.be_bytes_of_length 32 u Hu),
        (BuilderFacts.be_bytes_of_length 32 p Hp), app_nil_r in Hd.
      rewrite Hd. f_equal.
      pose proof (BytesFacts.be_value_range u) as Hur.
      pose proof (BytesFacts.be_value_range p) as Hpr.
      rewrite Hu in Hur. rewrite Hp in Hpr. rewrite PaymasterFacts.word_256 in Hur, Hpr.
      rewrite !Z.mod_small by lia. reflexivity.
    + intros Hcfg Huid. destruct (Nat.eqb_spec (length prefix) 20) as [Hpre|Hpre].
      * apply PayloadFacts.buildPaymasterAndData_spec; try assumption.
        -- rewrite Hcfg, ScriptFacts.isAddress_toHex, Hpre. reflexivity.
        -- rewrite Hcfg. apply HexFacts.hexToBytes_toHex.
      * unfold AttestationManager.buildPaymasterAndData, encodePacked.
        cbn [encode_packed_parts encode_packed1].
        rewrite Hcfg, ScriptFacts.isAddress_toHex.
        destruct (Nat.eqb_spec (length prefix) 20); [contradiction|reflexivity].
  - intros Hout. unfold PadScript.paymasterAndData, PadScript.encodeAbiParameters,
      encodePacked. cbn [encode_packed_parts].
    rewrite (PolicyHashFacts.encode_packed1_bytes32 u Hu),
      (PolicyHashFacts.encode_packed1_bytes32 p Hp). cbn [JS.bind encode_packed1].
    assert ((0 <=? epoch) && (epoch <? 2 ^ 256) = false) as ->; [|reflexivity].
    destruct (Z.leb_spec 0 epoch), (Z.ltb_spec epoch (2 ^ 256)); (reflexivity || lia).
Qed.

Lemma script_prints_the_agents_payload_witness :
  PadScript.paymasterAndData (toHex (be_bytes 19 170)) (toHex (be_bytes 32 7))
    (toHex (be_bytes 32 9)) 202511
  = Ok (toHex (be_bytes 19 170 ++ be_bytes 32 7 ++ be_bytes 32 9 ++ be_bytes 32 202511))
  /\ AttestationManager.buildPaymasterAndData Scenario.config
       {| Attestation.uid := toHex (be_bytes 32 7); Attestation.schema := "";
          Attestation.attester := ""; Attestation.recipient := "";
          Attestation.time := 0; Attestation.expirationTime := 0;
          Attestation.revocable := false; Attestation.refUID := "";
          Attestation.data := "" |}
       (toHex (be_bytes 32 9)) 202511
     = PadScript.paymasterAndData (toHex (be_bytes 20 170)) (toHex (be_bytes 32 7))
         (toHex (be_bytes 32 9)) 202511.
Proof.
  split.
  - refine (proj1 (proj1 (script_prints_the_agents_payload Scenario.config
                            {| Attestation.uid := ""; Attestation.schema := "";
                               Attestation.attester := ""; Attestation.recipient := "";
                               Attestation.time := 0; Attestation.expirationTime := 0;
                               Attestation.revocable := false; Attestation.refUID := "";
                               Attestation.data := "" |}
                            (be_bytes 19 170) (be_bytes 32 7) (be_bytes 32 9) 202511 _ _) _)).
    + reflexivity.
    + reflexivity.
    + vm_compute. split; [discriminate|reflexivity].
  - refine (proj2 (proj2 (proj1 (script_prints_the_agents_payload Scenario.config _
                            (be_bytes 20 170) (be_bytes 32 7) (be_bytes 32 9) 202511 _ _) _))
              _ _).
    + reflexivity.
    + reflexivity.
    + vm_compute. split; [discriminate|reflexivity].
    + reflexivity.
    + reflexivity.
Defined.

(** * More of the code: the membership registry *)

Module MerkleFacts.

Lemma step_comm (a b : Z) : MerkleProof.step a b = MerkleProof.step b a.
Proof.
  unfold MerkleProof.step.
  destruct (Z.leb_spec a b), (Z.leb_spec b a); try reflexivity; try lia.
  assert (a = b) as -> by lia. reflexivity.
Qed.

Lemma step_sorted (a b : Z) :
  MerkleProof.step a b = MerkleProof.hashPair (Z.min a b) (Z.max a b).
Proof.
  unfold MerkleProof.step. destruct (Z.leb_spec a b).
  - rewrite Z.min_l, Z.max_r by lia. reflexivity.
  - rewrite Z.min_r, Z.max_l by lia. reflexivity.
Qed.

Lemma run_owner (calls : list (Sol.Env * Z)) (st : KYCRegistry.t * list KYCRegistry.Event) :
  KYCRegistry.owner (fold_left KYCRegistry.transact calls st).1 = KYCRegistry.owner st.1.
Proof.
  revert st. induction calls as [|c calls IH]; intros st; [reflexivity|].
  cbn [fold_left]. rewrite IH. unfold KYCRegistry.transact, KYCRegistry.updateRoot,
    KYCRegistry._onlyOwner, Sol.require.
  destruct (Sol.msg_sender c.1 =? KYCRegistry.owner st.1); reflexivity.
Qed.

Lemma last_cons (x d : Z) (l : list Z) : List.last (x :: l) d = List.last l x.
Proof.
  revert x d. induction l as [|y l IH]; intros x d; [reflexivity|].
  change (List.last (x :: y :: l) d) with (List.last (y :: l) d).
  rewrite (IH y d), (IH y x). reflexivity.
Qed.

(** The roots the owner submitted, in order. *)
Lemma run_state (calls : list (Sol.Env * Z)) (st : KYCRegistry.t * list KYCRegistry.Event) :
  let mine :=
    map snd (List.filter (fun c => Sol.msg_sender c.1 =? KYCRegistry.owner st.1) calls) in
  KYCRegistry.merkleRoot (fold_left KYCRegistry.transact calls st).1
    = List.last mine (KYCRegistry.merkleRoot st.1)
  /\ (fold_left KYCRegistry.transact calls st).2 = st.2 ++ map KYCRegistry.RootUpdated mine.
Proof.
  cbv zeta. revert st. induction calls as [|c calls IH]; intros st.
  { cbn. rewrite app_nil_r. split; reflexivity. }
  cbn [fold_left]. destruct (IH (KYCRegistry.transact st c)) as [IHr IHe].
  rewrite IHr, IHe. clear IH IHr IHe.
  unfold KYCRegistry.transact, KYCRegistry.updateRoot, KYCRegistry._onlyOwner, Sol.require.
  cbn [List.filter].
  destruct (Z.eqb_spec (Sol.msg_sender c.1) (KYCRegistry.owner st.1)) as [Heq|Hne].
  - cbn [Sol.bind fst snd KYCRegistry.owner KYCRegistry.merkleRoot map].
    rewrite <- app_assoc. cbn [app]. split; [|reflexivity].
    symmetry. apply last_cons.
  - cbn [Sol.bind]. split; reflexivity.
Qed.

End MerkleFacts.

(** X26. Merkle proofs as [MerkleProof.verify] reads them.  An empty
    proof accepts the root itself and nothing else.  Each pair is hashed in
    increasing order, so a leaf and its sibling prove each other: two values
    verify against the hash of their sorted pair, each with the other as its
    proof.  Proofs compose: when a leaf verifies against an intermediate
    value, the leaf with a longer proof is accepted exactly when that value
    is accepted with the rest of the proof; so the hash of every inner node
    on the path is accepted as a member too, with the tail of the proof. *)
Theorem merkle_proofs_compose (proof rest : list Z) (root mid leaf a b : Z) :
  MerkleProof.verify [] root leaf = (leaf =? root)
  /\ MerkleProof.verify (b :: proof) root a = MerkleProof.verify (a :: proof) root b
  /\ MerkleProof.verify [b] (MerkleProof.hashPair (Z.min a b) (Z.max a b)) a = true
  /\ (MerkleProof.verify proof mid leaf = true ->
      MerkleProof.verify (proof ++ rest) root leaf = MerkleProof.verify rest root mid)
  /\ (MerkleProof.verify proof a leaf = true ->
      MerkleProof.verify (proof ++ [b]) (MerkleProof.hashPair (Z.min a b) (Z.max a b)) leaf
      = true).
Proof.
  unfold MerkleProof.verify. split; [reflexivity|].
  split; [cbn [fold_left]; rewrite MerkleFacts.step_comm; reflexivity|].
  split; [cbn [fold_left]; rewrite MerkleFacts.step_sorted; apply Z.eqb_refl|].
  split.
  - intros Hmid. apply Z.eqb_eq in Hmid. rewrite fold_left_app, Hmid. reflexivity.
  - intros Ha. apply Z.eqb_eq in Ha. rewrite fold_left_app, Ha. cbn [fold_left].
    rewrite MerkleFacts.step_sorted. apply Z.eqb_refl.
Qed.

Lemma merkle_proofs_compose_witness :
  MerkleProof.verify ([2] ++ [3])
    (MerkleProof.hashPair (Z.min (MerkleProof.hashPair 1 2) 3)
       (Z.max (MerkleProof.hashPair 1 2) 3)) 1
  = true.
Proof.
  refine (proj2 (proj2 (proj2 (proj2
            (merkle_proofs_compose [2] [] 0 0 1 (MerkleProof.hashPair 1 2) 3)))) _).
  exact (proj1 (proj2 (proj2 (merkle_proofs_compose [] [] 0 0 0 1 2)))).
Defined.

(** X27. The membership registry answers to its deployer alone.  After
    any sequence of [updateRoot] transactions from any senders, the owner is
    still the deployer; the root is the last one the deployer submitted, or
    the constructor's when there was none; one RootUpdated event was emitted
    for the constructor and for each of the deployer's calls, in order;
    [isMember] verifies against that root; and a further [updateRoot]
    reverts with NOT_OWNER for every other sender. *)
Theorem registry_root_is_the_owners_last (deployer : Sol.Env) (root0 : Z)
    (calls : list (Sol.Env * Z)) :
  let mine :=
    map snd (List.filter (fun c => Sol.msg_sender c.1 =? Sol.msg_sender deployer) calls) in
  let st := KYCRegistry.run deployer root0 calls in
  KYCRegistry.owner st.1 = Sol.msg_sender deployer
  /\ KYCRegistry.merkleRoot st.1 = List.last mine root0
  /\ st.2 = map KYCRegistry.RootUpdated (root0 :: mine)
  /\ (forall leaf proof,
        KYCRegistry.isMember st.1 leaf proof
        = MerkleProof.verify proof (List.last mine root0) leaf)
  /\ (forall env r,
        Sol.msg_sender env <> Sol.msg_sender deployer ->
        KYCRegistry.updateRoot st.1 env r = Sol.Revert (Sol.RequireFailed "NOT_OWNER")).
Proof.
  cbv zeta. unfold KYCRegistry.run.
  pose proof (MerkleFacts.run_owner calls (KYCRegistry.constructor deployer root0)) as Ho.
  pose proof (MerkleFacts.run_state calls (KYCRegistry.constructor deployer root0)) as Hs.
  cbv zeta in Hs.
  change (KYCRegistry.owner (KYCRegistry.constructor deployer root0).1)
    with (Sol.msg_sender deployer) in Ho, Hs.
  change (KYCRegistry.merkleRoot (KYCRegistry.constructor deployer root0).1)
    with root0 in Hs.
  change ((KYCRegistry.constructor deployer root0).2)
    with [KYCRegistry.RootUpdated root0] in Hs.
  destruct Hs as [Hr He]. split; [exact Ho|]. split; [exact Hr|]. split; [exact He|].
  split.
  - intros leaf proof. unfold KYCRegistry.isMember. rewrite Hr. reflexivity.
  - intros env r Hne. unfold KYCRegistry.updateRoot, KYCRegistry._onlyOwner, Sol.require.
    rewrite Ho. destruct (Z.eqb_spec (Sol.msg_sender env) (Sol.msg_sender deployer));
      [contradiction|reflexivity].
Qed.

Lemma registry_root_is_the_owners_last_witness :
  KYCRegistry.updateRoot
    (KYCRegistry.run {| Sol.msg_sender := 1; Sol.block_timestamp := 0 |} 7
       [({| Sol.msg_sender := 2; Sol.block_timestamp := 5 |}, 8);
        ({| Sol.msg_sender := 1; Sol.block_timestamp := 6 |}, 9)]).1
    {| Sol.msg_sender := 2; Sol.block_timestamp := 7 |} 10
  = Sol.Revert (Sol.RequireFailed "NOT_OWNER").
Proof.
  refine (proj2 (proj2 (proj2 (proj2
            (registry_root_is_the_owners_last
               {| Sol.msg_sender := 1; Sol.block_timestamp := 0 |} 7
               [({| Sol.msg_sender := 2; Sol.block_timestamp := 5 |}, 8);
                ({| Sol.msg_sender := 1; Sol.block_timestamp := 6 |}, 9)]))))
            {| Sol.msg_sender := 2; Sol.block_timestamp := 7 |} 10 _).
  vm_compute. discriminate.
Defined.

(** * More of the code: the payment router *)

(** X28. What [payWithAnyStable] does when it returns.  A token that is
    not on the allow list is refused with TOKEN_NOT_ALLOWED before any other
    contract is called.  A call that returns pulled exactly [amountIn] of
    the token from the sender and, as its last act, sent the merchant
    exactly the amount it returns, which is never below [minOut]; paying in
    USDC it called nothing else and returns [amountIn]; paying in another
    token it approved the swap router for [amountIn] and swapped once, to
    USDC, for this contract, with [minOut] as minimum and a deadline 600
    seconds after the block's time.  A USDC payment of less than [minOut]
    never returns.  The allow list holds USDC alone at deployment and is
    written by the owner only, one token at a time. *)
Theorem router_pays_what_it_reports (self : DollarRouter.t) (this : Z) (env : Sol.Env)
    (callees : DollarRouter.Callees) (tokenIn amountIn poolFee merchant minOut : Z) :
  let paid :=
    DollarRouter.payWithAnyStable self this env callees tokenIn amountIn poolFee merchant
      minOut in
  let swap :=
    {| DollarRouter.tokenIn := tokenIn; DollarRouter.tokenOut := DollarRouter.USDC self;
       DollarRouter.fee := poolFee; DollarRouter.recipient := this;
       DollarRouter.deadline := Sol.block_timestamp env + 600;
       DollarRouter.amountIn := amountIn; DollarRouter.amountOutMinimum := minOut;
       DollarRouter.sqrtPriceLimitX96 := 0 |} in
  (DollarRouter.allowed self tokenIn = false ->
   paid = DollarRouter.Reverted (DollarRouter.Require "TOKEN_NOT_ALLOWED"))
  /\ (forall amountOut calls,
        paid = DollarRouter.Done (amountOut, calls) ->
        DollarRouter.allowed self tokenIn = true
        /\ minOut <= amountOut
        /\ exists middle,
             calls = DollarRouter.transferFrom tokenIn (Sol.msg_sender env) this amountIn
                     :: middle
                     ++ [DollarRouter.transfer (DollarRouter.USDC self) merchant amountOut]
             /\ if tokenIn =? DollarRouter.USDC self
                then middle = [] /\ amountOut = amountIn
                else middle = [DollarRouter.approve tokenIn (DollarRouter.ROUTER self) amountIn;
                               DollarRouter.exactInputSingle (DollarRouter.ROUTER self) swap]
                     /\ DollarRouter.on_exactInputSingle callees (DollarRouter.ROUTER self) swap
                        = Some amountOut)
  /\ (tokenIn = DollarRouter.USDC self -> amountIn < minOut ->
      forall r, paid <> DollarRouter.Done r)
  /\ (forall deployer usdc router token,
        DollarRouter.allowed (DollarRouter.constructor deployer usdc router) token = true
        <-> token = usdc)
  /\ (forall who token ok,
        Sol.msg_sender who <> DollarRouter.owner self ->
        DollarRouter.setAllowed self who token ok
        = DollarRouter.Reverted (DollarRouter.Require "NOT_OWNER"))
  /\ (forall who token ok,
        Sol.msg_sender who = DollarRouter.owner self ->
        exists after,
          DollarRouter.setAllowed self who token ok = DollarRouter.Done after
          /\ DollarRouter.allowed after token = ok
          /\ (forall other, other <> token ->
                DollarRouter.allowed after other = DollarRouter.allowed self other)
          /\ DollarRouter.owner after = DollarRouter.owner self
          /\ DollarRouter.USDC after = DollarRouter.USDC self
          /\ DollarRouter.ROUTER after = DollarRouter.ROUTER self).
Proof.
  cbv zeta.
  assert (forall A B C D E F : Prop, (A /\ B /\ C) -> D -> E -> F ->
                                     A /\ B /\ C /\ D /\ E /\ F) as Hsplit by tauto.
  apply Hsplit; clear Hsplit.
  2:{ intros deployer usdc router token. unfold DollarRouter.allowed, DollarRouter.constructor.
      cbn [DollarRouter.allowedToken].
      destruct (decide (token = usdc)) as [->|Hne].
      - rewrite lookup_insert_eq. split; reflexivity.
      - rewrite lookup_insert_ne by congruence. rewrite lookup_empty.
        split; [discriminate|contradiction]. }
  2:{ intros who token ok Hne. unfold DollarRouter.setAllowed, DollarRouter._onlyOwner,
        DollarRouter.require.
      destruct (Z.eqb_spec (Sol.msg_sender who) (DollarRouter.owner self));
        [contradiction|reflexivity]. }
  2:{ intros who token ok Heq. unfold DollarRouter.setAllowed, DollarRouter._onlyOwner,
        DollarRouter.require.
      rewrite Heq, Z.eqb_refl. cbn [DollarRouter.bind]. eexists. split; [reflexivity|].
      unfold DollarRouter.allowed. cbn [DollarRouter.allowedToken DollarRouter.owner
        DollarRouter.USDC DollarRouter.ROUTER].
      rewrite lookup_insert_eq. split; [reflexivity|]. split; [|repeat split].
      intros other Hne. rewrite lookup_insert_ne by congruence. reflexivity. }
  unfold DollarRouter.payWithAnyStable.
  destruct (DollarRouter.allowed self tokenIn) eqn:Hallow; cbn [DollarRouter.require
    DollarRouter.bind].
  2:{ split; [reflexivity|]. split; [discriminate|]. intros _ _ r. discriminate. }
  split; [discriminate|].
  destruct (DollarRouter.on_transferFrom callees tokenIn (Sol.msg_sender env) this amountIn)
    as [[|]|]; cbn [DollarRouter.called DollarRouter.bind DollarRouter.require].
  2,3: split; [discriminate|intros _ _ r; discriminate].
  destruct (Z.eqb_spec tokenIn (DollarRouter.USDC self)) as [Husdc|Hother];
    cbn [DollarRouter.bind fst snd].
  - destruct (Z.geb_spec amountIn minOut) as [Hge|Hlt];
      cbn [DollarRouter.require DollarRouter.bind].
    2:{ split; [discriminate|intros _ _ r; discriminate]. }
    destruct (DollarRouter.on_transfer callees (DollarRouter.USDC self) merchant amountIn)
      as [[|]|]; cbn [DollarRouter.called DollarRouter.bind DollarRouter.require].
    2,3: split; [discriminate|intros _ _ r; discriminate].
    split; [|intros _ Hlt; lia].
    intros amountOut calls [= <- <-]. split; [reflexivity|]. split; [lia|].
    exists []. split; [reflexivity|]. split; reflexivity.
  - split; [|intros Hc; contradiction].
    intros amountOut calls.
    destruct (DollarRouter.on_approve callees tokenIn (DollarRouter.ROUTER self) amountIn)
      as [[|]|]; cbn [DollarRouter.called DollarRouter.bind DollarRouter.require];
      try discriminate.
    unfold DollarRouter.checked_add.
    destruct (Sol.block_timestamp env + 600 <? 2 ^ 256); cbn [DollarRouter.bind];
      try discriminate.
    destruct (DollarRouter.on_exactInputSingle callees (DollarRouter.ROUTER self) _)
      as [out|] eqn:Hswap; cbn [DollarRouter.called DollarRouter.bind fst snd];
      try discriminate.
    destruct (Z.geb_spec out minOut) as [Hge|Hlt];
      cbn [DollarRouter.require DollarRouter.bind]; try discriminate.
    destruct (DollarRouter.on_transfer callees (DollarRouter.USDC self) merchant out)
      as [[|]|]; cbn [DollarRouter.called DollarRouter.bind DollarRouter.require];
      try discriminate.
    intros [= <- <-]. split; [reflexivity|]. split; [lia|].
    exists [DollarRouter.approve tokenIn (DollarRouter.ROUTER self) amountIn;
            DollarRouter.exactInputSingle (DollarRouter.ROUTER self)
              {| DollarRouter.tokenIn := tokenIn;
                 DollarRouter.tokenOut := DollarRouter.USDC self;
                 DollarRouter.fee := poolFee; DollarRouter.recipient := this;
                 DollarRouter.deadline := Sol.block_timestamp env + 600;
                 DollarRouter.amountIn := amountIn;
                 DollarRouter.amountOutMinimum := minOut;
                 DollarRouter.sqrtPriceLimitX96 := 0 |}].
    split; [reflexivity|]. split; reflexivity.
Qed.

Lemma router_pays_what_it_reports_witness :
  DollarRouter.payWithAnyStable
    (DollarRouter.constructor {| Sol.msg_sender := 1; Sol.block_timestamp := 0 |} 100 200)
    900 {| Sol.msg_sender := 5; Sol.block_timestamp := 1000 |}
    {| DollarRouter.on_transferFrom := fun _ _ _ _ => Some true;
       DollarRouter.on_approve := fun _ _ _ => Some true;
       DollarRouter.on_exactInputSingle := fun _ params => Some (DollarRouter.amountIn params);
       DollarRouter.on_transfer := fun _ _ _ => Some true |}
    300 50 3000 77 40
  = DollarRouter.Reverted (DollarRouter.Require "TOKEN_NOT_ALLOWED")
  /\ forall r,
       DollarRouter.payWithAnyStable
         (DollarRouter.constructor {| Sol.msg_sender := 1; Sol.block_timestamp := 0 |} 100 200)
         900 {| Sol.msg_sender := 5; Sol.block_timestamp := 1000 |}
         {| DollarRouter.on_transferFrom := fun _ _ _ _ => Some true;
            DollarRouter.on_approve := fun _ _ _ => Some true;
            DollarRouter.on_exactInputSingle :=
              fun _ params => Some (DollarRouter.amountIn params);
            DollarRouter.on_transfer := fun _ _ _ => Some true |}
         100 50 3000 77 60
       <> DollarRouter.Done r.
Proof.
  split.
  - refine (proj1 (router_pays_what_it_reports _ _ _ _ _ _ _ _ _) _).
    vm_compute. reflexivity.
  - refine (proj1 (proj2 (proj2 (router_pays_what_it_reports _ _ _ _ _ _ _ _ _))) _ _).
    + reflexivity.
    + reflexivity.
Defined.

(** * More of the code: the policy guard on Starknet *)

Module GuardFacts.
Import policy_guard.

Lemma last_attester_app (l1 l2 : list Event) (a : Z) :
  last_attester (l1 ++ l2) a = last_attester l2 (last_attester l1 a).
Proof.
  revert a. induction l1 as [|[u c b by_|p n] l1 IH]; intros a; cbn; [reflexivity| |];
    apply IH.
Qed.

Lemma last_policy_app (l1 l2 : list Event) (user commitment : Z) (b : bool) :
  last_policy (l1 ++ l2) user commitment b
  = last_policy l2 user commitment (last_policy l1 user commitment b).
Proof.
  revert b. induction l1 as [|[u c b' by_|p n] l1 IH]; intros b; cbn; [reflexivity| |];
    apply IH.
Qed.

Lemma set_by_attester_app (l1 l2 : list Event) (a : Z) :
  set_by_attester l1 a -> set_by_attester l2 (last_attester l1 a) ->
  set_by_attester (l1 ++ l2) a.
Proof.
  revert a. induction l1 as [|[u c b by_|p n] l1 IH]; intros a; cbn.
  - intros _ H2. exact H2.
  - intros [Hby H1] H2. split; [exact Hby|]. apply IH; assumption.
  - intros (Hp & Hn & H1) H2. split; [exact Hp|]. split; [exact Hn|]. apply IH; assumption.
Qed.

Section Run.
Context {O : Type} `{Cairo.Ownable O}.

Lemma transact_kept (attester0 : Z) (st : Storage O * list Event) (call : Call) :
  kept attester0 st -> kept attester0 (transact st call).
Proof.
  intros (Hnz & Hatt & Hpol & Hby). destruct call as [env user commitment allowed|env new|after];
    unfold transact.
  - unfold set_policy, _assert_only_attester, Cairo.assert.
    destruct (Z.eqb_spec (Cairo.caller_address env) (attester st.1)) as [Hcaller|];
      cbn [Cairo.bind]; [|repeat split; assumption].
    unfold kept. cbn [fst snd attester].
    split; [exact Hnz|]. split; [|split].
    + rewrite last_attester_app. cbn. exact Hatt.
    + intros u c. rewrite last_policy_app. cbn [last_policy]. rewrite <- Hpol.
      unfold check_policy. cbn [policy].
      destruct (Z.eqb_spec user u) as [->|Hu]; cbn [andb].
      * destruct (Z.eqb_spec commitment c) as [->|Hc].
        -- rewrite lookup_insert_eq. reflexivity.
        -- rewrite lookup_insert_ne by congruence. reflexivity.
      * rewrite lookup_insert_ne by congruence. reflexivity.
    + apply set_by_attester_app; [exact Hby|]. cbn. rewrite <- Hatt. split; [exact Hcaller|exact I].
  - unfold set_attester, Cairo.assert.
    destruct (Cairo.assert_only_owner (ownable st.1) env); cbn [Cairo.bind];
      [|repeat split; assumption].
    destruct (Z.eqb_spec new 0) as [|Hnew]; cbn [negb Cairo.bind];
      [repeat split; assumption|].
    unfold kept. cbn [fst snd attester].
    split; [exact Hnew|]. split; [|split].
    + rewrite last_attester_app. reflexivity.
    + intros u c. rewrite last_policy_app. cbn [last_policy]. rewrite <- Hpol. reflexivity.
    + apply set_by_attester_app; [exact Hby|]. cbn. rewrite <- Hatt.
      split; [reflexivity|]. split; [exact Hnew|exact I].
  - unfold kept. cbn [fst snd attester]. repeat split; assumption.
Qed.

Lemma run_kept (attester0 : Z) (calls : list Call) (st : Storage O * list Event) :
  kept attester0 st -> kept attester0 (fold_left transact calls st).
Proof.
  revert st. induction calls as [|c calls IH]; intros st Hst; [exact Hst|].
  cbn [fold_left]. apply IH, transact_kept, Hst.
Qed.

Lemma constructor_inv (owner attester0 : Z) (self0 : Storage O) :
  constructor owner attester0 = Cairo.Return self0 ->
  attester0 <> 0 /\ attester self0 = attester0 /\ policy self0 = ∅.
Proof.
  unfold constructor, Cairo.assert. destruct (Cairo.initializer owner); [|discriminate].
  cbn [Cairo.bind]. destruct (Z.eqb_spec attester0 0); [discriminate|].
  cbn [negb Cairo.bind]. intros [= <-]. repeat split. assumption.
Qed.

End Run.

End GuardFacts.

(** X29. The policy store follows the attester.  After a deployment
    that succeeded and any sequence of transactions, whatever the Ownable
    component decides: the attester is not the zero address and is the one
    named by the last AttesterChanged event, or the constructor's; every
    PolicySet event was set by the attester of its time; [check_policy]
    answers with the value of the last PolicySet event for the user and
    commitment, and false when there is none; [set_policy] panics with
    'Only attester can set policy' for every other caller, the owner
    included; and [set_attester] never accepts the zero address. *)
Theorem policy_store_follows_the_attester {O : Type} `{Cairo.Ownable O}
    (owner attester0 : Z) (self0 : policy_guard.Storage O) (calls : list policy_guard.Call) :
  policy_guard.constructor owner attester0 = Cairo.Return self0 ->
  let st := policy_guard.run self0 calls in
  policy_guard.get_attester st.1 <> 0
  /\ policy_guard.get_attester st.1 = policy_guard.last_attester st.2 attester0
  /\ policy_guard.set_by_attester st.2 attester0
  /\ (forall user commitment,
        policy_guard.check_policy st.1 user commitment
        = policy_guard.last_policy st.2 user commitment false)
  /\ (forall env user commitment allowed,
        Cairo.caller_address env <> policy_guard.get_attester st.1 ->
        policy_guard.set_policy st.1 env user commitment allowed
        = Cairo.Panic policy_guard.Errors.ONLY_ATTESTER)
  /\ (forall env user commitment allowed,
        Cairo.caller_address env = policy_guard.get_attester st.1 ->
        exists after,
          policy_guard.set_policy st.1 env user commitment allowed
          = Cairo.Return
              (after,
               [policy_guard.PolicySet user commitment allowed (Cairo.caller_address env)])
          /\ policy_guard.check_policy after user commitment = allowed
          /\ policy_guard.get_attester after = policy_guard.get_attester st.1)
  /\ (forall env, exists msg, policy_guard.set_attester st.1 env 0 = Cairo.Panic msg).
Proof.
  intros Hdeploy. cbv zeta.
  apply GuardFacts.constructor_inv in Hdeploy as (Hnz & Hatt & Hpol).
  assert (policy_guard.kept attester0 (self0, [])) as Hkept.
  { unfold policy_guard.kept. cbn. rewrite Hatt. repeat split; [exact Hnz|].
    intros u c. unfold policy_guard.check_policy. rewrite Hpol. reflexivity. }
  apply (GuardFacts.run_kept attester0 calls) in Hkept.
  fold (policy_guard.run self0 calls) in Hkept.
  destruct Hkept as (Hnz' & Hatt' & Hpol' & Hby).
  unfold policy_guard.get_attester.
  split; [exact Hnz'|]. split; [exact Hatt'|]. split; [exact Hby|]. split; [exact Hpol'|].
  split; [|split].
  - intros env user commitment allowed Hcaller.
    unfold policy_guard.set_policy, policy_guard._assert_only_attester, Cairo.assert.
    destruct (Z.eqb_spec (Cairo.caller_address env)
                (policy_guard.attester (policy_guard.run self0 calls).1));
      [contradiction|reflexivity].
  - intros env user commitment allowed Hcaller.
    unfold policy_guard.set_policy, policy_guard._assert_only_attester, Cairo.assert.
    rewrite Hcaller, Z.eqb_refl. cbn [Cairo.bind]. eexists. split; [reflexivity|].
    unfold policy_guard.check_policy. cbn [policy_guard.policy policy_guard.attester].
    rewrite lookup_insert_eq. split; reflexivity.
  - intros env. unfold policy_guard.set_attester, Cairo.assert.
    destruct (Cairo.assert_only_owner _ env) as [[]|msg]; cbn [Cairo.bind Z.eqb negb].
    + eexists. reflexivity.
    + exists msg. reflexivity.
Qed.

Lemma policy_store_follows_the_attester_witness :
  policy_guard.check_policy
    (@policy_guard.run Z StarknetScenario.ownable
       {| policy_guard.ownable := 1; policy_guard.attester := 2; policy_guard.policy := ∅ |}
       [policy_guard.call_set_policy (StarknetScenario.by_caller 2) 10 77 true;
        policy_guard.call_set_policy (StarknetScenario.by_caller 1) 10 77 false;
        policy_guard.call_set_attester (StarknetScenario.by_caller 1) 3;
        policy_guard.call_set_policy (StarknetScenario.by_caller 2) 10 77 false]).1 10 77
  = true.
Proof.
  pose proof (@policy_store_follows_the_attester Z StarknetScenario.ownable 1 2
                {| policy_guard.ownable := 1; policy_guard.attester := 2;
                   policy_guard.policy := ∅ |}
                [policy_guard.call_set_policy (StarknetScenario.by_caller 2) 10 77 true;
                 policy_guard.call_set_policy (StarknetScenario.by_caller 1) 10 77 false;
                 policy_guard.call_set_attester (StarknetScenario.by_caller 1) 3;
                 policy_guard.call_set_policy (StarknetScenario.by_caller 2) 10 77 false]
                ltac:(reflexivity)) as Hguard.
  cbv zeta in Hguard. destruct Hguard as (_ & _ & _ & Hcheck & _).
  rewrite Hcheck. vm_compute. reflexivity.
Defined.

(** * More of the code: the receipt ledger on Starknet *)

Module ReceiptFacts.
Import merchant_receipts.

Lemma at_index_app_l (log more : list StoredReceipt) (id : Z) (r : StoredReceipt) :
  at_index log id = Some r -> at_index (log ++ more) id = Some r.
Proof.
  unfold at_index. destruct (0 <=? id); [|discriminate].
  intros Hl. apply lookup_app_l_Some. exact Hl.
Qed.

Lemma at_index_length (log : list StoredReceipt) (r : StoredReceipt) :
  at_index (log ++ [r]) (Z.of_nat (length log)) = Some r.
Proof.
  unfold at_index. destruct (Z.leb_spec 0 (Z.of_nat (length log))); [|lia].
  rewrite Nat2Z.id. apply list_lookup_middle. reflexivity.
Qed.

Lemma at_index_app_other (log : list StoredReceipt) (r : StoredReceipt) (id : Z) :
  id <> Z.of_nat (length log) -> at_index (log ++ [r]) id = at_index log id.
Proof.
  intros Hne. unfold at_index. destruct (Z.leb_spec 0 id); [|reflexivity].
  destruct (decide (Z.to_nat id < length log)%nat) as [Hlt|Hge].
  - apply lookup_app_l. exact Hlt.
  - rewrite (lookup_ge_None_2 log) by lia. apply lookup_ge_None_2.
    rewrite length_app. cbn [length]. lia.
Qed.

Lemma at_index_Some_range (log : list StoredReceipt) (id : Z) (r : StoredReceipt) :
  at_index log id = Some r -> 0 <= id < Z.of_nat (length log).
Proof.
  unfold at_index. destruct (Z.leb_spec 0 id); [|discriminate].
  intros Hl. apply lookup_lt_Some in Hl. lia.
Qed.

Lemma of_key_snoc (key : StoredReceipt -> Z) (who : Z) (log : list StoredReceipt)
    (r : StoredReceipt) :
  of_key key who (log ++ [r])
  = of_key key who log ++ (if key r =? who then [r] else []).
Proof. unfold of_key. rewrite List.filter_app. reflexivity. Qed.

Lemma volume_snoc (log : list StoredReceipt) (r : StoredReceipt) :
  volume (log ++ [r]) = volume log + amount_in r.
Proof.
  unfold volume. induction log as [|x log IH]; cbn [app fold_right]; [lia|].
  rewrite IH. lia.
Qed.

Lemma indexed_step (key : StoredReceipt -> Z) (counts : gmap Z Z) (index : gmap (Z * Z) Z)
    (log : list StoredReceipt) (r : StoredReceipt) :
  indexed key counts index log ->
  indexed key (<[key r := read_count counts (key r) + 1]> counts)
    (<[(key r, read_count counts (key r)) := Z.of_nat (length log)]> index) (log ++ [r]).
Proof.
  intros [Hcount Hindex]. split.
  - intros who. rewrite of_key_snoc, length_app. unfold read_count at 1.
    destruct (Z.eqb_spec (key r) who) as [<-|Hne].
    + rewrite lookup_insert_eq. cbn [default from_option id length]. rewrite Hcount. lia.
    + rewrite lookup_insert_ne by exact Hne. cbn [length].
      fold (read_count counts who). rewrite Hcount. lia.
  - intros who n. rewrite of_key_snoc, length_app.
    destruct (Z.eqb_spec (key r) who) as [<-|Hne]; cbn [length]; intros Hn.
    + destruct (decide (n = length (of_key key (key r) log))) as [->|Hlt].
      * exists (Z.of_nat (length log)). rewrite Hcount, lookup_insert_eq.
        split; [reflexivity|]. rewrite at_index_length. symmetry.
        apply list_lookup_middle. reflexivity.
      * assert (n < length (of_key key (key r) log))%nat as Hn' by lia.
        destruct (Hindex (key r) n Hn') as (id & Hid & Hat).
        exists id. rewrite lookup_insert_ne.
        2:{ rewrite Hcount. intros [= Heq]. lia. }
        split; [exact Hid|]. rewrite lookup_app_l by exact Hn'.
        destruct (lookup_lt_is_Some_2 _ _ Hn') as [x Hx]. rewrite Hx in Hat |- *.
        apply at_index_app_l. exact Hat.
    + rewrite app_nil_r. assert (n < length (of_key key who log))%nat as Hn' by lia.
      destruct (Hindex who n Hn') as (id & Hid & Hat).
      exists id. rewrite lookup_insert_ne by (intros [= Heq _]; contradiction).
      split; [exact Hid|].
      destruct (lookup_lt_is_Some_2 _ _ Hn') as [x Hx]. rewrite Hx in Hat |- *.
      apply at_index_app_l. exact Hat.
Qed.

Lemma indexed_empty (key : StoredReceipt -> Z) : indexed key ∅ ∅ [].
Proof.
  split.
  - intros who. reflexivity.
  - intros who n Hn. cbn in Hn. lia.
Qed.

End ReceiptFacts.

Module LedgerFacts.
Import merchant_receipts.

Lemma emit_receipt_consistent (self : Storage) (env : Cairo.Env)
    (payer merchant token_in token_out amount_in amount_out nullifier_hash epoch
       policy_hash : Z) (log : list StoredReceipt) :
  consistent self log ->
  match emit_receipt self env payer merchant token_in token_out amount_in amount_out
          nullifier_hash epoch policy_hash with
  | Cairo.Return (after, events) =>
      let receipt :=
        {| merchant_receipts.payer := payer; merchant_receipts.merchant := merchant;
           merchant_receipts.token_in := token_in; merchant_receipts.token_out := token_out;
           merchant_receipts.amount_in := amount_in;
           merchant_receipts.amount_out := amount_out;
           merchant_receipts.nullifier_hash := nullifier_hash;
           merchant_receipts.epoch := epoch; merchant_receipts.policy_hash := policy_hash;
           timestamp := Cairo.block_timestamp env |} in
      events = [Receipt (Z.of_nat (length log)) receipt]
      /\ consistent after (log ++ [receipt])
      /\ payer <> 0 /\ merchant <> 0 /\ 0 < amount_in
  | Cairo.Panic _ => True
  end.
Proof.
  intros [Hcount Hreceipts Hmerchants Hpayers Hvolume Hvalid].
  unfold emit_receipt, Cairo.assert.
  destruct (Z.eqb_spec payer 0) as [|Hpayer]; [exact I|]. cbn [negb Cairo.bind].
  destruct (Z.eqb_spec merchant 0) as [|Hmerchant]; [exact I|]. cbn [negb Cairo.bind].
  destruct (Z.gtb_spec amount_in 0) as [Hamount|]; [|exact I]. cbn [Cairo.bind].
  unfold Cairo.u128_add, Cairo.u256_add.
  destruct (_ <? 2 ^ 128); [|exact I]. cbn [Cairo.bind].
  destruct (_ <? 2 ^ 128); [|exact I]. cbn [Cairo.bind].
  destruct (_ <? 2 ^ 256); [|exact I]. cbn [Cairo.bind].
  destruct (_ <? 2 ^ 128); [|exact I]. cbn [Cairo.bind].
  cbv zeta. rewrite Hcount. split; [reflexivity|].
  split; [|repeat split; (assumption || lia)].
  match goal with |- consistent _ (log ++ [?x]) => set (r := x) end.
  split; cbn [receipt_count receipts merchant_receipts.merchant_receipts payer_receipts
                merchant_receipt_count payer_receipt_count merchant_total_volume].
  - rewrite length_app. cbn [length]. lia.
  - intros id. destruct (decide (id = Z.of_nat (length log))) as [->|Hne].
    + rewrite lookup_insert_eq, ReceiptFacts.at_index_length. reflexivity.
    + rewrite lookup_insert_ne by congruence.
      rewrite ReceiptFacts.at_index_app_other by exact Hne. apply Hreceipts.
  - exact (ReceiptFacts.indexed_step merchant_receipts.merchant _ _ log r Hmerchants).
  - exact (ReceiptFacts.indexed_step merchant_receipts.payer _ _ log r Hpayers).
  - intros who. unfold of_merchant. rewrite ReceiptFacts.of_key_snoc.
    change (merchant_receipts.merchant r) with merchant. unfold read_count at 1.
    destruct (Z.eqb_spec merchant who) as [<-|Hne].
    + rewrite lookup_insert_eq. cbn [default from_option id].
      rewrite ReceiptFacts.volume_snoc. fold (of_merchant merchant log).
      rewrite <- Hvolume. reflexivity.
    + rewrite lookup_insert_ne by exact Hne. rewrite app_nil_r. apply Hvolume.
  - apply Forall_app. split; [exact Hvalid|].
    apply List.Forall_cons; [|apply List.Forall_nil].
    cbn. repeat split; (assumption || lia).
Qed.

Lemma deployed_consistent : consistent deployed [].
Proof.
  split; cbn.
  - reflexivity.
  - intros id. unfold at_index. destruct (0 <=? id); reflexivity.
  - apply ReceiptFacts.indexed_empty.
  - apply ReceiptFacts.indexed_empty.
  - intros who. reflexivity.
  - apply List.Forall_nil.
Qed.

Lemma run_consistent (calls : list Call) (st : Storage * list Event) :
  consistent st.1 (logged st.2) -> numbered st.2 ->
  consistent (fold_left transact calls st).1 (logged (fold_left transact calls st).2)
  /\ numbered (fold_left transact calls st).2.
Proof.
  revert st. induction calls as [|c calls IH]; intros st Hc Hn; [split; assumption|].
  cbn [fold_left]. apply IH; unfold transact;
    pose proof (emit_receipt_consistent st.1 (call_env c) (call_payer c) (call_merchant c)
                  (call_token_in c) (call_token_out c) (call_amount_in c)
                  (call_amount_out c) (call_nullifier_hash c) (call_epoch c)
                  (call_policy_hash c) (logged st.2) Hc) as Hstep;
    destruct (emit_receipt _ _ _ _ _ _ _ _ _ _ _) as [[after events]|]; try assumption;
    cbv zeta in Hstep; destruct Hstep as (-> & Hafter & _); cbn [fst snd].
  - unfold logged. rewrite map_app. exact Hafter.
  - unfold numbered, logged. rewrite map_app. cbn [map]. fold (logged st.2).
    rewrite imap_app. cbn [imap]. rewrite Nat.add_0_r. rewrite <- Hn. reflexivity.
Qed.

End LedgerFacts.

(** X30. The receipt ledger agrees with its event log.  After any
    sequence of [emit_receipt] transactions from a fresh deployment, the
    Receipt events emitted are numbered 0, 1, 2, ... and the views answer
    from them: the receipt count is their number; [get_receipt] returns the
    receipt of that number and panics with 'Receipt not found' for any
    other identifier; for every merchant and payer the count is the number
    of their receipts, the receipt at an index is their receipt of that
    rank, in order of emission, with 'Index out of bounds' past the last,
    and a merchant's total volume is the sum of the amounts paid in.  Every
    recorded receipt has a payer and a merchant that are not zero and a
    positive amount.  Any caller may record a receipt with such fields,
    whatever its nullifier, while the counters and the volume have room. *)
Theorem receipt_ledger_agrees_with_its_events (calls : list merchant_receipts.Call) :
  let st := merchant_receipts.run calls in
  let log := merchant_receipts.logged st.2 in
  merchant_receipts.numbered st.2
  /\ merchant_receipts.get_receipt_count st.1 = Z.of_nat (length log)
  /\ (forall receipt_id,
        merchant_receipts.get_receipt st.1 receipt_id
        = match merchant_receipts.at_index log receipt_id with
          | Some receipt => Cairo.Return receipt
          | None => Cairo.Panic merchant_receipts.Errors.RECEIPT_NOT_FOUND
          end)
  /\ (forall who,
        merchant_receipts.get_merchant_receipt_count st.1 who
        = Z.of_nat (length (merchant_receipts.of_merchant who log))
        /\ merchant_receipts.get_payer_receipt_count st.1 who
           = Z.of_nat (length (merchant_receipts.of_payer who log))
        /\ merchant_receipts.get_merchant_total_volume st.1 who
           = merchant_receipts.volume (merchant_receipts.of_merchant who log))
  /\ (forall who index,
        0 <= index ->
        merchant_receipts.get_merchant_receipt_at_index st.1 who index
        = match merchant_receipts.of_merchant who log !! Z.to_nat index with
          | Some receipt => Cairo.Return receipt
          | None => Cairo.Panic merchant_receipts.Errors.INDEX_OUT_OF_BOUNDS
          end
        /\ merchant_receipts.get_payer_receipt_at_index st.1 who index
           = match merchant_receipts.of_payer who log !! Z.to_nat index with
             | Some receipt => Cairo.Return receipt
             | None => Cairo.Panic merchant_receipts.Errors.INDEX_OUT_OF_BOUNDS
             end)
  /\ Forall (fun receipt =>
               merchant_receipts.payer receipt <> 0
               /\ merchant_receipts.merchant receipt <> 0
               /\ 0 < merchant_receipts.amount_in receipt) log
  /\ (forall env payer merchant token_in token_out amount_in amount_out nullifier_hash
        epoch policy_hash,
        payer <> 0 -> merchant <> 0 -> 0 < amount_in ->
        Z.of_nat (length log) + 1 < 2 ^ 128 ->
        merchant_receipts.volume (merchant_receipts.of_merchant merchant log) + amount_in
          < 2 ^ 256 ->
        exists after,
          merchant_receipts.emit_receipt st.1 env payer merchant token_in token_out
            amount_in amount_out nullifier_hash epoch policy_hash
          = Cairo.Return
              (after,
               [merchant_receipts.Receipt (Z.of_nat (length log))
                  {| merchant_receipts.payer := payer;
                     merchant_receipts.merchant := merchant;
                     merchant_receipts.token_in := token_in;
                     merchant_receipts.token_out := token_out;
                     merchant_receipts.amount_in := amount_in;
                     merchant_receipts.amount_out := amount_out;
                     merchant_receipts.nullifier_hash := nullifier_hash;
                     merchant_receipts.epoch := epoch;
                     merchant_receipts.policy_hash := policy_hash;
                     merchant_receipts.timestamp := Cairo.block_timestamp env |}])).
Proof.
  cbv zeta. unfold merchant_receipts.run.
  destruct (LedgerFacts.run_consistent calls (merchant_receipts.deployed, []))
    as [Hc Hn]; [exact LedgerFacts.deployed_consistent|reflexivity|].
  set (st := fold_left merchant_receipts.transact calls (merchant_receipts.deployed, []))
    in *.
  set (log := merchant_receipts.logged st.2) in *.
  destruct Hc as [Hcount Hreceipts [Hmc Hmi] [Hpc Hpi] Hvolume Hvalid].
  split; [exact Hn|]. split; [exact Hcount|]. split; [|split; [|split; [|split]]].
  - intros rid. unfold merchant_receipts.get_receipt, merchant_receipts.read_receipt.
    rewrite Hreceipts. destruct (merchant_receipts.at_index log rid) as [r|] eqn:Hat;
      [|reflexivity].
    cbn [default from_option id]. unfold merchant_receipts.at_index in Hat.
    destruct (0 <=? rid); [|discriminate].
    rewrite Forall_lookup in Hvalid. destruct (Hvalid _ _ Hat) as [Hp _].
    unfold Cairo.assert. destruct (Z.eqb_spec (merchant_receipts.payer r) 0);
      [contradiction|reflexivity].
  - intros who. split; [apply Hmc|]. split; [apply Hpc|apply Hvolume].
  - intros who index Hindex.
    unfold merchant_receipts.get_merchant_receipt_at_index,
      merchant_receipts.get_payer_receipt_at_index, merchant_receipts.read_index,
      merchant_receipts.read_receipt, Cairo.assert.
    rewrite Hmc, Hpc. fold (merchant_receipts.of_merchant who log).
    fold (merchant_receipts.of_payer who log). split.
    + destruct (Z.ltb_spec index (Z.of_nat (length (merchant_receipts.of_merchant who log))))
        as [Hlt|Hge]; cbn [Cairo.bind].
      * destruct (Hmi who (Z.to_nat index)) as (rid & Hid & Hat);
          [unfold merchant_receipts.of_merchant in Hlt; lia|].
        rewrite Z2Nat.id in Hid by exact Hindex. rewrite Hid. cbn [default from_option id].
        rewrite Hreceipts, Hat. unfold merchant_receipts.of_merchant.
        destruct (lookup_lt_is_Some_2 (merchant_receipts.of_key merchant_receipts.merchant
                                         who log) (Z.to_nat index)) as [x ->];
          [unfold merchant_receipts.of_merchant in Hlt; lia|reflexivity].
      * rewrite lookup_ge_None_2 by lia. reflexivity.
    + destruct (Z.ltb_spec index (Z.of_nat (length (merchant_receipts.of_payer who log))))
        as [Hlt|Hge]; cbn [Cairo.bind].
      * destruct (Hpi who (Z.to_nat index)) as (rid & Hid & Hat);
          [unfold merchant_receipts.of_payer in Hlt; lia|].
        rewrite Z2Nat.id in Hid by exact Hindex. rewrite Hid. cbn [default from_option id].
        rewrite Hreceipts, Hat. unfold merchant_receipts.of_payer.
        destruct (lookup_lt_is_Some_2 (merchant_receipts.of_key merchant_receipts.payer
                                         who log) (Z.to_nat index)) as [x ->];
          [unfold merchant_receipts.of_payer in Hlt; lia|reflexivity].
      * rewrite lookup_ge_None_2 by lia. reflexivity.
  - exact Hvalid.
  - intros env payer merchant token_in token_out amount_in amount_out nullifier_hash epoch
      policy_hash Hpayer Hmerchant Hamount Hroom Hvol.
    unfold merchant_receipts.emit_receipt, Cairo.assert.
    destruct (Z.eqb_spec payer 0); [contradiction|]. cbn [negb Cairo.bind].
    destruct (Z.eqb_spec merchant 0); [contradiction|]. cbn [negb Cairo.bind].
    destruct (Z.gtb_spec amount_in 0); [|lia]. cbn [Cairo.bind].
    unfold Cairo.u128_add, Cairo.u256_add. rewrite Hmc, Hpc, Hvolume, Hcount.
    pose proof (List.filter_length_le
                  (fun r => merchant_receipts.merchant r =? merchant) log) as Hml.
    pose proof (List.filter_length_le
                  (fun r => merchant_receipts.payer r =? payer) log) as Hpl.
    fold (merchant_receipts.of_key merchant_receipts.merchant merchant log) in Hml.
    fold (merchant_receipts.of_key merchant_receipts.payer payer log) in Hpl.
    destruct (Z.ltb_spec (Z.of_nat (length (merchant_receipts.of_key
                                              merchant_receipts.merchant merchant log)) + 1)
                (2 ^ 128)); [|lia]. cbn [Cairo.bind].
    destruct (Z.ltb_spec (Z.of_nat (length (merchant_receipts.of_key
                                              merchant_receipts.payer payer log)) + 1)
                (2 ^ 128)); [|lia]. cbn [Cairo.bind].
    destruct (Z.ltb_spec (merchant_receipts.volume
                            (merchant_receipts.of_merchant merchant log) + amount_in)
                (2 ^ 256)); [|lia]. cbn [Cairo.bind].
    destruct (Z.ltb_spec (Z.of_nat (length log) + 1) (2 ^ 128)); [|lia]. cbn [Cairo.bind].
    eexists. reflexivity.
Qed.

Lemma receipt_ledger_agrees_with_its_events_witness :
  merchant_receipts.get_merchant_receipt_at_index
    (merchant_receipts.run StarknetScenario.receipts).1 20 1
  = Cairo.Return
      {| merchant_receipts.payer := 11; merchant_receipts.merchant := 20;
         merchant_receipts.token_in := 7; merchant_receipts.token_out := 7;
         merchant_receipts.amount_in := 6; merchant_receipts.amount_out := 6;
         merchant_receipts.nullifier_hash := 99; merchant_receipts.epoch := 176200;
         merchant_receipts.policy_hash := 0; merchant_receipts.timestamp := 1762000000 |}
  /\ merchant_receipts.get_merchant_receipt_at_index
       (merchant_receipts.run StarknetScenario.receipts).1 20 2
     = Cairo.Panic merchant_receipts.Errors.INDEX_OUT_OF_BOUNDS.
Proof.
  pose proof (receipt_ledger_agrees_with_its_events StarknetScenario.receipts) as Hledger.
  cbv zeta in Hledger. destruct Hledger as (_ & _ & _ & _ & Hindex & _).
  split.
  - rewrite (proj1 (Hindex 20 1 ltac:(lia))). vm_compute. reflexivity.
  - rewrite (proj1 (Hindex 20 2 ltac:(lia))). vm_compute. reflexivity.
Defined.
